(** * CloudCourse registration rule engine

    A shallow embedding of the registration state machine ([core/utils.py]),
    the resource counters ([core/rules.py]), the capacity rule
    ([core/rules_impl.py]) and the online / offline registration paths
    ([core/rule_engine.py]), with the properties of the engine proved over
    it. *)

From stdpp Require Import gmap strings list fin_maps.
From Stdlib Require Import ZArith.

Open Scope Z_scope.

(* ===================================================================== *)
(** * core/errors.py *)
(* ===================================================================== *)

Module errors.

(** The exceptions that can cross the functions modelled here. The last
    four are Python's own. *)
Inductive Error : Type :=
| BadStateTransition
| AppengineError
| ServiceCriticalError
| AssertionError
| KeyError
| TypeError
| AttributeError.

#[global] Instance Error_eq_dec : EqDecision Error.
Proof. solve_decision. Defined.

(** A call either returns a value or raises. *)
Inductive result (A : Type) : Type :=
| Ok (a : A)
| Raise (e : Error).
Arguments Ok {A} a.
Arguments Raise {A} e.

Definition is_ok {A} (r : result A) : bool :=
  match r with Ok _ => true | Raise _ => false end.

(** The value a call returned, or a default when it raised. *)
Definition value_or {A} (default : A) (r : result A) : A :=
  match r with Ok a => a | Raise _ => default end.

End errors.
Import errors.

(* ===================================================================== *)
(** * core/utils.py: the registration enumerations *)
(* ===================================================================== *)

Module utils.

(** [RegistrationStatus]. Python's [None] ("no registration" as an initial
    state, "deny" as a verdict) is the [None] of [option Status]. *)
Inductive Status : Type := ENROLLED | UNREGISTERED | WAITLISTED.

(** [RegistrationConfirm]. *)
Inductive Confirm : Type := NOT_READY | READY | PROCESSED.

(** [RegistrationActive]. *)
Inductive Active : Type := ACTIVE | INACTIVE.

#[global] Instance Status_eq_dec : EqDecision Status.
Proof. solve_decision. Defined.
#[global] Instance Confirm_eq_dec : EqDecision Confirm.
Proof. solve_decision. Defined.
#[global] Instance Active_eq_dec : EqDecision Active.
Proof. solve_decision. Defined.

(** [VALID_TRANSITIONS]: for each begin state the states it may move to,
    from lower to higher precedence. The dictionary has a key for each of
    the four begin states, so it is a total function here. *)
Definition VALID_TRANSITIONS (begin_state : option Status)
  : list (option Status) :=
  match begin_state with
  | None => [Some ENROLLED; Some WAITLISTED; None]
  | Some ENROLLED => [Some UNREGISTERED; Some ENROLLED]
  | Some UNREGISTERED => [Some ENROLLED; Some WAITLISTED; Some UNREGISTERED]
  | Some WAITLISTED => [Some ENROLLED; Some UNREGISTERED; Some WAITLISTED]
  end.

(** [BeginStates]. *)
Definition BeginStates : list (option Status) := [Some UNREGISTERED; None].

(** [IsValidTransition]. *)
Definition IsValidTransition (begin_state end_state : option Status) : bool :=
  if decide (begin_state = end_state) then true
  else bool_decide (end_state ∈ VALID_TRANSITIONS begin_state).

(** Python 2 orders [None] below every string and strings
    lexicographically: None < 'enrolled' < 'unregistered' < 'waitlisted'.
    [max] over [(priority, status)] tuples falls back on this order. *)
Definition status_rank (s : option Status) : nat :=
  match s with
  | None => 0%nat
  | Some ENROLLED => 1%nat
  | Some UNREGISTERED => 2%nat
  | Some WAITLISTED => 3%nat
  end.

End utils.
Import utils.

(* ===================================================================== *)
(** * google.appengine.api.memcache, as the rules use it *)
(* ===================================================================== *)

Module memcache.

(** The cache tier is an outside service. Counters are integers stored
    under (namespace, key); the reserved ['__init__'] entry of a namespace,
    which lists the counter keys built for it, is kept in a map of its own
    (no counter is ever keyed ['__init__']). [available = false] is the
    cache tier being unusable: every call then fails the way the API
    reports failure ([None] from [get] and [incr], [False] from [add]) and
    stores nothing. Keys may be missing at any time, which is any state of
    [cells] and [inits]. *)
Record Memcache : Type := {
  cells : gmap (string * string) Z;
  inits : gmap string (list string);
  available : bool
}.

Definition with_cells (m : Memcache) (c : gmap (string * string) Z) :=
  {| cells := c; inits := inits m; available := available m |}.
Definition with_inits (m : Memcache) (i : gmap string (list string)) :=
  {| cells := cells m; inits := i; available := available m |}.

Definition get (key namespace : string) (m : Memcache) : option Z :=
  if available m then cells m !! (namespace, key) else None.

(** [memcache.get('__init__', namespace=...)]. *)
Definition get_init (namespace : string) (m : Memcache)
  : option (list string) :=
  if available m then inits m !! namespace else None.

(** [incr]: the new value, or [None] when the key is absent. *)
Definition incr (key namespace : string) (m : Memcache)
  : option Z * Memcache :=
  match get key namespace m with
  | Some v => (Some (v + 1), with_cells m (<[(namespace, key) := v + 1]> (cells m)))
  | None => (None, m)
  end.

(** [decr]: memcache never takes a counter below zero. *)
Definition decr (key namespace : string) (m : Memcache)
  : option Z * Memcache :=
  match get key namespace m with
  | Some v =>
      let v' := Z.max 0 (v - 1) in
      (Some v', with_cells m (<[(namespace, key) := v']> (cells m)))
  | None => (None, m)
  end.

(** [add]: stores only when the key is absent; tells whether it stored. *)
Definition add (key : string) (value : Z) (namespace : string) (m : Memcache)
  : bool * Memcache :=
  if available m then
    match cells m !! (namespace, key) with
    | Some _ => (false, m)
    | None => (true, with_cells m (<[(namespace, key) := value]> (cells m)))
    end
  else (false, m).

(** [add_multi]: [add] for every item of the mapping. *)
Fixpoint add_multi (mapping : list (string * Z)) (namespace : string)
    (m : Memcache) : Memcache :=
  match mapping with
  | [] => m
  | (k, v) :: rest => add_multi rest namespace (snd (add k v namespace m))
  end.

(** [memcache.add('__init__', keys, namespace=...)]. *)
Definition add_init (keys : list string) (namespace : string) (m : Memcache)
  : bool * Memcache :=
  if available m then
    match inits m !! namespace with
    | Some _ => (false, m)
    | None => (true, with_inits m (<[namespace := keys]> (inits m)))
    end
  else (false, m).

(** [memcache.set('__init__', keys, namespace=...)]. *)
Definition set_init (keys : list string) (namespace : string) (m : Memcache)
  : Memcache :=
  if available m then with_inits m (<[namespace := keys]> (inits m)) else m.

End memcache.
Import (notations) memcache.

(* ===================================================================== *)
(** * core/rules.py: RuleConfig *)
(* ===================================================================== *)

(** The values of rule parameters that the rules modelled here take: an
    integer ([max_people]) or a list of strings ([employee_types]). *)
Inductive ParamValue : Type :=
| PInt (z : Z)
| PList (l : list string).

#[global] Instance ParamValue_eq_dec : EqDecision ParamValue.
Proof. solve_decision. Defined.

#[global] Instance ParamValue_countable : Countable ParamValue :=
  inj_countable'
    (fun v => match v with PInt z => inl z | PList l => inr l end)
    (fun s => match s with inl z => PInt z | inr l => PList l end)
    (fun v => match v with PInt _ => eq_refl | PList _ => eq_refl end).

(** A rule with its parameters, as stored on a program, an activity or an
    access point. *)
Record RuleConfig : Type := {
  rule_name : string;
  parameters : list (string * ParamValue);
  description : option string;
  key : string
}.

#[global] Instance RuleConfig_eq_dec : EqDecision RuleConfig.
Proof. solve_decision. Defined.

#[global] Instance RuleConfig_countable : Countable RuleConfig :=
  inj_countable'
    (fun c => (rule_name c, parameters c, description c, key c))
    (fun t => match t with
              | (n, p, d, k) =>
                  {| rule_name := n; parameters := p; description := d; key := k |}
              end)
    (fun c => match c with Build_RuleConfig _ _ _ _ => eq_refl end).

(* ===================================================================== *)
(** * core/models.py: UserRegistration and its store *)
(* ===================================================================== *)

Module models.

(** One registration attempt. Entity keys of programs, activities,
    schedules and access points are their string form; users are their
    e-mail address. [reg_parent] is the entity-group parent (an unregister
    record is created as a child of the enroll record it cancels). *)
Record UserRegistration : Type := {
  reg_user : string;
  reg_activity : string;
  reg_program : string;
  reg_queue_time : Z;
  reg_creator : string;
  reg_schedule_list : list string;
  reg_access_point_list : list string;
  reg_status : Status;
  reg_confirmed : Confirm;
  reg_active : Active;
  reg_online_unregistered : bool;
  reg_affecting_rule_tags : list string;
  reg_rule_tags : list string;
  reg_affecting_rule_configs : list RuleConfig;
  reg_last_notified : option Status;
  reg_notify_email : bool;
  reg_post_process_tasks : list string;
  reg_force_status : bool;
  reg_parent : option nat
}.

(** The stored entities of kind UserRegistration, by key. *)
Abbreviation Datastore := (gmap nat UserRegistration).

(** The key the datastore gives a new entity on its first [put]. *)
Definition new_key (ds : Datastore) : nat := fresh (dom ds).

(** The assertion that closes [UserRegistration.__init__]. *)
Definition init_assertion (r : UserRegistration) : bool :=
  bool_decide (reg_confirmed r <> NOT_READY \/ reg_active r = INACTIVE).

(** [ActiveQuery(activity=..., user=...)]: the filters it adds. *)
Definition ActiveQuery (activity user : string) (r : UserRegistration) : bool :=
  bool_decide (reg_active r = ACTIVE) &&
  bool_decide (reg_activity r = activity) &&
  bool_decide (reg_user r = user).

(** Running a query: the stored entities that pass its filters. *)
Definition run_query (q : UserRegistration -> bool) (ds : Datastore)
  : list (nat * UserRegistration) :=
  List.filter (fun kr => q (snd kr)) (map_to_list ds).

(** Assignments to the properties of a registration object. *)
Definition set_status (v : Status) (r : UserRegistration) : UserRegistration :=
  {| reg_user := reg_user r;
     reg_activity := reg_activity r;
     reg_program := reg_program r;
     reg_queue_time := reg_queue_time r;
     reg_creator := reg_creator r;
     reg_schedule_list := reg_schedule_list r;
     reg_access_point_list := reg_access_point_list r;
     reg_status := v;
     reg_confirmed := reg_confirmed r;
     reg_active := reg_active r;
     reg_online_unregistered := reg_online_unregistered r;
     reg_affecting_rule_tags := reg_affecting_rule_tags r;
     reg_rule_tags := reg_rule_tags r;
     reg_affecting_rule_configs := reg_affecting_rule_configs r;
     reg_last_notified := reg_last_notified r;
     reg_notify_email := reg_notify_email r;
     reg_post_process_tasks := reg_post_process_tasks r;
     reg_force_status := reg_force_status r;
     reg_parent := reg_parent r |}.

Definition set_confirmed (v : Confirm) (r : UserRegistration) : UserRegistration :=
  {| reg_user := reg_user r;
     reg_activity := reg_activity r;
     reg_program := reg_program r;
     reg_queue_time := reg_queue_time r;
     reg_creator := reg_creator r;
     reg_schedule_list := reg_schedule_list r;
     reg_access_point_list := reg_access_point_list r;
     reg_status := reg_status r;
     reg_confirmed := v;
     reg_active := reg_active r;
     reg_online_unregistered := reg_online_unregistered r;
     reg_affecting_rule_tags := reg_affecting_rule_tags r;
     reg_rule_tags := reg_rule_tags r;
     reg_affecting_rule_configs := reg_affecting_rule_configs r;
     reg_last_notified := reg_last_notified r;
     reg_notify_email := reg_notify_email r;
     reg_post_process_tasks := reg_post_process_tasks r;
     reg_force_status := reg_force_status r;
     reg_parent := reg_parent r |}.

Definition set_active (v : Active) (r : UserRegistration) : UserRegistration :=
  {| reg_user := reg_user r;
     reg_activity := reg_activity r;
     reg_program := reg_program r;
     reg_queue_time := reg_queue_time r;
     reg_creator := reg_creator r;
     reg_schedule_list := reg_schedule_list r;
     reg_access_point_list := reg_access_point_list r;
     reg_status := reg_status r;
     reg_confirmed := reg_confirmed r;
     reg_active := v;
     reg_online_unregistered := reg_online_unregistered r;
     reg_affecting_rule_tags := reg_affecting_rule_tags r;
     reg_rule_tags := reg_rule_tags r;
     reg_affecting_rule_configs := reg_affecting_rule_configs r;
     reg_last_notified := reg_last_notified r;
     reg_notify_email := reg_notify_email r;
     reg_post_process_tasks := reg_post_process_tasks r;
     reg_force_status := reg_force_status r;
     reg_parent := reg_parent r |}.

Definition set_online_unregistered (v : bool) (r : UserRegistration) : UserRegistration :=
  {| reg_user := reg_user r;
     reg_activity := reg_activity r;
     reg_program := reg_program r;
     reg_queue_time := reg_queue_time r;
     reg_creator := reg_creator r;
     reg_schedule_list := reg_schedule_list r;
     reg_access_point_list := reg_access_point_list r;
     reg_status := reg_status r;
     reg_confirmed := reg_confirmed r;
     reg_active := reg_active r;
     reg_online_unregistered := v;
     reg_affecting_rule_tags := reg_affecting_rule_tags r;
     reg_rule_tags := reg_rule_tags r;
     reg_affecting_rule_configs := reg_affecting_rule_configs r;
     reg_last_notified := reg_last_notified r;
     reg_notify_email := reg_notify_email r;
     reg_post_process_tasks := reg_post_process_tasks r;
     reg_force_status := reg_force_status r;
     reg_parent := reg_parent r |}.

Definition set_affecting_rule_tags (v : list string) (r : UserRegistration) : UserRegistration :=
  {| reg_user := reg_user r;
     reg_activity := reg_activity r;
     reg_program := reg_program r;
     reg_queue_time := reg_queue_time r;
     reg_creator := reg_creator r;
     reg_schedule_list := reg_schedule_list r;
     reg_access_point_list := reg_access_point_list r;
     reg_status := reg_status r;
     reg_confirmed := reg_confirmed r;
     reg_active := reg_active r;
     reg_online_unregistered := reg_online_unregistered r;
     reg_affecting_rule_tags := v;
     reg_rule_tags := reg_rule_tags r;
     reg_affecting_rule_configs := reg_affecting_rule_configs r;
     reg_last_notified := reg_last_notified r;
     reg_notify_email := reg_notify_email r;
     reg_post_process_tasks := reg_post_process_tasks r;
     reg_force_status := reg_force_status r;
     reg_parent := reg_parent r |}.

Definition set_rule_tags (v : list string) (r : UserRegistration) : UserRegistration :=
  {| reg_user := reg_user r;
     reg_activity := reg_activity r;
     reg_program := reg_program r;
     reg_queue_time := reg_queue_time r;
     reg_creator := reg_creator r;
     reg_schedule_list := reg_schedule_list r;
     reg_access_point_list := reg_access_point_list r;
     reg_status := reg_status r;
     reg_confirmed := reg_confirmed r;
     reg_active := reg_active r;
     reg_online_unregistered := reg_online_unregistered r;
     reg_affecting_rule_tags := reg_affecting_rule_tags r;
     reg_rule_tags := v;
     reg_affecting_rule_configs := reg_affecting_rule_configs r;
     reg_last_notified := reg_last_notified r;
     reg_notify_email := reg_notify_email r;
     reg_post_process_tasks := reg_post_process_tasks r;
     reg_force_status := reg_force_status r;
     reg_parent := reg_parent r |}.

Definition set_affecting_rule_configs (v : list RuleConfig) (r : UserRegistration) : UserRegistration :=
  {| reg_user := reg_user r;
     reg_activity := reg_activity r;
     reg_program := reg_program r;
     reg_queue_time := reg_queue_time r;
     reg_creator := reg_creator r;
     reg_schedule_list := reg_schedule_list r;
     reg_access_point_list := reg_access_point_list r;
     reg_status := reg_status r;
     reg_confirmed := reg_confirmed r;
     reg_active := reg_active r;
     reg_online_unregistered := reg_online_unregistered r;
     reg_affecting_rule_tags := reg_affecting_rule_tags r;
     reg_rule_tags := reg_rule_tags r;
     reg_affecting_rule_configs := v;
     reg_last_notified := reg_last_notified r;
     reg_notify_email := reg_notify_email r;
     reg_post_process_tasks := reg_post_process_tasks r;
     reg_force_status := reg_force_status r;
     reg_parent := reg_parent r |}.

Definition set_last_notified (v : option Status) (r : UserRegistration) : UserRegistration :=
  {| reg_user := reg_user r;
     reg_activity := reg_activity r;
     reg_program := reg_program r;
     reg_queue_time := reg_queue_time r;
     reg_creator := reg_creator r;
     reg_schedule_list := reg_schedule_list r;
     reg_access_point_list := reg_access_point_list r;
     reg_status := reg_status r;
     reg_confirmed := reg_confirmed r;
     reg_active := reg_active r;
     reg_online_unregistered := reg_online_unregistered r;
     reg_affecting_rule_tags := reg_affecting_rule_tags r;
     reg_rule_tags := reg_rule_tags r;
     reg_affecting_rule_configs := reg_affecting_rule_configs r;
     reg_last_notified := v;
     reg_notify_email := reg_notify_email r;
     reg_post_process_tasks := reg_post_process_tasks r;
     reg_force_status := reg_force_status r;
     reg_parent := reg_parent r |}.

Definition set_notify_email (v : bool) (r : UserRegistration) : UserRegistration :=
  {| reg_user := reg_user r;
     reg_activity := reg_activity r;
     reg_program := reg_program r;
     reg_queue_time := reg_queue_time r;
     reg_creator := reg_creator r;
     reg_schedule_list := reg_schedule_list r;
     reg_access_point_list := reg_access_point_list r;
     reg_status := reg_status r;
     reg_confirmed := reg_confirmed r;
     reg_active := reg_active r;
     reg_online_unregistered := reg_online_unregistered r;
     reg_affecting_rule_tags := reg_affecting_rule_tags r;
     reg_rule_tags := reg_rule_tags r;
     reg_affecting_rule_configs := reg_affecting_rule_configs r;
     reg_last_notified := reg_last_notified r;
     reg_notify_email := v;
     reg_post_process_tasks := reg_post_process_tasks r;
     reg_force_status := reg_force_status r;
     reg_parent := reg_parent r |}.

Definition set_force_status (v : bool) (r : UserRegistration) : UserRegistration :=
  {| reg_user := reg_user r;
     reg_activity := reg_activity r;
     reg_program := reg_program r;
     reg_queue_time := reg_queue_time r;
     reg_creator := reg_creator r;
     reg_schedule_list := reg_schedule_list r;
     reg_access_point_list := reg_access_point_list r;
     reg_status := reg_status r;
     reg_confirmed := reg_confirmed r;
     reg_active := reg_active r;
     reg_online_unregistered := reg_online_unregistered r;
     reg_affecting_rule_tags := reg_affecting_rule_tags r;
     reg_rule_tags := reg_rule_tags r;
     reg_affecting_rule_configs := reg_affecting_rule_configs r;
     reg_last_notified := reg_last_notified r;
     reg_notify_email := reg_notify_email r;
     reg_post_process_tasks := reg_post_process_tasks r;
     reg_force_status := v;
     reg_parent := reg_parent r |}.

End models.
Import models.

(* ===================================================================== *)
(** * core/rule_engine.py: EvalContext *)
(* ===================================================================== *)

Record Program : Type := {
  program_key : string;
  program_rules : list RuleConfig
}.

(** [start_time] is not a required property of an activity: it is
    [None] for an activity that has none. *)
Record Activity : Type := {
  activity_key : string;
  activity_rules : list RuleConfig;
  activity_start_time : option Z
}.

Record AccessPoint : Type := {
  access_point_key : string;
  access_point_rules : list RuleConfig
}.

(** The context of one registration request. *)
Record EvalContext : Type := {
  ctx_queue_time : Z;
  ctx_program : Program;
  ctx_activity : Activity;
  ctx_user : string;
  ctx_creator : string;
  ctx_schedule_list : list string;
  ctx_access_point_list : list AccessPoint;
  ctx_force_status : bool
}.

(* ===================================================================== *)
(** * core/rules.py: rule objects and resource counters *)
(* ===================================================================== *)

Module rules.

(** [_NUM_RETRIES]. *)
Definition _NUM_RETRIES : nat := 1.

(** A rule reads the stored registrations and the process-wide
    prediction flag, and reads and writes the cache. The cache keeps what
    was written to it when the rule raises. *)
Definition RuleM (A : Type) : Type :=
  Datastore -> bool -> memcache.Memcache -> result A * memcache.Memcache.

(** The dictionary [Evaluate] returns: ['status'] always, ['rule_tags']
    and ['resource_remaining'] when the rule sets them (a resource rule
    may set ['resource_remaining'] to [None]). *)
Record RuleResult : Type := {
  rr_status : option Status;
  rr_rule_tags : option (list string);
  rr_resource_remaining : option (option Z)
}.

(** What [RuleBase.__init__] stores on the rule object, with the keyword
    parameters of its configuration. *)
Record RuleBase : Type := {
  self_eval_context : EvalContext;
  self_key : string;
  self_offline : bool;
  self_online : bool;
  self_namespace : string;
  self_parameters : list (string * ParamValue)
}.

Definition RuleBase__init__ (key : string) (eval_context : EvalContext)
    (offline : bool) (namespace_prefix : string)
    (parameters : list (string * ParamValue)) : RuleBase :=
  {| self_eval_context := eval_context;
     self_key := key;
     self_offline := offline;
     self_online := negb offline;
     self_namespace :=
       (if offline then "offline" else "online") +:+ "_" +:+
       namespace_prefix +:+ key;
     self_parameters := parameters |}.

(** The keyword parameters of a configuration, given to a constructor
    that takes the parameters [required] and passes the others on to
    [RuleBase.__init__]: Python raises [TypeError] when a required
    parameter is missing, and when a parameter is not one of the
    constructor ([key], [eval_context], [offline] and [namespace_prefix]
    are then given twice, and [RuleBase.__init__] takes no other). *)
Definition keyword_parameters (required : list string)
    (parameters : list (string * ParamValue)) : result unit :=
  if bool_decide (Forall (fun name => name ∈ parameters.*1) required) &&
     bool_decide (Forall (fun name => name ∈ required) parameters.*1)
  then Ok ()
  else Raise TypeError.

(** A rule class of [rules_impl]: its constructor on the keyword
    parameters of a configuration (what it stores is in
    [RuleBase__init__]), its class methods and its overridable instance
    methods. *)
Record RuleClass : Type := {
  __init__ : list (string * ParamValue) -> result unit;
  IsRegister : bool;
  CanProcessMultipleSchedules : bool;
  GetDescription : string;
  Evaluate : RuleBase -> option Status -> option Status -> RuleM RuleResult;
  ProcessOutcome : RuleBase -> option Status -> option Status -> RuleM unit
}.

(** A rule object: its class and its attributes. *)
Record Rule : Type := {
  rule_class : RuleClass;
  rule_self : RuleBase
}.

(** ** RuleRegisterResource *)

Module RuleRegisterResource.
Section Counter.

(** The attributes of the rule object the counter methods read,
    [IsPredictionMode()], and the dictionary [self._BuildContext()]
    returns (the stored registrations do not change while a rule is
    evaluated). *)
Variable namespace : string.
Variable online : bool.
Variable prediction : bool.
Variable BuildContext : list (string * Z).

(** The loop of [_Regenerate] that takes the caller's own registration
    out of every count; its assertion fails on a count that is not
    positive. *)
Fixpoint discount_self (context : list (string * Z))
  : result (list (string * Z)) :=
  match context with
  | [] => Ok []
  | (k, value) :: rest =>
      if bool_decide (value > 0) then
        match discount_self rest with
        | Ok rest' => Ok ((k, value - 1) :: rest')
        | Raise e => Raise e
        end
      else Raise AssertionError
  end.

Definition _Regenerate (m : memcache.Memcache)
  : result unit * memcache.Memcache :=
  let context :=
    if online && negb prediction then discount_self BuildContext
    else Ok BuildContext in
  match context with
  | Raise e => (Raise e, m)
  | Ok context =>
      let m1 := memcache.add_multi context namespace m in
      let m2 := snd (memcache.add_init (map fst context) namespace m1) in
      (Ok (), m2)
  end.

Fixpoint _Get (key : string) (retries : nat) (m : memcache.Memcache)
  : result (option Z) * memcache.Memcache :=
  let value := memcache.get key namespace m in
  match value, retries with
  | None, S retries' =>
      match _Regenerate m with
      | (Raise e, m') => (Raise e, m')
      | (Ok _, m') => _Get key retries' m'
      end
  | _, _ => (Ok value, m)
  end.

(** The last lines of [_Incr]: a value that could not be obtained is
    turned into [AppengineError]. *)
Definition raise_if_None (value : option Z) (m : memcache.Memcache)
  : result (option Z) * memcache.Memcache :=
  match value with
  | None => (Raise AppengineError, m)
  | Some v => (Ok (Some v), m)
  end.

(** [_Incr]. The recursive call is inside the [try]; what it raises is
    neither [TypeError] nor [ValueError] and passes through. *)
Fixpoint _Incr (key : string) (retries : nat) (m : memcache.Memcache)
  : result (option Z) * memcache.Memcache :=
  if prediction then
    match _Get key _NUM_RETRIES m with
    | (Raise e, m') => (Raise e, m')
    | (Ok value, m') =>
        match value with
        | None => (Ok (Some 1), m')
        | Some v => (Ok (Some (if bool_decide (v = 0) then 1 else v + 1)), m')
        end
    end
  else
  let retry m' :=
    match retries with
    | O => raise_if_None None m'
    | S retries' =>
        match _Incr key retries' m' with
        | (Ok value, m'') => raise_if_None value m''
        | (Raise e, m'') => (Raise e, m'')
        end
    end in
  match memcache.incr key namespace m with
  | (Some value, m1) => raise_if_None (Some value) m1
  | (None, m1) =>
      let existing_keys := memcache.get_init namespace m1 in
      let stale (ks : option (list string)) :=
        match ks with
        | None => true
        | Some ks => bool_decide (key ∈ ks)
        end in
      let regenerated :=
        if stale existing_keys then
          match _Regenerate m1 with
          | (Raise e, m2) => (Raise e, m2)
          | (Ok _, m2) => (Ok (memcache.get_init namespace m2), m2)
          end
        else (Ok existing_keys, m1) in
      match regenerated with
      | (Raise e, m2) => (Raise e, m2)
      | (Ok existing_keys, m2) =>
          if stale existing_keys then retry m2
          else
            match memcache.add key 1 namespace m2 with
            | (false, m3) => retry m3
            | (true, m3) =>
                let existing_keys := default [] existing_keys ++ [key] in
                let m4 := memcache.set_init existing_keys namespace m3 in
                raise_if_None (Some 1) m4
            end
      end
  end.

Definition _Decr (key : string) (m : memcache.Memcache)
  : memcache.Memcache :=
  if negb prediction then snd (memcache.decr key namespace m) else m.

End Counter.
End RuleRegisterResource.

End rules.
Import rules.

(* ===================================================================== *)
(** * core/rules_impl.py *)
(* ===================================================================== *)

Module rules_impl.

(** [_UpdateQueryMode]: the filters added to the registration query. *)
Definition _UpdateQueryMode (offline : bool) (reg : UserRegistration) : bool :=
  if offline then
    bool_decide (reg_status reg = ENROLLED) &&
    bool_decide (reg_confirmed reg = PROCESSED)
  else true.

(** [_RegistrationNeedsAccounting]. *)
Definition _RegistrationNeedsAccounting (reg : UserRegistration)
    (offline : bool) : bool :=
  if offline then
    bool_decide (reg_status reg = ENROLLED) &&
    bool_decide (reg_confirmed reg = PROCESSED)
  else
    let res1 := bool_decide (reg_active reg = ACTIVE) in
    let res2 := bool_decide (reg_status reg = ENROLLED) &&
                bool_decide (reg_confirmed reg = NOT_READY) in
    let res3 := bool_decide (reg_status reg = UNREGISTERED) &&
                bool_decide (reg_confirmed reg = READY) in
    res1 || res2 || res3.

(** ** MaxNumberRegisteredBy *)

Module MaxNumberRegisteredBy.

Definition _KEY_PREFIX : string := "_".

(** [_NormalizeKey]: [None] and the empty string become the prefix. *)
Definition _NormalizeKey (key : option string) : string :=
  match key with
  | None => _KEY_PREFIX
  | Some k => if bool_decide (k = "") then _KEY_PREFIX else k
  end.

Section Methods.

(** [self.max_people] and the attributes of the rule object. *)
Variable max_people : Z.
Variable self : RuleBase.
Variable prediction : bool.
Variable BuildContext : list (string * Z).

Let _Incr :=
  RuleRegisterResource._Incr (self_namespace self) (self_online self)
    prediction BuildContext.
Let _Get :=
  RuleRegisterResource._Get (self_namespace self) (self_online self)
    prediction BuildContext.
Let _Decr :=
  RuleRegisterResource._Decr (self_namespace self) prediction.

Definition _Evaluate (unused_initial_state target_state : option Status)
    (key : option string) (m : memcache.Memcache)
  : result RuleResult * memcache.Memcache :=
  let key := _NormalizeKey key in
  let returns value resource_remaining m' :=
    (Ok {| rr_status := value;
           rr_rule_tags := Some [self_key self +:+ key];
           rr_resource_remaining := Some resource_remaining |}, m') in
  if decide (target_state = Some ENROLLED) then
    match _Incr key _NUM_RETRIES m with
    | (Raise e, m') => (Raise e, m')
    | (Ok None, m') =>
        (* Cannot look up the value, we waitlist. *)
        if self_online self then returns (Some WAITLISTED) (Some 0) m'
        else (Raise AssertionError, m')
    | (Ok (Some num_students), m') =>
        if bool_decide (num_students <= max_people) then
          returns (Some ENROLLED) (Some (max_people - num_students)) m'
        else
          returns (Some WAITLISTED) (Some (max_people - num_students))
            (if self_offline self then _Decr key m' else m')
    end
  else
    match _Get key _NUM_RETRIES m with
    | (Raise e, m') => (Raise e, m')
    | (Ok resources_used, m') =>
        let resources_used := default max_people resources_used in
        returns target_state (Some (max_people - resources_used)) m'
    end.

(** A [RuleM unit] step: [_Incr] whose value is dropped. *)
Definition incr_ (key : string) (m : memcache.Memcache)
  : result unit * memcache.Memcache :=
  match _Incr key _NUM_RETRIES m with
  | (Raise e, m') => (Raise e, m')
  | (Ok _, m') => (Ok (), m')
  end.

Definition _ProcessOnlineOutcome (eval_state final_state : option Status)
    (key : string) (m : memcache.Memcache)
  : result unit * memcache.Memcache :=
  if decide (eval_state = Some UNREGISTERED) then
    if decide (final_state = Some UNREGISTERED) then (Ok (), _Decr key m)
    else (Ok (), m)
  else if bool_decide (eval_state ∈ [Some WAITLISTED; Some ENROLLED]) then
    if decide (final_state = None) then (Ok (), _Decr key m) else (Ok (), m)
  else (Raise AssertionError, m).

Definition _ProcessOfflineOutcome (eval_state final_state : option Status)
    (key : string) (m : memcache.Memcache)
  : result unit * memcache.Memcache :=
  if decide (eval_state = Some UNREGISTERED) then
    if decide (final_state = Some UNREGISTERED) then (Ok (), _Decr key m)
    else (Ok (), m)
  else if decide (eval_state = Some ENROLLED) then
    if decide (final_state <> Some ENROLLED) then (Ok (), _Decr key m)
    else (Ok (), m)
  else if decide (eval_state = Some WAITLISTED) then
    if decide (final_state = Some ENROLLED) then incr_ key m else (Ok (), m)
  else (Raise AssertionError, m).

Definition _ProcessOutcome (eval_state final_state : option Status)
    (key : option string) (m : memcache.Memcache)
  : result unit * memcache.Memcache :=
  let key := _NormalizeKey key in
  if self_offline self then _ProcessOfflineOutcome eval_state final_state key m
  else _ProcessOnlineOutcome eval_state final_state key m.

End Methods.
End MaxNumberRegisteredBy.

(** A keyword parameter of a rule configuration. *)
Fixpoint get_parameter (name : string) (parameters : list (string * ParamValue))
  : option ParamValue :=
  match parameters with
  | [] => None
  | (k, v) :: rest =>
      if bool_decide (k = name) then Some v else get_parameter name rest
  end.

(** ** MaxNumberRegisteredByActivity *)

Module MaxNumberRegisteredByActivity.

(** [_BuildContext]: the registrations of the activity that take a slot. *)
Definition _BuildContext (self : RuleBase) (ds : Datastore)
  : list (string * Z) :=
  let activity := activity_key (ctx_activity (self_eval_context self)) in
  let query :=
    run_query (fun reg => bool_decide (reg_activity reg = activity) &&
                          _UpdateQueryMode (self_offline self) reg) ds in
  let num_students :=
    length (List.filter
      (fun kr => _RegistrationNeedsAccounting (snd kr) (self_offline self))
      query) in
  [(MaxNumberRegisteredBy._KEY_PREFIX, Z.of_nat num_students)].

(** The class. [max_people] is a required argument of the constructor:
    a configuration without it (or with a list for it) fails with
    [TypeError]. *)
Definition with_max_people {A} (self : RuleBase)
    (f : Z -> memcache.Memcache -> result A * memcache.Memcache)
    (m : memcache.Memcache) : result A * memcache.Memcache :=
  match get_parameter "max_people" (self_parameters self) with
  | Some (PInt max_people) => f max_people m
  | _ => (Raise TypeError, m)
  end.

Definition class : RuleClass :=
  {| __init__ := keyword_parameters ["max_people"];
     IsRegister := true;
     CanProcessMultipleSchedules := true;
     GetDescription := "Limited slots for activity.";
     Evaluate := fun self initial_state target_state ds prediction =>
       with_max_people self (fun max_people =>
         MaxNumberRegisteredBy._Evaluate max_people self prediction
           (_BuildContext self ds) initial_state target_state None);
     ProcessOutcome := fun self eval_state final_state ds prediction =>
       with_max_people self (fun max_people =>
         MaxNumberRegisteredBy._ProcessOutcome self prediction
           (_BuildContext self ds) eval_state final_state None) |}.

End MaxNumberRegisteredByActivity.

(** ** LockPastActivity *)

Module LockPastActivity.

Definition Evaluate (self : RuleBase) (initial_state target_state : option Status)
  : RuleM RuleResult :=
  fun _ _ m =>
    let returns s :=
      (Ok {| rr_status := s; rr_rule_tags := None;
             rr_resource_remaining := None |}, m) in
    if self_online self then
      (* Only operate on online mode, accept everything offline. *)
      match activity_start_time (ctx_activity (self_eval_context self)) with
      | None => (Raise TypeError, m)  (* a date is not compared to [None] *)
      | Some lock_time =>
          if bool_decide (ctx_queue_time (self_eval_context self) > lock_time)
          then returns initial_state  (* Deny any state changes. *)
          else returns target_state
      end
    else returns target_state.

Definition class : RuleClass :=
  {| __init__ := keyword_parameters [];
     IsRegister := true;
     CanProcessMultipleSchedules := true;
     GetDescription := "Registrations locked for past activities.";
     rules.Evaluate := Evaluate;
     ProcessOutcome := fun _ _ _ _ _ m => (Ok (), m) |}.

End LockPastActivity.

(** ** EmployeeTypeRestriction *)

Module EmployeeTypeRestriction.
Section Service.

(** The surroundings of the rule: whether this is the production
    server, and what the user-information service answers for an
    e-mail address (the employee type of the person, or nobody), or the
    [ServiceCriticalError] it fails with. *)
Variable on_production_server : bool.
Variable GetUserInfo : string -> result (option string).

(** [person.employee_type in self.employee_types]: the attribute is
    the parameter the constructor stored, and [in] takes no number. *)
Definition in_employee_types (employee_type : string) (self : RuleBase)
  : result bool :=
  match get_parameter "employee_types" (self_parameters self) with
  | Some (PList l) => Ok (bool_decide (employee_type ∈ l))
  | Some (PInt _) => Raise TypeError
  | None => Raise AttributeError
  end.

Definition Evaluate (self : RuleBase)
    (initial_state target_state : option Status) : RuleM RuleResult :=
  fun _ _ m =>
    let returns s :=
      (Ok {| rr_status := s; rr_rule_tags := None;
             rr_resource_remaining := None |}, m) in
    if decide (target_state = Some ENROLLED) then
      let email := ctx_user (self_eval_context self) in
      let person := GetUserInfo email in
      if negb on_production_server then returns (Some ENROLLED)
      else
        match person with
        | Raise exception =>
            if self_online self then returns (Some WAITLISTED)
            else (Raise exception, m)
        | Ok None => returns None
        | Ok (Some employee_type) =>
            match in_employee_types employee_type self with
            | Raise e => (Raise e, m)
            | Ok true => returns (Some ENROLLED)
            | Ok false => returns None  (* Not allowed. *)
            end
        end
    else returns target_state.

Definition class : RuleClass :=
  {| __init__ := keyword_parameters ["employee_types"];
     IsRegister := true;
     CanProcessMultipleSchedules := true;
     GetDescription := "Restricted by employee types.";
     rules.Evaluate := Evaluate;
     ProcessOutcome := fun _ _ _ _ _ m => (Ok (), m) |}.

End Service.
End EmployeeTypeRestriction.

End rules_impl.
Import rules_impl.

(* ===================================================================== *)
(** * core/rule_engine.py: the evaluation of the rules *)
(* ===================================================================== *)

Module rule_engine.

(** What [_RulesEvaluate] returns. The two sets of tags and the set of
    affecting rule configurations are Python sets. *)
Record EvalResult : Type := {
  final_status : option Status;
  all_rule_results : list (Rule * option Status);
  all_rule_configs : list RuleConfig;
  all_rule_resources_remaining : list (option Z);
  all_rule_tags : gset string;
  affecting_rule_tags : gset string;
  affecting_rule_configs : gset RuleConfig
}.

(** An entry of the local list [rule_results]. *)
Definition rtup : Type :=
  (RuleConfig * Rule * option Status * list string * option Z)%type.

Definition rtup_config (t : rtup) : RuleConfig := t.1.1.1.1.
Definition rtup_rule (t : rtup) : Rule := t.1.1.1.2.
Definition rtup_status (t : rtup) : option Status := t.1.1.2.
Definition rtup_tags (t : rtup) : list string := t.1.2.
Definition rtup_remaining (t : rtup) : option Z := t.2.

(** [_GetRuleTagForEntity]. *)
Definition _GetRuleTagForEntity (program_or_activity_key : string) : string :=
  "_rule_engine_tag_" +:+ program_or_activity_key.

(** The access-point part of [_RuleGenerator]: the rules of each access
    point of the context, once per access-point key. *)
Fixpoint access_point_rules_once (access_point_list : list AccessPoint)
    (processed_key_map : gset string) : list RuleConfig :=
  match access_point_list with
  | [] => []
  | access_point :: rest =>
      if bool_decide (access_point_key access_point ∈ processed_key_map)
      then access_point_rules_once rest processed_key_map
      else access_point_rules access_point ++
           access_point_rules_once rest
             ({[access_point_key access_point]} ∪ processed_key_map)
  end.

(** [_RuleGenerator]: the rule configurations in the order it yields them. *)
Definition _RuleGenerator (eval_context : EvalContext) : list RuleConfig :=
  program_rules (ctx_program eval_context) ++
  activity_rules (ctx_activity eval_context) ++
  access_point_rules_once (ctx_access_point_list eval_context) ∅.

(** [status_priority = dict(zip(order, range(len(order))))]; the states
    of an [order] are distinct. *)
Definition status_priority_of (order : list (option Status))
  : list (option Status * nat) :=
  zip order (seq 0 (length order)).

(** [status_priority[s]]. *)
Fixpoint priority_lookup (status_priority : list (option Status * nat))
    (s : option Status) : result nat :=
  match status_priority with
  | [] => Raise KeyError
  | (k, v) :: rest =>
      if decide (k = s) then Ok v else priority_lookup rest s
  end.

(** [max(status_priority.values())]. *)
Definition max_priority (status_priority : list (option Status * nat)) : nat :=
  foldr Nat.max 0%nat (map snd status_priority).

(** [[k for (k, v) in status_priority.items() if v == max_p]]. *)
Definition status_stop_of (status_priority : list (option Status * nat))
  : list (option Status) :=
  map fst (List.filter (fun kv => bool_decide (kv.2 = max_priority status_priority))
                       status_priority).

(** The order of Python on [(priority, status)] tuples. *)
Definition tuple_lt (a b : nat * option Status) : bool :=
  (a.1 <? b.1)%nat ||
  (bool_decide (a.1 = b.1) && (status_rank a.2 <? status_rank b.2)%nat).

(** [max] of a non-empty list of tuples: the first of the greatest. *)
Definition tuple_max (first : nat * option Status)
    (others : list (nat * option Status)) : nat * option Status :=
  foldl (fun best x => if tuple_lt best x then x else best) first others.

(** [[(status_priority[rtup[2]], rtup[2]) for rtup in rule_results]]. *)
Fixpoint priority_tuples (status_priority : list (option Status * nat))
    (rule_results : list rtup) : result (list (nat * option Status)) :=
  match rule_results with
  | [] => Ok []
  | t :: rest =>
      match priority_lookup status_priority (rtup_status t) with
      | Raise e => Raise e
      | Ok p =>
          match priority_tuples status_priority rest with
          | Raise e => Raise e
          | Ok l => Ok ((p, rtup_status t) :: l)
          end
      end
  end.

(** ** The world of the registration paths *)

(** [notifications.NotificationType]: the registration states and the
    kinds of notification added to them. *)
Inductive NotificationType : Type :=
| NT (status : Status)
| ENROLL_REJECTED
| REMINDER
| MANAGER_APPROVAL_REQUEST
| REGISTRATION_UPDATE.

(** What a registration path does to its surroundings, in order: a commit
    to the datastore (with the stored registrations after it), a call of
    [ProcessOutcome] on a rule object, a mail, a deferred calendar
    synchronisation, a dispatched task. *)
Inductive Effect : Type :=
| DbCommit (ds : Datastore)
| ProcessOutcomeCall (rule : Rule) (eval_state final_state : option Status)
| SendMail (register : UserRegistration) (notification_type : NotificationType)
| DeferSyncCalendar (user : string) (schedule_key_str_list : list string)
| DispatchTask (task_config : string).

(** The stored registrations, the cache, the prediction flag of
    [os.environ], the tags of the [offline_reprocess_tags] configuration
    entity, and the effects so far. *)
Record World : Type := {
  datastore : Datastore;
  cache : memcache.Memcache;
  PREDICTION_MODE : bool;
  offline_reprocess_tags : gset string;
  effects : list Effect
}.

(** A step of a registration path: it returns or raises, and leaves a
    world either way. *)
Definition M (A : Type) : Type := World -> result A * World.

Definition ret {A} (a : A) : M A := fun w => (Ok a, w).

Definition raise {A} (e : Error) : M A := fun w => (Raise e, w).

Definition bind {A B} (c : M A) (k : A -> M B) : M B :=
  fun w =>
    match c w with
    | (Ok a, w') => k a w'
    | (Raise e, w') => (Raise e, w')
    end.

Notation "'let*' x ':=' c 'in' k" := (bind c (fun x => k))
  (at level 10, x pattern, c at level 100, k at level 200).

Definition of_result {A} (r : result A) : M A := fun w => (r, w).

Definition get_datastore : M Datastore := fun w => (Ok (datastore w), w).

(** Running a rule method in the world. *)
Definition lift_rule {A} (f : RuleM A) : M A :=
  fun w =>
    let (r, m') := f (datastore w) (PREDICTION_MODE w) (cache w) in
    (r, {| datastore := datastore w; cache := m';
           PREDICTION_MODE := PREDICTION_MODE w;
           offline_reprocess_tags := offline_reprocess_tags w;
           effects := effects w |}).

Definition emit (e : Effect) : M unit :=
  fun w =>
    (Ok (), {| datastore := datastore w; cache := cache w;
               PREDICTION_MODE := PREDICTION_MODE w;
               offline_reprocess_tags := offline_reprocess_tags w;
               effects := effects w ++ [e] |}).

(** One commit to the datastore: a [put] or a [delete] on its own, or
    all the writes of a transaction. *)
Definition db_commit (write : Datastore -> Datastore) : M unit :=
  fun w =>
    let ds' := write (datastore w) in
    (Ok (), {| datastore := ds'; cache := cache w;
               PREDICTION_MODE := PREDICTION_MODE w;
               offline_reprocess_tags := offline_reprocess_tags w;
               effects := effects w ++ [DbCommit ds'] |}).

(** [UserRegistration.__init__] with an [eval_context]: the properties
    come from the context, the named ones from the call, the others are
    the defaults of the model. *)
Definition UserRegistration__init__ (parent : option nat)
    (eval_context : EvalContext) (status : Status) (confirmed : Confirm)
    (active : Active) (affecting_rule_tags rule_tags : list string)
    (affecting_rule_configs : list RuleConfig)
    (post_process_tasks : list string) : result UserRegistration :=
  let self :=
    {| reg_user := ctx_user eval_context;
       reg_activity := activity_key (ctx_activity eval_context);
       reg_program := program_key (ctx_program eval_context);
       reg_queue_time := ctx_queue_time eval_context;
       reg_creator := ctx_creator eval_context;
       reg_schedule_list := ctx_schedule_list eval_context;
       reg_access_point_list :=
         map access_point_key (ctx_access_point_list eval_context);
       reg_status := status;
       reg_confirmed := confirmed;
       reg_active := active;
       reg_online_unregistered := false;
       reg_affecting_rule_tags := affecting_rule_tags;
       reg_rule_tags := rule_tags;
       reg_affecting_rule_configs := affecting_rule_configs;
       reg_last_notified := None;
       reg_notify_email := true;
       reg_post_process_tasks := post_process_tasks;
       reg_force_status := ctx_force_status eval_context;
       reg_parent := parent |} in
  if init_assertion self then Ok self else Raise AssertionError.

(** [_GetActiveUserRegistration]: [fetch(2)] and the assertion that at
    most one entity came back. *)
Definition _GetActiveUserRegistration (eval_context : EvalContext)
  : M (option (nat * UserRegistration)) :=
  let* ds := get_datastore in
  match run_query (ActiveQuery (activity_key (ctx_activity eval_context))
                               (ctx_user eval_context)) ds with
  | [] => ret None
  | [active] => ret (Some active)
  | _ :: _ :: _ => raise AssertionError
  end.

(** [_RulesNotify]. *)
Fixpoint _RulesNotify (final_status : option Status)
    (rule_results : list (Rule * option Status)) : M unit :=
  match rule_results with
  | [] => ret ()
  | (rule, result) :: rest =>
      let* _ := emit (ProcessOutcomeCall rule result final_status) in
      let* _ := lift_rule (ProcessOutcome (rule_class rule) (rule_self rule)
                             result final_status) in
      _RulesNotify final_status rest
  end.

(** [SaveRuleTagsToReprocess]. *)
Definition SaveRuleTagsToReprocess (rule_tags : gset string) : M unit :=
  fun w =>
    if bool_decide (rule_tags = ∅) then (Ok (), w)
    else
      (Ok (), {| datastore := datastore w; cache := cache w;
                 PREDICTION_MODE := PREDICTION_MODE w;
                 offline_reprocess_tags := offline_reprocess_tags w ∪ rule_tags;
                 effects := effects w |}).

(** [_NotifyUserAndUpdateCalendars]; it returns the registration object
    with [last_notified] updated (the object is not stored). *)
Definition _NotifyUserAndUpdateCalendars (register : UserRegistration)
    (notification_type : option NotificationType) : M UserRegistration :=
  if decide (Some (reg_status register) = reg_last_notified register) then
    ret register
  else
    let* _ :=
      if bool_decide (reg_status register ∈ [UNREGISTERED; ENROLLED]) then
        emit (DeferSyncCalendar (reg_user register) (reg_schedule_list register))
      else ret () in
    let* ds := get_datastore in
    let* _ :=
      if reg_notify_email register then
        let* _ :=
          match reg_parent register ≫= (fun pk => ds !! pk) with
          | Some parent =>
              if bool_decide (reg_status register = UNREGISTERED) &&
                 bool_decide (reg_last_notified parent = None)
              then emit (SendMail register (NT ENROLLED))
              else ret ()
          | None => ret ()
          end in
        emit (SendMail register
                (default (NT (reg_status register)) notification_type))
      else ret () in
    ret (set_last_notified (Some (reg_status register)) register).

Section Engine.

(** [rules.GetRule]: the rule classes of [rules_impl] by name. *)
Variable GetRule : string -> option RuleClass.

(** [RuleConfig.CreateRules]. Calling a method of the missing class
    of an unknown rule name is an [AttributeError]; each rule object is
    constructed with the parameters of the configuration, and what the
    constructor raises passes. *)
Definition CreateRules (self : RuleConfig) (eval_context : EvalContext)
    (offline : bool) (namespace : string) : result (list Rule) :=
  match GetRule (rule_name self) with
  | None => Raise AttributeError
  | Some rule =>
      let instance context :=
        {| rule_class := rule;
           rule_self := RuleBase__init__ (key self) context offline
                          namespace (parameters self) |} in
      if CanProcessMultipleSchedules rule then
        match __init__ rule (parameters self) with
        | Raise e => Raise e
        | Ok _ => Ok [instance eval_context]
        end
      else
        (* This rule can only work off individual schedule/access
           points. *)
        match zip (ctx_schedule_list eval_context)
                  (ctx_access_point_list eval_context) with
        | [] => Ok []
        | pairs =>
            match __init__ rule (parameters self) with
            | Raise e => Raise e
            | Ok _ =>
                Ok (map (fun sa : string * AccessPoint =>
                           instance
                             {| ctx_queue_time := ctx_queue_time eval_context;
                                ctx_program := ctx_program eval_context;
                                ctx_activity := ctx_activity eval_context;
                                ctx_user := ctx_user eval_context;
                                ctx_creator := ctx_creator eval_context;
                                ctx_schedule_list := [sa.1];
                                ctx_access_point_list := [sa.2];
                                ctx_force_status :=
                                  ctx_force_status eval_context |})
                        pairs)
            end
        end
  end.

(** [RuleConfig.GetDescription]. *)
Definition RuleConfig_GetDescription (self : RuleConfig) : result string :=
  match description self with
  | Some d => if bool_decide (d = "") then
                match GetRule (rule_name self) with
                | Some rule => Ok (GetDescription rule)
                | None => Raise AttributeError
                end
              else Ok d
  | None =>
      match GetRule (rule_name self) with
      | Some rule => Ok (GetDescription rule)
      | None => Raise AttributeError
      end
  end.

Section Evaluate.

Variable eval_context : EvalContext.
Variable initial_status target_status : option Status.
Variable is_online : bool.
Variable namespace : string.
Variable ds : Datastore.
Variable prediction : bool.

(** [order], [status_priority] and [status_stop] of the call. *)
Definition order : list (option Status) :=
  VALID_TRANSITIONS initial_status.
Definition status_priority : list (option Status * nat) :=
  status_priority_of order.
Definition status_stop : list (option Status) :=
  status_stop_of status_priority.

(** The inner loop [for rule in rule_list]. It returns the grown
    [rule_results] and whether it left with [use_break] set. *)
Fixpoint evaluate_rule_list (rule_config : RuleConfig)
    (rule_list : list Rule) (rule_results : list rtup)
    (m : memcache.Memcache)
  : result (list rtup * bool) * memcache.Memcache :=
  match rule_list with
  | [] => (Ok (rule_results, false), m)
  | rule :: rest =>
      if IsRegister (rule_class rule) then
        match Evaluate (rule_class rule) (rule_self rule)
                initial_status target_status ds prediction m with
        | (Raise e, m') => (Raise e, m')
        | (Ok rule_result, m') =>
            let rule_status := rr_status rule_result in
            let rule_tags := default [] (rr_rule_tags rule_result) in
            let resource_remaining :=
              default (Some 0) (rr_resource_remaining rule_result) in
            if negb (IsValidTransition initial_status rule_status) then
              (Raise BadStateTransition, m')
            else
              let rule_results :=
                rule_results ++
                [(rule_config, rule, rule_status, rule_tags,
                  resource_remaining)] in
              if bool_decide (rule_status ∈ status_stop) &&
                 negb (ctx_force_status eval_context)
              then (Ok (rule_results, true), m')
              else evaluate_rule_list rule_config rest rule_results m'
        end
      else evaluate_rule_list rule_config rest rule_results m
  end.

(** The outer loop [for rule_config in iter_rules]. *)
Fixpoint evaluate_rule_configs (iter_rules : list RuleConfig)
    (rule_results : list rtup) (m : memcache.Memcache)
  : result (list rtup) * memcache.Memcache :=
  match iter_rules with
  | [] => (Ok rule_results, m)
  | rule_config :: rest =>
      match CreateRules rule_config eval_context (negb is_online)
              namespace with
      | Raise e => (Raise e, m)
      | Ok rule_list =>
          match evaluate_rule_list rule_config rule_list rule_results m with
          | (Raise e, m') => (Raise e, m')
          | (Ok (rule_results, use_break), m') =>
              if use_break then (Ok rule_results, m')
              else evaluate_rule_configs rest rule_results m'
          end
      end
  end.

(** The combined rule result. *)
Definition combined_status (rule_results : list rtup)
  : result (option Status) :=
  match priority_tuples status_priority rule_results with
  | Raise e => Raise e
  | Ok [] => Ok target_status
  | Ok (first :: others) => Ok (tuple_max first others).2
  end.

(** The bundle built from [rule_results] and the combined status. *)
Definition bundle (rule_results : list rtup) (final_status : option Status)
  : EvalResult :=
  let all_rule_results :=
    map (fun t => (rtup_rule t, rtup_status t)) rule_results in
  let all_rule_configs := map rtup_config rule_results in
  let all_rule_resources_remaining := map rtup_remaining rule_results in
  let affecting :=
    List.filter (fun t => bool_decide (rtup_status t = final_status))
                rule_results in
  let rule_engine_tags : gset string :=
    list_to_set
      [_GetRuleTagForEntity (program_key (ctx_program eval_context));
       _GetRuleTagForEntity (activity_key (ctx_activity eval_context))] in
  let all_rule_tags :=
    ⋃ (map (fun t => list_to_set (rtup_tags t)) rule_results)
    ∪ rule_engine_tags in
  let affecting_rule_tags :=
    ⋃ (map (fun t => list_to_set (rtup_tags t)) affecting)
    ∪ rule_engine_tags in
  let affecting_rule_configs : gset RuleConfig :=
    list_to_set (map rtup_config affecting) in
  if ctx_force_status eval_context then
    {| final_status := target_status;
       all_rule_results := all_rule_results;
       all_rule_configs := all_rule_configs;
       all_rule_resources_remaining := all_rule_resources_remaining;
       all_rule_tags := all_rule_tags;
       affecting_rule_tags := all_rule_tags;
       affecting_rule_configs := list_to_set all_rule_configs |}
  else
    {| final_status := final_status;
       all_rule_results := all_rule_results;
       all_rule_configs := all_rule_configs;
       all_rule_resources_remaining := all_rule_resources_remaining;
       all_rule_tags := all_rule_tags;
       affecting_rule_tags := affecting_rule_tags;
       affecting_rule_configs := affecting_rule_configs |}.

(** [_RulesEvaluate]. *)
Definition _RulesEvaluate (m : memcache.Memcache)
  : result EvalResult * memcache.Memcache :=
  if negb (IsValidTransition initial_status target_status) then
    (Raise BadStateTransition, m)
  else
    match evaluate_rule_configs (_RuleGenerator eval_context) [] m with
    | (Raise e, m') => (Raise e, m')
    | (Ok rule_results, m') =>
        match combined_status rule_results with
        | Raise e => (Raise e, m')
        | Ok final_status => (Ok (bundle rule_results final_status), m')
        end
    end.

End Evaluate.

(** ** The online paths *)

(** The descriptions of a list of rule configurations. *)
Fixpoint descriptions (configs : list RuleConfig) : result (list string) :=
  match configs with
  | [] => Ok []
  | cfg :: rest =>
      match RuleConfig_GetDescription cfg with
      | Raise e => Raise e
      | Ok d =>
          match descriptions rest with
          | Raise e => Raise e
          | Ok ds => Ok (d :: ds)
          end
      end
  end.

(** [_RegisterOnlineUnsafe]. *)
Definition _RegisterOnlineUnsafe (eval_context : EvalContext) (notify : bool)
  : M (option Status * list string) :=
  let* active_registration := _GetActiveUserRegistration eval_context in
  match active_registration with
  | Some (active_key, active_registration) =>
      if negb (ctx_force_status eval_context) then
        ret (Some (reg_status active_registration),
             ["registered user re-register attempt"])
      else
        let* _ :=
          if decide (reg_status active_registration <> ENROLLED) then
            db_commit
              <[active_key :=
                  set_force_status true
                    (set_confirmed READY
                       (set_status ENROLLED active_registration))]>
          else ret () in
        ret (Some ENROLLED, ["force enrolled"])
  | None =>
      let* new_entry :=
        of_result (UserRegistration__init__ None eval_context ENROLLED
                     NOT_READY INACTIVE [] [] [] []) in
      let* ds := get_datastore in
      let new_entry_key := new_key ds in
      let* _ := db_commit <[new_entry_key := new_entry]> in
      let* result :=
        lift_rule (_RulesEvaluate eval_context None (Some ENROLLED) true "") in
      let final_status := final_status result in
      let results := all_rule_results result in
      let rule_tags := elements (all_rule_tags result) in
      let a_rule_tags := elements (affecting_rule_tags result) in
      let a_configs := elements (affecting_rule_configs result) in
      let* _ := _RulesNotify final_status results in
      let* reasons :=
        if decide (final_status <> Some ENROLLED) then
          of_result (descriptions a_configs)
        else ret [] in
      let* _ :=
        match final_status with
        | None => db_commit (delete new_entry_key)
        | Some status =>
            db_commit
              <[new_entry_key :=
                  set_notify_email notify
                    (set_affecting_rule_configs a_configs
                       (set_affecting_rule_tags a_rule_tags
                          (set_rule_tags rule_tags
                             (set_active ACTIVE
                                (set_confirmed READY
                                   (set_status status new_entry))))))]>
        end in
      ret (final_status, reasons)
  end.

(** [_UnregisterOnlineUnsafe]. The two [put]s of [InitiateUnregister]
    are one transaction. *)
Definition _UnregisterOnlineUnsafe (eval_context : EvalContext)
    (post_process_tasks : list string) : M (option Status * list string) :=
  let* active_registration := _GetActiveUserRegistration eval_context in
  match active_registration with
  | None =>
      ret (Some UNREGISTERED,
           ["user must be registered/waitlisted to unregister"])
  | Some (active_key, active_registration) =>
      let active_status := reg_status active_registration in
      let* result :=
        lift_rule (_RulesEvaluate eval_context (Some active_status)
                     (Some UNREGISTERED) true "") in
      let final_status := final_status result in
      let rule_tags := elements (all_rule_tags result) in
      let affecting_rule_tags := elements (affecting_rule_tags result) in
      let affecting_configs := elements (affecting_rule_configs result) in
      if decide (final_status = Some UNREGISTERED) then
        let* new_entry :=
          of_result (UserRegistration__init__ (Some active_key) eval_context
                       UNREGISTERED READY INACTIVE affecting_rule_tags
                       rule_tags affecting_configs post_process_tasks) in
        let* _ :=
          db_commit (fun ds =>
            <[active_key := set_active INACTIVE active_registration]>
              (<[new_key ds := new_entry]> ds)) in
        ret (final_status, [])
      else
        let* reasons := of_result (descriptions affecting_configs) in
        ret (final_status, reasons)
  end.

(** ** The offline unregistration *)

(** [_RulesNotifyOnline]: the rules of the configurations, created for
    the online mode. *)
Fixpoint online_rules (eval_context : EvalContext)
    (configs : list RuleConfig) (evaluated_state : option Status)
  : result (list (Rule * option Status)) :=
  match configs with
  | [] => Ok []
  | config :: rest =>
      match CreateRules config eval_context false "" with
      | Raise e => Raise e
      | Ok rule_list =>
          match online_rules eval_context rest evaluated_state with
          | Raise e => Raise e
          | Ok l => Ok (map (fun r => (r, evaluated_state)) rule_list ++ l)
          end
      end
  end.

Definition _RulesNotifyOnline (eval_context : EvalContext)
    (config_list : list RuleConfig)
    (evaluated_state final_state : option Status) : M unit :=
  let* online_results :=
    of_result (online_rules eval_context
                 (elements (list_to_set config_list : gset RuleConfig))
                 evaluated_state) in
  _RulesNotify final_state online_results.

(** The stored programs, activities and access points, by key
    ([request_cache.GetEntityFromKey]). *)
Variable GetProgram : string -> Program.
Variable GetActivity : string -> Activity.
Variable GetAccessPoint : string -> AccessPoint.

(** [EvalContext.CreateFromUserRegistration]. *)
Definition CreateFromUserRegistration (user_reg : UserRegistration)
  : EvalContext :=
  {| ctx_queue_time := reg_queue_time user_reg;
     ctx_program := GetProgram (reg_program user_reg);
     ctx_activity := GetActivity (reg_activity user_reg);
     ctx_user := reg_user user_reg;
     ctx_creator := reg_creator user_reg;
     ctx_schedule_list := reg_schedule_list user_reg;
     ctx_access_point_list :=
       map GetAccessPoint (reg_access_point_list user_reg);
     ctx_force_status := reg_force_status user_reg |}.

(** The dispatch of the post-processing tasks. *)
Fixpoint dispatch_tasks (tasks : list string) : M unit :=
  match tasks with
  | [] => ret ()
  | task_config :: rest =>
      let* _ := emit (DispatchTask task_config) in dispatch_tasks rest
  end.

(** [_UnregisterOfflineUnsafe], on the unregister entity stored under
    [unregister_key], with the namespace its decorator passes. The
    deletes of [RemoveProcessedUnRegistration] are one transaction. *)
Definition _UnregisterOfflineUnsafe (unregister_key : nat)
    (unregister : UserRegistration) (namespace : string) : M unit :=
  let* ds := get_datastore in
  match reg_parent unregister ≫= (fun pk => pair pk <$> ds !! pk) with
  | None => raise AssertionError
  | Some (parent_key, parent_enroll) =>
      let processed_enroll :=
        bool_decide (reg_confirmed parent_enroll = PROCESSED) &&
        bool_decide (reg_status parent_enroll = ENROLLED) in
      let eval_context := CreateFromUserRegistration unregister in
      let* result :=
        lift_rule (_RulesEvaluate eval_context
                     (Some (reg_status parent_enroll)) (Some UNREGISTERED)
                     false namespace) in
      let final_status := final_status result in
      let results := all_rule_results result in
      let configs := all_rule_configs result in
      let affecting_rule_tags := affecting_rule_tags result in
      if decide (final_status = Some UNREGISTERED) then
        let online_decrement := reg_online_unregistered unregister in
        let unregister := set_online_unregistered true unregister in
        let* _ := db_commit <[unregister_key := unregister]> in
        let* _ :=
          if negb online_decrement then
            _RulesNotifyOnline eval_context configs (Some UNREGISTERED)
              (Some UNREGISTERED)
          else ret () in
        let* _ :=
          if processed_enroll then
            let* _ := _RulesNotify final_status results in
            SaveRuleTagsToReprocess affecting_rule_tags
          else ret () in
        let* unregister := _NotifyUserAndUpdateCalendars unregister None in
        let* _ :=
          db_commit (fun ds => delete parent_key (delete unregister_key ds)) in
        dispatch_tasks (reg_post_process_tasks unregister)
      else raise AssertionError
  end.

End Engine.

End rule_engine.
Import rule_engine.

(* ===================================================================== *)
(** * A small installation *)
(* ===================================================================== *)

Module installation.

(** The rule classes by name; here the user-information service knows
    nobody. *)
Definition GetRule (rule_name : string) : option RuleClass :=
  if bool_decide (rule_name = "MaxNumberRegisteredByActivity") then
    Some MaxNumberRegisteredByActivity.class
  else if bool_decide (rule_name = "LockPastActivity") then
    Some LockPastActivity.class
  else if bool_decide (rule_name = "EmployeeTypeRestriction") then
    Some (EmployeeTypeRestriction.class true (fun _ => Ok None))
  else None.

(** An activity with one slot. *)
Definition one_slot : RuleConfig :=
  {| rule_name := "MaxNumberRegisteredByActivity";
     parameters := [("max_people", PInt 1)];
     description := None;
     key := "r1" |}.

Definition employees_only : RuleConfig :=
  {| rule_name := "EmployeeTypeRestriction";
     parameters := [("employee_types", PList ["employee"])];
     description := None;
     key := "r2" |}.

Definition lock_past : RuleConfig :=
  {| rule_name := "LockPastActivity";
     parameters := [];
     description := None;
     key := "r3" |}.

Definition the_program (rules : list RuleConfig) : Program :=
  {| program_key := "program"; program_rules := rules |}.

Definition the_activity (rules : list RuleConfig) : Activity :=
  {| activity_key := "activity"; activity_rules := rules;
     activity_start_time := Some 1000 |}.

(** A request of [user] at time [queue_time] for the activity carrying
    [rules]. *)
Definition request (user : string) (queue_time : Z) (rules : list RuleConfig)
    (force_status : bool) : EvalContext :=
  {| ctx_queue_time := queue_time;
     ctx_program := the_program [];
     ctx_activity := the_activity rules;
     ctx_user := user;
     ctx_creator := user;
     ctx_schedule_list := [];
     ctx_access_point_list := [];
     ctx_force_status := force_status |}.

Definition empty_cache : memcache.Memcache :=
  {| memcache.cells := ∅; memcache.inits := ∅; memcache.available := true |}.

Definition cache_down : memcache.Memcache :=
  {| memcache.cells := ∅; memcache.inits := ∅; memcache.available := false |}.

Definition world_of (ds : Datastore) (m : memcache.Memcache) : World :=
  {| datastore := ds; cache := m; PREDICTION_MODE := false;
     offline_reprocess_tags := ∅; effects := [] |}.

Definition empty_world : World := world_of ∅ empty_cache.


Definition no_result : EvalResult :=
  {| final_status := None; all_rule_results := []; all_rule_configs := [];
     all_rule_resources_remaining := []; all_rule_tags := ∅;
     affecting_rule_tags := ∅; affecting_rule_configs := ∅ |}.

(** The stored entities of the other kinds. *)
Definition stored_program (_ : string) : Program := the_program [].
Definition stored_activity (_ : string) : Activity := the_activity [one_slot].
Definition stored_access_point (k : string) : AccessPoint :=
  {| access_point_key := k; access_point_rules := [] |}.

(** An enroll record that the online path accepted and then left (its
    user unregistered before the offline path processed it), and the
    unregister record created for it. *)
Definition one_enrolled : UserRegistration :=
  {| reg_user := "a"; reg_activity := "activity"; reg_program := "program";
     reg_queue_time := 5; reg_creator := "a"; reg_schedule_list := [];
     reg_access_point_list := []; reg_status := ENROLLED;
     reg_confirmed := READY; reg_active := INACTIVE;
     reg_online_unregistered := false; reg_affecting_rule_tags := [];
     reg_rule_tags := []; reg_affecting_rule_configs := [];
     reg_last_notified := None; reg_notify_email := true;
     reg_post_process_tasks := []; reg_force_status := false;
     reg_parent := None |}.

Definition one_unregistered : UserRegistration :=
  {| reg_user := "a"; reg_activity := "activity"; reg_program := "program";
     reg_queue_time := 7; reg_creator := "a"; reg_schedule_list := [];
     reg_access_point_list := []; reg_status := UNREGISTERED;
     reg_confirmed := READY; reg_active := INACTIVE;
     reg_online_unregistered := false; reg_affecting_rule_tags := [];
     reg_rule_tags := []; reg_affecting_rule_configs := [];
     reg_last_notified := None; reg_notify_email := true;
     reg_post_process_tasks := []; reg_force_status := false;
     reg_parent := Some 0%nat |}.

Definition unregistered_world : World :=
  world_of (<[1%nat := one_unregistered]> {[ 0%nat := one_enrolled ]})
           empty_cache.

(** A registration of [user] that is ENROLLED and ACTIVE, and the world
    that stores only the one of a, with nothing in the cache. *)
Definition active_enrolled (user : string) : UserRegistration :=
  {| reg_user := user; reg_activity := "activity"; reg_program := "program";
     reg_queue_time := 5; reg_creator := user; reg_schedule_list := [];
     reg_access_point_list := []; reg_status := ENROLLED;
     reg_confirmed := READY; reg_active := ACTIVE;
     reg_online_unregistered := false; reg_affecting_rule_tags := [];
     reg_rule_tags := []; reg_affecting_rule_configs := [];
     reg_last_notified := None; reg_notify_email := true;
     reg_post_process_tasks := []; reg_force_status := false;
     reg_parent := None |}.

Definition enrolled_world : World :=
  world_of {[ 0%nat := active_enrolled "a" ]} empty_cache.




End installation.
Import installation.

(* ===================================================================== *)
(** * The vocabulary of the properties *)
(* ===================================================================== *)

(** The legal edges of the registration state machine, as the
    specification lists them. *)
Definition legal_edge (initial target : option Status) : bool :=
  bool_decide (initial = target) ||
  match initial, target with
  | None, (Some ENROLLED | Some WAITLISTED | None) => true
  | Some ENROLLED, (Some UNREGISTERED | Some ENROLLED) => true
  | Some UNREGISTERED, (Some ENROLLED | Some WAITLISTED | Some UNREGISTERED) => true
  | Some WAITLISTED, (Some ENROLLED | Some UNREGISTERED | Some WAITLISTED) => true
  | _, _ => false
  end.

(** The verdicts of the rules that were evaluated. *)
Definition verdicts (res : EvalResult) : list (option Status) :=
  map snd (all_rule_results res).

(** The position of a state in a list of states. *)
Fixpoint position (s : option Status) (l : list (option Status)) : option nat :=
  match l with
  | [] => None
  | x :: rest => if decide (x = s) then Some 0%nat else S <$> position s rest
  end.

(** The precedence of a verdict for an initial state: its position in the
    transition table of the initial state (later is higher). *)
Definition precedence (initial s : option Status) : option nat :=
  position s (VALID_TRANSITIONS initial).

(** An entry of [rule_results] whose verdict is a legal move from the
    initial state. *)
Definition valid_entry (initial_status : option Status) (t : rtup) : Prop :=
  IsValidTransition initial_status (rtup_status t) = true.

(** An entry of [rule_results] whose rule name has a class. *)
Definition known_entry (GetRule : string -> option RuleClass) (t : rtup) : Prop :=
  is_Some (GetRule (rule_name (rtup_config t))).

(** At most one ACTIVE registration per (registrant, activity). *)
Definition AtMostOneActive (ds : Datastore) : Prop :=
  forall k1 k2 r1 r2,
    ds !! k1 = Some r1 -> ds !! k2 = Some r2 ->
    reg_active r1 = ACTIVE -> reg_active r2 = ACTIVE ->
    reg_user r1 = reg_user r2 -> reg_activity r1 = reg_activity r2 ->
    k1 = k2.

(** The invariant at every observable instant of a world: now, and after
    each commit made so far. *)
Definition AlwaysAtMostOneActive (w : World) : Prop :=
  AtMostOneActive (datastore w) /\
  forall ds, DbCommit ds ∈ effects w -> AtMostOneActive ds.

(** A step that writes no registration. *)
Definition same_store (w w' : World) : Prop :=
  datastore w' = datastore w /\
  forall ds, DbCommit ds ∈ effects w' -> DbCommit ds ∈ effects w.

(** A call of [ProcessOutcome] on a rule object made for the online mode
    (any other effect passes). *)
Definition online_call (e : Effect) : Prop :=
  match e with
  | ProcessOutcomeCall rule _ _ => self_offline (rule_self rule) = false
  | _ => True
  end.

(** A step that saves no tags to reprocess and calls [ProcessOutcome] on
    online rule objects only. *)
Definition quiet_step (w w' : World) : Prop :=
  offline_reprocess_tags w' = offline_reprocess_tags w /\
  exists l, effects w' = effects w ++ l /\ Forall online_call l.


(** ** How far the loops of [_RulesEvaluate] come *)

Section Reached.

Variable GetRule : string -> option RuleClass.
Variable eval_context : EvalContext.
Variable initial_status target_status : option Status.
Variable is_online : bool.
Variable namespace : string.
Variable ds : Datastore.
Variable prediction : bool.

(** The loops of [_RulesEvaluate] have left [rule_results] without a
    break: the status is forced, or no verdict is the stop status. *)
Definition no_break (rule_results : list rtup) : Prop :=
  ctx_force_status eval_context = true \/
  Forall (fun t => rtup_status t ∉ status_stop initial_status) rule_results.

(** From the cache [m], the outer loop comes to the configuration
    [rule_config] with the results [rule_results] and the cache [m1]:
    the configurations before it were gone through without an exception
    and without a break. *)
Definition reaches_config (m : memcache.Memcache) (rule_config : RuleConfig)
    (rule_results : list rtup) (m1 : memcache.Memcache) : Prop :=
  exists before after,
    _RuleGenerator eval_context = before ++ rule_config :: after /\
    evaluate_rule_configs GetRule eval_context initial_status target_status
      is_online namespace ds prediction before [] m = (Ok rule_results, m1) /\
    no_break rule_results.

(** From the cache [m], the inner loop comes to the rule object [rule]
    with the cache [m2]: the loops came to its configuration, whose rule
    objects were created, and those before [rule] were gone through
    without an exception and without a break. *)
Definition reaches_rule (m : memcache.Memcache) (rule : Rule)
    (m2 : memcache.Memcache) : Prop :=
  exists rule_config rule_results m1 rules_before rules_after rule_results1,
    reaches_config m rule_config rule_results m1 /\
    CreateRules GetRule rule_config eval_context (negb is_online) namespace
    = Ok (rules_before ++ rule :: rules_after) /\
    evaluate_rule_list eval_context initial_status target_status ds
      prediction rule_config rules_before rule_results m1
    = (Ok (rule_results1, false), m2).

(** The rule object [rule] is a registration rule, and evaluated with
    the cache [m2] it returns a verdict that is not a valid move from
    the initial status, or raises [BadStateTransition] itself. *)
Definition refuses_the_transition (rule : Rule) (m2 : memcache.Memcache)
  : Prop :=
  IsRegister (rule_class rule) = true /\
  match fst (Evaluate (rule_class rule) (rule_self rule) initial_status
               target_status ds prediction m2) with
  | Ok rule_result =>
      IsValidTransition initial_status (rr_status rule_result) = false
  | Raise e => e = BadStateTransition
  end.

End Reached.

(* ===================================================================== *)
(** * core/rule_engine.py: the prediction of an outcome *)
(* ===================================================================== *)

(** [rules.SetPredictionMode]. *)
Definition SetPredictionMode (is_predict : bool) : M unit :=
  fun w =>
    (Ok (), {| datastore := datastore w; cache := cache w;
               PREDICTION_MODE := is_predict;
               offline_reprocess_tags := offline_reprocess_tags w;
               effects := effects w |}).

(** [PredictRegistrationOutcome]. *)
Definition PredictRegistrationOutcome (GetRule : string -> option RuleClass)
    (eval_context : EvalContext) : M EvalResult :=
  let* _ := SetPredictionMode true in
  let* result :=
    lift_rule (_RulesEvaluate GetRule eval_context None (Some ENROLLED)
                 true "") in
  let* _ := _RulesNotify None (all_rule_results result) in
  let* _ := SetPredictionMode false in
  ret result.

(* ===================================================================== *)
(** * More vocabulary *)
(* ===================================================================== *)

(** A cache that still holds everything another one held: the same
    availability, every counter with its value, every ['__init__'] list. *)
Definition cache_extends (m m' : memcache.Memcache) : Prop :=
  memcache.available m' = memcache.available m /\
  (forall x v, memcache.cells m !! x = Some v -> memcache.cells m' !! x = Some v) /\
  (forall n l, memcache.inits m !! n = Some l -> memcache.inits m' !! n = Some l).

(** A rule object whose [Evaluate] answers a request with a legal move
    from the initial state, whatever the cache. *)
Definition answers_legally (rule : Rule)
    (initial_state target_state : option Status) (ds : Datastore)
    (prediction : bool) : Prop :=
  forall m, exists rule_result m',
    Evaluate (rule_class rule) (rule_self rule) initial_state target_state
      ds prediction m
    = (Ok rule_result, m') /\
    IsValidTransition initial_state (rr_status rule_result) = true.

(** A rule class that, in prediction mode, leaves in the cache what
    the cache held. *)
Definition predicts_safely (rule : RuleClass) : Prop :=
  forall self s1 s2 ds m,
    cache_extends m (snd (Evaluate rule self s1 s2 ds true m)) /\
    cache_extends m (snd (ProcessOutcome rule self s1 s2 ds true m)).

(* ===================================================================== *)
(** * More exceptions *)
(* ===================================================================== *)

Module exceptions.

(** The exceptions of the code below: [errors.LockAcquireFailure], three
    more of Python's own, and those of the registration paths. *)
Inductive Exception : Type :=
| LockAcquireFailure
| IndexError
| NotImplementedError
| ValueError
| Other (e : Error).

(** A call either returns a value or raises. *)
Inductive outcome (A : Type) : Type :=
| Returned (a : A)
| Raised (e : Exception).
Arguments Returned {A} a.
Arguments Raised {A} e.

Definition of_result {A} (r : result A) : outcome A :=
  match r with
  | Ok a => Returned a
  | Raise e => Raised (Other e)
  end.

End exceptions.
Import exceptions.

(* ===================================================================== *)
(** * core/utils.py: ArraySplit *)
(* ===================================================================== *)

(** [xrange(start, stop, step)]. *)
Definition xrange (start stop step : Z) : outcome (list Z) :=
  if bool_decide (step = 0) then Raised ValueError
  else
    let count :=
      if bool_decide (0 < step) then (stop - start + step - 1) `div` step
      else (start - stop - step - 1) `div` (- step) in
    Returned (map (fun k => start + Z.of_nat k * step)
                  (seq 0 (Z.to_nat count))).

(** A bound of a slice: a negative index counts from the end, and the
    result is kept within the list. *)
Definition slice_index (len i : Z) : Z :=
  Z.max 0 (Z.min len (if bool_decide (i < 0) then i + len else i)).

(** [array[i:j]]. *)
Definition slice {A} (array : list A) (i j : Z) : list A :=
  let len := Z.of_nat (length array) in
  let lo := slice_index len i in
  let hi := slice_index len j in
  take (Z.to_nat (hi - lo)) (drop (Z.to_nat lo) array).

(** [ArraySplit]. *)
Definition ArraySplit {A} (array_to_split : list A) (bucket_size : Z)
  : outcome (list (list A)) :=
  match xrange 0 (Z.of_nat (length array_to_split)) bucket_size with
  | Raised e => Raised e
  | Returned indices =>
      Returned (map (fun i => slice array_to_split i (i + bucket_size))
                    indices)
  end.

(* ===================================================================== *)
(** * core/utils.py: DbLock *)
(* ===================================================================== *)

Module DbLock.

(** [datetime.datetime.min]: the time line is counted from it, in
    milliseconds. *)
Definition datetime_min : Z := 0.

Definition __MAX_LOCK_MILLISECONDS : Z := 31000.
(** [__SLEEP_SECONDS = 0.1], in milliseconds like every time here. *)
Definition __SLEEP_SECONDS : Z := 100.

Section Locks.

(** The type of the data shared through a lock, its empty dictionary,
    and the rest of the world. *)
Variable Data : Type.
Variable no_data : Data.
Variable Rest : Type.

(** [LockModel]: the entity of a lock. *)
Record LockModel : Type := {
  expire_time : Z;
  lock_data : Data
}.

(** The lock entities by key name, the clock of [utcnow], and the rest
    of the world. One process runs at a time, so that a transaction
    never fails; the clock moves when somebody sleeps. *)
Record State : Type := {
  locks : gmap string LockModel;
  utcnow : Z;
  rest : Rest
}.

Definition put (key : string) (lock : LockModel) (s : State) : State :=
  {| locks := <[key := lock]> (locks s); utcnow := utcnow s; rest := rest s |}.

Definition delete_lock (key : string) (s : State) : State :=
  {| locks := delete key (locks s); utcnow := utcnow s; rest := rest s |}.

(** [time.sleep]. *)
Definition sleep (milliseconds : Z) (s : State) : State :=
  {| locks := locks s; utcnow := utcnow s + milliseconds; rest := rest s |}.

(** The attributes of a lock object. *)
Record DbLock : Type := {
  _lock_key : string;
  _acquired_lock : option LockModel;
  _try_count : Z;
  _sleep_seconds : Z;
  _expire_timedelta : Z
}.

Definition __init__ (lock_name : string) (try_count sleep_seconds : Z)
    (expire_milliseconds : option Z) : DbLock :=
  {| _lock_key := lock_name;
     _acquired_lock := None;
     _try_count := try_count;
     _sleep_seconds := sleep_seconds;
     _expire_timedelta := default __MAX_LOCK_MILLISECONDS expire_milliseconds |}.

Definition with_acquired_lock (self : DbLock) (lock : option LockModel)
  : DbLock :=
  {| _lock_key := _lock_key self;
     _acquired_lock := lock;
     _try_count := _try_count self;
     _sleep_seconds := _sleep_seconds self;
     _expire_timedelta := _expire_timedelta self |}.

(** [TryLock], the transaction of [AcquireLock]; [data] is the
    [lock_data] of the call. *)
Definition TryLock (self : DbLock) (data : Data) (s : State)
  : option LockModel * State :=
  let now_time := utcnow s in
  let expire_time' := now_time + _expire_timedelta self in
  match locks s !! _lock_key self with
  | None =>
      let lock := {| expire_time := expire_time'; lock_data := data |} in
      (Some lock, put (_lock_key self) lock s)
  | Some lock =>
      if bool_decide (expire_time lock < now_time) then
        let lock := {| expire_time := expire_time';
                       lock_data := lock_data lock |} in
        (Some lock, put (_lock_key self) lock s)
      else (None, s)
  end.

(** The loop of [AcquireLock], entered with [_acquired_lock] unset. It
    may go on for ever when [_try_count] is 0: [None] is the loop still
    running when the fuel is spent. *)
Fixpoint acquire_loop (fuel : nat) (self : DbLock) (data : Data)
    (trials : Z) (s : State) : option (option LockModel * State) :=
  if bool_decide (_try_count self = 0) || bool_decide (trials < _try_count self)
  then
    match fuel with
    | O => None
    | S fuel' =>
        match TryLock self data s with
        | (Some lock, s') => Some (Some lock, s')
        | (None, s') =>
            acquire_loop fuel' self data (trials + 1)
              (sleep (_sleep_seconds self) s')
        end
    end
  else Some (None, s).

(** [AcquireLock]: the outcome, the lock object and the state after it. *)
Definition AcquireLock (fuel : nat) (self : DbLock) (data : option Data)
    (s : State) : option (outcome Data * DbLock * State) :=
  let data := default no_data data in
  match acquire_loop fuel self data 0 s with
  | None => None
  | Some (None, s') =>
      Some (Raised LockAcquireFailure, with_acquired_lock self None, s')
  | Some (Some lock, s') =>
      Some (Returned (lock_data lock),
            with_acquired_lock self (Some lock), s')
  end.

(** [ReleaseLock]: the lock object and the state after it. *)
Definition ReleaseLock (self : DbLock) (data : option Data) (s : State)
  : DbLock * State :=
  match _acquired_lock self with
  | Some _ =>
      match data with
      | Some data =>
          let lock := {| expire_time := datetime_min; lock_data := data |} in
          (with_acquired_lock self (Some lock), put (_lock_key self) lock s)
      | None => (self, delete_lock (_lock_key self) s)
      end
  | None => (self, s)
  end.

(** [RunSynchronous]: the release is in a [finally]. The function run
    under the lock may itself wait for locks: [None] is one of these
    waits going on when the fuel is spent. *)
Definition RunSynchronous {A} (fuel : nat) (self : DbLock)
    (run_func : State -> option (outcome A * State)) (s : State)
  : option (outcome A * DbLock * State) :=
  match AcquireLock fuel self None s with
  | None => None
  | Some (Raised e, self, s) =>
      let (self, s) := ReleaseLock self None s in
      Some (Raised e, self, s)
  | Some (Returned _, self, s) =>
      match run_func s with
      | None => None
      | Some (r, s) =>
          let (self, s) := ReleaseLock self None s in
          Some (r, self, s)
      end
  end.

End Locks.

Arguments expire_time {Data} _.
Arguments lock_data {Data} _.
Arguments locks {Data Rest} _.
Arguments utcnow {Data Rest} _.
Arguments rest {Data Rest} _.
Arguments _lock_key {Data} _.
Arguments _acquired_lock {Data} _.
Arguments _try_count {Data} _.
Arguments _sleep_seconds {Data} _.
Arguments _expire_timedelta {Data} _.

End DbLock.

(* ===================================================================== *)
(** * core/rule_engine.py: the world of the offline process *)
(* ===================================================================== *)

Module offline.

(** The world of the registration paths and, of the configuration
    entities that the offline process keeps: whether
    ['offline_run_in_progress'] exists, the [config_value] of
    ['offline_namespace'] when it exists, and the registration keys that
    the [config_value] of ['offline_registrations_to_ready'] lists (its
    comma-separated form is not modelled, as for
    ['offline_reprocess_tags'] in [World]); and the number of calls of
    [uuid.uuid4()] so far. *)
Record OfflineWorld : Type := {
  world : World;
  offline_run_in_progress : bool;
  offline_namespace : option string;
  offline_registrations_to_ready : list nat;
  uuid4_calls : nat
}.

Definition with_world (s : OfflineWorld) (w : World) : OfflineWorld :=
  {| world := w;
     offline_run_in_progress := offline_run_in_progress s;
     offline_namespace := offline_namespace s;
     offline_registrations_to_ready := offline_registrations_to_ready s;
     uuid4_calls := uuid4_calls s |}.

Definition with_run_in_progress (s : OfflineWorld) (b : bool) : OfflineWorld :=
  {| world := world s;
     offline_run_in_progress := b;
     offline_namespace := offline_namespace s;
     offline_registrations_to_ready := offline_registrations_to_ready s;
     uuid4_calls := uuid4_calls s |}.

Definition with_registrations_to_ready (s : OfflineWorld) (l : list nat)
  : OfflineWorld :=
  {| world := world s;
     offline_run_in_progress := offline_run_in_progress s;
     offline_namespace := offline_namespace s;
     offline_registrations_to_ready := l;
     uuid4_calls := uuid4_calls s |}.

(** A step of the offline process. *)
Definition MO (A : Type) : Type := OfflineWorld -> outcome A * OfflineWorld.

Definition ret {A} (a : A) : MO A := fun s => (Returned a, s).

Definition raise {A} (e : Exception) : MO A := fun s => (Raised e, s).

Definition bind {A B} (c : MO A) (k : A -> MO B) : MO B :=
  fun s =>
    match c s with
    | (Returned a, s') => k a s'
    | (Raised e, s') => (Raised e, s')
    end.

(** A step of the registration paths, run in the offline world. *)
Definition lift {A} (c : M A) : MO A :=
  fun s => let (r, w) := c (world s) in (of_result r, with_world s w).

End offline.
Import offline.

Notation "'let+' x ':=' c 'in' k" := (offline.bind c (fun x => k))
  (at level 10, x pattern, c at level 100, k at level 200).

(* ===================================================================== *)
(** * core/rule_engine.py: _CheckPointed *)
(* ===================================================================== *)

Module _CheckPointed.
Section Decorator.

(** The values of [uuid.uuid4()], call after call. *)
Variable uuid4 : nat -> string.

(** [CreateNewNamespace]. *)
Definition CreateNewNamespace : MO string :=
  fun s =>
    let namespace := "__memcache_ns_" +:+ uuid4 (uuid4_calls s) in
    (Returned namespace,
     {| world := world s;
        offline_run_in_progress := offline_run_in_progress s;
        offline_namespace := Some namespace;
        offline_registrations_to_ready := offline_registrations_to_ready s;
        uuid4_calls := S (uuid4_calls s) |}).

(** The lines of [__call__] before the call of the decorated function:
    the namespace that it will be given. *)
Definition namespace_of_the_run : MO string :=
  fun s =>
    if offline_run_in_progress s then
      (* The previous offline run exited abnormally. *)
      CreateNewNamespace s
    else
      let s := with_run_in_progress s true in
      match offline_namespace s with
      | None => CreateNewNamespace s
      | Some config_value => (Returned config_value, s)
      end.

(** [__call__]. What the decorated function raises passes through, and
    the entity of the run in progress stays. *)
Definition __call__ {A} (_run_function : string -> MO A) : MO A :=
  let+ namespace := namespace_of_the_run in
  let+ result := _run_function namespace in
  let+ _ := (fun s => (Returned (), with_run_in_progress s false)) in
  offline.ret result.

End Decorator.
End _CheckPointed.

(** A decorated function that leaves the entities of the check point and
    the source of identifiers alone. *)
Definition keeps_the_check_point {A} (f : string -> MO A) : Prop :=
  forall namespace s,
    let s' := (f namespace s).2 in
    offline_run_in_progress s' = offline_run_in_progress s /\
    offline_namespace s' = offline_namespace s /\
    uuid4_calls s' = uuid4_calls s.

(** The stored namespace was made from an identifier already drawn. *)
Definition namespace_was_drawn (uuid4 : nat -> string) (s : OfflineWorld)
  : Prop :=
  forall namespace, offline_namespace s = Some namespace ->
    exists i, (i < uuid4_calls s)%nat /\
              namespace = "__memcache_ns_" +:+ uuid4 i.

(* ===================================================================== *)
(** * core/rule_engine.py: the update of the rules of an entity *)
(* ===================================================================== *)

(** The tasks that [UpdateProgramOrActivityRules] defers. *)
Inductive Deferred : Type :=
| Defer_ReprocessRegistrations (program_or_activity_key : string)
| Defer_ProcessRuleUpdate (rule_configs : list RuleConfig)
    (program_or_activity_key : string).

(** The parameters of a rule configuration are a dictionary: two of them
    are compared as dictionaries. *)
Definition parameters_dict (rule_config : RuleConfig) : gmap string ParamValue :=
  list_to_map (parameters rule_config).

(** The loop of [UpdateProgramOrActivityRules] over the current rules:
    what is left of [rule_config_map], [new_rule_configs] and
    [modified_old_rules]. *)
Fixpoint update_loop (current_rules : list RuleConfig)
    (rule_config_map : gmap string RuleConfig)
    (new_rule_configs modified_old_rules : list RuleConfig)
  : gmap string RuleConfig * list RuleConfig * list RuleConfig :=
  match current_rules with
  | [] => (rule_config_map, new_rule_configs, modified_old_rules)
  | current_rule_config :: rest =>
      match rule_config_map !! rule_name current_rule_config with
      | Some new_rule_config =>
          let rule_config_map :=
            delete (rule_name current_rule_config) rule_config_map in
          if decide (parameters_dict current_rule_config <>
                     parameters_dict new_rule_config) then
            (* The rule is being updated. *)
            update_loop rest rule_config_map
              (new_rule_configs ++ [new_rule_config])
              (modified_old_rules ++ [current_rule_config])
          else
            (* Rule is unchanged, use the current config. *)
            update_loop rest rule_config_map
              (new_rule_configs ++ [current_rule_config])
              modified_old_rules
      | None =>
          (* The rule is being deleted. *)
          update_loop rest rule_config_map new_rule_configs
            (modified_old_rules ++ [current_rule_config])
      end
  end.

(** [UpdateProgramOrActivityRules], on the rules and the key of the
    program or activity: the rules set on the entity and the task
    deferred, if any. *)
Definition UpdateProgramOrActivityRules
    (program_or_activity_rules : list RuleConfig)
    (program_or_activity_key : string) (rule_configs : list RuleConfig)
  : list RuleConfig * option Deferred :=
  let rule_config_map : gmap string RuleConfig :=
    foldl (fun m rc => <[rule_name rc := rc]> m) ∅ rule_configs in
  let '(rule_config_map, new_rule_configs, modified_old_rules) :=
    update_loop program_or_activity_rules rule_config_map [] [] in
  let values := (map_to_list rule_config_map).*2 in
  let new_rule_configs := new_rule_configs ++ values in
  let deferred :=
    if bool_decide (values <> []) then
      Some (Defer_ReprocessRegistrations program_or_activity_key)
    else if bool_decide (modified_old_rules <> []) then
      Some (Defer_ProcessRuleUpdate modified_old_rules
              program_or_activity_key)
    else None in
  (new_rule_configs, deferred).

(** The configuration given for a rule name: the given configurations
    are put in a dictionary by name, where the last of a name stays. *)
Definition given_config (rule_configs : list RuleConfig) (name : string)
  : option RuleConfig :=
  foldl (fun m rc => <[rule_name rc := rc]> m)
        (∅ : gmap string RuleConfig) rule_configs !! name.

(** What becomes of a current rule: the configuration given for its
    name when the parameters differ, the rule itself when they are the
    same dictionary, and nothing when no configuration of its name is
    given. *)
Definition updated_rule (rule_configs : list RuleConfig)
    (current_rule_config : RuleConfig) : option RuleConfig :=
  match given_config rule_configs (rule_name current_rule_config) with
  | Some new_rule_config =>
      if decide (parameters_dict current_rule_config <>
                 parameters_dict new_rule_config)
      then Some new_rule_config
      else Some current_rule_config
  | None => None
  end.

(** A current rule whose parameters are changed, or of whose name no
    configuration is given. *)
Definition changed_or_removed (rule_configs : list RuleConfig)
    (current_rule_config : RuleConfig) : bool :=
  match given_config rule_configs (rule_name current_rule_config) with
  | Some new_rule_config =>
      bool_decide (parameters_dict current_rule_config <>
                   parameters_dict new_rule_config)
  | None => true
  end.

(** ** The deferred tasks *)

(** [_ReprocessRegistrations]. *)
Definition _ReprocessRegistrations (program_or_activity_key : string)
  : MO unit :=
  lift (SaveRuleTagsToReprocess
          {[ _GetRuleTagForEntity program_or_activity_key ]}).

(** [TagsToReprocessOnChange] of the rule classes: the default of
    [RuleRegister], the one of [RuleRegisterResource], and the overrides
    of [MaxNumberRegisteredByActivity] and [ManagerApproval]. *)
Definition RuleRegister_TagsToReprocessOnChange (rule_config : RuleConfig)
  : outcome (list string) := Returned [].

Definition RuleRegisterResource_TagsToReprocessOnChange
    (rule_config : RuleConfig) : outcome (list string) :=
  Raised NotImplementedError.

Definition MaxNumberRegisteredByActivity_TagsToReprocessOnChange
    (rule_config : RuleConfig) : outcome (list string) :=
  Returned [key rule_config +:+ MaxNumberRegisteredBy._KEY_PREFIX].

Definition ManagerApproval_TagsToReprocessOnChange (rule_config : RuleConfig)
  : outcome (list string) := Returned [key rule_config].

(** The class method by the name of the class, for the classes of
    [rules_impl]; [None] where [GetRule] finds no class. *)
Definition TagsToReprocessOnChange (rule_name : string)
  : option (RuleConfig -> outcome (list string)) :=
  if bool_decide (rule_name = "MaxNumberRegisteredByActivity") then
    Some MaxNumberRegisteredByActivity_TagsToReprocessOnChange
  else if bool_decide (rule_name ∈ ["MaxNumberRegisteredBy";
                                    "MaxNumberRegisteredByAccessPoint";
                                    "MaxNumberRegisteredByAccessPointTag"]) then
    Some RuleRegisterResource_TagsToReprocessOnChange
  else if bool_decide (rule_name = "ManagerApproval") then
    Some ManagerApproval_TagsToReprocessOnChange
  else if bool_decide (rule_name ∈ ["TimeFrameRegistrationByActivity";
                                    "TimeFrameRegistrationByAccessPointTag";
                                    "TimeCancelByActivity";
                                    "TimeCancelByAccessPointTag";
                                    "EmployeeTypeRestriction";
                                    "LockPastActivity"]) then
    Some RuleRegister_TagsToReprocessOnChange
  else None.

(** The loop of [_ProcessRuleUpdate]. The method of a class that
    [GetRule] does not find is an [AttributeError]. *)
Fixpoint reprocess_rule_tags (rule_configs : list RuleConfig)
  : outcome (list string) :=
  match rule_configs with
  | [] => Returned []
  | rule_config :: rest =>
      match TagsToReprocessOnChange (rule_name rule_config) with
      | None => Raised (Other AttributeError)
      | Some method =>
          match method rule_config with
          | Raised e => Raised e
          | Returned tags =>
              match reprocess_rule_tags rest with
              | Raised e => Raised e
              | Returned l => Returned (tags ++ l)
              end
          end
      end
  end.

(** [_ProcessRuleUpdate]. *)
Definition _ProcessRuleUpdate (rule_configs : list RuleConfig) : MO unit :=
  let+ tags := (fun s => (reprocess_rule_tags rule_configs, s)) in
  lift (SaveRuleTagsToReprocess (list_to_set tags)).

(** Running a deferred task. *)
Definition run_deferred (task : Deferred) : MO unit :=
  match task with
  | Defer_ReprocessRegistrations program_or_activity_key =>
      _ReprocessRegistrations program_or_activity_key
  | Defer_ProcessRuleUpdate rule_configs _ => _ProcessRuleUpdate rule_configs
  end.

(* ===================================================================== *)
(** * core/rule_engine.py: the offline process under its locks *)
(* ===================================================================== *)

Module locked.

(** The offline world with the lock entities and the clock. The locks
    of the rule engine carry no data. *)
Definition Locked : Type := DbLock.State unit OfflineWorld.

Definition with_rest (s : Locked) (o : OfflineWorld) : Locked :=
  {| DbLock.locks := DbLock.locks s;
     DbLock.utcnow := DbLock.utcnow s;
     DbLock.rest := o |}.

(** A step of the offline process that may wait for locks: [None] is
    a wait still going on when the fuel is spent. *)
Definition ML (A : Type) : Type := Locked -> option (outcome A * Locked).

Definition ret {A} (a : A) : ML A := fun s => Some (Returned a, s).

Definition bind {A B} (c : ML A) (k : A -> ML B) : ML B :=
  fun s =>
    match c s with
    | None => None
    | Some (Returned a, s') => k a s'
    | Some (Raised e, s') => Some (Raised e, s')
    end.

(** A step of the offline world, run beside the locks. *)
Definition lift {A} (c : MO A) : ML A :=
  fun s => let (r, o) := c (DbLock.rest s) in Some (r, with_rest s o).

(** [utils.Lock(lock_name)], with the defaults of its constructor. *)
Definition Lock (lock_name : string) : DbLock.DbLock unit :=
  DbLock.__init__ unit lock_name 0 DbLock.__SLEEP_SECONDS None.

(** [lock.RunSynchronous(run_func)]; the lock object is dropped after
    the call. *)
Definition RunSynchronous {A} (fuel : nat) (lock : DbLock.DbLock unit)
    (run_func : ML A) : ML A :=
  fun s =>
    match DbLock.RunSynchronous unit () OfflineWorld fuel lock run_func s with
    | None => None
    | Some (r, _, s') => Some (r, s')
    end.

(** [RegistrationLock]. *)
Definition RegistrationLock (appengine_user activity_key : string)
  : DbLock.DbLock unit :=
  Lock (appengine_user +:+ ":" +:+ activity_key).

End locked.
Import locked.

Notation "'let^' x ':=' c 'in' k" := (locked.bind c (fun x => k))
  (at level 10, x pattern, c at level 100, k at level 200).

(* ===================================================================== *)
(** * core/rule_engine.py: the waitlisted registrations to reprocess *)
(* ===================================================================== *)

Definition query_batch : nat := 20.
Definition write_batch : nat := 10.

(** The query of step 1: the processed, waitlisted and active
    registrations one of whose affecting rule tags is in the bucket. *)
Definition waiting_for_tags (tags_bucket : list string)
    (reg : UserRegistration) : bool :=
  existsb (fun tag => bool_decide (tag ∈ tags_bucket))
          (reg_affecting_rule_tags reg) &&
  bool_decide (reg_confirmed reg = PROCESSED) &&
  bool_decide (reg_status reg = WAITLISTED) &&
  bool_decide (reg_active reg = ACTIVE).

(** The [put] of the entity of the tags to reprocess. *)
Definition put_reprocess_tags (tags : list string) (o : OfflineWorld)
  : OfflineWorld :=
  with_world o
    {| datastore := datastore (world o); cache := cache (world o);
       PREDICTION_MODE := PREDICTION_MODE (world o);
       offline_reprocess_tags := list_to_set tags;
       effects := effects (world o) |}.

(** Step 1, the loop [while tags_bucket]. [registrations_entity] is the
    entity of the registrations to ready once it has been fetched, with
    the keys its [config_value] lists. *)
Fixpoint query_registrations (fuel : nat) (tags : list string)
    (registrations_entity : option (list nat)) (performed_processing : bool)
  : ML (option (list nat) * bool) :=
  fun s =>
    match take query_batch tags with
    | [] => Some (Returned (registrations_entity, performed_processing), s)
    | tags_bucket =>
        match fuel with
        | O => None
        | S fuel =>
            let o := DbLock.rest s in
            let new_registrations :=
              (run_query (waiting_for_tags tags_bucket)
                         (datastore (world o))).*1 in
            let '(registrations_entity, o) :=
              match new_registrations with
              | [] => (registrations_entity, o)
              | _ :: _ =>
                  let old_registrations : gset nat :=
                    list_to_set
                      (default (offline_registrations_to_ready o)
                               registrations_entity) in
                  let new_registrations :=
                    elements (list_to_set new_registrations ∪ old_registrations) in
                  (Some new_registrations,
                   with_registrations_to_ready o new_registrations)
              end in
            (* Remove the tags that we have completed querying. *)
            let tags := drop query_batch tags in
            let o := put_reprocess_tags tags o in
            query_registrations fuel tags registrations_entity true
              (with_rest s o)
        end
    end.

(** [MakeWaitingReady], on the entity fetched under [key]. *)
Definition MakeWaitingReady (key : nat) (register : UserRegistration)
  : M unit :=
  if bool_decide (reg_status register = WAITLISTED) &&
     bool_decide (reg_confirmed register = PROCESSED) &&
     bool_decide (reg_active register = ACTIVE)
  then db_commit <[key := set_confirmed READY register]>
  else rule_engine.ret ().

(** The loop [for register_key_str in registrations_bucket]. *)
Fixpoint ready_bucket (fuel : nat) (registrations_bucket : list nat)
  : ML unit :=
  match registrations_bucket with
  | [] => locked.ret ()
  | register_key :: rest =>
      fun s =>
        match datastore (world (DbLock.rest s)) !! register_key with
        | None => ready_bucket fuel rest s
        | Some waiting =>
            let lock :=
              RegistrationLock (reg_user waiting) (reg_activity waiting) in
            (let^ _ :=
               RunSynchronous fuel lock
                 (locked.lift
                    (offline.lift (MakeWaitingReady register_key waiting))) in
             ready_bucket fuel rest) s
        end
  end.

(** Step 2, the loop [while registrations_bucket]. *)
Fixpoint ready_registrations (fuel : nat) (registrations : list nat)
    (performed_processing : bool) : ML bool :=
  fun s =>
    match take write_batch registrations with
    | [] => Some (Returned performed_processing, s)
    | registrations_bucket =>
        match fuel with
        | O => None
        | S fuel =>
            (let^ _ := ready_bucket fuel registrations_bucket in
             (* Checkpoint work after a batch is updated. *)
             let registrations := drop write_batch registrations in
             let^ _ :=
               locked.lift (fun o =>
                 (Returned (),
                  with_registrations_to_ready o registrations)) in
             ready_registrations fuel registrations true) s
        end
    end.

(** [_ReadyRegistrationsInWaitingUnsafe]. *)
Definition _ReadyRegistrationsInWaitingUnsafe (fuel : nat) : ML bool :=
  fun s =>
    let tags :=
      elements (offline_reprocess_tags (world (DbLock.rest s))) in
    (let^ step1 := query_registrations fuel tags None false in
     fun s =>
       let registrations_entity := fst step1 in
       let performed_processing := snd step1 in
       let registrations :=
         default (offline_registrations_to_ready (DbLock.rest s))
                 registrations_entity in
       ready_registrations fuel registrations performed_processing s) s.

(** A registration that step 1 and step 2 make READY. *)
Definition is_waiting (reg : UserRegistration) : bool :=
  bool_decide (reg_status reg = WAITLISTED) &&
  bool_decide (reg_confirmed reg = PROCESSED) &&
  bool_decide (reg_active reg = ACTIVE).

(** The lock of every stored registration is free. *)
Definition registration_locks_free (s : Locked) : Prop :=
  forall k reg,
    datastore (world (DbLock.rest s)) !! k = Some reg ->
    DbLock.locks s !!
      DbLock._lock_key (RegistrationLock (reg_user reg) (reg_activity reg))
    = None.

(** The registrations that the query of step 1 finds for some tags. *)
Definition found_waiting (tags : list string) (ds : Datastore) : gset nat :=
  list_to_set (run_query (waiting_for_tags tags) ds).*1.

(** The offline world after step 1: the tags are used up, and the entity
    of the registrations to ready lists [ledger]. *)
Definition after_step1 (tags : list string) (ledger : list nat)
    (o : OfflineWorld) : OfflineWorld :=
  with_registrations_to_ready
    (if bool_decide (tags = []) then o else put_reprocess_tags [] o) ledger.

(** What step 2 does to the registration stored under [k], when it goes
    through the keys [l]. *)
Definition make_ready (l : list nat) (k : nat) (reg : UserRegistration)
  : UserRegistration :=
  if is_waiting reg && bool_decide (k ∈ l) then set_confirmed READY reg
  else reg.

(** Inputs for the offline process: identifiers that differ call after
    call, and a waitlisted registration that a rule tagged [tag]
    affected. *)
Fixpoint uuid4_example (n : nat) : string :=
  match n with
  | O => ""
  | S n => "u" +:+ uuid4_example n
  end.

Definition waiting_registration (user tag : string) : UserRegistration :=
  {| reg_user := user;
     reg_activity := "activity";
     reg_program := "program";
     reg_queue_time := 5;
     reg_creator := user;
     reg_schedule_list := [];
     reg_access_point_list := [];
     reg_status := WAITLISTED;
     reg_confirmed := PROCESSED;
     reg_active := ACTIVE;
     reg_online_unregistered := false;
     reg_affecting_rule_tags := [tag];
     reg_rule_tags := [tag];
     reg_affecting_rule_configs := [one_slot];
     reg_last_notified := None;
     reg_notify_email := true;
     reg_post_process_tasks := [];
     reg_force_status := false;
     reg_parent := None |}.

(* ===================================================================== *)
(** * core/rule_engine.py: the units of work of the offline process *)
(* ===================================================================== *)

(** The world with the tags of the [offline_reprocess_tags] entity set. *)
Definition with_reprocess_tags (w : World) (tags : gset string) : World :=
  {| datastore := datastore w; cache := cache w;
     PREDICTION_MODE := PREDICTION_MODE w;
     offline_reprocess_tags := tags;
     effects := effects w |}.

(** The filters of [_FetchAndProcessOffline]. *)
Definition ready_with_status (status : Status) (reg : UserRegistration)
  : bool :=
  bool_decide (reg_status reg = status) &&
  bool_decide (reg_confirmed reg = READY).

(** [UserRegistration.AddRegisterOrder]: by ['queue_time'], then by
    ['user'] (the order of the electronic addresses as strings). *)
Definition register_order (a b : UserRegistration) : bool :=
  bool_decide (reg_queue_time a < reg_queue_time b) ||
  bool_decide (reg_queue_time a = reg_queue_time b) &&
  bool_decide (String.le (reg_user a) (reg_user b)).

(** [q.get()] on an ordered query: the first entity in the order, and
    among entities that the order does not tell apart the first that the
    datastore lists. *)
Fixpoint first_in_order (le : UserRegistration -> UserRegistration -> bool)
    (l : list (nat * UserRegistration)) : option (nat * UserRegistration) :=
  match l with
  | [] => None
  | kr :: l =>
      match first_in_order le l with
      | None => Some kr
      | Some kr' => if le kr.2 kr'.2 then Some kr else Some kr'
      end
  end.

(** [models.Activity.GetLock]. *)
Definition Activity_GetLock (activity_key : string) : DbLock.DbLock unit :=
  Lock activity_key.

(** [_FetchAndProcessOffline]. [run_function] gets the key of the
    entity with the entity. *)
Definition _FetchAndProcessOffline (fuel : nat)
    (run_function : nat -> UserRegistration -> ML unit) (status : Status)
  : ML bool :=
  fun s =>
    let q := run_query (ready_with_status status)
                       (datastore (world (DbLock.rest s))) in
    match first_in_order register_order q with
    | None => Some (Returned false, s)  (* None found with said criteria. *)
    | Some (key, record) =>
        let ProcessFetchedRecord : ML unit :=
          fun s =>
            (* Query for the record again, check if the record hasn't
               changed. *)
            match datastore (world (DbLock.rest s)) !! key with
            | Some check_changed =>
                if ready_with_status status check_changed
                then run_function key check_changed s
                else Some (Returned (), s)
            | None => Some (Returned (), s)
            end in
        let ActivityLockWrapper : ML unit :=
          let reg_lock :=
            RegistrationLock (reg_user record) (reg_activity record) in
          let^ _ := RunSynchronous fuel reg_lock ProcessFetchedRecord in
          locked.ret () in
        (* We lock activity before processing any registration *)
        let lock := Activity_GetLock (reg_activity record) in
        (let^ _ := RunSynchronous fuel lock ActivityLockWrapper in
         locked.ret true) s
    end.

Section ProcessOffline.

(** [query_processor.PerformQueryWork(SYNC_SCHEDULES_WITH_CALENDAR)],
    the two functions that process a fetched registration, and the name
    of the lock of the tags to reprocess. *)
Variable PerformQueryWork : ML bool.
Variable _UnregisterOfflineUnsafe : nat -> UserRegistration -> ML unit.
Variable _RegisterOfflineUnsafe : nat -> UserRegistration -> ML unit.
Variable _REPROCESS_RULE_TAGS_KEY : string.

(** [_ReadyRegistrationsInWaiting]. *)
Definition _ReadyRegistrationsInWaiting (fuel : nat) : ML bool :=
  let lock :=
    DbLock.__init__ unit _REPROCESS_RULE_TAGS_KEY 0 DbLock.__SLEEP_SECONDS
      None in
  RunSynchronous fuel lock (_ReadyRegistrationsInWaitingUnsafe fuel).

(** [ProcessOfflineUnsafe]. *)
Definition ProcessOfflineUnsafe (fuel : nat) : ML bool :=
  (* Sync activity calendars *)
  let^ more := PerformQueryWork in
  if more : bool then locked.ret true
  else
    (* Process the unregistered entity first. *)
    let^ more :=
      _FetchAndProcessOffline fuel _UnregisterOfflineUnsafe UNREGISTERED in
    if more : bool then locked.ret true
    else
      (* Process the enrolled entity after unregistered. *)
      let^ more :=
        _FetchAndProcessOffline fuel _RegisterOfflineUnsafe ENROLLED in
      if more : bool then locked.ret true
      else
        let^ more := _ReadyRegistrationsInWaiting fuel in
        if more : bool then locked.ret true
        else
          (* Finally process the waitlisted entries. *)
          _FetchAndProcessOffline fuel _RegisterOfflineUnsafe WAITLISTED.

End ProcessOffline.

(** Nothing is left to the offline process: no registration is ready,
    no tag is to reprocess, and no waitlisted registration is listed. *)
Definition nothing_to_process (s : Locked) : Prop :=
  (forall k reg, datastore (world (DbLock.rest s)) !! k = Some reg ->
                 reg_confirmed reg <> READY) /\
  offline_reprocess_tags (world (DbLock.rest s)) = ∅ /\
  offline_registrations_to_ready (DbLock.rest s) = [].

(* ===================================================================== *)
(** * core/models.py: UserRegistration.isValid *)
(* ===================================================================== *)

(** What [isValid] reads of an [ActivitySchedule]. *)
Record ActivitySchedule : Type := {
  schedule_key : string;
  access_points : list string;
  access_points_secondary : list string
}.

(** The loop over [zip(self.schedule_list, self.access_point_list)].
    For a schedule that the map does not hold, [ap_key not in None] is a
    [TypeError]. *)
Fixpoint isValid_loop (schedule_ap_map : gmap string (list string))
    (pairs : list (string * string)) : outcome bool :=
  match pairs with
  | [] => Returned true
  | (schedule_key, ap_key) :: pairs =>
      match schedule_ap_map !! schedule_key with
      | None => Raised (Other TypeError)
      | Some ap_keys =>
          (* Check that user access point selection is still valid *)
          if bool_decide (ap_key ∉ ap_keys) then Returned false
          else isValid_loop schedule_ap_map pairs
      end
  end.

(** [UserRegistration.isValid]. *)
Definition isValid (self : UserRegistration)
    (schedules : list ActivitySchedule) : outcome bool :=
  let schedule_ap_map : gmap string (list string) :=
    foldl (fun m schedule =>
             <[schedule_key schedule :=
                 access_points schedule ++ access_points_secondary schedule]> m)
          ∅ schedules in
  isValid_loop schedule_ap_map
    (zip (reg_schedule_list self) (reg_access_point_list self)).

(** The pair of a schedule and an access point that a registration
    holds is offered by the schedules. *)
Definition offered (schedules : list ActivitySchedule)
    (pair : string * string) : Prop :=
  exists schedule,
    schedule ∈ schedules /\ schedule_key schedule = pair.1 /\
    (pair.2 ∈ access_points schedule \/
     pair.2 ∈ access_points_secondary schedule).

(** The steps of the registration paths keep their short names. *)
Import rule_engine.
Import installation.

(* ===================================================================== *)
(** * Properties *)
(* ===================================================================== *)
Ltac each_status :=
  repeat match goal with
         | s : option Status |- _ => destruct s as [[]|]
         | s : Status |- _ => destruct s
         end.

Lemma IsValidTransition_legal_edge initial target :
  IsValidTransition initial target = legal_edge initial target.
Proof. each_status; reflexivity. Qed.

Lemma IsValidTransition_elem initial s :
  IsValidTransition initial s = true <-> s ∈ VALID_TRANSITIONS initial.
Proof.
  unfold IsValidTransition. case_decide as Heq.
  - subst. split; [intros _ | done]. each_status; set_solver.
  - apply bool_decide_eq_true.
Qed.

Lemma IsValidTransition_None initial :
  IsValidTransition initial None = true <-> initial = None.
Proof. each_status; split; intros H; try done; discriminate H. Qed.

Lemma priority_lookup_valid initial s :
  IsValidTransition initial s = true ->
  exists p, priority_lookup (status_priority initial) s = Ok p.
Proof. each_status; vm_compute; intros; try discriminate; eauto. Qed.

Lemma status_stop_last initial :
  status_stop initial = [default None (last (VALID_TRANSITIONS initial))].
Proof. each_status; reflexivity. Qed.

Section Loops.

Variable GetRule : string -> option RuleClass.
Variable eval_context : EvalContext.
Variable initial_status target_status : option Status.
Variable is_online : bool.
Variable namespace : string.
Variable ds : Datastore.
Variable prediction : bool.

Abbreviation run_list := (evaluate_rule_list eval_context initial_status target_status ds prediction).
Abbreviation run_configs := (evaluate_rule_configs GetRule eval_context initial_status target_status is_online namespace ds prediction).

Lemma evaluate_rule_list_valid cfg rules acc m acc' b m' :
  run_list cfg rules acc m = (Ok (acc', b), m') ->
  Forall (valid_entry initial_status) acc -> Forall (valid_entry initial_status) acc'.
Proof.
  revert acc m. induction rules as [|rule rest IH]; intros acc m; simpl.
  - intros [= <- _ _]. done.
  - destruct (IsRegister (rule_class rule)); [|by apply IH].
    destruct (Evaluate _ _ _ _ _ _ _) as [[rr|e] m1]; [|done].
    destruct (IsValidTransition initial_status (rr_status rr)) eqn:Hv; simpl; [|done].
    intros Hrun Hacc.
    assert (Forall (valid_entry initial_status)
              (acc ++ [(cfg, rule, rr_status rr, default [] (rr_rule_tags rr),
                        default (Some 0) (rr_resource_remaining rr))])) as Hacc'.
    { apply Forall_app; split; [done|]. by constructor. }
    destruct (_ && _).
    + injection Hrun as <- _ _. done.
    + by eapply IH.
Qed.

Lemma evaluate_rule_list_config cfg rules acc m acc' b m' (P : RuleConfig -> Prop) :
  run_list cfg rules acc m = (Ok (acc', b), m') ->
  P cfg -> Forall (fun t => P (rtup_config t)) acc ->
  Forall (fun t => P (rtup_config t)) acc'.
Proof.
  intros Hrun Hcfg. revert acc m Hrun.
  induction rules as [|rule rest IH]; intros acc m; simpl.
  - intros [= <- _ _]. done.
  - destruct (IsRegister (rule_class rule)); [|by apply IH].
    destruct (Evaluate _ _ _ _ _ _ _) as [[rr|e] m1]; [|done].
    destruct (negb _); [done|].
    intros Hrun Hacc.
    assert (Forall (fun t => P (rtup_config t))
              (acc ++ [(cfg, rule, rr_status rr, default [] (rr_rule_tags rr),
                        default (Some 0) (rr_resource_remaining rr))])) as Hacc'.
    { apply Forall_app; split; [done|]. by constructor. }
    destruct (_ && _).
    + injection Hrun as <- _ _. done.
    + by eapply IH.
Qed.

Lemma CreateRules_known cfg ctx offline ns rules :
  CreateRules GetRule cfg ctx offline ns = Ok rules ->
  is_Some (GetRule (rule_name cfg)).
Proof. unfold CreateRules. destruct (GetRule _); [eauto | done]. Qed.

Lemma evaluate_rule_configs_valid configs acc m acc' m' :
  run_configs configs acc m = (Ok acc', m') ->
  Forall (valid_entry initial_status) acc -> Forall (valid_entry initial_status) acc'.
Proof.
  revert acc m. induction configs as [|cfg rest IH]; intros acc m; simpl.
  - intros [= <- _]. done.
  - destruct (CreateRules _ _ _ _ _) as [rules|e]; [|done].
    destruct (run_list _ _ _ _) as [[[acc1 b]|e] m1] eqn:Hl; [|done].
    intros Hrun Hacc.
    pose proof (evaluate_rule_list_valid _ _ _ _ _ _ _ Hl Hacc) as Hacc1.
    destruct b; [by injection Hrun as <- _ | by eapply IH].
Qed.

Lemma evaluate_rule_configs_known configs acc m acc' m' :
  run_configs configs acc m = (Ok acc', m') ->
  Forall (known_entry GetRule) acc -> Forall (known_entry GetRule) acc'.
Proof.
  revert acc m. induction configs as [|cfg rest IH]; intros acc m; simpl.
  - intros [= <- _]. done.
  - destruct (CreateRules _ _ _ _ _) as [rules|e] eqn:Hc; [|done].
    apply CreateRules_known in Hc.
    destruct (run_list _ _ _ _) as [[[acc1 b]|e] m1] eqn:Hl; [|done].
    intros Hrun Hacc.
    pose proof (evaluate_rule_list_config _ _ _ _ _ _ _
                  (fun c => is_Some (GetRule (rule_name c))) Hl Hc Hacc) as Hacc1.
    destruct b; [by injection Hrun as <- _ | by eapply IH].
Qed.

End Loops.

Lemma priority_lookup_precedence initial s :
  priority_lookup (status_priority initial) s =
  match precedence initial s with Some p => Ok p | None => Raise KeyError end.
Proof. each_status; reflexivity. Qed.

Lemma tuple_lt_false a b : tuple_lt a b = false -> (b.1 <= a.1)%nat.
Proof.
  unfold tuple_lt. intros H. apply orb_false_iff in H as [H _].
  apply Nat.ltb_ge in H. done.
Qed.

Lemma tuple_lt_true a b : tuple_lt a b = true -> (a.1 <= b.1)%nat.
Proof.
  unfold tuple_lt. intros H. apply orb_true_iff in H as [H|H].
  - apply Nat.ltb_lt in H. lia.
  - apply andb_true_iff in H as [H _]. apply bool_decide_eq_true in H. lia.
Qed.

Lemma tuple_max_spec others : forall first,
  tuple_max first others ∈ first :: others /\
  forall x, x ∈ first :: others -> (x.1 <= (tuple_max first others).1)%nat.
Proof.
  unfold tuple_max.
  induction others as [|y others IH]; intros first; simpl.
  - split; [constructor|]. intros x Hx.
    apply list_elem_of_singleton in Hx. by subst.
  - destruct (tuple_lt first y) eqn:Hlt.
    + destruct (IH y) as [Hin Hge]. split; [by constructor|].
      intros x Hx. apply elem_of_cons in Hx as [->|Hx]; [|by apply Hge].
      etrans; [by apply tuple_lt_true | apply Hge; constructor].
    + destruct (IH first) as [Hin Hge]. split.
      { apply elem_of_cons in Hin as [Hin|Hin]; [rewrite Hin; constructor|].
        by do 2 constructor. }
      intros x Hx. apply elem_of_cons in Hx as [->|Hx]; [apply Hge; constructor|].
      apply elem_of_cons in Hx as [->|Hx]; [|apply Hge; by constructor].
      etrans; [by apply tuple_lt_false | apply Hge; constructor].
Qed.

Lemma priority_tuples_spec sp rule_results l :
  priority_tuples sp rule_results = Ok l ->
  Forall2 (fun t pt => pt.2 = rtup_status t /\
                       priority_lookup sp (rtup_status t) = Ok pt.1)
          rule_results l.
Proof.
  revert l. induction rule_results as [|t rest IH]; intros l; simpl.
  - intros [= <-]. constructor.
  - destruct (priority_lookup sp (rtup_status t)) as [p|e] eqn:Hp; [|done].
    destruct (priority_tuples sp rest) as [l'|e]; [|done].
    intros [= <-]. constructor; [done | by apply IH].
Qed.

Lemma priority_tuples_valid initial rule_results :
  Forall (valid_entry initial) rule_results ->
  exists l, priority_tuples (status_priority initial) rule_results = Ok l.
Proof.
  induction 1 as [|t rest Ht _ [l IH]]; simpl; [eauto|].
  destruct (priority_lookup_valid _ _ Ht) as [p ->]. rewrite IH. eauto.
Qed.

Lemma combined_status_spec initial target rule_results :
  Forall (valid_entry initial) rule_results ->
  exists final,
    combined_status initial target rule_results = Ok final /\
    (rule_results = [] -> final = target) /\
    (rule_results <> [] ->
     final ∈ map rtup_status rule_results /\
     exists p, precedence initial final = Some p /\
       forall v, v ∈ map rtup_status rule_results ->
         exists q, precedence initial v = Some q /\ (q <= p)%nat).
Proof.
  intros Hvalid. unfold combined_status.
  destruct (priority_tuples_valid _ _ Hvalid) as [l Hl]. rewrite Hl.
  pose proof (priority_tuples_spec _ _ _ Hl) as Hall.
  destruct l as [|first others].
  - apply Forall2_nil_inv_r in Hall as ->. eexists; split; [done|]. split; done.
  - eexists; split; [done|]. split.
    { intros ->. by apply Forall2_nil_inv_l in Hall. }
    intros _.
    destruct (tuple_max_spec others first) as [Hin Hge].
    set (best := tuple_max first others) in *.
    assert (forall pt, pt ∈ first :: others ->
              pt.2 ∈ map rtup_status rule_results /\
              precedence initial pt.2 = Some pt.1) as Hpt.
    { intros pt Hpt. apply list_elem_of_lookup in Hpt as [i Hi].
      destruct (Forall2_lookup_r _ _ _ _ _ Hall Hi) as (t & Ht & Heq & Hlook).
      rewrite Heq. split.
      - apply list_elem_of_fmap. exists t. split; [done|].
        by eapply list_elem_of_lookup_2.
      - rewrite priority_lookup_precedence in Hlook.
        destruct (precedence initial (rtup_status t)); by simplify_eq. }
    destruct (Hpt best Hin) as [Hbest_in Hbest_p]. split; [done|].
    exists best.1. split; [done|].
    intros v Hv. apply list_elem_of_fmap in Hv as (t & -> & Ht).
    apply list_elem_of_lookup in Ht as [i Hi].
    destruct (Forall2_lookup_l _ _ _ _ _ Hall Hi) as (pt & Hpti & Heq & Hlook).
    assert (pt ∈ first :: others) as Hptin by by eapply list_elem_of_lookup_2.
    exists pt.1. split; [|by apply Hge].
    rewrite <- Heq. by apply Hpt.
Qed.

Section Evaluation.

Variable GetRule : string -> option RuleClass.
Variable eval_context : EvalContext.
Variable initial_status target_status : option Status.
Variable is_online : bool.
Variable namespace : string.
Variable ds : Datastore.
Variable prediction : bool.

Lemma _RulesEvaluate_Ok m res m' :
  _RulesEvaluate GetRule eval_context initial_status target_status
    is_online namespace ds prediction m = (Ok res, m') ->
  IsValidTransition initial_status target_status = true /\
  exists rule_results final,
    evaluate_rule_configs GetRule eval_context initial_status target_status
      is_online namespace ds prediction (_RuleGenerator eval_context) [] m
      = (Ok rule_results, m') /\
    combined_status initial_status target_status rule_results = Ok final /\
    res = bundle eval_context target_status rule_results final /\
    Forall (valid_entry initial_status) rule_results /\
    Forall (known_entry GetRule) rule_results.
Proof.
  unfold _RulesEvaluate.
  destruct (IsValidTransition initial_status target_status); simpl; [|done].
  destruct (evaluate_rule_configs _ _ _ _ _ _ _ _ _ _ _)
    as [[rule_results|e] m1] eqn:Hrun; [|done].
  destruct (combined_status _ _ _) as [final|e] eqn:Hc; [|done].
  intros [= <- <-]. split; [done|]. exists rule_results, final.
  repeat split; try done.
  - by eapply evaluate_rule_configs_valid.
  - by eapply evaluate_rule_configs_known.
Qed.

Lemma bundle_all_rule_results rule_results final :
  all_rule_results (bundle eval_context target_status rule_results final) =
  map (fun t => (rtup_rule t, rtup_status t)) rule_results.
Proof. unfold bundle. by destruct (ctx_force_status eval_context). Qed.

Lemma bundle_all_rule_configs rule_results final :
  all_rule_configs (bundle eval_context target_status rule_results final) =
  map rtup_config rule_results.
Proof. unfold bundle. by destruct (ctx_force_status eval_context). Qed.

Lemma bundle_verdicts rule_results final :
  verdicts (bundle eval_context target_status rule_results final) =
  map rtup_status rule_results.
Proof.
  unfold verdicts. rewrite bundle_all_rule_results, map_map. done.
Qed.

Lemma bundle_final_status rule_results final :
  final_status (bundle eval_context target_status rule_results final) =
  if ctx_force_status eval_context then target_status else final.
Proof. unfold bundle. by destruct (ctx_force_status eval_context). Qed.

End Evaluation.

Section Refusals.

Variable GetRule : string -> option RuleClass.
Variable eval_context : EvalContext.
Variable initial_status target_status : option Status.
Variable is_online : bool.
Variable namespace : string.
Variable ds : Datastore.
Variable prediction : bool.

Abbreviation run_list :=
  (evaluate_rule_list eval_context initial_status target_status ds prediction).
Abbreviation run_configs :=
  (evaluate_rule_configs GetRule eval_context initial_status target_status
     is_online namespace ds prediction).
Abbreviation unbroken := (no_break eval_context initial_status).
Abbreviation refuses :=
  (refuses_the_transition initial_status target_status ds prediction).

Lemma evaluate_rule_list_app cfg l1 l2 : forall acc m,
  run_list cfg (l1 ++ l2) acc m =
  match run_list cfg l1 acc m with
  | (Ok (acc1, false), m1) => run_list cfg l2 acc1 m1
  | r => r
  end.
Proof.
  induction l1 as [|rule rest IH]; intros acc m; simpl; [done|].
  destruct (IsRegister (rule_class rule)); [|apply IH].
  destruct (Evaluate _ _ _ _ _ _ _) as [[rr|e] m1]; [|done].
  destruct (negb _); [done|].
  destruct (_ && _); [done|]. apply IH.
Qed.

Lemma no_break_snoc acc t :
  unbroken acc ->
  bool_decide (rtup_status t ∈ status_stop initial_status) &&
  negb (ctx_force_status eval_context) = false ->
  unbroken (acc ++ [t]).
Proof.
  intros [Hf|Hall] Hb; [by left|].
  apply andb_false_iff in Hb as [Hb|Hb].
  - right. apply Forall_app. split; [done|]. constructor; [|done].
    by apply bool_decide_eq_false in Hb.
  - left. by destruct (ctx_force_status eval_context).
Qed.

Lemma break_snoc acc t :
  bool_decide (rtup_status t ∈ status_stop initial_status) &&
  negb (ctx_force_status eval_context) = true ->
  ~ unbroken (acc ++ [t]).
Proof.
  intros Hb. apply andb_true_iff in Hb as [Hin Hf].
  apply bool_decide_eq_true in Hin.
  intros [Hforce|Hall].
  - by rewrite Hforce in Hf.
  - apply Forall_app in Hall as [_ Hall].
    by apply Forall_cons in Hall as [Hall _].
Qed.

Lemma evaluate_rule_list_no_break cfg rules : forall acc m acc' b m',
  run_list cfg rules acc m = (Ok (acc', b), m') ->
  unbroken acc ->
  if b then ~ unbroken acc' else unbroken acc'.
Proof.
  induction rules as [|rule rest IH]; intros acc m acc' b m'; simpl.
  - by intros [= <- <- _].
  - destruct (IsRegister (rule_class rule)); [|apply IH].
    destruct (Evaluate _ _ _ _ _ _ _) as [[rr|e] m1]; [|done].
    destruct (negb _); [done|].
    destruct (_ && _) eqn:Hb.
    + intros [= <- <- _] _. by apply break_snoc.
    + intros Hrun Hacc. eapply IH; [done|]. by apply no_break_snoc.
Qed.

Lemma evaluate_rule_list_BadStateTransition cfg rules : forall acc m,
  fst (run_list cfg rules acc m) = Raise BadStateTransition <->
  exists rules_before rule rules_after acc1 m1,
    rules = rules_before ++ rule :: rules_after /\
    run_list cfg rules_before acc m = (Ok (acc1, false), m1) /\
    refuses rule m1.
Proof.
  induction rules as [|rule rest IH]; intros acc m.
  - split; [done|]. intros (rb & r & ra & ? & ? & Heq & _).
    by destruct rb.
  - split.
    + simpl. destruct (IsRegister (rule_class rule)) eqn:Hreg.
      * destruct (Evaluate _ _ _ _ _ _ _) as [[rr|e] m1] eqn:Hev.
        -- destruct (IsValidTransition initial_status (rr_status rr)) eqn:Hv;
             simpl.
           ++ destruct (_ && _) eqn:Hb; [done|].
              intros Hrun. apply IH in Hrun
                as (rb & r & ra & acc1 & m2 & -> & Hpre & Hbad).
              exists (rule :: rb), r, ra, acc1, m2. split; [done|].
              split; [|done]. simpl. by rewrite Hreg, Hev, Hv, Hb.
           ++ intros _. exists [], rule, rest, acc, m. split; [done|].
              split; [done|]. split; [done|]. by rewrite Hev.
        -- simpl. intros [= ->]. exists [], rule, rest, acc, m.
           split; [done|]. split; [done|]. split; [done|]. by rewrite Hev.
      * intros Hrun. apply IH in Hrun
          as (rb & r & ra & acc1 & m2 & -> & Hpre & Hbad).
        exists (rule :: rb), r, ra, acc1, m2. split; [done|].
        split; [|done]. simpl. by rewrite Hreg.
    + intros (rb & r & ra & acc1 & m1 & Heq & Hpre & Hreg & Hbad).
      rewrite Heq, evaluate_rule_list_app, Hpre. simpl. rewrite Hreg.
      destruct (Evaluate _ _ _ _ _ _ _) as [[rr|e] m2]; simpl in *.
      * by rewrite Hbad.
      * by rewrite Hbad.
Qed.

Lemma evaluate_rule_configs_app before rest : forall acc m acc0 m0,
  run_configs before acc m = (Ok acc0, m0) ->
  unbroken acc -> unbroken acc0 ->
  run_configs (before ++ rest) acc m = run_configs rest acc0 m0.
Proof.
  induction before as [|cfg before IH]; intros acc m acc0 m0; simpl.
  - by intros [= <- <-].
  - destruct (CreateRules _ _ _ _ _) as [rules|e]; [|done].
    destruct (run_list _ _ _ _) as [[[acc1 b]|e] m1] eqn:Hl; [|done].
    intros Hrun Hacc Hacc0.
    pose proof (evaluate_rule_list_no_break _ _ _ _ _ _ _ Hl Hacc) as Hb.
    destruct b.
    + injection Hrun as <- <-. done.
    + by eapply IH.
Qed.

Lemma evaluate_rule_configs_BadStateTransition configs : forall acc m,
  unbroken acc ->
  fst (run_configs configs acc m) = Raise BadStateTransition <->
  exists before cfg after acc0 m0,
    configs = before ++ cfg :: after /\
    run_configs before acc m = (Ok acc0, m0) /\
    unbroken acc0 /\
    (CreateRules GetRule cfg eval_context (negb is_online) namespace
     = Raise BadStateTransition \/
     exists rules,
       CreateRules GetRule cfg eval_context (negb is_online) namespace
       = Ok rules /\
       fst (run_list cfg rules acc0 m0) = Raise BadStateTransition).
Proof.
  induction configs as [|cfg rest IH]; intros acc m Hacc.
  - split; [done|]. intros (b & ? & ? & ? & ? & Heq & _). by destruct b.
  - split.
    + simpl.
      destruct (CreateRules _ _ _ _ _) as [rules|e] eqn:Hc.
      * destruct (run_list _ _ _ _) as [[[acc1 b]|e] m1] eqn:Hl.
        -- pose proof (evaluate_rule_list_no_break _ _ _ _ _ _ _ Hl Hacc)
             as Hb.
           destruct b; [done|].
           intros Hrun. apply IH in Hrun
             as (before & c & after & acc0 & m0 & -> & Hpre & Hacc0 & Hbad);
             [|done].
           exists (cfg :: before), c, after, acc0, m0. split; [done|].
           split; [|done]. simpl. by rewrite Hc, Hl.
        -- simpl. intros [= ->]. exists [], cfg, rest, acc, m.
           split; [done|]. split; [done|]. split; [done|]. right.
           exists rules. split; [done|]. by rewrite Hl.
      * simpl. intros [= ->]. exists [], cfg, rest, acc, m.
        split; [done|]. split; [done|]. split; [done|]. by left.
    + intros (before & c & after & acc0 & m0 & Heq & Hpre & Hacc0 & Hbad).
      rewrite Heq, (evaluate_rule_configs_app _ _ _ _ _ _ Hpre Hacc Hacc0).
      simpl. destruct Hbad as [-> | (rules & -> & Hbad)]; [done|].
      destruct (run_list _ _ _ _) as [[[acc1 b]|e] m1];
        simpl in Hbad |- *; congruence.
Qed.

Lemma _RulesEvaluate_BadStateTransition m :
  legal_edge initial_status target_status = true ->
  fst (_RulesEvaluate GetRule eval_context initial_status target_status
         is_online namespace ds prediction m) = Raise BadStateTransition <->
  (exists rule m2,
     reaches_rule GetRule eval_context initial_status target_status
       is_online namespace ds prediction m rule m2 /\
     refuses rule m2) \/
  (exists cfg rule_results m1,
     reaches_config GetRule eval_context initial_status target_status
       is_online namespace ds prediction m cfg rule_results m1 /\
     CreateRules GetRule cfg eval_context (negb is_online) namespace
     = Raise BadStateTransition).
Proof.
  intros Hlegal.
  assert (unbroken []) as Hnil by (right; constructor).
  assert (fst (_RulesEvaluate GetRule eval_context initial_status
                 target_status is_online namespace ds prediction m)
          = Raise BadStateTransition <->
          fst (run_configs (_RuleGenerator eval_context) [] m)
          = Raise BadStateTransition) as ->.
  { unfold _RulesEvaluate.
    rewrite IsValidTransition_legal_edge, Hlegal. simpl.
    destruct (run_configs _ _ _) as [[rule_results|e] m1] eqn:Hrun;
      [|simpl; split; congruence].
    assert (Forall (valid_entry initial_status) rule_results) as Hvalid
      by (eapply evaluate_rule_configs_valid; [done|constructor]).
    destruct (combined_status_spec _ target_status _ Hvalid)
      as (final & -> & _). simpl. by split. }
  rewrite (evaluate_rule_configs_BadStateTransition _ _ _ Hnil).
  split.
  - intros (before & cfg & after & acc0 & m0 & Heq & Hpre & Hacc0 & Hbad).
    assert (reaches_config GetRule eval_context initial_status target_status
              is_online namespace ds prediction m cfg acc0 m0) as Hreach
      by by exists before, after.
    destruct Hbad as [Hc | (rules & Hc & Hbad)].
    + right. by exists cfg, acc0, m0.
    + left. apply evaluate_rule_list_BadStateTransition in Hbad
        as (rb & rule & ra & acc1 & m1 & -> & Hl & Hbad).
      exists rule, m1. split; [|done].
      by exists cfg, acc0, m0, rb, ra, acc1.
  - intros [(rule & m2 & Hreach & Hbad) | (cfg & acc0 & m0 & Hreach & Hc)].
    + destruct Hreach as (cfg & acc0 & m0 & rb & ra & acc1 &
                          (before & after & Heq & Hpre & Hacc0) & Hc & Hl).
      exists before, cfg, after, acc0, m0. split; [done|]. split; [done|].
      split; [done|]. right. eexists. split; [done|].
      apply evaluate_rule_list_BadStateTransition.
      by exists rb, rule, ra, acc1, m2.
    + destruct Hreach as (before & after & Heq & Hpre & Hacc0).
      exists before, cfg, after, acc0, m0. split; [done|]. split; [done|].
      split; [done|]. by left.
Qed.

End Refusals.

Section Orchestrator.

Variable GetRule : string -> option RuleClass.
Variable eval_context : EvalContext.
Variable initial_status target_status : option Status.
Variable is_online : bool.
Variable namespace : string.
Variable ds : Datastore.
Variable prediction : bool.

Abbreviation evaluate :=
  (_RulesEvaluate GetRule eval_context initial_status target_status
     is_online namespace ds prediction).
Abbreviation run_list :=
  (evaluate_rule_list eval_context initial_status target_status ds prediction).
Abbreviation run_configs :=
  (evaluate_rule_configs GetRule eval_context initial_status target_status
     is_online namespace ds prediction).

(** Claim C2 (as amended). [_RulesEvaluate] raises [BadStateTransition]
    whenever (initial, target) is not a legal edge of the registration
    state machine; whenever it returns, the pair is a legal edge and
    the [final_status] is one of the allowed targets of the initial
    status; and for a legal pair it raises [BadStateTransition] exactly
    when its loops come to a registration rule object whose evaluation
    returns a verdict that is not a valid move from the initial status
    or raises [BadStateTransition] itself, or to a configuration for
    which [CreateRules] raises [BadStateTransition]. *)
Theorem C2_bad_transition_and_final_status (m : memcache.Memcache) :
  (legal_edge initial_status target_status = false ->
   fst (evaluate m) = Raise BadStateTransition) /\
  (forall res, fst (evaluate m) = Ok res ->
     legal_edge initial_status target_status = true /\
     final_status res ∈ VALID_TRANSITIONS initial_status) /\
  (legal_edge initial_status target_status = true ->
   fst (evaluate m) = Raise BadStateTransition <->
   (exists rule m2,
      reaches_rule GetRule eval_context initial_status target_status
        is_online namespace ds prediction m rule m2 /\
      refuses_the_transition initial_status target_status ds prediction
        rule m2) \/
   (exists rule_config rule_results m1,
      reaches_config GetRule eval_context initial_status target_status
        is_online namespace ds prediction m rule_config rule_results m1 /\
      CreateRules GetRule rule_config eval_context (negb is_online) namespace
      = Raise BadStateTransition)).
Proof.
  split; [|split].
  - intros Hillegal. unfold _RulesEvaluate.
    rewrite IsValidTransition_legal_edge, Hillegal. done.
  - intros res Hres. destruct (evaluate m) as [r m'] eqn:Hrun.
    simpl in Hres. subst r.
    apply _RulesEvaluate_Ok in Hrun
      as (Hlegal & rule_results & final & _ & Hc & -> & Hvalid & _).
    split; [by rewrite <- IsValidTransition_legal_edge|].
    rewrite bundle_final_status.
    destruct (ctx_force_status eval_context); [by apply IsValidTransition_elem|].
    destruct (combined_status_spec _ target_status _ Hvalid)
      as (final' & Hc' & Hnil & Hcons).
    rewrite Hc in Hc'. injection Hc' as <-.
    destruct rule_results as [|t rest].
    + rewrite Hnil by done. by apply IsValidTransition_elem.
    + destruct Hcons as [Hin _]; [done|].
      apply list_elem_of_fmap in Hin as (t' & -> & Ht').
      apply IsValidTransition_elem.
      by apply (proj1 (Forall_forall _ _) Hvalid).
  - apply _RulesEvaluate_BadStateTransition.
Qed.

(** Claim C4. When [force_status] is false, the [final_status] that
    [_RulesEvaluate] returns is the verdict of highest precedence (in the
    order of the transition table of the initial status) among the
    verdicts of the rules that were evaluated; if no rule was evaluated
    it is the requested target status. *)
Theorem C4_final_status_highest_priority (m : memcache.Memcache) (res : EvalResult) :
  ctx_force_status eval_context = false ->
  fst (evaluate m) = Ok res ->
  (verdicts res = [] -> final_status res = target_status) /\
  (verdicts res <> [] ->
   final_status res ∈ verdicts res /\
   exists p, precedence initial_status (final_status res) = Some p /\
     forall v, v ∈ verdicts res ->
       exists q, precedence initial_status v = Some q /\ (q <= p)%nat).
Proof.
  intros Hforce Hres. destruct (evaluate m) as [r m'] eqn:Hrun.
  simpl in Hres. subst r.
  apply _RulesEvaluate_Ok in Hrun
    as (_ & rule_results & final & _ & Hc & -> & Hvalid & _).
  rewrite bundle_verdicts, bundle_final_status, Hforce.
  destruct (combined_status_spec _ target_status _ Hvalid)
    as (final' & Hc' & Hnil & Hcons).
  rewrite Hc in Hc'. injection Hc' as <-.
  split.
  - intros Hno. apply Hnil. by eapply fmap_nil_inv.
  - intros Hsome. apply Hcons. by intros ->.
Qed.




(** Claim C8 (as amended). A verdict [None] is a legal move exactly
    when the initial status is [None]: a run that returned with a [None]
    verdict among its verdicts started from [None], and from any other
    initial status (UNREGISTERED included) a rule returning [None] makes
    the loop raise [BadStateTransition]. *)
Theorem C8_None_verdict :
  (IsValidTransition initial_status None = true <-> initial_status = None) /\
  (forall m res,
     fst (evaluate m) = Ok res -> None ∈ verdicts res ->
     initial_status = None) /\
  (forall rule_config rule rest rule_results m rule_result m1,
     IsRegister (rule_class rule) = true ->
     Evaluate (rule_class rule) (rule_self rule) initial_status
       target_status ds prediction m = (Ok rule_result, m1) ->
     rr_status rule_result = None ->
     initial_status <> None ->
     run_list rule_config (rule :: rest) rule_results m
     = (Raise BadStateTransition, m1)).
Proof.
  pose proof (IsValidTransition_None initial_status) as Hnone.
  split; [done|]. split.
  - intros m res Hres Hin. destruct (evaluate m) as [r m'] eqn:Hrun.
    simpl in Hres. subst r.
    apply _RulesEvaluate_Ok in Hrun
      as (_ & rule_results & final & _ & _ & -> & Hvalid & _).
    rewrite bundle_verdicts in Hin.
    apply list_elem_of_fmap in Hin as (t & Ht & Hin).
    apply Hnone. rewrite Ht.
    by apply (proj1 (Forall_forall _ _) Hvalid).
  - intros cfg rule rest acc m rr m1 Hreg Heval Hstatus Hinit. simpl.
    rewrite Hreg, Heval, Hstatus.
    destruct (IsValidTransition initial_status None) eqn:Hv; [|done].
    by apply IsValidTransition_None in Hv.
Qed.

End Orchestrator.


Section Counters.

Variable namespace : string.
Variable online : bool.
Variable prediction : bool.
Variable BuildContext : list (string * Z).

Abbreviation _Incr := (RuleRegisterResource._Incr namespace online prediction BuildContext).
Abbreviation _Regenerate := (RuleRegisterResource._Regenerate namespace online prediction BuildContext).
Abbreviation _Get := (RuleRegisterResource._Get namespace online prediction BuildContext).

(* The second attempt of [_Incr], when it has one. *)
Abbreviation retry key retries m :=
  (match retries with
   | O => RuleRegisterResource.raise_if_None None m
   | S retries' =>
       match _Incr key retries' m with
       | (Ok value, m'') => RuleRegisterResource.raise_if_None value m''
       | (Raise e, m'') => (Raise e, m'')
       end
   end) (only parsing).

Abbreviation stale key ks :=
  (match ks with
   | None => true
   | Some ks' => bool_decide (key ∈ ks')
   end) (only parsing).

Lemma _Incr_unfold key retries m :
  _Incr key retries m =
  if prediction then
    match _Get key _NUM_RETRIES m with
    | (Raise e, m') => (Raise e, m')
    | (Ok value, m') =>
        match value with
        | None => (Ok (Some 1), m')
        | Some v => (Ok (Some (if bool_decide (v = 0) then 1 else v + 1)), m')
        end
    end
  else
    match memcache.incr key namespace m with
    | (Some value, m1) => RuleRegisterResource.raise_if_None (Some value) m1
    | (None, m1) =>
        let existing_keys := memcache.get_init namespace m1 in
        let regenerated :=
          if stale key existing_keys then
            match _Regenerate m1 with
            | (Raise e, m2) => (Raise e, m2)
            | (Ok _, m2) => (Ok (memcache.get_init namespace m2), m2)
            end
          else (Ok existing_keys, m1) in
        match regenerated with
        | (Raise e, m2) => (Raise e, m2)
        | (Ok existing_keys, m2) =>
            if stale key existing_keys then retry key retries m2
            else
              match memcache.add key 1 namespace m2 with
              | (false, m3) => retry key retries m3
              | (true, m3) =>
                  RuleRegisterResource.raise_if_None (Some 1)
                    (memcache.set_init (default [] existing_keys ++ [key])
                       namespace m3)
              end
        end
    end.
Proof. destruct retries; reflexivity. Qed.

Lemma _Incr_unfold_real key retries m :
  prediction = false ->
  _Incr key retries m =
  match memcache.incr key namespace m with
  | (Some value, m1) => RuleRegisterResource.raise_if_None (Some value) m1
  | (None, m1) =>
      let existing_keys := memcache.get_init namespace m1 in
      let regenerated :=
        if stale key existing_keys then
          match _Regenerate m1 with
          | (Raise e, m2) => (Raise e, m2)
          | (Ok _, m2) => (Ok (memcache.get_init namespace m2), m2)
          end
        else (Ok existing_keys, m1) in
      match regenerated with
      | (Raise e, m2) => (Raise e, m2)
      | (Ok existing_keys, m2) =>
          if stale key existing_keys then retry key retries m2
          else
            match memcache.add key 1 namespace m2 with
            | (false, m3) => retry key retries m3
            | (true, m3) =>
                RuleRegisterResource.raise_if_None (Some 1)
                  (memcache.set_init (default [] existing_keys ++ [key])
                     namespace m3)
            end
      end
  end.
Proof. intros Hpred. rewrite _Incr_unfold. destruct prediction; done. Qed.

Lemma _Incr_unfold_prediction key retries m :
  prediction = true ->
  _Incr key retries m =
  match _Get key _NUM_RETRIES m with
  | (Raise e, m') => (Raise e, m')
  | (Ok value, m') =>
      match value with
      | None => (Ok (Some 1), m')
      | Some v => (Ok (Some (if bool_decide (v = 0) then 1 else v + 1)), m')
      end
  end.
Proof. intros Hpred. rewrite _Incr_unfold. destruct prediction; done. Qed.

Lemma raise_if_None_not_None value m :
  fst (RuleRegisterResource.raise_if_None value m) <> Ok None.
Proof. by destruct value. Qed.

Lemma retry_not_None key retries m :
  fst (retry key retries m) <> Ok None.
Proof.
  destruct retries as [|r]; simpl; [done|].
  destruct (_Incr key r m) as [[v|e] m']; [|done].
  apply raise_if_None_not_None.
Qed.

(** [_Incr] never returns [None]: where it could not increment, it
    raises. *)
Lemma _Incr_never_None key retries m :
  fst (_Incr key retries m) <> Ok None.
Proof.
  destruct (decide (prediction = false)) as [Hpred|Hpred].
  - rewrite _Incr_unfold_real by done.
    destruct (memcache.incr key namespace m) as [[v|] m1]; [by simpl|].
    cbv zeta.
    destruct (match memcache.get_init namespace m1 with
              | None => true | Some _ => _ end).
    + destruct (_Regenerate m1) as [[[]|e] m2]; [|done].
      destruct (match _ with None => true | Some _ => _ end);
        [apply retry_not_None|].
      destruct (memcache.add key 1 namespace m2) as [[] m3];
        [by simpl | apply retry_not_None].
    + destruct (match _ with None => true | Some _ => _ end);
        [apply retry_not_None|].
      destruct (memcache.add key 1 namespace m1) as [[] m3];
        [by simpl | apply retry_not_None].
  - apply not_false_is_true in Hpred.
    rewrite _Incr_unfold_prediction by done.
    destruct (_Get key _NUM_RETRIES m) as [[[v|]|e] m']; by simpl.
Qed.

(** Outside prediction mode the counter holds the value that [_Incr]
    returns. *)
Lemma _Incr_counter key retries : forall m n m1,
  prediction = false ->
  _Incr key retries m = (Ok (Some n), m1) ->
  memcache.get key namespace m1 = Some n.
Proof.
  intros m n m1 Hpred. revert m.
  assert (forall m v m', memcache.incr key namespace m = (Some v, m') ->
            memcache.get key namespace m' = Some v) as Hincr.
  { intros m v m'. unfold memcache.incr, memcache.get.
    destruct (memcache.available m) eqn:Hav; [|done].
    destruct (memcache.cells m !! (namespace, key)) as [v0|]; [|done].
    intros [= <- <-]. simpl. rewrite Hav. apply lookup_insert_eq. }
  assert (forall m ks m', memcache.add key 1 namespace m = (true, m') ->
            memcache.get key namespace (memcache.set_init ks namespace m') = Some 1)
    as Hadd.
  { intros m ks m'. unfold memcache.add, memcache.get, memcache.set_init.
    destruct (memcache.available m) eqn:Hav; [|done].
    destruct (memcache.cells m !! (namespace, key)) as [v0|]; [done|].
    intros [= <-]. simpl. rewrite Hav. simpl. rewrite Hav.
    apply lookup_insert_eq. }
  induction retries as [|r IH]; intros m; rewrite _Incr_unfold_real by done.
  all: destruct (memcache.incr key namespace m) as [[v|] m0] eqn:Hi;
       [simpl; intros [= <- <-]; by eapply Hincr|].
  all: cbv zeta.
  all: destruct (match memcache.get_init namespace m0 with None => true | Some _ => _ end);
       [destruct (_Regenerate m0) as [[[]|e] m2]; [|done]|].
  all: destruct (match _ with None => true | Some _ => _ end); simpl; try done.
  all: try (destruct (memcache.add key 1 namespace _) as [[] m3] eqn:Ha; simpl;
            [intros [= <- <-]; by eapply Hadd | try done]).
  all: destruct (_Incr key r _) as [[[v|]|e] m4] eqn:Hr; simpl; try done.
  all: intros [= <- <-]; by eapply IH.
Qed.

Lemma add_multi_unavailable mapping m :
  memcache.available m = false -> memcache.add_multi mapping namespace m = m.
Proof.
  intros Hav. induction mapping as [|[k v] rest IH]; simpl; [done|].
  unfold memcache.add at 1. by rewrite Hav.
Qed.

(** With the cache tier unusable [_Incr] raises, whatever the mode. *)
Lemma _Incr_unavailable key retries m :
  memcache.available m = false ->
  prediction = false ->
  exists e, _Incr key retries m = (Raise e, m) /\
            (e = AppengineError \/ e = AssertionError).
Proof.
  intros Hav Hpred.
  assert (forall m', m' = m ->
            (_Regenerate m' = (Ok (), m) \/ _Regenerate m' = (Raise AssertionError, m)))
    as Hregen.
  { intros m' ->. unfold RuleRegisterResource._Regenerate.
    assert (forall l, RuleRegisterResource.discount_self l = Raise AssertionError \/
                      exists l', RuleRegisterResource.discount_self l = Ok l') as Hd.
    { induction l as [|[k v] l IH]; simpl; [eauto|].
      case_bool_decide; [|by left].
      destruct IH as [-> | [l' ->]]; eauto. }
    destruct (online && negb prediction).
    - destruct (Hd BuildContext) as [-> | [l' ->]]; [by right|].
      left. rewrite add_multi_unavailable by done.
      unfold memcache.add_init. by rewrite Hav.
    - left. rewrite add_multi_unavailable by done.
      unfold memcache.add_init. by rewrite Hav. }
  induction retries as [|r IH]; rewrite _Incr_unfold_real by done.
  all: unfold memcache.incr, memcache.get, memcache.get_init;
       repeat (rewrite Hav; simpl).
  all: destruct (Hregen m eq_refl) as [-> | ->];
       [|by (simpl; exists AssertionError; split; [|right])].
  all: repeat (rewrite Hav; simpl).
  - by (exists AppengineError; split; [|left]).
  - destruct IH as (e & -> & He). by exists e.
Qed.

End Counters.

Section MaxPeople.

Variable max_people : Z.
Variable self : RuleBase.
Variable prediction : bool.
Variable BuildContext : list (string * Z).

Abbreviation _Incr :=
  (RuleRegisterResource._Incr (self_namespace self) (self_online self)
     prediction BuildContext).
Abbreviation _Evaluate :=
  (MaxNumberRegisteredBy._Evaluate max_people self prediction BuildContext).

(** Claim C3. For a target ENROLLED, with [n] the value that the
    increment returned: the verdict is ENROLLED when [n <= max_people]
    and WAITLISTED otherwise, with [resource_remaining = max_people - n]
    in both cases; outside prediction mode the counter holds [n] after
    the increment; the cache is left as the increment left it when the
    verdict is ENROLLED and whenever the rule is not offline; and an
    offline WAITLISTED verdict decrements the counter at once. *)
Theorem C3_max_people_verdict
    (initial_state : option Status) (key : option string)
    (m m1 : memcache.Memcache) (n : Z) :
  let k := MaxNumberRegisteredBy._NormalizeKey key in
  _Incr k _NUM_RETRIES m = (Ok (Some n), m1) ->
  let (r, m2) := _Evaluate initial_state (Some ENROLLED) key m in
  r = Ok {| rr_status :=
              Some (if bool_decide (n <= max_people) then ENROLLED
                    else WAITLISTED);
            rr_rule_tags := Some [self_key self +:+ k];
            rr_resource_remaining := Some (Some (max_people - n)) |} /\
  (prediction = false -> memcache.get k (self_namespace self) m1 = Some n) /\
  (n <= max_people -> m2 = m1) /\
  (self_offline self = false -> m2 = m1) /\
  (max_people < n -> self_offline self = true -> prediction = false ->
   memcache.get k (self_namespace self) m2 = Some (Z.max 0 (n - 1))).
Proof.
  intros k Hincr. unfold MaxNumberRegisteredBy._Evaluate. fold k.
  rewrite decide_True by done. rewrite Hincr.
  assert (prediction = false -> memcache.get k (self_namespace self) m1 = Some n)
    as Hcounter.
  { intros Hpred. by eapply _Incr_counter. }
  case_bool_decide as Hle.
  - repeat split; try done. lia.
  - repeat split; try done.
    + by intros ->.
    + intros _ -> Hpred.
      unfold RuleRegisterResource._Decr. rewrite Hpred. simpl.
      unfold memcache.decr. rewrite (Hcounter Hpred). simpl.
      unfold memcache.get in *. simpl.
      destruct (memcache.available m1); [|by specialize (Hcounter Hpred)].
      apply lookup_insert_eq.
Qed.

End MaxPeople.

(** Claim C3 at the second of two registrants for the one slot. *)
Lemma C3_witness :
  let self := RuleBase__init__ "r1" (request "b" 6 [one_slot] false) false ""
                [("max_people", PInt 1)] in
  let m := {| memcache.cells := {[ ("online_r1", "_") := 1 ]};
              memcache.inits := {[ "online_r1" := ["_"] ]};
              memcache.available := true |} in
  fst (MaxNumberRegisteredBy._Evaluate 1 self false [("_", 2)] None
         (Some ENROLLED) None m)
  = Ok {| rr_status := Some WAITLISTED;
          rr_rule_tags := Some ["r1_"];
          rr_resource_remaining := Some (Some (-1)) |}.
Proof.
  intros self m.
  pose proof (C3_max_people_verdict 1 self false [("_", 2)] None None m
                (memcache.with_cells m {[ ("online_r1", "_") := 2 ]}) 2) as H.
  simpl in H. specialize (H ltac:(vm_compute; reflexivity)).
  destruct (MaxNumberRegisteredBy._Evaluate _ _ _ _ _ _ _ _) as [r m2].
  destruct H as [-> _]. reflexivity.
Defined.

Lemma AtMostOneActive_insert ds k r' :
  AtMostOneActive ds ->
  (reg_active r' = ACTIVE ->
   forall k' r, ds !! k' = Some r -> k' <> k -> reg_active r = ACTIVE ->
     reg_user r = reg_user r' -> reg_activity r = reg_activity r' -> False) ->
  AtMostOneActive (<[k := r']> ds).
Proof.
  intros Hinv Hnew k1 k2 r1 r2 H1 H2 Ha1 Ha2 Hu Hact.
  destruct (decide (k1 = k)) as [->|Hk1], (decide (k2 = k)) as [->|Hk2];
    [done| | |].
  - rewrite lookup_insert_eq in H1. rewrite lookup_insert_ne in H2 by done.
    simplify_eq. exfalso. by eapply (Hnew Ha1 k2 r2).
  - rewrite lookup_insert_eq in H2. rewrite lookup_insert_ne in H1 by done.
    simplify_eq. exfalso. by eapply (Hnew Ha2 k1 r1).
  - rewrite lookup_insert_ne in H1, H2 by done. by eapply Hinv.
Qed.

Lemma AtMostOneActive_insert_inactive ds k r' :
  AtMostOneActive ds -> reg_active r' = INACTIVE ->
  AtMostOneActive (<[k := r']> ds).
Proof.
  intros Hinv Hin. apply AtMostOneActive_insert; [done|].
  intros Hact. by rewrite Hin in Hact.
Qed.

Lemma AtMostOneActive_delete ds k :
  AtMostOneActive ds -> AtMostOneActive (delete k ds).
Proof.
  intros Hinv k1 k2 r1 r2 H1 H2.
  apply lookup_delete_Some in H1 as [_ H1].
  apply lookup_delete_Some in H2 as [_ H2]. by eapply Hinv.
Qed.

Lemma run_query_elem q ds k r :
  (k, r) ∈ run_query q ds <-> ds !! k = Some r /\ q r = true.
Proof.
  unfold run_query. rewrite list_elem_of_In, List.filter_In, <- list_elem_of_In.
  by rewrite elem_of_map_to_list.
Qed.

Lemma same_store_refl w : same_store w w.
Proof. by split. Qed.

Lemma same_store_trans w1 w2 w3 :
  same_store w1 w2 -> same_store w2 w3 -> same_store w1 w3.
Proof. intros [H1 H1'] [H2 H2']. split; [congruence | auto]. Qed.

Lemma same_store_always w w' :
  same_store w w' -> AlwaysAtMostOneActive w -> AlwaysAtMostOneActive w'.
Proof. intros [Hds Heff] [H1 H2]. split; [by rewrite Hds | auto]. Qed.

Lemma lift_rule_same_store {A} (f : RuleM A) w :
  same_store w (lift_rule f w).2.
Proof.
  unfold lift_rule. destruct (f _ _ _) as [r m']. by split.
Qed.

Lemma emit_same_store e w :
  (forall ds, e <> DbCommit ds) -> same_store w (emit e w).2.
Proof.
  intros He. split; [done|]. simpl. intros ds Hin.
  apply elem_of_app in Hin as [Hin|Hin]; [done|].
  apply list_elem_of_singleton in Hin. by destruct (He ds).
Qed.

Lemma _RulesNotify_same_store final rule_results w :
  same_store w (_RulesNotify final rule_results w).2.
Proof.
  revert w. induction rule_results as [|[rule result] rest IH]; intros w.
  - apply same_store_refl.
  - simpl. unfold bind.
    pose proof (emit_same_store (ProcessOutcomeCall rule result final) w
                  ltac:(done)) as H1.
    destruct (emit _ w) as [[[]|e] w1]; [|done].
    pose proof (lift_rule_same_store
                  (ProcessOutcome (rule_class rule) (rule_self rule) result final)
                  w1) as H2.
    destruct (lift_rule _ w1) as [[[]|e] w2]; simpl in *.
    + eapply same_store_trans; [|apply IH].
      by eapply same_store_trans.
    + by eapply same_store_trans.
  Qed.

Lemma lift_rule_effects {A} (f : RuleM A) w :
  effects (lift_rule f w).2 = effects w.
Proof. unfold lift_rule. by destruct (f _ _ _). Qed.

Lemma _RulesNotify_effects final rule_results w :
  exists l, effects (_RulesNotify final rule_results w).2 = effects w ++ l.
Proof.
  revert w. induction rule_results as [|[rule result] rest IH]; intros w.
  - exists []. simpl. by rewrite app_nil_r.
  - simpl. unfold bind, emit.
    match goal with
    | |- context [lift_rule ?f ?w1] =>
        pose proof (lift_rule_effects f w1) as H2;
        destruct (lift_rule f w1) as [[[]|e] w2]
    end; simpl in H2.
    + destruct (IH w2) as [l ->]. rewrite H2, <- app_assoc. eauto.
    + simpl. rewrite H2. eauto.
Qed.

Lemma db_commit_always write w :
  AlwaysAtMostOneActive w -> AtMostOneActive (write (datastore w)) ->
  AlwaysAtMostOneActive (db_commit write w).2.
Proof.
  intros [H1 H2] Hnew. split; [done|]. simpl. intros ds Hin.
  apply elem_of_app in Hin as [Hin|Hin]; [auto|].
  apply list_elem_of_singleton in Hin. by simplify_eq.
Qed.

Lemma _GetActiveUserRegistration_spec ctx w :
  AtMostOneActive (datastore w) ->
  let q := ActiveQuery (activity_key (ctx_activity ctx)) (ctx_user ctx) in
  (_GetActiveUserRegistration ctx w = (Ok None, w) /\
   run_query q (datastore w) = []) \/
  (exists k r, _GetActiveUserRegistration ctx w = (Ok (Some (k, r)), w) /\
               run_query q (datastore w) = [(k, r)]).
Proof.
  intros Hinv q. unfold _GetActiveUserRegistration, bind, get_datastore. fold q.
  destruct (run_query q (datastore w)) as [|[k1 r1] [|[k2 r2] rest]] eqn:Hq.
  - by left.
  - right. by exists k1, r1.
  - exfalso.
    assert ((k1, r1) ∈ run_query q (datastore w)) as H1 by (rewrite Hq; set_solver).
    assert ((k2, r2) ∈ run_query q (datastore w)) as H2 by (rewrite Hq; set_solver).
    apply run_query_elem in H1 as [H1 Hq1]. apply run_query_elem in H2 as [H2 Hq2].
    unfold q, ActiveQuery in Hq1, Hq2.
    repeat (apply andb_true_iff in Hq1 as [Hq1 ?]).
    repeat (apply andb_true_iff in Hq2 as [Hq2 ?]).
    repeat match goal with H : bool_decide _ = true |- _ =>
             apply bool_decide_eq_true in H end.
    assert (k1 = k2) as -> by (eapply Hinv; try done; congruence).
    pose proof (NoDup_fst_map_to_list (datastore w)) as Hnd.
    assert (NoDup (run_query q (datastore w)).*1) as Hnd'.
    { unfold run_query. clear -Hnd.
      induction (map_to_list (datastore w)) as [|x l IH]; simpl; [constructor|].
      apply NoDup_cons in Hnd as [Hx Hnd].
      destruct (q x.2); simpl; [|by apply IH].
      apply NoDup_cons. split; [|by apply IH].
      intros Hin. apply Hx. apply list_elem_of_fmap in Hin as (y & -> & Hy).
      apply list_elem_of_fmap. exists y. split; [done|].
      apply list_elem_of_In, List.filter_In in Hy as [Hy _].
      by apply list_elem_of_In. }
    rewrite Hq in Hnd'. simpl in Hnd'.
    apply NoDup_cons in Hnd' as [Hx _]. apply Hx. set_solver.
Qed.

Section OnlinePaths.

Variable GetRule : string -> option RuleClass.
Variable eval_context : EvalContext.

Abbreviation pair_query :=
  (ActiveQuery (activity_key (ctx_activity eval_context))
               (ctx_user eval_context)).

Lemma ActiveQuery_true a u r :
  ActiveQuery a u r = true <->
  reg_active r = ACTIVE /\ reg_activity r = a /\ reg_user r = u.
Proof.
  unfold ActiveQuery. rewrite !andb_true_iff, !bool_decide_eq_true. tauto.
Qed.

Lemma provisional_init :
  exists new_entry,
    UserRegistration__init__ None eval_context ENROLLED NOT_READY INACTIVE
      [] [] [] [] = Ok new_entry /\
    reg_status new_entry = ENROLLED /\
    reg_confirmed new_entry = NOT_READY /\
    reg_active new_entry = INACTIVE /\
    reg_user new_entry = ctx_user eval_context /\
    reg_activity new_entry = activity_key (ctx_activity eval_context).
Proof. eexists. split; [reflexivity|]. by repeat split. Qed.

Lemma _RegisterOnlineUnsafe_keeps_invariant notify w w' :
  AlwaysAtMostOneActive w ->
  w' = (_RegisterOnlineUnsafe GetRule eval_context notify w).2 ->
  AlwaysAtMostOneActive w' /\
  (forall k r, datastore w' !! k = Some r -> reg_active r = ACTIVE ->
     datastore w !! k = None ->
     run_query pair_query (datastore w) = []).
Proof.
  intros Hw. revert w'.
  destruct (_GetActiveUserRegistration_spec eval_context w (proj1 Hw))
    as [[Hget Hq] | (ak & ar & Hget & Hq)];
    unfold _RegisterOnlineUnsafe, bind at 1; rewrite Hget.
  - (* no active registration: the provisional entry *)
    enough (forall w', w' = _ -> AlwaysAtMostOneActive w') by naive_solver.
    destruct provisional_init as (new_entry & -> & _ & _ & Hinactive & Hu & Ha).
    unfold bind, of_result, get_datastore.
    set (k := new_key (datastore w)).
    pose proof (db_commit_always <[k := new_entry]> w Hw
                  (AtMostOneActive_insert_inactive _ _ _ (proj1 Hw) Hinactive))
      as Hw1.
    assert (datastore (db_commit <[k := new_entry]> w).2
            = <[k := new_entry]> (datastore w)) as Hds1 by done.
    destruct (db_commit <[k := new_entry]> w) as [[[]|e] w1] eqn:Hc;
      [|done]. simpl in Hw1, Hds1.
    pose proof (lift_rule_same_store
                  (_RulesEvaluate GetRule eval_context None (Some ENROLLED)
                     true "") w1) as Hs2.
    destruct (lift_rule _ w1) as [[res|e] w2]; simpl in Hs2;
      [|intros ? ->; by eapply same_store_always].
    pose proof (_RulesNotify_same_store (final_status res)
                  (all_rule_results res) w2) as Hs3.
    destruct (_RulesNotify _ _ w2) as [[[]|e] w3]; simpl in Hs3;
      [|intros ? ->; by eapply same_store_always, same_store_always].
    assert (AlwaysAtMostOneActive w3) as Hw3
      by by eapply same_store_always, same_store_always.
    assert (datastore w3 = <[k := new_entry]> (datastore w)) as Hds3.
    { destruct Hs2 as [E2 _], Hs3 as [E3 _]. by rewrite E3, E2. }
    destruct (if decide (final_status res <> Some ENROLLED) then _ else _)
      as [[reasons|e] w4] eqn:Hreasons.
    2:{ intros ? ->.
        destruct (decide _); unfold ret in Hreasons; by simplify_eq. }
    assert (w4 = w3) as ->.
    { destruct (decide _); unfold ret in Hreasons; by simplify_eq. }
    destruct (final_status res) as [status|]; unfold bind; intros ? ->.
    + apply (db_commit_always _ w3 Hw3).
      apply AtMostOneActive_insert; [apply (proj1 Hw3)|].
      intros _ k' r Hk' Hne Hact Huser Hactivity.
      rewrite Hds3, lookup_insert_ne in Hk' by done.
      assert ((k', r) ∈ run_query pair_query (datastore w)) as Hin
        by (apply run_query_elem; split; [done|];
            apply ActiveQuery_true; simpl in *; by rewrite <- Ha, <- Hu).
      rewrite Hq in Hin. by apply not_elem_of_nil in Hin.
    + apply (db_commit_always _ w3 Hw3).
      apply AtMostOneActive_delete, (proj1 Hw3).
  - (* an active registration exists *)
    assert (datastore w !! ak = Some ar /\ reg_active ar = ACTIVE) as [Hak Hactive].
    { assert ((ak, ar) ∈ run_query pair_query (datastore w)) as Hin
        by (rewrite Hq; set_solver).
      apply run_query_elem in Hin as [? Hin].
      by apply ActiveQuery_true in Hin as [? _]. }
    destruct (ctx_force_status eval_context); simpl.
    2:{ intros ? ->. split; [done|]. intros k r Hk _ Hnone. simpl in *. congruence. }
    unfold bind. destruct (decide (reg_status ar <> ENROLLED)); simpl.
    2:{ intros ? ->. split; [done|]. intros k r Hk _ Hnone. simpl in *. congruence. }
    intros ? ->. split.
    + apply (db_commit_always _ w Hw).
      apply AtMostOneActive_insert; [apply (proj1 Hw)|]. simpl.
      intros _ k' r Hk' Hne Hact Huser Hactivity.
      apply Hne. by eapply (proj1 Hw).
    + simpl. intros k r Hk _ Hnone.
      destruct (decide (k = ak)) as [->|Hne]; [congruence|].
      rewrite lookup_insert_ne in Hk by done. congruence.
Qed.

Lemma unregister_init ak tags1 tags2 configs tasks :
  exists new_entry,
    UserRegistration__init__ (Some ak) eval_context UNREGISTERED READY
      INACTIVE tags1 tags2 configs tasks = Ok new_entry /\
    reg_status new_entry = UNREGISTERED /\
    reg_confirmed new_entry = READY /\
    reg_active new_entry = INACTIVE /\
    reg_parent new_entry = Some ak.
Proof. eexists. split; [reflexivity|]. by repeat split. Qed.

Lemma _UnregisterOnlineUnsafe_keeps_invariant post_process_tasks w w' :
  AlwaysAtMostOneActive w ->
  w' = (_UnregisterOnlineUnsafe GetRule eval_context post_process_tasks w).2 ->
  AlwaysAtMostOneActive w' /\
  (forall k r, datastore w' !! k = Some r -> reg_active r = ACTIVE ->
     datastore w !! k = Some r).
Proof.
  intros Hw. revert w'.
  destruct (_GetActiveUserRegistration_spec eval_context w (proj1 Hw))
    as [[Hget Hq] | (ak & ar & Hget & Hq)];
    unfold _UnregisterOnlineUnsafe, bind at 1; rewrite Hget;
    [by intros ? ->|].
  unfold bind.
  match goal with
  | |- context [lift_rule ?f w] =>
      pose proof (lift_rule_same_store f w) as Hs1;
      destruct (lift_rule f w) as [[res|e] w1]
  end; simpl in Hs1.
  2:{ intros ? ->. split; [by eapply same_store_always|].
      simpl. destruct Hs1 as [E _]. by rewrite E. }
  assert (AlwaysAtMostOneActive w1) as Hw1 by by eapply same_store_always.
  destruct Hs1 as [Hds1 _].
  destruct (decide (final_status res = Some UNREGISTERED)) as [Hfinal|Hfinal].
  - destruct (unregister_init ak (elements (affecting_rule_tags res))
                (elements (all_rule_tags res))
                (elements (affecting_rule_configs res)) post_process_tasks)
      as (new_entry & -> & _ & _ & Hinactive & _).
    unfold of_result, ret. intros ? ->. split.
    + apply (db_commit_always _ w1 Hw1).
      do 2 (apply AtMostOneActive_insert_inactive; [|done]).
      apply (proj1 Hw1).
    + simpl. intros k r Hk Hact.
      destruct (decide (k = ak)) as [->|Hne1];
        [rewrite lookup_insert_eq in Hk; by simplify_eq|].
      rewrite lookup_insert_ne in Hk by done.
      destruct (decide (k = new_key (datastore w1))) as [->|Hne2];
        [rewrite lookup_insert_eq in Hk; simplify_eq; congruence|].
      rewrite lookup_insert_ne in Hk by done; congruence.
  - unfold of_result, ret.
    destruct (descriptions GetRule _) as [reasons|e]; simpl; intros ? ->;
      (split; [done | by rewrite Hds1]).
Qed.

Lemma _RegisterOnlineUnsafe_provisional notify w w' :
  run_query pair_query (datastore w) = [] ->
  w' = (_RegisterOnlineUnsafe GetRule eval_context notify w).2 ->
  exists new_entry rest,
    reg_active new_entry = INACTIVE /\
    reg_user new_entry = ctx_user eval_context /\
    reg_activity new_entry = activity_key (ctx_activity eval_context) /\
    effects w'
    = effects w ++
      DbCommit (<[new_key (datastore w) := new_entry]> (datastore w)) :: rest /\
    forall k, k <> new_key (datastore w) ->
      datastore w' !! k = datastore w !! k.
Proof.
  intros Hq. revert w'.
  destruct provisional_init
    as (new_entry & Hinit & _ & _ & Hact & Hu & Ha).
  enough (forall w', w' = (_RegisterOnlineUnsafe GetRule eval_context notify w).2 ->
            exists rest,
              effects w' = effects w ++
                DbCommit (<[new_key (datastore w) := new_entry]> (datastore w))
                :: rest /\
              forall k, k <> new_key (datastore w) ->
                datastore w' !! k = datastore w !! k) as H.
  { intros w' Hw'. destruct (H w' Hw') as (rest & ? & ?).
    by exists new_entry, rest. }
  unfold _RegisterOnlineUnsafe, _GetActiveUserRegistration, bind at 1 2.
  unfold get_datastore at 1. rewrite Hq. unfold ret at 1.
  unfold bind at 1. rewrite Hinit. unfold of_result at 1.
  unfold bind at 1. unfold get_datastore at 1.
  unfold bind at 1.
  set (k := new_key (datastore w)).
  set (w1 := (db_commit <[k := new_entry]> w).2).
  change (db_commit <[k := new_entry]> w) with (Ok (), w1).
  assert (effects w1 = effects w ++ [DbCommit (<[k := new_entry]> (datastore w))])
    as He1 by done.
  assert (datastore w1 = <[k := new_entry]> (datastore w)) as Hd1 by done.
  clearbody w1.
  unfold bind at 1.
  match goal with
  | |- context [lift_rule ?f w1] =>
      pose proof (lift_rule_effects f w1) as He2;
      pose proof (lift_rule_same_store f w1) as [Hd2 _];
      destruct (lift_rule f w1) as [[res|e] w2]
  end; simpl in He2, Hd2.
  2:{ intros ? ->. exists []. simpl. split; [by rewrite He2, He1|].
      intros k' Hk'. by rewrite Hd2, Hd1, lookup_insert_ne. }
  unfold bind at 1.
  destruct (_RulesNotify_effects (final_status res) (all_rule_results res) w2)
    as [l He3].
  pose proof (_RulesNotify_same_store (final_status res)
                (all_rule_results res) w2) as [Hd3 _].
  destruct (_RulesNotify _ _ w2) as [[[]|e] w3]; simpl in He3, Hd3.
  2:{ intros ? ->. exists l. simpl.
      split; [by rewrite He3, He2, He1, <- app_assoc|].
      intros k' Hk'. by rewrite Hd3, Hd2, Hd1, lookup_insert_ne. }
  assert (effects w3 = effects w ++
            DbCommit (<[k := new_entry]> (datastore w)) :: l) as He
    by by rewrite He3, He2, He1, <- app_assoc.
  assert (datastore w3 = <[k := new_entry]> (datastore w)) as Hd
    by by rewrite Hd3, Hd2, Hd1.
  unfold bind at 1.
  destruct (if decide (final_status res <> Some ENROLLED) then _ else _)
    as [[reasons|e] w4] eqn:Hreasons.
  2:{ intros ? ->. exists l.
      assert (w4 = w3) as E4
        by (destruct (decide _); unfold of_result, ret in Hreasons;
            [destruct (descriptions _ _)|]; by simplify_eq).
      subst w4. simpl.
      split; [done|]. intros k' Hk'. by rewrite Hd, lookup_insert_ne. }
  assert (w4 = w3) as E4
    by (destruct (decide _); unfold of_result, ret in Hreasons;
        [destruct (descriptions _ _)|]; by simplify_eq).
  subst w4.
  destruct (final_status res) as [status|]; unfold bind; intros ? ->; simpl;
    eexists (l ++ [_]); (split; [by rewrite He, <- app_assoc|]);
    intros k' Hk'; rewrite Hd.
  - by rewrite !lookup_insert_ne.
  - by rewrite lookup_delete_ne, lookup_insert_ne.
Qed.

Lemma _UnregisterOnlineUnsafe_granted post_process_tasks w ak ar res w1 :
  run_query pair_query (datastore w) = [(ak, ar)] ->
  lift_rule (_RulesEvaluate GetRule eval_context (Some (reg_status ar))
               (Some UNREGISTERED) true "") w = (Ok res, w1) ->
  final_status res = Some UNREGISTERED ->
  exists new_entry w',
    _UnregisterOnlineUnsafe GetRule eval_context post_process_tasks w
    = (Ok (Some UNREGISTERED, []), w') /\
    UserRegistration__init__ (Some ak) eval_context UNREGISTERED READY
      INACTIVE (elements (affecting_rule_tags res))
      (elements (all_rule_tags res))
      (elements (affecting_rule_configs res)) post_process_tasks
    = Ok new_entry /\
    datastore w'
    = <[ak := set_active INACTIVE ar]>
        (<[new_key (datastore w) := new_entry]> (datastore w)) /\
    effects w' = effects w ++ [DbCommit (datastore w')].
Proof.
  intros Hq Heval Hfinal.
  destruct (unregister_init ak (elements (affecting_rule_tags res))
              (elements (all_rule_tags res))
              (elements (affecting_rule_configs res)) post_process_tasks)
    as (new_entry & Hinit & _).
  pose proof (lift_rule_effects
                (_RulesEvaluate GetRule eval_context (Some (reg_status ar))
                   (Some UNREGISTERED) true "") w) as He1.
  pose proof (lift_rule_same_store
                (_RulesEvaluate GetRule eval_context (Some (reg_status ar))
                   (Some UNREGISTERED) true "") w) as [Hd1 _].
  rewrite Heval in He1, Hd1. simpl in He1, Hd1.
  exists new_entry. eexists.
  unfold _UnregisterOnlineUnsafe, _GetActiveUserRegistration, bind at 1 2.
  unfold get_datastore at 1. rewrite Hq. unfold ret at 1.
  unfold bind at 1. rewrite Heval.
  rewrite decide_True by done.
  unfold bind at 1. rewrite Hinit. unfold of_result at 1.
  unfold bind, ret. simpl. rewrite Hfinal, Hd1, He1. done.
Qed.

(** Claim C1. Both online operations keep "at most one ACTIVE
    registration per (registrant, activity)" at every observable
    instant: if it holds now and held after every commit so far, it
    holds after each commit of the operation and at its end, however
    the operation ends. [_RegisterOnlineUnsafe] stores a new ACTIVE
    entry only when no ACTIVE registration existed for the pair; in
    that case its first commit adds the new entry of the pair, INACTIVE,
    under a new key, and no other key is written. [_UnregisterOnlineUnsafe]
    activates nothing; when the rules grant the move of the ACTIVE
    registration to UNREGISTERED, it returns UNREGISTERED after one
    commit, which adds the new entry (UNREGISTERED, INACTIVE, child of
    the ACTIVE one) under a new key and stores the ACTIVE one
    INACTIVE. *)
Theorem C1_at_most_one_active (w : World) :
  AlwaysAtMostOneActive w ->
  (forall notify,
     let w' := (_RegisterOnlineUnsafe GetRule eval_context notify w).2 in
     AlwaysAtMostOneActive w' /\
     (forall k r, datastore w' !! k = Some r -> reg_active r = ACTIVE ->
        datastore w !! k = None ->
        run_query pair_query (datastore w) = []) /\
     (run_query pair_query (datastore w) = [] ->
      exists new_entry rest,
        reg_active new_entry = INACTIVE /\
        reg_user new_entry = ctx_user eval_context /\
        reg_activity new_entry = activity_key (ctx_activity eval_context) /\
        effects w'
        = effects w ++
          DbCommit (<[new_key (datastore w) := new_entry]> (datastore w))
          :: rest /\
        forall k, k <> new_key (datastore w) ->
          datastore w' !! k = datastore w !! k)) /\
  (forall post_process_tasks,
     let run := _UnregisterOnlineUnsafe GetRule eval_context
                  post_process_tasks w in
     let w' := run.2 in
     AlwaysAtMostOneActive w' /\
     (forall k r, datastore w' !! k = Some r -> reg_active r = ACTIVE ->
        datastore w !! k = Some r) /\
     (forall active_key active_registration res w1,
        run_query pair_query (datastore w)
        = [(active_key, active_registration)] ->
        lift_rule (_RulesEvaluate GetRule eval_context
                     (Some (reg_status active_registration))
                     (Some UNREGISTERED) true "") w = (Ok res, w1) ->
        final_status res = Some UNREGISTERED ->
        exists new_entry,
          run.1 = Ok (Some UNREGISTERED, []) /\
          reg_status new_entry = UNREGISTERED /\
          reg_active new_entry = INACTIVE /\
          reg_parent new_entry = Some active_key /\
          reg_user new_entry = ctx_user eval_context /\
          reg_activity new_entry = activity_key (ctx_activity eval_context) /\
          datastore w'
          = <[active_key := set_active INACTIVE active_registration]>
              (<[new_key (datastore w) := new_entry]> (datastore w)) /\
          effects w' = effects w ++ [DbCommit (datastore w')])).
Proof.
  intros Hw. split.
  - intros notify w'.
    destruct (_RegisterOnlineUnsafe_keeps_invariant notify w w' Hw eq_refl)
      as [Hinv Hnew].
    split; [done|]. split; [done|]. intros Hq.
    by apply (_RegisterOnlineUnsafe_provisional notify).
  - intros tasks run w'.
    destruct (_UnregisterOnlineUnsafe_keeps_invariant tasks w w' Hw eq_refl)
      as [Hinv Hold].
    split; [done|]. split; [done|].
    intros ak ar res w1 Hq Heval Hfinal.
    destruct (_UnregisterOnlineUnsafe_granted tasks w ak ar res w1 Hq Heval
                Hfinal) as (new_entry & w2 & Hrun & Hinit & Hds & Heff).
    exists new_entry. subst w' run. rewrite Hrun. simpl.
    split; [done|].
    unfold UserRegistration__init__ in Hinit.
    destruct (init_assertion _); [|done].
    injection Hinit as <-. by repeat split.
Qed.

End OnlinePaths.

Section RegisterOnline.

Variable GetRule : string -> option RuleClass.
Variable eval_context : EvalContext.

Abbreviation pair_query :=
  (ActiveQuery (activity_key (ctx_activity eval_context))
               (ctx_user eval_context)).

Lemma new_key_fresh (ds : Datastore) : ds !! new_key ds = None.
Proof. unfold new_key. apply not_elem_of_dom, is_fresh. Qed.




End RegisterOnline.

Lemma quiet_step_refl w : quiet_step w w.
Proof. split; [done|]. exists []. by rewrite app_nil_r. Qed.

Lemma quiet_step_trans w1 w2 w3 :
  quiet_step w1 w2 -> quiet_step w2 w3 -> quiet_step w1 w3.
Proof.
  intros [H1 (l1 & E1 & F1)] [H2 (l2 & E2 & F2)]. split; [congruence|].
  exists (l1 ++ l2). split; [by rewrite E2, E1, app_assoc|].
  by apply Forall_app.
Qed.

Lemma quiet_step_elem w w' e :
  quiet_step w w' -> e ∈ effects w -> e ∈ effects w'.
Proof. intros [_ (l & -> & _)] He. apply elem_of_app. by left. Qed.

Lemma quiet_step_lift_rule {A} (f : RuleM A) w :
  quiet_step w (lift_rule f w).2.
Proof.
  unfold lift_rule. destruct (f _ _ _). split; [done|].
  exists []. simpl. by rewrite app_nil_r.
Qed.

Lemma quiet_step_emit e w :
  online_call e -> quiet_step w (emit e w).2.
Proof. intros He. split; [done|]. exists [e]. split; [done|]. by constructor. Qed.

Lemma quiet_step_db_commit write w :
  quiet_step w (db_commit write w).2.
Proof. split; [done|]. eexists [_]. split; [done|]. by constructor. Qed.

Lemma quiet_step__RulesNotify final rule_results w :
  Forall (fun rr => self_offline (rule_self rr.1) = false) rule_results ->
  quiet_step w (_RulesNotify final rule_results w).2.
Proof.
  intros Hall. revert w.
  induction Hall as [|[rule result] rest Hrule _ IH]; intros w.
  - apply quiet_step_refl.
  - simpl. unfold bind.
    pose proof (quiet_step_emit (ProcessOutcomeCall rule result final) w Hrule)
      as H1.
    destruct (emit _ w) as [[[]|e] w1]; [|done].
    pose proof (quiet_step_lift_rule
                  (ProcessOutcome (rule_class rule) (rule_self rule) result final)
                  w1) as H2.
    destruct (lift_rule _ w1) as [[[]|e] w2]; simpl in *.
    + eapply quiet_step_trans; [|apply IH]. by eapply quiet_step_trans.
    + by eapply quiet_step_trans.
Qed.

Lemma dispatch_tasks_spec tasks w :
  (dispatch_tasks tasks w).1 = Ok () /\
  datastore (dispatch_tasks tasks w).2 = datastore w /\
  quiet_step w (dispatch_tasks tasks w).2.
Proof.
  revert w. induction tasks as [|t rest IH]; intros w; simpl.
  - split_and!; try done. apply quiet_step_refl.
  - unfold bind. simpl. destruct (IH (emit (DispatchTask t) w).2) as (H1 & H2 & H3).
    split_and!; try done.
    eapply quiet_step_trans; [|done]. by apply quiet_step_emit.
Qed.

Lemma _NotifyUserAndUpdateCalendars_spec register notification_type w :
  exists register',
    (_NotifyUserAndUpdateCalendars register notification_type w).1 = Ok register' /\
    reg_post_process_tasks register' = reg_post_process_tasks register /\
    let w' := (_NotifyUserAndUpdateCalendars register notification_type w).2 in
    datastore w' = datastore w /\
    quiet_step w w' /\
    (reg_status register = UNREGISTERED ->
     reg_last_notified register = None ->
     reg_notify_email register = true ->
     notification_type = None ->
     SendMail register (NT UNREGISTERED) ∈ effects w' /\
     DeferSyncCalendar (reg_user register) (reg_schedule_list register)
       ∈ effects w').
Proof.
  unfold _NotifyUserAndUpdateCalendars.
  destruct (decide (Some (reg_status register) = reg_last_notified register))
    as [Heq|Hne].
  { exists register. split_and!; try done; [apply quiet_step_refl|].
    intros _ Hlast. by rewrite Hlast in Heq. }
  eexists. unfold bind, get_datastore, ret.
  set (w1 := ((if bool_decide (reg_status register ∈ [UNREGISTERED; ENROLLED])
               then emit (DeferSyncCalendar (reg_user register)
                            (reg_schedule_list register))
               else (fun w => (Ok (), w))) w).2).
  assert ((if bool_decide (reg_status register ∈ [UNREGISTERED; ENROLLED])
           then emit (DeferSyncCalendar (reg_user register)
                        (reg_schedule_list register))
           else (fun w => (Ok (), w))) w = (Ok (), w1)) as ->.
  { unfold w1. by case_bool_decide. }
  assert (datastore w1 = datastore w /\ quiet_step w w1 /\
          (reg_status register = UNREGISTERED ->
           DeferSyncCalendar (reg_user register) (reg_schedule_list register)
             ∈ effects w1)) as (Hd1 & Hq1 & He1).
  { unfold w1. case_bool_decide as Hin; simpl.
    - split_and!; [done| by apply quiet_step_emit |].
      intros _. apply elem_of_app. right. by apply list_elem_of_singleton.
    - split_and!; [done| apply quiet_step_refl |].
      intros Hst. rewrite Hst in Hin. destruct Hin. set_solver. }
  destruct (reg_notify_email register) eqn:Hmail; simpl.
  2:{ split_and!; try done. }
  set (first_mail :=
         match reg_parent register ≫= (fun pk => datastore w1 !! pk) with
         | Some parent =>
             if bool_decide (reg_status register = UNREGISTERED) &&
                bool_decide (reg_last_notified parent = None)
             then emit (SendMail register (NT ENROLLED))
             else (fun w => (Ok (), w))
         | None => (fun w => (Ok (), w))
         end).
  assert (exists w2, first_mail w1 = (Ok (), w2) /\
                     datastore w2 = datastore w1 /\ quiet_step w1 w2)
    as (w2 & -> & Hd2 & Hq2).
  { unfold first_mail.
    destruct (reg_parent register ≫= _) as [parent|];
      [destruct (_ && _)|]; eexists; split_and!; try done;
      try apply quiet_step_refl.
    by apply quiet_step_emit. }
  simpl. split_and!; try done.
  - congruence.
  - eapply quiet_step_trans; [done|]. eapply quiet_step_trans; [done|].
    by apply (quiet_step_emit _ w2).
  - intros Hst _ _ ->. simpl. rewrite Hst. split.
    + apply elem_of_app. right. by apply list_elem_of_singleton.
    + apply elem_of_app. left. eapply quiet_step_elem; [done|]. by apply He1.
Qed.

Section OfflineUnregister.

Variable GetRule : string -> option RuleClass.
Variable GetProgram : string -> Program.
Variable GetActivity : string -> Activity.
Variable GetAccessPoint : string -> AccessPoint.

Lemma CreateRules_offline cfg ctx offline ns rule_list :
  CreateRules GetRule cfg ctx offline ns = Ok rule_list ->
  Forall (fun r => self_offline (rule_self r) = offline) rule_list.
Proof.
  unfold CreateRules. destruct (GetRule _) as [rule|]; [|done].
  destruct (CanProcessMultipleSchedules rule).
  - destruct (__init__ rule _); intros [= <-]. by constructor.
  - destruct (zip _ _) as [|sa0 pairs]; [by intros [= <-]|].
    destruct (__init__ rule _); intros [= <-].
    apply Forall_forall. intros r Hr.
    apply elem_of_cons in Hr as [->|Hr]; [done|].
    by apply list_elem_of_fmap in Hr as (sa & -> & _).
Qed.

Lemma online_rules_online ctx configs evaluated_state l :
  online_rules GetRule ctx configs evaluated_state = Ok l ->
  Forall (fun rr => self_offline (rule_self rr.1) = false) l.
Proof.
  revert l. induction configs as [|cfg rest IH]; intros l; simpl.
  - by intros [= <-].
  - destruct (CreateRules _ _ _ _ _) as [rule_list|e] eqn:Hc; [|done].
    destruct (online_rules _ _ _ _) as [l'|e]; [|done].
    intros [= <-]. apply Forall_app. split; [|by apply IH].
    apply Forall_fmap. by apply CreateRules_offline in Hc.
Qed.

Lemma quiet_step__RulesNotifyOnline ctx config_list evaluated final w :
  quiet_step w (_RulesNotifyOnline GetRule ctx config_list evaluated final w).2 /\
  datastore (_RulesNotifyOnline GetRule ctx config_list evaluated final w).2
  = datastore w.
Proof.
  unfold _RulesNotifyOnline, bind, of_result.
  destruct (online_rules _ _ _ _) as [l|e] eqn:Hl.
  - split.
    + apply quiet_step__RulesNotify. by eapply online_rules_online.
    + apply _RulesNotify_same_store.
  - split; [apply quiet_step_refl | done].
Qed.

(** Claim C6. When the parent enroll record of the unregister entry is
    not both PROCESSED and ENROLLED, [_UnregisterOfflineUnsafe] saves no
    tags to reprocess and calls [ProcessOutcome] on no offline rule
    object, however it ends; and when it completes, both the unregister
    record and its parent are deleted and the user was notified (a
    calendar synchronisation and the UNREGISTERED mail, for an entry
    that has not been notified yet and asks for mail). *)
Theorem C6_unprocessed_enroll_unregistered
    (unregister_key parent_key : nat)
    (unregister parent_enroll : UserRegistration) (namespace : string)
    (w w' : World) (r : result unit) :
  reg_parent unregister = Some parent_key ->
  datastore w !! parent_key = Some parent_enroll ->
  ~ (reg_confirmed parent_enroll = PROCESSED /\
     reg_status parent_enroll = ENROLLED) ->
  _UnregisterOfflineUnsafe GetRule GetProgram GetActivity GetAccessPoint
    unregister_key unregister namespace w = (r, w') ->
  offline_reprocess_tags w' = offline_reprocess_tags w /\
  (forall rule eval_state final_state,
     ProcessOutcomeCall rule eval_state final_state ∈ effects w' ->
     ProcessOutcomeCall rule eval_state final_state ∈ effects w \/
     self_offline (rule_self rule) = false) /\
  (r = Ok () ->
   datastore w' !! unregister_key = None /\
   datastore w' !! parent_key = None /\
   (reg_status unregister = UNREGISTERED ->
    reg_last_notified unregister = None ->
    reg_notify_email unregister = true ->
    SendMail (set_online_unregistered true unregister) (NT UNREGISTERED)
      ∈ effects w' /\
    DeferSyncCalendar (reg_user unregister) (reg_schedule_list unregister)
      ∈ effects w')).
Proof.
  intros Hparent Hstored Hunprocessed Hrun.
  enough (quiet_step w w' /\
          (r = Ok () ->
           datastore w' !! unregister_key = None /\
           datastore w' !! parent_key = None /\
           (reg_status unregister = UNREGISTERED ->
            reg_last_notified unregister = None ->
            reg_notify_email unregister = true ->
            SendMail (set_online_unregistered true unregister) (NT UNREGISTERED)
              ∈ effects w' /\
            DeferSyncCalendar (reg_user unregister)
              (reg_schedule_list unregister) ∈ effects w')))
    as [[Htags (l & Heff & Hl)] Hdone].
  { split_and!; [done| |done].
    intros rule e f Hin. rewrite Heff in Hin.
    apply elem_of_app in Hin as [Hin|Hin]; [by left|right].
    by apply (proj1 (Forall_forall _ _) Hl) in Hin. }
  revert Hrun.
  unfold _UnregisterOfflineUnsafe, bind at 1, get_datastore at 1.
  rewrite Hparent. simpl. rewrite Hstored. simpl.
  assert (bool_decide (reg_confirmed parent_enroll = PROCESSED) &&
          bool_decide (reg_status parent_enroll = ENROLLED) = false) as ->.
  { apply not_true_is_false. intros H.
    apply andb_true_iff in H as [H1 H2].
    apply bool_decide_eq_true in H1, H2. by apply Hunprocessed. }
  unfold bind at 1.
  match goal with
  | |- context [lift_rule ?f w] =>
      pose proof (quiet_step_lift_rule f w) as Hq1;
      pose proof (lift_rule_same_store f w) as [Hd1 _];
      destruct (lift_rule f w) as [[res|e] w1]
  end; simpl in Hq1, Hd1; [|by intros [= <- <-]].
  destruct (decide (final_status res = Some UNREGISTERED)) as [Hfinal|Hfinal];
    [|by intros [= <- <-]].
  set (unregister' := set_online_unregistered true unregister).
  unfold bind at 1.
  pose proof (quiet_step_db_commit <[unregister_key := unregister']> w1) as Hq2.
  set (w2 := (db_commit <[unregister_key := unregister']> w1).2) in *.
  change (db_commit <[unregister_key := unregister']> w1) with (Ok (), w2).
  unfold bind at 1.
  set (notify_online :=
         if negb (reg_online_unregistered unregister) then
           _RulesNotifyOnline GetRule
             (CreateFromUserRegistration GetProgram GetActivity GetAccessPoint
                unregister)
             (all_rule_configs res) (Some UNREGISTERED) (Some UNREGISTERED)
         else ret ()).
  assert (quiet_step w2 (notify_online w2).2 /\
          datastore (notify_online w2).2 = datastore w2) as [Hq3 Hd3].
  { unfold notify_online. destruct (negb _).
    - apply quiet_step__RulesNotifyOnline.
    - split; [apply quiet_step_refl | done]. }
  destruct (notify_online w2) as [[[]|e] w3]; simpl in Hq3, Hd3.
  2:{ intros [= <- <-]. split; [|done].
      eauto using quiet_step_trans. }
  unfold bind at 1. unfold ret at 1. unfold bind at 1.
  destruct (_NotifyUserAndUpdateCalendars_spec unregister' None w3)
    as (register' & Hok & Htasks & Hd4 & Hq4 & Hmail).
  destruct (_NotifyUserAndUpdateCalendars unregister' None w3)
    as [r4 w4]. simpl in Hok, Hd4, Hq4, Hmail. subst r4.
  unfold bind at 1.
  set (w5 := (db_commit (fun ds => delete parent_key (delete unregister_key ds))
                w4).2).
  pose proof (quiet_step_db_commit
                (fun ds => delete parent_key (delete unregister_key ds)) w4)
    as Hq5. fold w5 in Hq5.
  change (db_commit (fun ds => delete parent_key (delete unregister_key ds)) w4)
    with (Ok (), w5).
  destruct (dispatch_tasks_spec (reg_post_process_tasks register') w5)
    as (Hok6 & Hd6 & Hq6).
  destruct (dispatch_tasks _ w5) as [r6 w6]. simpl in Hok6, Hd6, Hq6. subst r6.
  intros [= <- <-].
  assert (quiet_step w4 w6) as Hq46 by eauto using quiet_step_trans.
  split; [eauto 10 using quiet_step_trans|].
  intros _. rewrite Hd6. simpl. split_and!.
  - destruct (decide (parent_key = unregister_key)) as [->|Hne].
    + apply lookup_delete_eq.
    + rewrite lookup_delete_ne by done. apply lookup_delete_eq.
  - apply lookup_delete_eq.
  - intros Hst Hlast Hmailon.
    destruct Hmail as [Hm1 Hm2]; try done.
    split; by eapply quiet_step_elem.
Qed.

End OfflineUnregister.





Section Unavailable.

Variable max_people : Z.
Variable self : RuleBase.
Variable BuildContext : list (string * Z).

(** With the cache tier unusable the capacity rule raises for an
    enrollment, online as well as offline: it has no verdict. *)
Lemma _Evaluate_unavailable initial_state key m :
  memcache.available m = false ->
  exists e,
    MaxNumberRegisteredBy._Evaluate max_people self false BuildContext
      initial_state (Some ENROLLED) key m = (Raise e, m) /\
    (e = AppengineError \/ e = AssertionError).
Proof.
  intros Hav. unfold MaxNumberRegisteredBy._Evaluate.
  rewrite decide_True by done.
  destruct (_Incr_unavailable (self_namespace self) (self_online self) false
              BuildContext (MaxNumberRegisteredBy._NormalizeKey key)
              _NUM_RETRIES m Hav eq_refl) as (e & -> & He).
  by exists e.
Qed.

End Unavailable.

(** Claim C9, at the failing input. With the cache tier unusable, the
    capacity rule evaluated for an enrollment raises [AppengineError] in
    online mode as in offline mode, and [_RegisterOnlineUnsafe] raises it
    to its caller: there is no WAITLISTED verdict. *)
Theorem C9_increment_failure_raises_online :
  let ctx := request "a" 5 [one_slot] false in
  let online_rule :=
    RuleBase__init__ "r1" ctx false "" [("max_people", PInt 1)] in
  let offline_rule :=
    RuleBase__init__ "r1" ctx true "" [("max_people", PInt 1)] in
  fst (MaxNumberRegisteredBy._Evaluate 1 online_rule false [("_", 1)] None
         (Some ENROLLED) None cache_down) = Raise AppengineError /\
  fst (MaxNumberRegisteredBy._Evaluate 1 offline_rule false [("_", 0)] None
         (Some ENROLLED) None cache_down) = Raise AppengineError /\
  fst (_RegisterOnlineUnsafe GetRule ctx true (world_of ∅ cache_down))
  = Raise AppengineError.
Proof. repeat split; vm_compute; reflexivity. Qed.

(** Two registrants for the one slot of an activity: the first is
    enrolled, the second is waitlisted with [resource_remaining = -1]. *)
Example two_registrants_one_slot :
  let first := _RegisterOnlineUnsafe GetRule (request "a" 5 [one_slot] false)
                 true empty_world in
  let second := _RegisterOnlineUnsafe GetRule (request "b" 6 [one_slot] false)
                  true first.2 in
  first.1 = Ok (Some ENROLLED, []) /\
  second.1 = Ok (Some WAITLISTED, ["Limited slots for activity."]) /\
  memcache.get "_" "online_r1" (cache second.2) = Some 2.
Proof. repeat split; vm_compute; reflexivity. Qed.

(** Claim C2 as stated fails: "raises [BadStateTransition] exactly when
    (initial, target) is not a legal edge". WAITLISTED -> ENROLLED is a
    legal edge, and the evaluation raises because the employee-type rule
    answers [None]. *)
Lemma C2_counterexample :
  ~ (forall GetRule ctx initial target is_online namespace ds prediction m,
       fst (_RulesEvaluate GetRule ctx initial target is_online namespace ds
              prediction m) = Raise BadStateTransition <->
       legal_edge initial target = false).
Proof.
  intros H.
  specialize (H GetRule (request "a" 5 [employees_only] false)
                (Some WAITLISTED) (Some ENROLLED) true "" ∅ false empty_cache).
  assert (legal_edge (Some WAITLISTED) (Some ENROLLED) = false) as Hlegal
    by (apply H; vm_compute; reflexivity).
  discriminate Hlegal.
Qed.

(** Claim C8 as stated fails: "a [None] verdict is legal exactly when the
    initial status is [None] or UNREGISTERED". From UNREGISTERED the
    move to [None] is not valid, and the evaluation raises. *)
Lemma C8_counterexample :
  ~ (forall initial,
       IsValidTransition initial None = true <->
       initial = None \/ initial = Some UNREGISTERED) /\
  fst (_RulesEvaluate GetRule (request "a" 5 [employees_only] false)
         (Some UNREGISTERED) (Some ENROLLED) true "" ∅ false empty_cache)
  = Raise BadStateTransition.
Proof.
  split; [|vm_compute; reflexivity].
  intros H. specialize (H (Some UNREGISTERED)).
  assert (IsValidTransition (Some UNREGISTERED) None = true) as Hvalid
    by (apply H; by right).
  discriminate Hvalid.
Qed.


Lemma ok_eta {A} (d : A) (r : result A) :
  is_ok r = true -> r = Ok (value_or d r).
Proof. by destruct r. Qed.

Lemma ok_eta_pair {A W} (d : A) (p : result A * W) :
  is_ok p.1 = true -> p = (Ok (value_or d p.1), p.2).
Proof. by destruct p as [[a|e] w]. Qed.



Lemma AlwaysAtMostOneActive_empty_world : AlwaysAtMostOneActive empty_world.
Proof.
  split.
  - intros k1 k2 r1 r2 H1. by destruct (lookup_empty_Some (M := gmap nat) k1 r1).
  - intros ds Hin. by apply not_elem_of_nil in Hin.
Qed.

Lemma AlwaysAtMostOneActive_enrolled_world :
  AlwaysAtMostOneActive enrolled_world.
Proof.
  split.
  - intros k1 k2 r1 r2 H1 H2 _ _ _ _. simpl in H1, H2.
    apply lookup_singleton_Some in H1 as [<- _].
    by apply lookup_singleton_Some in H2 as [<- _].
  - intros ds Hin. by apply not_elem_of_nil in Hin.
Qed.

Lemma run_query_singleton q k r :
  q r = true -> run_query q {[ k := r ]} = [(k, r)].
Proof.
  intros Hq. unfold run_query. rewrite map_to_list_singleton. simpl.
  by rewrite Hq.
Qed.

(** Claim C1 at the unregistration of the one ENROLLED registrant: the
    ACTIVE record is stored INACTIVE and the new record, INACTIVE too,
    is its child. *)
Lemma C1_witness :
  let ctx := request "a" 7 [one_slot] false in
  let w' := (_UnregisterOnlineUnsafe GetRule ctx [] enrolled_world).2 in
  AlwaysAtMostOneActive w' /\
  datastore w' !! 0%nat = Some (set_active INACTIVE (active_enrolled "a")) /\
  exists new_entry,
    datastore w' !! new_key (datastore enrolled_world) = Some new_entry /\
    reg_status new_entry = UNREGISTERED /\
    reg_active new_entry = INACTIVE /\
    reg_parent new_entry = Some 0%nat.
Proof.
  intros ctx w'.
  pose (run := lift_rule (_RulesEvaluate GetRule ctx (Some ENROLLED)
                            (Some UNREGISTERED) true "") enrolled_world).
  destruct (C1_at_most_one_active GetRule ctx enrolled_world
              AlwaysAtMostOneActive_enrolled_world) as [_ Hu].
  destruct (Hu []) as (Hinv & _ & Hflip).
  split; [exact Hinv|].
  destruct (Hflip 0%nat (active_enrolled "a") (value_or no_result run.1) run.2)
    as (new_entry & _ & Hst & Hact & Hparent & _ & _ & Hds & _).
  - apply run_query_singleton. reflexivity.
  - apply (ok_eta_pair no_result run). vm_compute; reflexivity.
  - vm_compute; reflexivity.
  - fold w' in Hds. rewrite Hds. split.
    + apply lookup_insert_eq.
    + exists new_entry. split; [|by repeat split].
      rewrite lookup_insert_ne.
      * apply lookup_insert_eq.
      * intros Heq.
        pose proof (new_key_fresh (datastore enrolled_world)) as Hfresh.
        rewrite <- Heq in Hfresh. discriminate Hfresh.
Defined.

(** Claim C2 (as amended) at an illegal pair, and at a legal pair for
    which the employee-type rule answers [None]. *)
Lemma C2_witness :
  fst (_RulesEvaluate GetRule (request "a" 5 [lock_past] false)
         (Some ENROLLED) (Some WAITLISTED) true "" ∅ false empty_cache)
  = Raise BadStateTransition /\
  fst (_RulesEvaluate GetRule (request "a" 5 [employees_only] false)
         (Some WAITLISTED) (Some ENROLLED) true "" ∅ false empty_cache)
  = Raise BadStateTransition.
Proof.
  split.
  - apply (proj1 (C2_bad_transition_and_final_status GetRule
                    (request "a" 5 [lock_past] false) (Some ENROLLED)
                    (Some WAITLISTED) true "" ∅ false empty_cache)).
    reflexivity.
  - apply (proj2 (proj2 (C2_bad_transition_and_final_status GetRule
                           (request "a" 5 [employees_only] false)
                           (Some WAITLISTED) (Some ENROLLED) true "" ∅ false
                           empty_cache)));
      [reflexivity|].
    left.
    exists {| rule_class := EmployeeTypeRestriction.class true (fun _ => Ok None);
              rule_self := RuleBase__init__ "r2"
                             (request "a" 5 [employees_only] false) false ""
                             [("employee_types", PList ["employee"])] |},
           empty_cache.
    split.
    + exists employees_only, [], empty_cache, [], [], [].
      split; [|split; reflexivity].
      exists [], []. split; [reflexivity|]. split; [reflexivity|].
      right. constructor.
    + split; reflexivity.
Defined.

(** Claim C4 at the request of b for the one slot that a took: the rule
    of the past activities answers ENROLLED, the rule of the slots
    answers WAITLISTED, and the final status is WAITLISTED. *)
Lemma C4_witness :
  let first :=
    _RegisterOnlineUnsafe GetRule (request "a" 5 [lock_past; one_slot] false)
      true empty_world in
  let res :=
    value_or no_result
      (fst (_RulesEvaluate GetRule
              (request "b" 6 [lock_past; one_slot] false)
              None (Some ENROLLED) true "" (datastore first.2) false
              (cache first.2))) in
  verdicts res = [Some ENROLLED; Some WAITLISTED] /\
  final_status res = Some WAITLISTED /\
  final_status res ∈ verdicts res /\
  exists p, precedence None (final_status res) = Some p /\
    forall v, v ∈ verdicts res ->
      exists q, precedence None v = Some q /\ (q <= p)%nat.
Proof.
  intros first res.
  split; [vm_compute; reflexivity|]. split; [vm_compute; reflexivity|].
  apply (C4_final_status_highest_priority GetRule
           (request "b" 6 [lock_past; one_slot] false)
           None (Some ENROLLED) true "" (datastore first.2) false
           (cache first.2) res);
    [reflexivity | apply ok_eta; vm_compute; reflexivity
    | vm_compute; discriminate].
Defined.


(** Claim C6 at an unregistration whose enroll record was never
    processed. *)
Lemma C6_witness :
  let run :=
    _UnregisterOfflineUnsafe GetRule stored_program stored_activity
      stored_access_point 1 one_unregistered "ns" unregistered_world in
  offline_reprocess_tags run.2 = ∅ /\
  datastore run.2 !! 1%nat = None /\ datastore run.2 !! 0%nat = None.
Proof.
  intros run.
  edestruct (C6_unprocessed_enroll_unregistered GetRule stored_program
               stored_activity stored_access_point 1 0 one_unregistered
               one_enrolled "ns" unregistered_world run.2 run.1)
    as (Htags & _ & Hdone);
    [reflexivity | reflexivity | intros [H _]; discriminate H
    | exact (surjective_pairing run) |].
  destruct (Hdone ltac:(vm_compute; reflexivity)) as (H1 & H0 & _).
  split; [exact Htags|]. split; [exact H1 | exact H0].
Defined.

(** Claim C8 (as amended) at a registrant back from UNREGISTERED whom the
    user-information service does not know. *)
Lemma C8_witness :
  let ctx := request "a" 5 [employees_only] false in
  let rule :=
    {| rule_class := EmployeeTypeRestriction.class true (fun _ => Ok None);
       rule_self := RuleBase__init__ "r2" ctx false ""
                      [("employee_types", PList ["employee"])] |} in
  evaluate_rule_list ctx (Some UNREGISTERED) (Some ENROLLED) ∅ false
    employees_only [rule] [] empty_cache
  = (Raise BadStateTransition, empty_cache).
Proof.
  intros ctx rule.
  eapply (proj2 (proj2 (C8_None_verdict GetRule ctx (Some UNREGISTERED)
                          (Some ENROLLED) true "" ∅ false)));
    [reflexivity | reflexivity | reflexivity | discriminate].
Defined.



Lemma cache_extends_refl m : cache_extends m m.
Proof. done. Qed.

Lemma cache_extends_trans m1 m2 m3 :
  cache_extends m1 m2 -> cache_extends m2 m3 -> cache_extends m1 m3.
Proof.
  intros (Ha & Hc & Hi) (Ha' & Hc' & Hi'). split; [congruence|]. split; eauto.
Qed.

Lemma add_extends k v ns m : cache_extends m (snd (memcache.add k v ns m)).
Proof.
  unfold memcache.add. destruct (memcache.available m) eqn:Hav; [|done].
  destruct (memcache.cells m !! (ns, k)) as [v0|] eqn:Hk; [done|].
  split; [done|]. split; [|done]. simpl. intros x w Hx.
  rewrite lookup_insert_ne; [done|]. intros <-. congruence.
Qed.

Lemma add_multi_extends l ns : forall m, cache_extends m (memcache.add_multi l ns m).
Proof.
  induction l as [|[k v] l IH]; intros m; simpl; [done|].
  eapply cache_extends_trans; [apply add_extends|apply IH].
Qed.

Lemma add_init_extends ks ns m : cache_extends m (snd (memcache.add_init ks ns m)).
Proof.
  unfold memcache.add_init. destruct (memcache.available m) eqn:Hav; [|done].
  destruct (memcache.inits m !! ns) as [v0|] eqn:Hk; [done|].
  split; [done|]. split; [done|]. simpl. intros x w Hx.
  rewrite lookup_insert_ne; [done|]. intros <-. congruence.
Qed.

(* full description of add_multi on an available cache *)
Lemma add_multi_spec l ns : forall m,
  memcache.available m = true ->
  memcache.available (memcache.add_multi l ns m) = true /\
  memcache.inits (memcache.add_multi l ns m) = memcache.inits m /\
  forall ns' k,
    memcache.cells (memcache.add_multi l ns m) !! (ns', k) =
    match memcache.cells m !! (ns', k) with
    | Some v => Some v
    | None => if decide (ns' = ns) then (list_to_map l : gmap string Z) !! k else None
    end.
Proof.
  induction l as [|[k v] l IH]; intros m Hav; simpl.
  - split; [done|]. split; [done|]. intros ns' k.
    destruct (memcache.cells m !! (ns', k)); [done|]. by destruct (decide _).
  - assert (snd (memcache.add k v ns m) =
            match memcache.cells m !! (ns, k) with
            | Some _ => m
            | None => memcache.with_cells m (<[(ns, k):=v]> (memcache.cells m))
            end) as ->.
    { unfold memcache.add. rewrite Hav. by destruct (memcache.cells m !! (ns, k)). }
    destruct (memcache.cells m !! (ns, k)) as [v0|] eqn:Hk; simpl.
    + destruct (IH m Hav) as (H1 & H2 & H3). split; [done|]. split; [done|].
      intros ns' k'. rewrite H3.
      destruct (memcache.cells m !! (ns', k')) as [w|] eqn:Hk'; [done|].
      destruct (decide (ns' = ns)) as [->|]; [|done].
      rewrite lookup_insert_ne; [done|]. intros <-. congruence.
    + destruct (IH (memcache.with_cells m (<[(ns, k):=v]> (memcache.cells m))) Hav)
        as (H1 & H2 & H3).
      split; [done|]. split; [done|]. intros ns' k'. rewrite H3. simpl.
      destruct (decide ((ns, k) = (ns', k'))) as [[= <- <-]|Hne].
      * rewrite lookup_insert_eq, Hk. rewrite decide_True by done.
        by rewrite lookup_insert_eq.
      * rewrite lookup_insert_ne by done.
        destruct (memcache.cells m !! (ns', k')) as [w|]; [done|].
        destruct (decide (ns' = ns)) as [->|]; [|done].
        rewrite lookup_insert_ne; [done|]. congruence.
Qed.

Section CounterRebuild.

Variable namespace : string.
Variable online : bool.
Variable prediction : bool.
Variable BuildContext : list (string * Z).

Abbreviation _Incr := (RuleRegisterResource._Incr namespace online prediction BuildContext).
Abbreviation _Regenerate := (RuleRegisterResource._Regenerate namespace online prediction BuildContext).
Abbreviation _Get := (RuleRegisterResource._Get namespace online prediction BuildContext).
Abbreviation _Decr := (RuleRegisterResource._Decr namespace prediction).

Lemma discount_self_Ok l :
  Forall (fun kv => 0 < kv.2) l ->
  RuleRegisterResource.discount_self l = Ok (map (fun kv => (kv.1, kv.2 - 1)) l).
Proof.
  induction 1 as [|[k v] l Hv _ IH]; simpl; [done|].
  simpl in Hv. rewrite bool_decide_true by lia. by rewrite IH.
Qed.

Lemma discount_self_fst l l' :
  RuleRegisterResource.discount_self l = Ok l' -> l'.*1 = l.*1.
Proof.
  revert l'. induction l as [|[k v] l IH]; simpl; intros l'; [by intros [= <-]|].
  case_bool_decide; [|done].
  destruct (RuleRegisterResource.discount_self l) as [l0|e]; [|done].
  intros [= <-]. simpl. f_equal. by apply IH.
Qed.

(** Extra X4. [_Regenerate] only adds (rules.py). Whatever the mode and
    the cache, the cache after [_Regenerate] still holds every counter
    with its value and every ['__init__'] list it held; and when
    [_Regenerate] raises, the exception is [AssertionError] and the cache
    is untouched. *)
Theorem _Regenerate_never_overwrites m :
  cache_extends m (snd (_Regenerate m)) /\
  (forall e, fst (_Regenerate m) = Raise e ->
     e = AssertionError /\ snd (_Regenerate m) = m).
Proof.
  unfold RuleRegisterResource._Regenerate.
  assert (forall l e, RuleRegisterResource.discount_self l = Raise e -> e = AssertionError) as Hd.
  { induction l as [|[k v] l IH]; simpl; [done|]. intros e.
    case_bool_decide; [|by intros [= <-]].
    destruct (RuleRegisterResource.discount_self l); [done|]. intros [= <-]. by apply IH. }
  destruct (if online && negb prediction then _ else _) as [ctx|e] eqn:Hctx; simpl.
  - split; [|done].
    eapply cache_extends_trans; [apply add_multi_extends|apply add_init_extends].
  - split; [done|]. intros e' [= <-]. split; [|done].
    destruct (online && negb prediction); [by eapply Hd|done].
Qed.

(* _Regenerate on an available cache, with the context it stores *)
Lemma _Regenerate_spec ctx m :
  memcache.available m = true ->
  (if online && negb prediction then RuleRegisterResource.discount_self BuildContext
   else Ok BuildContext) = Ok ctx ->
  exists m', _Regenerate m = (Ok (), m') /\
    memcache.available m' = true /\
    memcache.inits m' =
      match memcache.inits m !! namespace with
      | Some _ => memcache.inits m
      | None => <[namespace := ctx.*1]> (memcache.inits m)
      end /\
    forall ns' k,
      memcache.cells m' !! (ns', k) =
      match memcache.cells m !! (ns', k) with
      | Some v => Some v
      | None => if decide (ns' = namespace)
                then (list_to_map ctx : gmap string Z) !! k else None
      end.
Proof.
  intros Hav Hctx. unfold RuleRegisterResource._Regenerate. rewrite Hctx.
  destruct (add_multi_spec ctx namespace m Hav) as (H1 & H2 & H3).
  eexists. split; [reflexivity|].
  unfold memcache.add_init. rewrite H1, H2.
  destruct (memcache.inits m !! namespace) eqn:Hi; simpl; by rewrite ?H1.
Qed.

(** Extra X3. A key new to its namespace (rules.py, [_Incr]). The cache
    is usable, the ['__init__'] list [ks] of the namespace does not hold
    [key] and the counter of [key] is missing. Outside prediction mode
    [_Incr] returns 1 whatever the number of retries and [_BuildContext]:
    the counter is created with 1, ['__init__'] becomes [ks ++ [key]],
    and nothing else changes in the cache. *)
Theorem _Incr_new_key key retries m ks :
  prediction = false ->
  memcache.available m = true ->
  memcache.cells m !! (namespace, key) = None ->
  memcache.inits m !! namespace = Some ks ->
  key ∉ ks ->
  _Incr key retries m =
    (Ok (Some 1),
     {| memcache.cells := <[(namespace, key) := 1]> (memcache.cells m);
        memcache.inits := <[namespace := ks ++ [key]]> (memcache.inits m);
        memcache.available := true |}).
Proof.
  intros Hpred Hav Hcell Hinit Hnotin.
  rewrite _Incr_unfold_real by done.
  unfold memcache.incr, memcache.get. rewrite Hav, Hcell. cbv zeta.
  unfold memcache.get_init. rewrite Hav, Hinit.
  rewrite bool_decide_false by done. simpl.
  rewrite bool_decide_false by done.
  unfold memcache.add. rewrite Hav, Hcell. simpl.
  unfold memcache.set_init. simpl. rewrite Hav.
  unfold memcache.with_inits, memcache.with_cells. simpl. by rewrite Hav.
Qed.

(** Extra X2. A listed key that is not rebuilt (rules.py, [_Incr]).
    The cache is usable, ['__init__'] lists [key], the counter of [key]
    is missing and [_BuildContext] has no entry for [key]. Outside
    prediction mode [_Incr] raises [AppengineError], whatever the number
    of retries, and the cache it leaves is in the same condition: the
    counter is still missing and ['__init__'] is unchanged. *)
Theorem _Incr_listed_key_not_rebuilt key retries : forall m ks,
  prediction = false ->
  (online = true -> Forall (fun kv => 0 < kv.2) BuildContext) ->
  key ∉ BuildContext.*1 ->
  memcache.available m = true ->
  memcache.cells m !! (namespace, key) = None ->
  memcache.inits m !! namespace = Some ks ->
  key ∈ ks ->
  exists m', _Incr key retries m = (Raise AppengineError, m') /\
    memcache.available m' = true /\
    memcache.cells m' !! (namespace, key) = None /\
    memcache.inits m' !! namespace = Some ks.
Proof.
  intros m ks Hpred Hpos Hnotin. revert m.
  assert (exists ctx,
    (if online && negb prediction then RuleRegisterResource.discount_self BuildContext
     else Ok BuildContext) = Ok ctx /\ ctx.*1 = BuildContext.*1) as (ctx & Hctx & Hfst).
  { destruct online; simpl.
    - rewrite Hpred. simpl. rewrite discount_self_Ok by auto.
      eexists; split; [done|]. rewrite <- !list_fmap_compose. done.
    - by eexists. }
  assert (forall m, memcache.available m = true ->
            memcache.cells m !! (namespace, key) = None ->
            memcache.inits m !! namespace = Some ks ->
            exists m', _Regenerate m = (Ok (), m') /\
              memcache.available m' = true /\
              memcache.cells m' !! (namespace, key) = None /\
              memcache.inits m' !! namespace = Some ks) as Hregen.
  { intros m Hav Hcell Hinit.
    destruct (_Regenerate_spec ctx m Hav Hctx) as (m' & Hr & Hav' & Hi' & Hc').
    exists m'. split; [done|]. split; [done|]. split.
    - rewrite Hc', Hcell. rewrite decide_True by done.
      apply not_elem_of_list_to_map_1. by rewrite Hfst.
    - rewrite Hi', Hinit. done. }
  induction retries as [|r IH]; intros m Hav Hcell Hinit Hin;
    rewrite _Incr_unfold_real by done.
  all: unfold memcache.incr, memcache.get; rewrite Hav, Hcell; cbv zeta.
  all: unfold memcache.get_init at 1; rewrite Hav, Hinit.
  all: rewrite bool_decide_true by done.
  all: destruct (Hregen m Hav Hcell Hinit) as (m' & -> & Hav' & Hcell' & Hinit').
  all: unfold memcache.get_init; rewrite Hav', Hinit'.
  all: rewrite bool_decide_true by done.
  - simpl. by exists m'.
  - destruct (IH m' Hav' Hcell' Hinit' Hin) as (m'' & -> & H). by exists m''.
Qed.

(** Extra X1. Rebuilding a counter (rules.py, [_Incr] and [_Regenerate]).
    The cache is usable and holds neither the counter of [key] nor the
    ['__init__'] list of the namespace; [_BuildContext] is a dictionary
    (its keys are distinct) that counts [c] for [key], every count being
    positive when the rule is online. Outside prediction mode [_Incr]
    then returns [c] online (the caller, already stored and counted, is
    discounted before the increment) and [c + 1] offline; the counter
    holds that value and ['__init__'] lists the keys of [_BuildContext]. *)
Theorem _Incr_rebuilds key c m :
  prediction = false ->
  (online = true -> Forall (fun kv => 0 < kv.2) BuildContext) ->
  NoDup BuildContext.*1 ->
  (key, c) ∈ BuildContext ->
  memcache.available m = true ->
  memcache.cells m !! (namespace, key) = None ->
  memcache.inits m !! namespace = None ->
  let n := if online then c else c + 1 in
  exists m', _Incr key _NUM_RETRIES m = (Ok (Some n), m') /\
    memcache.get key namespace m' = Some n /\
    memcache.get_init namespace m' = Some BuildContext.*1.
Proof.
  intros Hpred Hpos Hnodup Hin Hav Hcell Hinit n.
  assert (exists ctx,
    (if online && negb prediction then RuleRegisterResource.discount_self BuildContext
     else Ok BuildContext) = Ok ctx /\ ctx.*1 = BuildContext.*1 /\
    (key, n - 1) ∈ ctx) as (ctx & Hctx & Hfst & Hin').
  { subst n. destruct online; simpl.
    - rewrite Hpred. simpl. rewrite discount_self_Ok by auto.
      eexists; split; [done|]. split; [by rewrite <- !list_fmap_compose|].
      apply list_elem_of_fmap. by exists (key, c).
    - eexists. split; [done|]. split; [done|]. by replace (c + 1 - 1) with c by lia. }
  destruct (_Regenerate_spec ctx m Hav Hctx) as (m' & Hr & Hav' & Hi' & Hc').
  rewrite Hinit in Hi'.
  assert (memcache.cells m' !! (namespace, key) = Some (n - 1)) as Hcell'.
  { rewrite Hc', Hcell. rewrite decide_True by done.
    apply elem_of_list_to_map; [by rewrite Hfst|done]. }
  unfold _NUM_RETRIES.
  rewrite _Incr_unfold_real by done.
  unfold memcache.incr at 1, memcache.get at 1. rewrite Hav, Hcell. cbv zeta.
  unfold memcache.get_init at 1. rewrite Hav, Hinit. rewrite Hr.
  unfold memcache.get_init at 1 2. rewrite Hav', Hi', lookup_insert_eq.
  rewrite bool_decide_true.
  2:{ rewrite Hfst. apply list_elem_of_fmap. by exists (key, c). }
  rewrite _Incr_unfold_real by done.
  unfold memcache.incr, memcache.get. rewrite Hav', Hcell'. simpl.
  eexists. split; [f_equal; f_equal; f_equal; lia|].
  unfold memcache.get, memcache.get_init. simpl. rewrite Hav'.
  rewrite lookup_insert_eq. split; [f_equal; lia|].
  by rewrite Hi', lookup_insert_eq, Hfst.
Qed.

End CounterRebuild.

Lemma _Get_extends ns online prediction BC key retries : forall m,
  cache_extends m (snd (RuleRegisterResource._Get ns online prediction BC key retries m)).
Proof.
  induction retries as [|r IH]; intros m; simpl.
  - by destruct (memcache.get key ns m).
  - destruct (memcache.get key ns m); [done|].
    pose proof (_Regenerate_never_overwrites ns online prediction BC m) as [Hext Hraise].
    destruct (RuleRegisterResource._Regenerate ns online prediction BC m) as [[[]|e] m'];
      [|done].
    eapply cache_extends_trans; [exact Hext|apply IH].
Qed.

Lemma _Get_present ns online prediction BC key retries m v :
  memcache.get key ns m = Some v ->
  RuleRegisterResource._Get ns online prediction BC key retries m = (Ok (Some v), m).
Proof. intros H. destruct retries; simpl; by rewrite H. Qed.

Lemma _Incr_prediction_extends ns online BC key retries m :
  cache_extends m (snd (RuleRegisterResource._Incr ns online true BC key retries m)).
Proof.
  rewrite _Incr_unfold_prediction by done.
  pose proof (_Get_extends ns online true BC key _NUM_RETRIES m) as H.
  destruct (RuleRegisterResource._Get ns online true BC key _NUM_RETRIES m)
    as [[[v|]|e] m']; done.
Qed.

Lemma _Incr_prediction_present ns online BC key retries m v :
  memcache.get key ns m = Some v ->
  RuleRegisterResource._Incr ns online true BC key retries m = (Ok (Some (v + 1)), m).
Proof.
  intros H. rewrite _Incr_unfold_prediction by done.
  rewrite (_Get_present _ _ _ _ _ _ _ _ H).
  case_bool_decide as Hv; [by subst v|done].
Qed.

Lemma incr_present key ns m v :
  memcache.available m = true ->
  memcache.cells m !! (ns, key) = Some v ->
  memcache.incr key ns m =
    (Some (v + 1), memcache.with_cells m (<[(ns, key) := v + 1]> (memcache.cells m))).
Proof. intros Hav Hc. unfold memcache.incr, memcache.get. by rewrite Hav, Hc. Qed.

Lemma decr_after_incr key ns m v :
  memcache.available m = true ->
  memcache.cells m !! (ns, key) = Some v ->
  0 <= v ->
  snd (memcache.decr key ns
         (memcache.with_cells m (<[(ns, key) := v + 1]> (memcache.cells m)))) = m.
Proof.
  intros Hav Hc Hv. unfold memcache.decr, memcache.get. simpl.
  rewrite Hav, lookup_insert_eq. simpl.
  unfold memcache.with_cells. simpl. destruct m as [c i a]. simpl in *.
  f_equal. rewrite insert_insert_eq.
  replace (Z.max 0 (v + 1 - 1)) with v by lia. by apply insert_id.
Qed.

Lemma _Incr_present ns online BC key retries m v :
  memcache.available m = true ->
  memcache.cells m !! (ns, key) = Some v ->
  RuleRegisterResource._Incr ns online false BC key retries m =
    (Ok (Some (v + 1)),
     memcache.with_cells m (<[(ns, key) := v + 1]> (memcache.cells m))).
Proof.
  intros Hav Hc. rewrite _Incr_unfold_real by done.
  by rewrite (incr_present _ _ _ _ Hav Hc).
Qed.

(** Extra X6. An online reservation is given back on denial
    (rules_impl.py, [MaxNumberRegisteredBy]). Online, outside prediction
    mode, with the counter in a usable cache at [v >= 0]: [_Evaluate]
    for the target ENROLLED returns with the counter at [v + 1];
    [_ProcessOutcome] of its verdict with the final state [None] then
    restores the cache of before the evaluation, and with any other
    final state it leaves the counter at [v + 1]. *)
Theorem online_reservation_is_released
    (max_people : Z) (self : RuleBase) (BuildContext : list (string * Z))
    (initial_state : option Status) (key : option string)
    (m : memcache.Memcache) (v : Z) :
  let k := MaxNumberRegisteredBy._NormalizeKey key in
  self_offline self = false ->
  memcache.available m = true ->
  memcache.cells m !! (self_namespace self, k) = Some v ->
  0 <= v ->
  exists rr m1,
    MaxNumberRegisteredBy._Evaluate max_people self false BuildContext
      initial_state (Some ENROLLED) key m = (Ok rr, m1) /\
    memcache.get k (self_namespace self) m1 = Some (v + 1) /\
    MaxNumberRegisteredBy._ProcessOutcome self false BuildContext
      (rr_status rr) None key m1 = (Ok (), m) /\
    forall final_state, final_state <> None ->
      MaxNumberRegisteredBy._ProcessOutcome self false BuildContext
        (rr_status rr) final_state key m1 = (Ok (), m1).
Proof.
  intros k Hoff Hav Hc Hv.
  unfold MaxNumberRegisteredBy._Evaluate, MaxNumberRegisteredBy._ProcessOutcome.
  fold k. rewrite decide_True by done.
  rewrite (_Incr_present _ _ _ _ _ _ _ Hav Hc). rewrite Hoff.
  set (m1 := memcache.with_cells m _).
  assert (memcache.get k (self_namespace self) m1 = Some (v + 1)) as Hget.
  { unfold memcache.get, m1. simpl. by rewrite Hav, lookup_insert_eq. }
  unfold MaxNumberRegisteredBy._ProcessOnlineOutcome,
    RuleRegisterResource._Decr. simpl.
  case_bool_decide.
  - eexists _, m1. split; [done|]. split; [done|]. simpl. split.
    + subst m1. by rewrite decr_after_incr.
    + intros f Hf. by rewrite decide_False by done.
  - eexists _, m1. split; [done|]. split; [done|]. simpl. split.
    + subst m1. by rewrite decr_after_incr.
    + intros f Hf. by rewrite decide_False by done.
Qed.

(** Extra X7. The offline counter counts the enrolled (rules_impl.py,
    [MaxNumberRegisteredBy]). Offline, outside prediction mode, with the
    counter in a usable cache at [v >= 0]: after [_Evaluate] for the
    target ENROLLED and [_ProcessOutcome] of its verdict, the counter is
    at [v + 1] when the final state is ENROLLED, and the cache is the
    one of before the evaluation otherwise, whether the rule itself
    answered ENROLLED or WAITLISTED. *)
Theorem offline_counter_counts_the_enrolled
    (max_people : Z) (self : RuleBase) (BuildContext : list (string * Z))
    (initial_state final_state : option Status) (key : option string)
    (m : memcache.Memcache) (v : Z) :
  let k := MaxNumberRegisteredBy._NormalizeKey key in
  self_offline self = true ->
  memcache.available m = true ->
  memcache.cells m !! (self_namespace self, k) = Some v ->
  0 <= v ->
  exists rr m1,
    MaxNumberRegisteredBy._Evaluate max_people self false BuildContext
      initial_state (Some ENROLLED) key m = (Ok rr, m1) /\
    MaxNumberRegisteredBy._ProcessOutcome self false BuildContext
      (rr_status rr) final_state key m1 =
    (Ok (),
     if decide (final_state = Some ENROLLED)
     then memcache.with_cells m
            (<[(self_namespace self, k) := v + 1]> (memcache.cells m))
     else m).
Proof.
  intros k Hoff Hav Hc Hv.
  unfold MaxNumberRegisteredBy._Evaluate, MaxNumberRegisteredBy._ProcessOutcome.
  fold k. rewrite decide_True by done.
  rewrite (_Incr_present _ _ _ _ _ _ _ Hav Hc). rewrite Hoff.
  unfold MaxNumberRegisteredBy._ProcessOfflineOutcome,
    MaxNumberRegisteredBy.incr_, RuleRegisterResource._Decr. cbn [negb].
  case_bool_decide.
  - eexists _, _. split; [done|]. cbn [rr_status].
    rewrite decide_False by done. rewrite decide_True by done.
    destruct (decide (final_state = Some ENROLLED)) as [->|Hne].
    + by rewrite decide_False by (by intros ?).
    + rewrite decide_True by done. by rewrite decr_after_incr.
  - eexists _, _. split; [done|]. cbn [rr_status negb].
    rewrite decr_after_incr by done.
    rewrite decide_False by done. rewrite decide_False by done.
    rewrite decide_True by done.
    destruct (decide (final_state = Some ENROLLED)) as [->|Hne]; [|done].
    by rewrite (_Incr_present _ _ _ _ _ _ _ Hav Hc).
Qed.

Lemma status_stop_initial initial : status_stop initial = [initial].
Proof. each_status; reflexivity. Qed.

Lemma precedence_initial_highest initial final p q :
  precedence initial final = Some p ->
  precedence initial initial = Some q ->
  (q <= p)%nat -> final = initial.
Proof.
  destruct initial as [[]|], final as [[]|]; vm_compute;
    intros; simplify_eq; try done; lia.
Qed.

Lemma last_occurrence {A} (x : A) (l0 l1 l2 : list A) :
  l1 ++ x :: l2 = l0 ++ [x] -> x ∉ l0 -> l2 = [].
Proof.
  revert l1. induction l0 as [|y l0 IH]; intros l1 Heq Hnotin; simpl in *.
  - destruct l1 as [|z l1]; simpl in *; [by simplify_eq|].
    injection Heq as -> Heq. by destruct l1.
  - apply not_elem_of_cons in Hnotin as [Hne Hnotin].
    destruct l1 as [|z l1]; simpl in *; [by simplify_eq|].
    injection Heq as -> Heq. by eapply IH.
Qed.

Section Veto.

Variable GetRule : string -> option RuleClass.
Variable eval_context : EvalContext.
Variable initial_status target_status : option Status.
Variable is_online : bool.
Variable namespace : string.
Variable ds : Datastore.
Variable prediction : bool.

Abbreviation evaluate :=
  (_RulesEvaluate GetRule eval_context initial_status target_status
     is_online namespace ds prediction).
Abbreviation run_list :=
  (evaluate_rule_list eval_context initial_status target_status ds prediction).
Abbreviation run_configs :=
  (evaluate_rule_configs GetRule eval_context initial_status target_status
     is_online namespace ds prediction).

(* No entry keeps the initial state. *)
Abbreviation moving acc :=
  (Forall (fun t : rtup => rtup_status t <> initial_status) acc).
(* The last entry keeps the initial state, and no other does. *)
Abbreviation vetoed acc :=
  (exists acc0 t, acc = acc0 ++ [t] /\ rtup_status t = initial_status /\
                  moving acc0).

Lemma evaluate_rule_list_veto cfg rules acc m acc' b m' :
  ctx_force_status eval_context = false ->
  run_list cfg rules acc m = (Ok (acc', b), m') ->
  moving acc ->
  if b then vetoed acc' else moving acc'.
Proof.
  intros Hforce. revert acc m.
  induction rules as [|rule rest IH]; intros acc m; simpl.
  - by intros [= <- <- _].
  - destruct (IsRegister (rule_class rule)); [|by apply IH].
    destruct (Evaluate _ _ _ _ _ _ _) as [[rr|e] m1]; [|done].
    destruct (negb _); [done|].
    rewrite Hforce, andb_true_r, status_stop_initial.
    case_bool_decide as Hstop.
    + intros [= <- <- _] Hacc. apply list_elem_of_singleton in Hstop.
      by eexists acc, _.
    + intros Hrun Hacc. eapply IH; [done|].
      apply Forall_app. split; [done|]. constructor; [|done]. simpl.
      intros Heq. apply Hstop. by apply list_elem_of_singleton.
Qed.

Lemma evaluate_rule_configs_veto configs acc m acc' m' :
  ctx_force_status eval_context = false ->
  run_configs configs acc m = (Ok acc', m') ->
  moving acc ->
  moving acc' \/ vetoed acc'.
Proof.
  intros Hforce. revert acc m.
  induction configs as [|cfg rest IH]; intros acc m; simpl.
  - intros [= <- _]. by left.
  - destruct (CreateRules _ _ _ _ _) as [rules|e]; [|done].
    destruct (run_list _ _ _ _) as [[[acc1 b]|e] m1] eqn:Hl; [|done].
    intros Hrun Hacc.
    pose proof (evaluate_rule_list_veto _ _ _ _ _ _ _ Hforce Hl Hacc) as H1.
    destruct b; [injection Hrun as <- _; by right | by eapply IH].
Qed.

(* The combined status of a list of results one of which keeps the
   initial state. *)
Lemma combined_status_veto rule_results final :
  Forall (valid_entry initial_status) rule_results ->
  combined_status initial_status target_status rule_results = Ok final ->
  initial_status ∈ map rtup_status rule_results ->
  final = initial_status.
Proof.
  intros Hvalid Hc Hin.
  destruct (combined_status_spec _ target_status _ Hvalid)
    as (final' & Hc' & _ & Hcons).
  rewrite Hc in Hc'. injection Hc' as <-.
  destruct Hcons as (_ & p & Hp & Hmax).
  { intros ->. by apply not_elem_of_nil in Hin. }
  destruct (Hmax _ Hin) as (q & Hq & Hle).
  by eapply precedence_initial_highest.
Qed.

(** Extra X8. A verdict that keeps the initial status is a veto
    (rule_engine.py, [_RulesEvaluate]; utils.py, [VALID_TRANSITIONS]).
    Without [force_status], when [_RulesEvaluate] returns and some rule
    answered the initial status, that verdict is the last one (no rule
    was evaluated after it) and the final status is the initial status. *)
Theorem initial_state_verdict_is_a_veto (m : memcache.Memcache)
    (res : EvalResult) (before after : list (option Status)) :
  ctx_force_status eval_context = false ->
  fst (evaluate m) = Ok res ->
  verdicts res = before ++ initial_status :: after ->
  after = [] /\ final_status res = initial_status.
Proof.
  intros Hforce Hres Hverdicts. destruct (evaluate m) as [r m'] eqn:Hrun.
  simpl in Hres. subst r.
  apply _RulesEvaluate_Ok in Hrun
    as (_ & rule_results & final & Hloop & Hc & -> & Hvalid & _).
  rewrite bundle_verdicts in Hverdicts.
  rewrite bundle_final_status, Hforce.
  split.
  - apply (evaluate_rule_configs_veto _ _ _ _ _ Hforce) in Hloop;
      [|by constructor].
    destruct Hloop as [Hmoving | (acc0 & t & -> & Ht & Hmoving)].
    + exfalso.
      assert (initial_status ∈ map rtup_status rule_results) as Hin
        by (rewrite Hverdicts; apply elem_of_app; right; constructor).
      apply list_elem_of_fmap in Hin as (t & Ht & Hin).
      by apply (proj1 (Forall_forall _ _) Hmoving t).
    + rewrite map_app in Hverdicts. simpl in Hverdicts. rewrite Ht in Hverdicts.
      eapply last_occurrence; [done|].
      intros Hin. apply list_elem_of_fmap in Hin as (t' & Ht' & Hin).
      by apply (proj1 (Forall_forall _ _) Hmoving t').
  - eapply combined_status_veto; [done..|].
    rewrite Hverdicts. apply elem_of_app. right. constructor.
Qed.

(* A configuration of LockPastActivity among those evaluated online,
   for a request made after the start of the activity. *)
Lemma evaluate_rule_configs_locked lock start_time configs :
  forall acc m acc' m',
  ctx_force_status eval_context = false ->
  is_online = true ->
  GetRule (rule_name lock) = Some LockPastActivity.class ->
  activity_start_time (ctx_activity eval_context) = Some start_time ->
  ctx_queue_time eval_context > start_time ->
  lock ∈ configs ->
  run_configs configs acc m = (Ok acc', m') ->
  moving acc -> vetoed acc'.
Proof.
  intros acc m acc' m' Hforce Honline Hlock Hstart Hlate. revert acc m.
  induction configs as [|cfg rest IH]; intros acc m Hin; simpl.
  - by apply not_elem_of_nil in Hin.
  - destruct (decide (cfg = lock)) as [->|Hne].
    + unfold CreateRules. rewrite Hlock. simpl.
      destruct (keyword_parameters [] (parameters lock)); [|done].
      simpl. unfold LockPastActivity.Evaluate. simpl.
      replace (negb (negb is_online)) with true by (by rewrite Honline).
      rewrite Hstart.
      rewrite bool_decide_true by done. simpl.
      assert (IsValidTransition initial_status initial_status = true) as ->.
      { unfold IsValidTransition. by rewrite decide_True. }
      simpl. rewrite Hforce, andb_true_r, status_stop_initial.
      rewrite bool_decide_true by (by apply list_elem_of_singleton).
      intros [= <- _] Hacc. by eexists acc, _.
    + apply elem_of_cons in Hin as [->|Hin]; [done|].
      destruct (CreateRules _ _ _ _ _) as [rules|e]; [|done].
      destruct (run_list _ _ _ _) as [[[acc1 b]|e] m1] eqn:Hl; [|done].
      intros Hrun Hacc.
      pose proof (evaluate_rule_list_veto _ _ _ _ _ _ _ Hforce Hl Hacc) as H1.
      destruct b; [by injection Hrun as <- _ | by eapply IH].
Qed.

(** Extra X9. Online, a past activity is locked (rules_impl.py,
    [LockPastActivity]; rule_engine.py, [_RulesEvaluate]). The context
    carries a configuration of [LockPastActivity], the evaluation is
    online and not forced, the activity has a start time and the request
    was queued after it. Then whenever [_RulesEvaluate] returns, the
    final status is the initial status and so is the last verdict,
    whatever the other rules of the context are. *)
Theorem past_activity_is_locked_online (lock : RuleConfig) (start_time : Z)
    (m : memcache.Memcache) (res : EvalResult) :
  ctx_force_status eval_context = false ->
  is_online = true ->
  lock ∈ _RuleGenerator eval_context ->
  GetRule (rule_name lock) = Some LockPastActivity.class ->
  activity_start_time (ctx_activity eval_context) = Some start_time ->
  ctx_queue_time eval_context > start_time ->
  fst (evaluate m) = Ok res ->
  final_status res = initial_status /\
  last (verdicts res) = Some initial_status.
Proof.
  intros Hforce Honline Hin Hlock Hstart Hlate Hres.
  destruct (evaluate m) as [r m'] eqn:Hrun. simpl in Hres. subst r.
  apply _RulesEvaluate_Ok in Hrun
    as (_ & rule_results & final & Hloop & Hc & -> & Hvalid & _).
  rewrite bundle_verdicts, bundle_final_status, Hforce.
  eapply evaluate_rule_configs_locked in Hloop; [|done..|by constructor].
  destruct Hloop as (acc0 & t & -> & Ht & Hmoving). split.
  - eapply combined_status_veto; [done..|].
    rewrite map_app. simpl. rewrite Ht.
    apply elem_of_app. right. constructor.
  - rewrite map_app. simpl. by rewrite last_snoc, Ht.
Qed.

(* The loops return when every rule object answers legally. *)
Lemma evaluate_rule_list_returns cfg rules : forall acc m,
  Forall (fun rule =>
            answers_legally rule initial_status target_status ds prediction)
         rules ->
  exists acc' b m', run_list cfg rules acc m = (Ok (acc', b), m').
Proof.
  intros acc m Hrules. revert acc m.
  induction Hrules as [|rule rest Hlegal _ IH]; intros acc m; simpl; [eauto|].
  destruct (IsRegister (rule_class rule)); [|apply IH].
  destruct (Hlegal m) as (rr & m1 & -> & ->). simpl.
  destruct (_ && _); [eauto | apply IH].
Qed.

Lemma CreateRules_class cfg ctx offline ns rule rules :
  GetRule (rule_name cfg) = Some rule ->
  CreateRules GetRule cfg ctx offline ns = Ok rules ->
  Forall (fun r => rule_class r = rule) rules.
Proof.
  intros Hrule. unfold CreateRules. rewrite Hrule.
  destruct (CanProcessMultipleSchedules rule).
  - destruct (__init__ rule _); intros [= <-]. by repeat constructor.
  - destruct (zip _ _) as [|sa0 pairs]; [by intros [= <-]|].
    destruct (__init__ rule _); intros [= <-].
    apply Forall_forall. intros r Hr.
    apply elem_of_cons in Hr as [->|Hr]; [done|].
    by apply list_elem_of_fmap in Hr as (sa & -> & _).
Qed.

Lemma evaluate_rule_configs_returns configs : forall acc m,
  Forall (fun cfg => exists rules,
            CreateRules GetRule cfg eval_context (negb is_online) namespace
            = Ok rules /\
            Forall (fun rule =>
                      answers_legally rule initial_status target_status ds
                        prediction) rules)
         configs ->
  exists acc' m', run_configs configs acc m = (Ok acc', m').
Proof.
  intros acc m Hconfigs. revert acc m.
  induction Hconfigs as [|cfg rest (rules & Hrules & Hlegal) _ IH];
    intros acc m; simpl; [eauto|].
  rewrite Hrules.
  destruct (evaluate_rule_list_returns cfg rules acc m Hlegal)
    as (acc1 & b & m1 & ->).
  destruct b; [eauto | apply IH].
Qed.

(** Extra X10. The evaluation returns when the rules answer legally
    (rule_engine.py, [_RulesEvaluate]). The pair (initial, target) is a
    valid transition, and for every configuration that [_RuleGenerator]
    yields [CreateRules] returns rule objects (the class is known and
    its constructor takes the parameters) whose [Evaluate] returns a
    valid move from the initial status, whatever the cache. Then
    [_RulesEvaluate] returns, and its final status is among the
    transitions of the initial status. *)
Theorem evaluation_returns_when_rules_answer_legally (m : memcache.Memcache) :
  IsValidTransition initial_status target_status = true ->
  Forall (fun cfg => exists rules,
            CreateRules GetRule cfg eval_context (negb is_online) namespace
            = Ok rules /\
            Forall (fun rule =>
                      answers_legally rule initial_status target_status ds
                        prediction) rules)
         (_RuleGenerator eval_context) ->
  exists res m', evaluate m = (Ok res, m') /\
    final_status res ∈ VALID_TRANSITIONS initial_status.
Proof.
  intros Hlegal Hconfigs. unfold _RulesEvaluate. rewrite Hlegal. simpl.
  destruct (evaluate_rule_configs_returns _ [] m Hconfigs)
    as (rule_results & m' & Hrun).
  rewrite Hrun.
  assert (Forall (valid_entry initial_status) rule_results) as Hvalid
    by (eapply evaluate_rule_configs_valid; [done|constructor]).
  destruct (combined_status_spec _ target_status _ Hvalid)
    as (final & -> & Hnil & Hcons).
  eexists _, _. split; [done|]. rewrite bundle_final_status.
  destruct (ctx_force_status eval_context); [by apply IsValidTransition_elem|].
  destruct rule_results as [|t rest].
  - rewrite Hnil by done. by apply IsValidTransition_elem.
  - destruct Hcons as [Hin _]; [done|].
    apply list_elem_of_fmap in Hin as (t' & -> & Ht').
    apply IsValidTransition_elem.
    by apply (proj1 (Forall_forall _ _) Hvalid).
Qed.

End Veto.

Lemma IsValidTransition_refl s : IsValidTransition s s = true.
Proof. unfold IsValidTransition. by rewrite decide_True. Qed.


Lemma LockPastActivity_answers_legally self initial_state target_state ds
    prediction :
  IsValidTransition initial_state target_state = true ->
  (self_online self = true ->
   is_Some (activity_start_time (ctx_activity (self_eval_context self)))) ->
  answers_legally
    {| rule_class := LockPastActivity.class; rule_self := self |}
    initial_state target_state ds prediction.
Proof.
  intros Hlegal Hstart m. simpl. unfold LockPastActivity.Evaluate.
  destruct (self_online self).
  - destruct (Hstart eq_refl) as [lock_time ->].
    case_bool_decide; eexists _, _; (split; [done|]); simpl; [|done].
    apply IsValidTransition_refl.
  - by eexists _, _.
Qed.

(* ------------------------------------------------------------------ *)
(* Prediction *)


Section Prediction.

Variable GetRule : string -> option RuleClass.
Variable eval_context : EvalContext.
Hypothesis GetRule_safe :
  forall name rule, GetRule name = Some rule -> predicts_safely rule.

Abbreviation safe_entries acc :=
  (Forall (fun t : rtup => predicts_safely (rule_class (rtup_rule t))) acc).

Lemma evaluate_rule_list_predicts initial target ds cfg rules :
  forall acc m acc' b m',
  Forall (fun r => predicts_safely (rule_class r)) rules ->
  evaluate_rule_list eval_context initial target ds true cfg rules acc m
    = (Ok (acc', b), m') ->
  safe_entries acc -> safe_entries acc'.
Proof.
  intros acc m acc' b m' Hrules. revert acc m.
  induction Hrules as [|rule rest Hrule _ IH]; intros acc m; simpl.
  - by intros [= <- _ _].
  - destruct (IsRegister (rule_class rule)); [|by apply IH].
    destruct (Evaluate _ _ _ _ _ _ _) as [[rr|e] m1]; [|done].
    destruct (negb _); [done|].
    intros Hrun Hacc.
    assert (safe_entries
              (acc ++ [(cfg, rule, rr_status rr, default [] (rr_rule_tags rr),
                        default (Some 0) (rr_resource_remaining rr))])) as Hacc'.
    { apply Forall_app; split; [done|]. by constructor. }
    destruct (_ && _); [by injection Hrun as <- _ _ | by eapply IH].
Qed.

Lemma evaluate_rule_list_extends initial target ds cfg rules :
  forall acc m,
  Forall (fun r => predicts_safely (rule_class r)) rules ->
  cache_extends m
    (snd (evaluate_rule_list eval_context initial target ds true cfg rules acc m)).
Proof.
  intros acc m Hrules. revert acc m.
  induction Hrules as [|rule rest Hrule _ IH]; intros acc m; simpl;
    [apply cache_extends_refl|].
  destruct (IsRegister (rule_class rule)); [|by apply IH].
  pose proof (proj1 (Hrule (rule_self rule) initial target ds m)) as H1.
  destruct (Evaluate _ _ _ _ _ _ _) as [[rr|e] m1]; [|done]. simpl in H1.
  destruct (negb _); [done|].
  destruct (_ && _); [done|].
  eapply cache_extends_trans; [exact H1 | apply IH].
Qed.

Lemma CreateRules_safe cfg ctx offline ns rules :
  CreateRules GetRule cfg ctx offline ns = Ok rules ->
  Forall (fun r => predicts_safely (rule_class r)) rules.
Proof.
  intros Hrules.
  destruct (CreateRules_known _ _ _ _ _ _ Hrules) as [rule Hrule].
  eapply Forall_impl; [by eapply CreateRules_class|].
  intros r ->. by eapply GetRule_safe.
Qed.

Lemma evaluate_rule_configs_predicts initial target is_online ns ds configs :
  forall acc m acc' m',
  evaluate_rule_configs GetRule eval_context initial target is_online ns ds true
    configs acc m = (Ok acc', m') ->
  safe_entries acc -> safe_entries acc'.
Proof.
  induction configs as [|cfg rest IH]; intros acc m acc' m'; simpl.
  - by intros [= <- _].
  - destruct (CreateRules _ _ _ _ _) as [rules|e] eqn:Hc; [|done].
    destruct (evaluate_rule_list _ _ _ _ _ _ _ _ _) as [[[acc1 b]|e] m1] eqn:Hl;
      [|done].
    intros Hrun Hacc.
    pose proof (evaluate_rule_list_predicts _ _ _ _ _ _ _ _ _ _
                  (CreateRules_safe _ _ _ _ _ Hc) Hl Hacc) as Hacc1.
    destruct b; [by injection Hrun as <- _ | by eapply IH].
Qed.

Lemma evaluate_rule_configs_extends initial target is_online ns ds configs :
  forall acc m,
  cache_extends m
    (snd (evaluate_rule_configs GetRule eval_context initial target is_online
            ns ds true configs acc m)).
Proof.
  induction configs as [|cfg rest IH]; intros acc m; simpl;
    [apply cache_extends_refl|].
  destruct (CreateRules _ _ _ _ _) as [rules|e] eqn:Hc;
    [|apply cache_extends_refl].
  pose proof (evaluate_rule_list_extends initial target ds cfg rules acc m
                (CreateRules_safe _ _ _ _ _ Hc)) as H1.
  destruct (evaluate_rule_list _ _ _ _ _ _ _ _ _) as [[[acc1 b]|e] m1];
    [|done]. simpl in H1.
  destruct b; [done|].
  eapply cache_extends_trans; [exact H1 | apply IH].
Qed.

Lemma _RulesEvaluate_predicts initial target is_online ns ds m :
  let run := _RulesEvaluate GetRule eval_context initial target is_online ns
               ds true m in
  cache_extends m (snd run) /\
  forall res, fst run = Ok res ->
    Forall (fun rs : Rule * option Status => predicts_safely (rule_class rs.1))
           (all_rule_results res).
Proof.
  unfold _RulesEvaluate.
  destruct (negb _); [by split|].
  pose proof (evaluate_rule_configs_extends initial target is_online ns ds
                (_RuleGenerator eval_context) [] m) as H1.
  pose proof (evaluate_rule_configs_predicts initial target is_online ns ds
                (_RuleGenerator eval_context) [] m) as H2.
  destruct (evaluate_rule_configs _ _ _ _ _ _ _ _ _ _ _) as [[acc|e] m1];
    [|by split].
  destruct (combined_status _ _ _) as [final|e]; [|by split].
  split; [done|]. intros res [= <-]. rewrite bundle_all_rule_results.
  apply Forall_fmap. eapply Forall_impl; [by eapply H2|]. done.
Qed.

Lemma _RulesNotify_predicts final rule_results : forall w,
  PREDICTION_MODE w = true ->
  Forall (fun rs : Rule * option Status => predicts_safely (rule_class rs.1))
         rule_results ->
  let w' := (_RulesNotify final rule_results w).2 in
  cache_extends (cache w) (cache w') /\ PREDICTION_MODE w' = true.
Proof.
  intros w Hmode Hsafe. revert w Hmode.
  induction Hsafe as [|[rule s] rest Hrule _ IH]; intros w Hmode; simpl;
    [by split|].
  unfold bind, emit, lift_rule. simpl. rewrite Hmode.
  pose proof (proj2 (Hrule (rule_self rule) s final (datastore w) (cache w)))
    as H1. simpl in H1.
  destruct (ProcessOutcome _ _ _ _ _ _ _) as [[[]|e] m1]; simpl in *; [|done].
  match goal with |- context [_RulesNotify final rest ?w1] =>
    destruct (IH w1 eq_refl) as [H2 H3] end.
  simpl in H2. split; [|done]. by eapply cache_extends_trans.
Qed.

(** Extra X12. Predicting an outcome changes no counter (rule_engine.py,
    [PredictRegistrationOutcome]). When [Evaluate] and [ProcessOutcome]
    of every rule class, run in prediction mode, leave in the cache
    what it held, the cache after [PredictRegistrationOutcome] still
    holds every counter with its value and every ['__init__'] list it
    held before, whether the prediction returns or raises. *)
Theorem prediction_keeps_the_cache (w : World) :
  let w' := (PredictRegistrationOutcome GetRule eval_context w).2 in
  cache_extends (cache w) (cache w').
Proof.
  unfold PredictRegistrationOutcome, bind, SetPredictionMode, lift_rule, ret.
  simpl.
  pose proof (_RulesEvaluate_predicts None (Some ENROLLED) true ""
                (datastore w) (cache w)) as [H1 H2].
  destruct (_RulesEvaluate _ _ _ _ _ _ _ _ _) as [[res|e] m1]; simpl in *;
    [|done].
  match goal with |- context [_RulesNotify None _ ?w1] =>
    destruct (_RulesNotify_predicts None (all_rule_results res) w1 eq_refl
                (H2 res eq_refl)) as [H3 _];
    destruct (_RulesNotify None (all_rule_results res) w1) as [[[]|e] w2]
  end; simpl in *; by eapply cache_extends_trans.
Qed.

End Prediction.

(* What [_RulesNotify] leaves alone, and what it adds to the effects. *)
Lemma _RulesNotify_frame final rule_results : forall w,
  let w' := (_RulesNotify final rule_results w).2 in
  datastore w' = datastore w /\
  offline_reprocess_tags w' = offline_reprocess_tags w /\
  PREDICTION_MODE w' = PREDICTION_MODE w /\
  exists l, effects w' = effects w ++ l /\
    Forall (fun e => exists rule s, e = ProcessOutcomeCall rule s final) l.
Proof.
  induction rule_results as [|[rule s] rest IH]; intros w; simpl.
  - repeat split; try done. exists []. by rewrite app_nil_r.
  - unfold bind, emit, lift_rule. simpl.
    destruct (ProcessOutcome _ _ _ _ _ _ _) as [[[]|e] m1]; simpl.
    + match goal with |- context [_RulesNotify final rest ?w1] =>
        destruct (IH w1) as (H1 & H2 & H3 & l & H4 & Hl) end.
      simpl in *. repeat split; try done.
      eexists (_ :: l). rewrite H4, <- app_assoc. split; [done|].
      constructor; eauto.
    + repeat split; try done.
      eexists [_]. split; [done|]. constructor; eauto.
Qed.

(** Extra X13. What a prediction leaves behind (rule_engine.py,
    [PredictRegistrationOutcome]; rules.py, [SetPredictionMode]). The
    stored registrations and the tags to reprocess are those of before;
    the effects added are calls of [ProcessOutcome] with the final state
    [None]; and the prediction flag is off when the prediction returns
    and left on when it raises. *)
Theorem prediction_leaves_the_store_and_may_leave_the_flag
    (GetRule : string -> option RuleClass) (eval_context : EvalContext)
    (w : World) :
  let (r, w') := PredictRegistrationOutcome GetRule eval_context w in
  datastore w' = datastore w /\
  offline_reprocess_tags w' = offline_reprocess_tags w /\
  (exists l, effects w' = effects w ++ l /\
     Forall (fun e => exists rule s, e = ProcessOutcomeCall rule s None) l) /\
  PREDICTION_MODE w' = negb (is_ok r).
Proof.
  unfold PredictRegistrationOutcome, bind, SetPredictionMode, lift_rule, ret.
  simpl.
  destruct (_RulesEvaluate _ _ _ _ _ _ _ _ _) as [[res|e] m1]; simpl.
  2:{ repeat split; try done. exists []. by rewrite app_nil_r. }
  match goal with |- context [_RulesNotify None _ ?w1] =>
    pose proof (_RulesNotify_frame None (all_rule_results res) w1)
      as (H1 & H2 & H3 & l & H4 & Hl);
    destruct (_RulesNotify None (all_rule_results res) w1) as [[[]|e] w2]
  end; simpl in *; repeat split; try done; by exists l.
Qed.

(** Extra X5. A prediction reads the counter (rules_impl.py,
    [MaxNumberRegisteredBy]; rules.py, the prediction branches of
    [_Incr] and [_Decr]). In prediction mode, with the counter of the key
    in the cache at [v], [_Evaluate] for the target ENROLLED answers
    ENROLLED when [v + 1 <= max_people] and WAITLISTED otherwise, with
    [resource_remaining = max_people - (v + 1)], and the cache is
    exactly as before; [_ProcessOutcome] changes nothing either. *)
Theorem prediction_reads_the_counter
    (max_people : Z) (self : RuleBase) (BuildContext : list (string * Z))
    (initial_state : option Status) (key : option string)
    (m : memcache.Memcache) (v : Z) :
  let k := MaxNumberRegisteredBy._NormalizeKey key in
  memcache.get k (self_namespace self) m = Some v ->
  MaxNumberRegisteredBy._Evaluate max_people self true BuildContext
    initial_state (Some ENROLLED) key m
  = (Ok {| rr_status :=
             Some (if bool_decide (v + 1 <= max_people) then ENROLLED
                   else WAITLISTED);
           rr_rule_tags := Some [self_key self +:+ k];
           rr_resource_remaining := Some (Some (max_people - (v + 1))) |}, m) /\
  forall eval_state final_state,
    snd (MaxNumberRegisteredBy._ProcessOutcome self true BuildContext
           eval_state final_state key m) = m.
Proof.
  intros k Hv. split.
  - unfold MaxNumberRegisteredBy._Evaluate. fold k.
    rewrite decide_True by done.
    rewrite (_Incr_prediction_present _ _ _ _ _ _ _ Hv).
    case_bool_decide; [done|]. by destruct (self_offline self).
  - intros s1 s2.
    unfold MaxNumberRegisteredBy._ProcessOutcome. fold k.
    unfold MaxNumberRegisteredBy._ProcessOfflineOutcome,
      MaxNumberRegisteredBy._ProcessOnlineOutcome, MaxNumberRegisteredBy.incr_.
    rewrite (_Incr_prediction_present _ _ _ _ _ _ _ Hv).
    destruct (self_offline self); repeat (case_decide || case_bool_decide);
      simpl; done.
Qed.

Lemma MaxNumberRegisteredBy_predicts_safely
    (max_people : Z) (self : RuleBase) (BuildContext : list (string * Z))
    (s1 s2 : option Status) (key : option string) (m : memcache.Memcache) :
  cache_extends m
    (snd (MaxNumberRegisteredBy._Evaluate max_people self true BuildContext
            s1 s2 key m)) /\
  cache_extends m
    (snd (MaxNumberRegisteredBy._ProcessOutcome self true BuildContext
            s1 s2 key m)).
Proof.
  set (k := MaxNumberRegisteredBy._NormalizeKey key).
  split.
  - unfold MaxNumberRegisteredBy._Evaluate. fold k.
    destruct (decide (s2 = Some ENROLLED)) as [Hs2|Hs2].
    + pose proof (_Incr_prediction_extends (self_namespace self) (self_online self)
                    BuildContext k _NUM_RETRIES m) as H.
      destruct (RuleRegisterResource._Incr _ _ _ _ k _NUM_RETRIES m) as [[[n|]|e] m'];
        simpl in *; try done.
      * case_bool_decide; simpl; [done|]. by destruct (self_offline self).
      * by destruct (self_online self).
    + pose proof (_Get_extends (self_namespace self) (self_online self) true
                    BuildContext k _NUM_RETRIES m) as H.
      by destruct (RuleRegisterResource._Get _ _ _ _ k _NUM_RETRIES m) as [[r|e] m'].
  - unfold MaxNumberRegisteredBy._ProcessOutcome. fold k.
    unfold MaxNumberRegisteredBy._ProcessOfflineOutcome,
      MaxNumberRegisteredBy._ProcessOnlineOutcome, MaxNumberRegisteredBy.incr_.
    pose proof (_Incr_prediction_extends (self_namespace self) (self_online self)
                  BuildContext k _NUM_RETRIES m) as H.
    destruct (RuleRegisterResource._Incr _ _ _ _ k _NUM_RETRIES m) as [[n|e] m'].
    all: destruct (self_offline self); repeat (case_decide || case_bool_decide);
      simpl; done.
Qed.

(* The rule classes of the installation predict safely. *)
Lemma installation_predicts_safely name rule :
  GetRule name = Some rule -> predicts_safely rule.
Proof.
  unfold GetRule. repeat case_bool_decide; intros [= <-]; intros self s1 s2 ds m.
  - simpl. unfold MaxNumberRegisteredByActivity.with_max_people.
    destruct (get_parameter "max_people" _) as [[mp|]|];
      try (split; apply cache_extends_refl).
    apply MaxNumberRegisteredBy_predicts_safely.
  - simpl. unfold LockPastActivity.Evaluate.
    destruct (self_online self);
      [destruct (activity_start_time _); [case_bool_decide|]|];
      split; apply cache_extends_refl.
  - simpl. unfold EmployeeTypeRestriction.Evaluate.
    split; [|apply cache_extends_refl].
    repeat (case_decide || case_bool_decide || case_match); simpl;
      apply cache_extends_refl.
Qed.

(* ------------------------------------------------------------------ *)
(* The online paths, once more *)

Section OnlineAgain.

Variable GetRule : string -> option RuleClass.
Variable eval_context : EvalContext.

Abbreviation pair_query :=
  (ActiveQuery (activity_key (ctx_activity eval_context))
               (ctx_user eval_context)).

(* An admitted registration leaves an ACTIVE record of the pair with
   the status that was returned. *)
Lemma _RegisterOnlineUnsafe_granted notify w s reasons w1 :
  AtMostOneActive (datastore w) ->
  _RegisterOnlineUnsafe GetRule eval_context notify w
    = (Ok (Some s, reasons), w1) ->
  exists k r, datastore w1 !! k = Some r /\ pair_query r = true /\
              reg_status r = s.
Proof.
  intros Hinv.
  destruct (_GetActiveUserRegistration_spec eval_context w Hinv)
    as [[Hget Hq] | (ak & ar & Hget & Hq)];
    unfold _RegisterOnlineUnsafe, bind at 1; rewrite Hget.
  - destruct (provisional_init eval_context)
      as (new_entry & -> & _ & _ & _ & Hu & Ha).
    unfold bind, of_result, get_datastore.
    set (k := new_key (datastore w)).
    destruct (db_commit <[k := new_entry]> w) as [[[]|e] w1'] eqn:Hc; [|done].
    destruct (lift_rule _ w1') as [[res|e] w2]; [|done].
    destruct (_RulesNotify _ _ w2) as [[[]|e] w3]; [|done].
    destruct (if decide (final_status res <> Some ENROLLED) then _ else _)
      as [[reasons'|e] w4]; [|done].
    destruct (final_status res) as [status|]; unfold db_commit, ret;
      [|done].
    intros [= <- <- <-]. simpl.
    eexists k, _. split; [apply lookup_insert_eq|]. split; [|done].
    apply (ActiveQuery_true GetRule). by rewrite <- Hu, <- Ha.
  - assert ((ak, ar) ∈ run_query pair_query (datastore w)) as Hin
      by (rewrite Hq; constructor).
    apply run_query_elem in Hin as [Hak Hquery].
    destruct (ctx_force_status eval_context); simpl.
    2:{ unfold ret. intros [= <- <- <-]. by exists ak, ar. }
    unfold bind. destruct (decide (reg_status ar <> ENROLLED)) as [Hne|He]; simpl.
    + unfold ret. intros [= <- <- <-]. simpl.
      eexists ak, _. split; [apply lookup_insert_eq|]. split; [|done].
      apply (ActiveQuery_true GetRule) in Hquery.
      by apply (ActiveQuery_true GetRule).
    + unfold ret. intros [= <- <- <-]. exists ak, ar.
      split; [done|]. split; [done|].
      by destruct (decide (reg_status ar = ENROLLED)).
Qed.

(** Extra X14. Registering again changes nothing (rule_engine.py,
    [_RegisterOnlineUnsafe], [_GetActiveUserRegistration]). In a world
    with at most one ACTIVE registration per pair, after
    [_RegisterOnlineUnsafe] returned a status [s] for a registrant and
    an activity, another call for the same registrant and activity,
    without [force_status], returns [s] with the re-register message
    and leaves the world as it is. *)
Theorem registering_again_changes_nothing
    (again : EvalContext) (notify notify' : bool)
    (w w1 : World) (s : Status) (reasons : list string) :
  AlwaysAtMostOneActive w ->
  _RegisterOnlineUnsafe GetRule eval_context notify w
    = (Ok (Some s, reasons), w1) ->
  ctx_user again = ctx_user eval_context ->
  activity_key (ctx_activity again) = activity_key (ctx_activity eval_context) ->
  ctx_force_status again = false ->
  _RegisterOnlineUnsafe GetRule again notify' w1
  = (Ok (Some s, ["registered user re-register attempt"]), w1).
Proof.
  intros Hw Hrun Huser Hactivity Hforce.
  destruct (_RegisterOnlineUnsafe_granted _ _ _ _ _ (proj1 Hw) Hrun)
    as (k & r & Hk & Hquery & Hs).
  destruct (_RegisterOnlineUnsafe_keeps_invariant GetRule eval_context notify
              w w1 Hw) as [[Hinv1 _] _]; [by rewrite Hrun|].
  unfold _RegisterOnlineUnsafe, bind at 1.
  destruct (_GetActiveUserRegistration_spec again w1 Hinv1)
    as [[Hget Hq] | (ak & ar & Hget & Hq)]; rewrite Hget.
  - exfalso. rewrite Huser, Hactivity in Hq.
    assert ((k, r) ∈ run_query pair_query (datastore w1)) as Hin
      by by apply run_query_elem.
    rewrite Hq in Hin. by apply not_elem_of_nil in Hin.
  - rewrite Hforce. simpl. unfold ret. repeat f_equal.
    rewrite Huser, Hactivity in Hq.
    assert ((ak, ar) ∈ run_query pair_query (datastore w1)) as Hin
      by (rewrite Hq; constructor).
    apply run_query_elem in Hin as [Hak Hquery'].
    apply (ActiveQuery_true GetRule) in Hquery as (? & ? & ?).
    apply (ActiveQuery_true GetRule) in Hquery' as (? & ? & ?).
    assert (ak = k) as -> by (eapply Hinv1; try done; congruence).
    congruence.
Qed.

(** Extra X15. The three ends of an online unregistration
    (rule_engine.py, [_UnregisterOnlineUnsafe]). In a world with at most
    one ACTIVE registration per pair, when [_UnregisterOnlineUnsafe]
    returns: without an ACTIVE registration of the pair the world is
    unchanged and the answer is UNREGISTERED with its message; with one,
    a final status UNREGISTERED stores a new entry (UNREGISTERED, READY,
    INACTIVE, child of the active entry, carrying the tasks) and makes
    the active entry INACTIVE, both in one commit, which is the one
    effect that the call adds; and any other final status leaves the
    stored registrations and the effects as they were. *)
Theorem refused_unregistration_writes_nothing
    (post_process_tasks : list string) (w w' : World)
    (final : option Status) (reasons : list string) :
  AtMostOneActive (datastore w) ->
  _UnregisterOnlineUnsafe GetRule eval_context post_process_tasks w
    = (Ok (final, reasons), w') ->
  match run_query pair_query (datastore w) with
  | [] =>
      w' = w /\ final = Some UNREGISTERED /\
      reasons = ["user must be registered/waitlisted to unregister"]
  | (active_key, active) :: _ =>
      if decide (final = Some UNREGISTERED) then
        reasons = [] /\
        exists new_entry,
          datastore w' =
            <[active_key := set_active INACTIVE active]>
              (<[new_key (datastore w) := new_entry]> (datastore w)) /\
          reg_parent new_entry = Some active_key /\
          reg_status new_entry = UNREGISTERED /\
          reg_confirmed new_entry = READY /\
          reg_active new_entry = INACTIVE /\
          reg_post_process_tasks new_entry = post_process_tasks /\
          effects w' = effects w ++ [DbCommit (datastore w')]
      else
        datastore w' = datastore w /\ effects w' = effects w
  end.
Proof.
  intros Hinv.
  destruct (_GetActiveUserRegistration_spec eval_context w Hinv)
    as [[Hget Hq] | (ak & ar & Hget & Hq)];
    unfold _UnregisterOnlineUnsafe, bind at 1; rewrite Hget, Hq.
  - unfold ret. by intros [= <- <- <-].
  - unfold bind, lift_rule.
    destruct (_RulesEvaluate _ _ _ _ _ _ _ _ _) as [[res|e] m1] eqn:Heval;
      [|done].
    destruct (decide (final_status res = Some UNREGISTERED)) as [Hfinal|Hfinal].
    + destruct (unregister_init eval_context ak
                  (elements (affecting_rule_tags res))
                  (elements (all_rule_tags res))
                  (elements (affecting_rule_configs res)) post_process_tasks)
        as (new_entry & Hinit & H1 & H2 & H3 & H4).
      rewrite Hinit. unfold of_result, ret, db_commit. simpl.
      intros [= <- <- <-]. rewrite decide_True by done.
      split; [done|]. exists new_entry. repeat split; try done.
      unfold UserRegistration__init__ in Hinit.
      destruct (init_assertion _); by simplify_eq.
    + unfold of_result, ret.
      destruct (descriptions GetRule _) as [reasons'|e]; simpl; [|done].
      intros [= <- <- <-]. by rewrite decide_False by done.
Qed.

End OnlineAgain.

(* ------------------------------------------------------------------ *)
(* utils.ArraySplit *)

Lemma slice_take_drop {A} (array : list A) (i n : nat) :
  (i <= length array)%nat ->
  slice array (Z.of_nat i) (Z.of_nat i + Z.of_nat n) = take n (drop i array).
Proof.
  intros Hi. unfold slice, slice_index.
  rewrite bool_decide_false by lia.
  rewrite bool_decide_false by lia.
  replace (Z.to_nat (Z.max 0 (Z.min (Z.of_nat (length array)) (Z.of_nat i))))
    with i by lia.
  destruct (decide (i + n <= length array)%nat).
  - replace (Z.to_nat _) with n by lia. done.
  - replace (Z.to_nat _) with (length array - i)%nat by lia.
    rewrite !take_ge; [done| |]; rewrite length_drop; lia.
Qed.

(* The buckets of a list cut every [n] elements, [c] of them. *)
Lemma buckets_spec {A} (n : nat) : forall (c : nat) (array : list A),
  (0 < n)%nat ->
  (length array <= c * n)%nat -> (c * n < length array + n)%nat ->
  let buckets := map (fun k => take n (drop (k * n) array)) (seq 0 c) in
  concat buckets = array /\
  Forall (fun b => (0 < length b <= n)%nat) buckets /\
  (forall i b, buckets !! i = Some b -> (i + 1 < c)%nat -> length b = n).
Proof.
  induction c as [|c IH]; intros array Hn Hhi Hlo; simpl.
  - assert (length array = 0%nat) as Hnil by lia.
    apply nil_length_inv in Hnil as ->. repeat split; [constructor|].
    intros i b Hb. by rewrite lookup_nil in Hb.
  - rewrite <- seq_shift, map_map.
    assert (map (fun k => take n (drop (S k * n) array)) (seq 0 c) =
            map (fun k => take n (drop (k * n) (drop n array))) (seq 0 c)) as ->.
    { apply map_ext. intros k. rewrite drop_drop. do 2 f_equal; lia. }
    destruct (IH (drop n array) Hn) as (Hcat & Hall & Hfull);
      [rewrite length_drop; lia | rewrite length_drop; lia|].
    split; [|split].
    + rewrite Hcat. apply take_drop.
    + constructor; [|done]. rewrite length_take, drop_0. nia.
    + intros [|i] b Hb Hi; simpl in Hb.
      * injection Hb as <-. rewrite length_take, drop_0. nia.
      * eapply Hfull; [done|lia].
Qed.

(** Extra X16. [ArraySplit] cuts a list into buckets (utils.py). For a
    positive [bucket_size] it returns buckets whose concatenation is the
    list; every bucket holds at least one and at most [bucket_size]
    elements, every bucket but the last holds [bucket_size], and their
    number is the length of the list divided by [bucket_size], rounded
    up. *)
Theorem ArraySplit_partitions {A} (array_to_split : list A) (bucket_size : Z) :
  0 < bucket_size ->
  exists buckets,
    ArraySplit array_to_split bucket_size = Returned buckets /\
    concat buckets = array_to_split /\
    Forall (fun b => 0 < Z.of_nat (length b) <= bucket_size) buckets /\
    (forall i b, buckets !! i = Some b -> (i + 1 < length buckets)%nat ->
       Z.of_nat (length b) = bucket_size) /\
    Z.of_nat (length buckets) =
      (Z.of_nat (length array_to_split) + bucket_size - 1) `div` bucket_size.
Proof.
  intros Hpos. unfold ArraySplit, xrange.
  rewrite bool_decide_false by lia. rewrite bool_decide_true by lia.
  set (len := length array_to_split).
  set (n := Z.to_nat bucket_size).
  set (count := (Z.of_nat len - 0 + bucket_size - 1) `div` bucket_size).
  assert (bucket_size = Z.of_nat n) as Hn by lia.
  clearbody n.
  assert (0 <= count) as Hcount by (apply Z.div_pos; lia).
  assert (Z.of_nat len <= count * bucket_size /\
          count * bucket_size < Z.of_nat len + bucket_size) as [Hhi Hlo].
  { pose proof (Z.div_mod (Z.of_nat len - 0 + bucket_size - 1) bucket_size
                  ltac:(lia)) as Hdm.
    pose proof (Z.mod_pos_bound (Z.of_nat len - 0 + bucket_size - 1)
                  bucket_size Hpos) as Hmod.
    fold count in Hdm. nia. }
  simpl. rewrite map_map.
  assert (map (fun x : nat => slice array_to_split (0 + Z.of_nat x * bucket_size)
                                (0 + Z.of_nat x * bucket_size + bucket_size))
              (seq 0 (Z.to_nat count)) =
          map (fun k => take n (drop (k * n) array_to_split))
              (seq 0 (Z.to_nat count))) as ->.
  { apply map_ext_in. intros k Hk. apply in_seq in Hk.
    rewrite Hn.
    replace (0 + Z.of_nat k * Z.of_nat n) with (Z.of_nat (k * n)) by lia.
    apply slice_take_drop. fold len. nia. }
  destruct (buckets_spec n (Z.to_nat count) array_to_split)
    as (Hcat & Hall & Hfull); [lia| fold len; nia | fold len; nia|].
  eexists. split; [done|]. split; [done|]. split; [|split].
  - eapply Forall_impl; [exact Hall|]. simpl. intros b Hb. lia.
  - intros i b Hb Hi. rewrite length_map, length_seq in Hi.
    rewrite (Hfull i b Hb); lia.
  - rewrite length_map, length_seq, Z2Nat.id by done. unfold count.
    by replace (Z.of_nat len - 0) with (Z.of_nat len) by lia.
Qed.

(** Extra X17. [ArraySplit] with a size that is not positive (utils.py).
    A [bucket_size] of 0 is the [ValueError] of [xrange] with a zero
    step; a negative one gives no bucket whatever the list holds. *)
Theorem ArraySplit_without_a_size {A} (array_to_split : list A) :
  ArraySplit array_to_split 0 = Raised ValueError /\
  forall bucket_size, bucket_size < 0 ->
    ArraySplit array_to_split bucket_size = Returned [].
Proof.
  split; [done|]. intros n Hn. unfold ArraySplit, xrange.
  rewrite bool_decide_false by lia. rewrite bool_decide_false by lia.
  set (len := Z.of_nat (length array_to_split)).
  assert (0 <= len) by lia.
  assert (((0 - len - n - 1) `div` (- n)) < 1) as Hq
    by (apply Z.div_lt_upper_bound; lia).
  by replace (Z.to_nat _) with 0%nat by lia.
Qed.

(* ------------------------------------------------------------------ *)
(* utils.DbLock *)

Section LockProperties.

Variable Data : Type.
Variable no_data : Data.
Variable Rest : Type.

Abbreviation Lock := (DbLock.DbLock Data).
Abbreviation State := (DbLock.State Data Rest).
Abbreviation TryLock := (DbLock.TryLock Data Rest).
Abbreviation acquire_loop := (DbLock.acquire_loop Data Rest).
Abbreviation AcquireLock := (DbLock.AcquireLock Data no_data Rest).
Abbreviation ReleaseLock := (DbLock.ReleaseLock Data Rest).
Abbreviation RunSynchronous := (DbLock.RunSynchronous Data no_data Rest).
Abbreviation sleep := (DbLock.sleep Data Rest).
Abbreviation put := (DbLock.put Data Rest).
Abbreviation delete_lock := (DbLock.delete_lock Data Rest).
Abbreviation with_acquired_lock := (DbLock.with_acquired_lock Data).

Lemma sleep_0 (s : State) : sleep 0 s = s.
Proof. destruct s. unfold DbLock.sleep. simpl. f_equal. lia. Qed.

Lemma sleep_sleep a b (s : State) : sleep a (sleep b s) = sleep (b + a) s.
Proof. unfold DbLock.sleep. simpl. f_equal. lia. Qed.

(* A lock that is free, or that has expired, is taken at the first trial. *)
Lemma acquire_loop_takes fuel (self : Lock) data trials (s : State) lock :
  DbLock._try_count self = 0 \/ trials < DbLock._try_count self ->
  TryLock self data s = (Some lock, put (DbLock._lock_key self) lock s) ->
  acquire_loop (S fuel) self data trials s
  = Some (Some lock, put (DbLock._lock_key self) lock s).
Proof.
  intros Hcount Htry. simpl.
  assert (bool_decide (DbLock._try_count self = 0) ||
          bool_decide (trials < DbLock._try_count self) = true) as ->.
  { destruct Hcount; [rewrite bool_decide_true by done; done|].
    rewrite (bool_decide_true (trials < _)) by done. apply orb_true_r. }
  by rewrite Htry.
Qed.

Lemma TryLock_free (self : Lock) data (s : State) :
  DbLock.locks s !! DbLock._lock_key self = None ->
  let lock := {| DbLock.expire_time := DbLock.utcnow s + DbLock._expire_timedelta self;
                 DbLock.lock_data := data |} in
  TryLock self data s = (Some lock, put (DbLock._lock_key self) lock s).
Proof. intros Hfree. unfold DbLock.TryLock. by rewrite Hfree. Qed.

Lemma TryLock_expired (self : Lock) data (s : State) held :
  DbLock.locks s !! DbLock._lock_key self = Some held ->
  DbLock.expire_time held < DbLock.utcnow s ->
  let lock := {| DbLock.expire_time := DbLock.utcnow s + DbLock._expire_timedelta self;
                 DbLock.lock_data := DbLock.lock_data held |} in
  TryLock self data s = (Some lock, put (DbLock._lock_key self) lock s).
Proof.
  intros Hheld Hexp. unfold DbLock.TryLock.
  by rewrite Hheld, bool_decide_true.
Qed.

Lemma TryLock_held (self : Lock) data (s : State) held :
  DbLock.locks s !! DbLock._lock_key self = Some held ->
  DbLock.utcnow s <= DbLock.expire_time held ->
  TryLock self data s = (None, s).
Proof.
  intros Hheld Hexp. unfold DbLock.TryLock.
  rewrite Hheld, bool_decide_false; [done|lia].
Qed.

(* The trials that are left all fall within the lease of the holder. *)
Lemma acquire_loop_excluded (self : Lock) data held (r : nat) :
  forall fuel trials (s : State),
  0 < DbLock._try_count self ->
  trials + Z.of_nat r = DbLock._try_count self ->
  (r <= fuel)%nat ->
  0 <= DbLock._sleep_seconds self ->
  DbLock.locks s !! DbLock._lock_key self = Some held ->
  DbLock.utcnow s + (Z.of_nat r - 1) * DbLock._sleep_seconds self
    <= DbLock.expire_time held ->
  acquire_loop fuel self data trials s
  = Some (None, sleep (Z.of_nat r * DbLock._sleep_seconds self) s).
Proof.
  induction r as [|r IH]; intros fuel trials s Hn Htrials Hfuel Hsleep Hheld Hlease.
  - assert (bool_decide (DbLock._try_count self = 0) ||
            bool_decide (trials < DbLock._try_count self) = false) as Hcond.
    { rewrite bool_decide_false by lia. rewrite bool_decide_false by lia. done. }
    destruct fuel; simpl; rewrite Hcond; by rewrite sleep_0.
  - destruct fuel as [|fuel]; [lia|]. simpl.
    rewrite (bool_decide_true (trials < _)) by lia. rewrite orb_true_r.
    rewrite (TryLock_held self data s held) by (done || nia).
    rewrite (IH fuel (trials + 1)); [|done|lia|lia|done|done|simpl; nia].
    rewrite sleep_sleep. do 3 f_equal. lia.
Qed.

(** Extra X18. A lock excludes within its lease (utils.py, [DbLock]). A
    lock entity is stored, and the [_try_count > 0] trials of a lock
    object on its key all fall no later than its [expire_time]. Then
    [AcquireLock] raises [LockAcquireFailure] after as many sleeps as
    trials, [RunSynchronous] raises it too and does not run the
    function, and the stored entity is the one of before. *)
Theorem lock_excludes_within_the_lease
    (self : Lock) (held : DbLock.LockModel Data) (s : State) (fuel : nat)
    (data : option Data) (A : Type) (run_func : State -> option (outcome A * State)) :
  let n := DbLock._try_count self in
  let waited := sleep (n * DbLock._sleep_seconds self) s in
  DbLock.locks s !! DbLock._lock_key self = Some held ->
  0 < n ->
  0 <= DbLock._sleep_seconds self ->
  DbLock.utcnow s + (n - 1) * DbLock._sleep_seconds self
    <= DbLock.expire_time held ->
  (Z.to_nat n <= fuel)%nat ->
  AcquireLock fuel self data s
  = Some (Raised LockAcquireFailure,
          with_acquired_lock self None, waited) /\
  RunSynchronous fuel self run_func s
  = Some (Raised LockAcquireFailure,
          with_acquired_lock self None, waited) /\
  DbLock.locks waited !! DbLock._lock_key self = Some held.
Proof.
  intros n waited Hheld Hn Hsleep Hlease Hfuel.
  assert (forall d, acquire_loop fuel self d 0 s = Some (None, waited)) as Hloop.
  { intros d.
    rewrite (acquire_loop_excluded self d held (Z.to_nat n) fuel 0 s Hn
               ltac:(fold n; lia) Hfuel Hsleep Hheld
               ltac:(by replace (Z.of_nat (Z.to_nat n)) with n by lia)).
    unfold waited. do 3 f_equal. lia. }
  split; [|split].
  - unfold DbLock.AcquireLock. by rewrite Hloop.
  - unfold DbLock.RunSynchronous, DbLock.AcquireLock. rewrite Hloop. done.
  - done.
Qed.

(* Waiting for a lease to run out. *)
Lemma acquire_loop_waits (self : Lock) data held (k : nat) :
  forall trials (s : State),
  DbLock._try_count self = 0 ->
  0 < DbLock._sleep_seconds self ->
  DbLock.locks s !! DbLock._lock_key self = Some held ->
  DbLock.expire_time held - DbLock.utcnow s
    < Z.of_nat k * DbLock._sleep_seconds self ->
  exists j : nat,
    let woke := sleep (Z.of_nat j * DbLock._sleep_seconds self) s in
    let lock :=
      {| DbLock.expire_time := DbLock.utcnow woke + DbLock._expire_timedelta self;
         DbLock.lock_data := DbLock.lock_data held |} in
    (j <= k)%nat /\
    DbLock.expire_time held < DbLock.utcnow woke /\
    (forall i : nat, (i < j)%nat ->
       DbLock.utcnow s + Z.of_nat i * DbLock._sleep_seconds self
         <= DbLock.expire_time held) /\
    forall fuel, (j < fuel)%nat ->
      acquire_loop fuel self data trials s
      = Some (Some lock, put (DbLock._lock_key self) lock woke).
Proof.
  induction k as [|k IH]; intros trials s Hcount Hsleep Hheld Hk.
  - exists 0%nat. cbv zeta.
    replace (Z.of_nat 0 * DbLock._sleep_seconds self) with 0 by lia.
    rewrite sleep_0. split; [done|]. split; [lia|].
    split; [intros i; lia|]. intros [|fuel] Hfuel; [lia|].
    apply acquire_loop_takes; [by left|].
    apply TryLock_expired; [done|lia].
  - destruct (decide (DbLock.expire_time held < DbLock.utcnow s)) as [Hexp|Hrun].
    + exists 0%nat. cbv zeta.
      replace (Z.of_nat 0 * DbLock._sleep_seconds self) with 0 by lia.
      rewrite sleep_0. split; [lia|]. split; [done|].
      split; [intros i; lia|]. intros [|fuel] Hfuel; [lia|].
      apply acquire_loop_takes; [by left|].
      by apply TryLock_expired.
    + destruct (IH (trials + 1) (sleep (DbLock._sleep_seconds self) s))
        as (j & Hj & Hpast & Hbefore & Hrun'); [done..|simpl; lia|].
      exists (S j). rewrite sleep_sleep in Hpast, Hrun'.
      replace (Z.of_nat (S j) * DbLock._sleep_seconds self)
        with (DbLock._sleep_seconds self
              + Z.of_nat j * DbLock._sleep_seconds self) by lia.
      split; [lia|]. split; [done|]. split.
      * intros [|i] Hi; [lia|]. specialize (Hbefore i ltac:(lia)).
        simpl in Hbefore. lia.
      * intros [|fuel] Hfuel; [lia|]. simpl.
        rewrite Hcount. simpl.
        rewrite (TryLock_held self data s held) by (done || lia).
        apply Hrun'. lia.
Qed.

(** Extra X19. A waiting lock takes over when the lease has run out
    (utils.py, [DbLock.AcquireLock]). With [_try_count = 0] and a
    positive sleep, on a stored lock entity: there is a number [j] of
    sleeps such that [AcquireLock] returns whenever the fuel exceeds
    [j]; it wakes after [j] sleeps, at the first trial that is later
    than the [expire_time] of the entity; the entity then holds the new
    lease, and the data returned and kept are those of the entity that
    was stored, not those of the call. *)
Theorem waiting_lock_takes_over_after_the_lease
    (self : Lock) (held : DbLock.LockModel Data) (s : State)
    (data : option Data) :
  DbLock._try_count self = 0 ->
  0 < DbLock._sleep_seconds self ->
  DbLock.locks s !! DbLock._lock_key self = Some held ->
  exists j : nat,
    let woke := sleep (Z.of_nat j * DbLock._sleep_seconds self) s in
    let lock :=
      {| DbLock.expire_time := DbLock.utcnow woke + DbLock._expire_timedelta self;
         DbLock.lock_data := DbLock.lock_data held |} in
    DbLock.expire_time held < DbLock.utcnow woke /\
    (forall i : nat, (i < j)%nat ->
       DbLock.utcnow s + Z.of_nat i * DbLock._sleep_seconds self
         <= DbLock.expire_time held) /\
    forall fuel, (j < fuel)%nat ->
      AcquireLock fuel self data s
      = Some (Returned (DbLock.lock_data held),
              with_acquired_lock self (Some lock),
              put (DbLock._lock_key self) lock woke).
Proof.
  intros Hcount Hsleep Hheld.
  set (d := DbLock.expire_time held - DbLock.utcnow s).
  destruct (acquire_loop_waits self (default no_data data) held
              (Z.to_nat (d `div` DbLock._sleep_seconds self + 1)) 0 s)
    as (j & _ & Hpast & Hbefore & Hrun); [done..| |].
  { fold d. pose proof (Z.div_mod d (DbLock._sleep_seconds self) ltac:(lia)).
    pose proof (Z.mod_pos_bound d (DbLock._sleep_seconds self) Hsleep).
    destruct (decide (0 <= d `div` DbLock._sleep_seconds self)); [nia|].
    assert (d < 0) by nia. lia. }
  exists j. split; [done|]. split; [done|]. intros fuel Hfuel.
  unfold DbLock.AcquireLock. by rewrite (Hrun fuel Hfuel).
Qed.

(** Extra X20. What a release leaves to the next holder (utils.py,
    [DbLock.ReleaseLock], [DbLock.AcquireLock]). After [ReleaseLock] by
    a lock object that had acquired, a lock object on the same key with
    [_try_count >= 0] acquires at its first trial (the clock being later
    than [datetime.min]): it returns the data given to the release, or,
    when the release was given none and deleted the entity, the data of
    its own call (the empty default without any); the lock object then
    holds the entity that is stored. *)
Theorem release_hands_over_the_data
    (self other : Lock) (acquired : DbLock.LockModel Data) (s : State)
    (released data : option Data) (fuel : nat) :
  DbLock._acquired_lock self = Some acquired ->
  DbLock._lock_key other = DbLock._lock_key self ->
  0 <= DbLock._try_count other ->
  DbLock.datetime_min < DbLock.utcnow s ->
  let s1 := (ReleaseLock self released s).2 in
  exists other' s2,
    AcquireLock (S fuel) other data s1
    = Some (Returned
              (match released with
               | Some d => d
               | None => default no_data data
               end), other', s2) /\
    DbLock._acquired_lock other' = DbLock.locks s2 !! DbLock._lock_key self /\
    is_Some (DbLock._acquired_lock other').
Proof.
  intros Hacq Hkey Hcount Hnow. cbv zeta.
  assert (DbLock._try_count other = 0 \/ 0 < DbLock._try_count other) as Hc by lia.
  unfold DbLock.ReleaseLock. rewrite Hacq.
  unfold DbLock.AcquireLock.
  destruct released as [d|]; cbn [snd].
  - erewrite acquire_loop_takes; [| done |].
    2:{ eapply TryLock_expired;
          [simpl; rewrite Hkey; apply lookup_insert_eq | exact Hnow]. }
    eexists _, _. split; [done|]. simpl. rewrite Hkey, lookup_insert_eq. eauto.
  - erewrite acquire_loop_takes; [| done |].
    2:{ apply TryLock_free. simpl. rewrite Hkey. apply lookup_delete_eq. }
    eexists _, _. split; [done|]. simpl. rewrite Hkey, lookup_insert_eq. eauto.
Qed.

(** Extra X21. [RunSynchronous] on a free lock (utils.py). With no
    entity stored for the key and [_try_count >= 0], the function runs
    in the state that holds the new lock entity (lease from now, empty
    data); when the function ends, [RunSynchronous] passes on what it
    returned or raised, and in both cases the state left is the one the
    function left with the lock entity deleted. *)
Theorem RunSynchronous_runs_and_releases
    (A : Type) (self : Lock) (run_func : State -> option (outcome A * State))
    (s : State) (fuel : nat) (r : outcome A) (s2 : State) :
  DbLock.locks s !! DbLock._lock_key self = None ->
  0 <= DbLock._try_count self ->
  let lock :=
    {| DbLock.expire_time := DbLock.utcnow s + DbLock._expire_timedelta self;
       DbLock.lock_data := no_data |} in
  run_func (put (DbLock._lock_key self) lock s) = Some (r, s2) ->
  let s' := delete_lock (DbLock._lock_key self) s2 in
  RunSynchronous (S fuel) self run_func s
  = Some (r, with_acquired_lock self (Some lock), s') /\
  DbLock.locks s' !! DbLock._lock_key self = None.
Proof.
  intros Hfree Hcount lock Hran s'.
  assert (DbLock._try_count self = 0 \/ 0 < DbLock._try_count self) as Hc by lia.
  unfold DbLock.RunSynchronous, DbLock.AcquireLock.
  erewrite acquire_loop_takes; [|done|by apply TryLock_free].
  change (default no_data None) with no_data.
  fold lock. rewrite Hran.
  unfold DbLock.ReleaseLock. cbn [DbLock._acquired_lock DbLock.with_acquired_lock].
  split; [done|]. simpl. apply lookup_delete_eq.
Qed.

(** Extra X22. A holder that overruns its lease releases the lock of
    another (utils.py, [DbLock]). On a free key a first lock object
    acquires; after more than its lease a second one takes over; the
    first then releases, and a third lock object acquires at once, at
    an instant that is within the lease of the second. *)
Theorem overrun_holder_releases_the_lock_of_another
    (first second third : Lock) (s : State) (overrun : Z)
    (data : option Data) (fuel : nat) :
  DbLock.locks s !! DbLock._lock_key first = None ->
  DbLock._lock_key second = DbLock._lock_key first ->
  DbLock._lock_key third = DbLock._lock_key first ->
  0 <= DbLock._try_count first ->
  0 <= DbLock._try_count second ->
  0 <= DbLock._try_count third ->
  DbLock._expire_timedelta first < overrun ->
  0 <= DbLock._expire_timedelta second ->
  exists first' s1 second' s2 lease third' s3,
    AcquireLock (S fuel) first data s
      = Some (Returned (default no_data data), first', s1) /\
    AcquireLock (S fuel) second data (sleep overrun s1)
      = Some (Returned (default no_data data), second', s2) /\
    DbLock._acquired_lock second' = Some lease /\
    AcquireLock (S fuel) third data (ReleaseLock first' None s2).2
      = Some (Returned (default no_data data), third', s3) /\
    DbLock.utcnow s3 <= DbLock.expire_time lease.
Proof.
  intros Hfree Hk2 Hk3 Hc1 Hc2 Hc3 Hover Hlease.
  assert (forall l : Lock, 0 <= DbLock._try_count l ->
            DbLock._try_count l = 0 \/ 0 < DbLock._try_count l) as Hc
    by (intros; lia).
  set (key := DbLock._lock_key first) in *.
  set (d := default no_data data).
  set (lock1 := {| DbLock.expire_time :=
                     DbLock.utcnow s + DbLock._expire_timedelta first;
                   DbLock.lock_data := d |}).
  set (s1 := put key lock1 s).
  set (lock2 := {| DbLock.expire_time :=
                     DbLock.utcnow (sleep overrun s1)
                     + DbLock._expire_timedelta second;
                   DbLock.lock_data := DbLock.lock_data lock1 |}).
  set (s2 := put key lock2 (sleep overrun s1)).
  set (lock3 := {| DbLock.expire_time :=
                     DbLock.utcnow (delete_lock key s2)
                     + DbLock._expire_timedelta third;
                   DbLock.lock_data := d |}).
  exists (with_acquired_lock first (Some lock1)), s1,
         (with_acquired_lock second (Some lock2)), s2, lock2,
         (with_acquired_lock third (Some lock3)),
         (put key lock3 (delete_lock key s2)).
  assert (acquire_loop (S fuel) first d 0 s = Some (Some lock1, s1)) as H1.
  { apply acquire_loop_takes; [by apply Hc|]. by apply TryLock_free. }
  assert (acquire_loop (S fuel) second d 0 (sleep overrun s1)
          = Some (Some lock2, s2)) as H2.
  { unfold s2. rewrite <- Hk2. apply acquire_loop_takes; [by apply Hc|].
    apply (TryLock_expired second d (sleep overrun s1) lock1).
    - rewrite Hk2. apply lookup_insert_eq.
    - simpl. lia. }
  assert (acquire_loop (S fuel) third d 0 (delete_lock key s2)
          = Some (Some lock3, put key lock3 (delete_lock key s2))) as H3.
  { rewrite <- Hk3. apply acquire_loop_takes; [by apply Hc|].
    apply TryLock_free. rewrite Hk3. apply lookup_delete_eq. }
  unfold DbLock.AcquireLock. fold d. rewrite H1, H2.
  unfold DbLock.ReleaseLock.
  cbn [DbLock._acquired_lock DbLock.with_acquired_lock DbLock._lock_key snd].
  fold key. rewrite H3.
  repeat split. simpl. lia.
Qed.

End LockProperties.

(* ------------------------------------------------------------------ *)
(* rule_engine._CheckPointed *)

Section CheckPoint.

Variable uuid4 : nat -> string.
Hypothesis uuid4_inj : forall i j, uuid4 i = uuid4 j -> i = j.

Abbreviation namespace_of_the_run := (_CheckPointed.namespace_of_the_run uuid4).
Abbreviation namespace_was_drawn := (namespace_was_drawn uuid4).

Lemma memcache_ns_inj a b :
  "__memcache_ns_" +:+ a = "__memcache_ns_" +:+ b -> a = b.
Proof. intros H. cbv in H. by simplify_eq. Qed.

(* The namespace of a run is stored, and was drawn. *)
Lemma namespace_of_the_run_spec s :
  namespace_was_drawn s ->
  exists namespace s0,
    namespace_of_the_run s = (Returned namespace, s0) /\
    offline_namespace s0 = Some namespace /\
    offline_run_in_progress s0 = true /\
    (uuid4_calls s <= uuid4_calls s0)%nat /\
    namespace_was_drawn s0 /\
    (offline_run_in_progress s = true ->
     namespace = "__memcache_ns_" +:+ uuid4 (uuid4_calls s)) /\
    (offline_run_in_progress s = false ->
     forall stored, offline_namespace s = Some stored ->
       namespace = stored /\ uuid4_calls s0 = uuid4_calls s).
Proof.
  intros Hdrawn. unfold _CheckPointed.namespace_of_the_run.
  assert (forall s1 : OfflineWorld,
            namespace_was_drawn
              (_CheckPointed.CreateNewNamespace uuid4 s1).2) as Hnew.
  { intros s1 ns [= <-]. exists (uuid4_calls s1). simpl. split; [lia|done]. }
  destruct (offline_run_in_progress s) eqn:Hrun.
  - eexists _, _. split; [done|]. simpl. split_and!; try done; try lia.
    apply Hnew.
  - simpl. destruct (offline_namespace s) as [stored|] eqn:Hns.
    + eexists _, _. split; [done|]. simpl. split_and!; try done.
      all: by intros _ ? [= <-].
    + eexists _, _. split; [done|]. simpl. split_and!; try done; try lia.
      apply (Hnew (with_run_in_progress s true)).
Qed.

(** Extra X23. The namespace of the offline run (rule_engine.py,
    [_CheckPointed]). The decorated function leaves the entities of the
    check point alone, the stored namespace was made from an identifier
    already drawn, and [uuid4] never gives the same value twice. Then
    the decorated call runs the function with the namespace that
    [namespace_of_the_run] returns and passes on what it returned or
    raised. When it returned, no run is in progress and the next call
    gets the same namespace; when it raised, the run is still in
    progress and the next call gets a renewed namespace, which is not
    the one of this run. *)
Theorem check_point_keeps_or_renews_the_namespace
    {A} (run_function : string -> MO A) (s : OfflineWorld) :
  keeps_the_check_point run_function ->
  namespace_was_drawn s ->
  exists namespace s0,
    namespace_of_the_run s = (Returned namespace, s0) /\
    let (r, s1) := _CheckPointed.__call__ uuid4 run_function s in
    (r, s1).1 = (run_function namespace s0).1 /\
    namespace_was_drawn s1 /\
    match r with
    | Returned _ =>
        offline_run_in_progress s1 = false /\
        (namespace_of_the_run s1).1 = Returned namespace
    | Raised _ =>
        offline_run_in_progress s1 = true /\
        exists renewed,
          (namespace_of_the_run s1).1 = Returned renewed /\
          renewed <> namespace
    end.
Proof.
  intros Hkeeps Hdrawn.
  destruct (namespace_of_the_run_spec s Hdrawn)
    as (ns & s0 & Hbegin & Hstored & Hrun & Hcalls & Hdrawn0 & Hdirty & Hclean).
  exists ns, s0. split; [done|].
  unfold _CheckPointed.__call__, offline.bind. rewrite Hbegin.
  destruct (Hkeeps ns s0) as (Hk1 & Hk2 & Hk3).
  destruct (run_function ns s0) as [[a|e] s1] eqn:Hf; simpl in *.
  - split; [done|]. split.
    { intros v Hv. simpl in Hv. rewrite Hk2 in Hv.
      destruct (Hdrawn0 v Hv) as (i & Hi & ->). exists i.
      cbn [uuid4_calls with_run_in_progress]. by rewrite Hk3. }
    split; [done|].
    unfold _CheckPointed.namespace_of_the_run. simpl. by rewrite Hk2, Hstored.
  - split; [done|]. split.
    { intros v Hv. rewrite Hk2 in Hv.
      destruct (Hdrawn0 v Hv) as (i & Hi & ->). exists i. by rewrite Hk3. }
    split; [congruence|].
    unfold _CheckPointed.namespace_of_the_run. rewrite Hk1, Hrun. simpl.
    eexists. split; [done|]. rewrite Hk3.
    destruct (Hdrawn0 ns Hstored) as (i & Hi & ->).
    intros Heq. apply memcache_ns_inj, uuid4_inj in Heq. lia.
Qed.

End CheckPoint.

(* ------------------------------------------------------------------ *)
(* rule_engine.UpdateProgramOrActivityRules *)

(* [dict([(rc.rule_name, rc) for rc in rule_configs])]. *)
Lemma rule_config_map_spec (rule_configs : list RuleConfig) :
  let m : gmap string RuleConfig :=
    foldl (fun m rc => <[rule_name rc := rc]> m) ∅ rule_configs in
  (forall n c, m !! n = Some c -> rule_name c = n /\ c ∈ rule_configs) /\
  (forall n, is_Some (m !! n) <-> n ∈ rule_name <$> rule_configs).
Proof.
  enough (forall (m0 : gmap string RuleConfig) l0,
            (forall n c, m0 !! n = Some c -> rule_name c = n /\ c ∈ l0) ->
            (forall n, is_Some (m0 !! n) <-> n ∈ rule_name <$> l0) ->
            let m := foldl (fun m rc => <[rule_name rc := rc]> m) m0 rule_configs in
            (forall n c, m !! n = Some c ->
               rule_name c = n /\ c ∈ l0 ++ rule_configs) /\
            (forall n, is_Some (m !! n) <-> n ∈ rule_name <$> (l0 ++ rule_configs)))
    as H.
  { apply (H ∅ []).
    - intros n c Hn. by rewrite lookup_empty in Hn.
    - intros n. rewrite lookup_empty. split; [by intros [? ?]|].
      intros Hn. by apply not_elem_of_nil in Hn. }
  induction rule_configs as [|rc rest IH]; intros m0 l0 H1 H2; simpl.
  - by rewrite app_nil_r.
  - replace (l0 ++ rc :: rest) with ((l0 ++ [rc]) ++ rest)
      by (by rewrite <- app_assoc).
    apply IH.
    + intros n c Hn. destruct (decide (n = rule_name rc)) as [->|Hne].
      * rewrite lookup_insert_eq in Hn. injection Hn as <-. split; [done|].
        apply elem_of_app. right. constructor.
      * rewrite lookup_insert_ne in Hn by done.
        destruct (H1 n c Hn) as [? ?]. split; [done|].
        apply elem_of_app. by left.
    + intros n. rewrite fmap_app, elem_of_app. simpl.
      rewrite list_elem_of_singleton, <- H2.
      destruct (decide (n = rule_name rc)) as [->|Hne].
      * rewrite lookup_insert_eq. split; [by right | eauto].
      * rewrite lookup_insert_ne by done. split; [by left|].
        by intros [?|?].
Qed.

Lemma update_loop_spec (current_rules : list RuleConfig) :
  forall (m : gmap string RuleConfig) new modified m' new' modified',
  update_loop current_rules m new modified = (m', new', modified') ->
  (forall n c, m !! n = Some c -> rule_name c = n) ->
  (forall n, m' !! n =
     if decide (n ∈ rule_name <$> current_rules) then None else m !! n) /\
  exists added changed,
    new' = new ++ added /\ modified' = modified ++ changed /\
    NoDup (rule_name <$> added) /\
    (forall n, n ∈ rule_name <$> added <->
       n ∈ rule_name <$> current_rules /\ is_Some (m !! n)) /\
    (forall c, c ∈ added -> exists c',
       m !! rule_name c = Some c' /\
       (c = c' \/ (c ∈ current_rules /\
                   parameters_dict c = parameters_dict c'))) /\
    (forall c, c ∈ changed -> c ∈ current_rules) /\
    (changed = [] -> added = current_rules).
Proof.
  induction current_rules as [|cur rest IH];
    intros m new modified m' new' modified'; simpl.
  - intros [= <- <- <-] Hkeys. split.
    { by intros n. }
    exists [], []. rewrite !app_nil_r. split_and!; try done.
    all: first [ by constructor
               | by (intros c H; apply not_elem_of_nil in H)
               | (intros n; split;
                  [intros H; by apply not_elem_of_nil in H
                  |intros [H _]; by apply not_elem_of_nil in H]) ].
  - intros Hrun Hkeys.
    assert (forall n c, delete (rule_name cur) m !! n = Some c ->
              rule_name c = n) as Hkeys'.
    { intros n c Hn. apply lookup_delete_Some in Hn as [_ Hn]. by eapply Hkeys. }
    assert (forall n, (if decide (n ∈ rule_name <$> rest) then None
                       else delete (rule_name cur) m !! n) =
                      (if decide (n ∈ rule_name cur :: (rule_name <$> rest))
                       then None else m !! n)) as Hlook.
    { intros n. destruct (decide (n = rule_name cur)) as [->|Hne].
      - rewrite lookup_delete_eq.
        rewrite (decide_True (P := _ ∈ _ :: _)) by constructor.
        by destruct (decide _).
      - rewrite lookup_delete_ne by done.
        destruct (decide (n ∈ rule_name <$> rest)).
        + rewrite decide_True; [done|]. by constructor.
        + rewrite decide_False; [done|].
          intros H. apply elem_of_cons in H as [?|?]; done. }
    destruct (m !! rule_name cur) as [nrc|] eqn:Hcur.
    + destruct (decide (parameters_dict cur <> parameters_dict nrc)) as [Hd|Hd].
      * apply IH in Hrun as (Hm' & added & changed & -> & -> & Hnd & Hnames
                             & Hadded & Hchanged & Hnone); [|done].
        split; [intros n; by rewrite Hm', Hlook|].
        exists (nrc :: added), (cur :: changed).
        rewrite <- !app_assoc. simpl.
        assert (rule_name nrc = rule_name cur) as Hname by by eapply Hkeys.
        split_and!; try done.
        -- apply NoDup_cons. split; [|done]. rewrite Hname, Hnames.
           intros [_ [x Hx]]. by rewrite lookup_delete_eq in Hx.
        -- intros n. rewrite !elem_of_cons, Hnames, Hname.
           destruct (decide (n = rule_name cur)) as [->|Hne].
           ++ split; [intros _; split; [by left | by eauto]|by left].
           ++ rewrite lookup_delete_ne by done. tauto.
        -- intros c Hc. apply elem_of_cons in Hc as [->|Hc].
           ++ exists nrc. rewrite Hname. auto.
           ++ destruct (Hadded c Hc) as (c' & Hc' & Hor).
              apply lookup_delete_Some in Hc' as [_ Hc'].
              exists c'. split; [done|].
              destruct Hor as [?|[? ?]]; [by left|right].
              split; [by constructor|done].
        -- intros c Hc. apply elem_of_cons in Hc as [->|Hc]; [constructor|].
           constructor. by apply Hchanged.
      * apply dec_stable in Hd.
        apply IH in Hrun as (Hm' & added & changed & -> & -> & Hnd & Hnames
                             & Hadded & Hchanged & Hnone); [|done].
        split; [intros n; by rewrite Hm', Hlook|].
        exists (cur :: added), changed.
        rewrite <- !app_assoc. simpl.
        split_and!; try done.
        -- apply NoDup_cons. split; [|done]. rewrite Hnames.
           intros [_ [x Hx]]. by rewrite lookup_delete_eq in Hx.
        -- intros n. rewrite !elem_of_cons, Hnames.
           destruct (decide (n = rule_name cur)) as [->|Hne].
           ++ split; [intros _; split; [by left | by eauto]|by left].
           ++ rewrite lookup_delete_ne by done. tauto.
        -- intros c Hc. apply elem_of_cons in Hc as [->|Hc].
           ++ exists nrc. split; [done|]. right. split; [constructor|done].
           ++ destruct (Hadded c Hc) as (c' & Hc' & Hor).
              apply lookup_delete_Some in Hc' as [_ Hc'].
              exists c'. split; [done|].
              destruct Hor as [?|[? ?]]; [by left|right].
              split; [by constructor|done].
        -- intros c Hc. constructor. by apply Hchanged.
        -- intros Hnil. by rewrite Hnone.
    + apply IH in Hrun as (Hm' & added & changed & -> & -> & Hnd & Hnames
                           & Hadded & Hchanged & Hnone); [|done].
      split.
      { intros n. rewrite Hm'.
        destruct (decide (n = rule_name cur)) as [->|Hne].
        - rewrite (decide_True (P := _ ∈ _ :: _)) by constructor.
          rewrite Hcur. by destruct (decide _).
        - destruct (decide (n ∈ rule_name <$> rest)).
          + rewrite decide_True; [done|]. by constructor.
          + rewrite decide_False; [done|].
            intros H. apply elem_of_cons in H as [?|?]; done. }
      exists added, (cur :: changed).
      rewrite <- !app_assoc. simpl.
      split_and!; try done.
      * intros n. rewrite elem_of_cons, Hnames.
        split; [tauto|]. intros [[->|?] Hsome]; [|done].
        rewrite Hcur in Hsome. by destruct Hsome.
      * intros c Hc. destruct (Hadded c Hc) as (c' & Hc' & Hor).
        exists c'. split; [done|].
        destruct Hor as [?|[? ?]]; [by left|right].
        split; [by constructor|done].
      * intros c Hc. apply elem_of_cons in Hc as [->|Hc]; [constructor|].
        constructor. by apply Hchanged.
Qed.

(* The names of the rules that the update sets. *)
Lemma UpdateProgramOrActivityRules_names
    (program_or_activity_rules : list RuleConfig)
    (program_or_activity_key : string) (rule_configs : list RuleConfig) :
  let current := program_or_activity_rules in
  let (new_rule_configs, deferred) :=
    UpdateProgramOrActivityRules current program_or_activity_key
      rule_configs in
  (forall n, n ∈ rule_name <$> new_rule_configs <->
             n ∈ rule_name <$> rule_configs) /\
  NoDup (rule_name <$> new_rule_configs) /\
  (forall c, c ∈ new_rule_configs ->
     c ∈ rule_configs \/
     (c ∈ current /\ exists c', c' ∈ rule_configs /\
        rule_name c' = rule_name c /\
        parameters_dict c' = parameters_dict c)) /\
  (deferred = Some (Defer_ReprocessRegistrations program_or_activity_key) <->
   exists c, c ∈ rule_configs /\ rule_name c ∉ rule_name <$> current) /\
  (forall l k, deferred = Some (Defer_ProcessRuleUpdate l k) ->
     k = program_or_activity_key /\ l <> [] /\ forall c, c ∈ l -> c ∈ current) /\
  (deferred = None -> new_rule_configs = current).
Proof.
  intros current. unfold UpdateProgramOrActivityRules.
  destruct (rule_config_map_spec rule_configs) as [Hkeys Hdom].
  set (m0 := foldl _ ∅ rule_configs) in *.
  destruct (update_loop current m0 [] []) as [[m' new'] modified'] eqn:Hloop.
  apply update_loop_spec in Hloop
    as (Hm' & added & changed & -> & -> & Hnd & Hnames & Hadded & Hchanged
        & Hnone); [|intros n c Hn; by apply Hkeys].
  simpl.
  set (values := (map_to_list m').*2).
  assert (forall c, c ∈ values <->
            m0 !! rule_name c = Some c /\ rule_name c ∉ rule_name <$> current)
    as Hvalues.
  { intros c. unfold values. rewrite list_elem_of_fmap. split.
    - intros ([n c'] & -> & Hin). apply elem_of_map_to_list in Hin.
      rewrite Hm' in Hin. destruct (decide _); [done|]. simpl.
      destruct (Hkeys n c' Hin) as [<- _]. done.
    - intros [Hc Hnot]. exists (rule_name c, c). split; [done|].
      apply elem_of_map_to_list. rewrite Hm'. by rewrite decide_False. }
  assert (forall n, n ∈ rule_name <$> values <->
            is_Some (m0 !! n) /\ n ∉ rule_name <$> current) as Hvnames.
  { intros n. rewrite list_elem_of_fmap. split.
    - intros (c & -> & Hc). apply Hvalues in Hc as [Hc ?]. eauto.
    - intros [[c Hc] Hnot]. exists c. destruct (Hkeys n c Hc) as [<- _].
      split; [done|]. by apply Hvalues. }
  assert (NoDup (rule_name <$> values)) as Hvnd.
  { unfold values. rewrite <- list_fmap_compose.
    assert (Forall (fun kv : string * RuleConfig => rule_name kv.2 = kv.1)
              (map_to_list m')) as Hall.
    { apply Forall_forall. intros [n c] Hin. apply elem_of_map_to_list in Hin.
      rewrite Hm' in Hin. destruct (decide _); [done|]. simpl.
      by destruct (Hkeys n c Hin). }
    erewrite (Forall_fmap_ext_1 (rule_name ∘ snd) fst); [|done].
    apply NoDup_fst_map_to_list. }
  split_and!.
  - intros n. rewrite fmap_app, elem_of_app, Hnames, Hvnames, <- Hdom.
    destruct (decide (n ∈ rule_name <$> current)); tauto.
  - rewrite fmap_app. apply NoDup_app. split; [done|]. split; [|done].
    intros n Hn1 Hn2. apply Hnames in Hn1 as [? _].
    apply Hvnames in Hn2 as [_ ?]. done.
  - intros c Hc. apply elem_of_app in Hc as [Hc|Hc].
    + destruct (Hadded c Hc) as (c' & Hc' & Hor).
      destruct (Hkeys _ _ Hc') as [Hn Hin].
      destruct Hor as [->|[Hcur Hp]]; [by left|right].
      split; [done|]. by exists c'.
    + left. apply Hvalues in Hc as [Hc _]. by destruct (Hkeys _ _ Hc).
  - case_bool_decide as Hv.
    + split; [intros _|done].
      destruct values as [|c l] eqn:Heq; [done|].
      assert (c ∈ c :: l) as Hc by constructor.
      apply Hvalues in Hc as [Hc Hnot]. exists c.
      by destruct (Hkeys _ _ Hc).
    + split.
      { by case_bool_decide. }
      intros (c & Hc & Hnot). exfalso.
      assert (rule_name c ∈ rule_name <$> values) as Hin.
      { apply Hvnames. split; [|done]. apply Hdom.
        apply list_elem_of_fmap. by exists c. }
      rewrite Hv in Hin. by apply not_elem_of_nil in Hin.
  - intros l k. repeat case_bool_decide; intros [= <- <-].
    split; [done|]. split; [done|]. done.
  - repeat case_bool_decide; [done..|]. intros _.
    match goal with H : values = [] |- _ => rewrite H end.
    rewrite app_nil_r. by apply Hnone.
Qed.

(* The loop over the current rules, when their names are distinct. *)
Lemma update_loop_exact rule_configs current : forall m new modified,
  NoDup (rule_name <$> current) ->
  (forall c, c ∈ current ->
     m !! rule_name c = given_config rule_configs (rule_name c)) ->
  exists m',
    update_loop current m new modified
    = (m', new ++ omap (updated_rule rule_configs) current,
       modified ++ List.filter (changed_or_removed rule_configs) current).
Proof.
  induction current as [|cur rest IH]; intros m new modified Hnd Hm; simpl.
  - exists m. by rewrite !app_nil_r.
  - apply NoDup_cons in Hnd as [Hcur Hnd].
    assert (forall c, c ∈ rest ->
              delete (rule_name cur) m !! rule_name c
              = given_config rule_configs (rule_name c)) as Hm'.
    { intros c Hc. rewrite lookup_delete_ne.
      - apply Hm. by constructor.
      - intros Heq. apply Hcur. rewrite Heq.
        apply list_elem_of_fmap. by exists c. }
    assert (forall c, c ∈ rest ->
              m !! rule_name c = given_config rule_configs (rule_name c))
      as Hm''.
    { intros c Hc. apply Hm. by constructor. }
    unfold updated_rule at 1, changed_or_removed at 1.
    rewrite <- (Hm cur) by constructor.
    destruct (m !! rule_name cur) as [nrc|].
    + destruct (decide (parameters_dict cur <> parameters_dict nrc)) as [Hd|Hd].
      * rewrite bool_decide_true by done.
        destruct (IH (delete (rule_name cur) m) (new ++ [nrc])
                    (modified ++ [cur]) Hnd Hm') as [m' ->].
        exists m'. by rewrite <- !app_assoc.
      * rewrite bool_decide_false by done.
        destruct (IH (delete (rule_name cur) m) (new ++ [cur]) modified
                    Hnd Hm') as [m' ->].
        exists m'. by rewrite <- !app_assoc.
    + destruct (IH m new (modified ++ [cur]) Hnd Hm'') as [m' ->].
      exists m'. by rewrite <- !app_assoc.
Qed.

(** Extra X24. The update of the rules of a program or activity
    (rule_engine.py, [UpdateProgramOrActivityRules]). The current rules
    have distinct names. The rules set on the entity are, in the order
    of the current rules, what becomes of each of them (itself when the
    configuration given for its name has the same dictionary of
    parameters, that configuration when it has not, nothing when none
    is given), followed by the added ones: the configurations given for
    the names that no current rule has. [_ReprocessRegistrations] is
    deferred exactly when a configuration is added; otherwise
    [_ProcessRuleUpdate] is deferred exactly when a current rule is
    changed or removed, on the key of the entity and with the list of
    those current rules in their order; otherwise nothing is deferred,
    and the rules set are then the current rules. The names of the rules
    set are distinct. *)
Theorem UpdateProgramOrActivityRules_spec
    (program_or_activity_rules : list RuleConfig)
    (program_or_activity_key : string) (rule_configs : list RuleConfig) :
  NoDup (rule_name <$> program_or_activity_rules) ->
  let current := program_or_activity_rules in
  let modified_old_rules :=
    List.filter (changed_or_removed rule_configs) current in
  let (new_rule_configs, deferred) :=
    UpdateProgramOrActivityRules current program_or_activity_key
      rule_configs in
  (exists added,
     new_rule_configs = omap (updated_rule rule_configs) current ++ added /\
     NoDup added /\
     (forall c, c ∈ added <->
        given_config rule_configs (rule_name c) = Some c /\
        rule_name c ∉ rule_name <$> current) /\
     deferred =
       if bool_decide (added <> []) then
         Some (Defer_ReprocessRegistrations program_or_activity_key)
       else if bool_decide (modified_old_rules <> []) then
         Some (Defer_ProcessRuleUpdate modified_old_rules
                 program_or_activity_key)
       else None) /\
  NoDup (rule_name <$> new_rule_configs) /\
  (deferred = None -> new_rule_configs = current).
Proof.
  intros Hnd current modified_old_rules.
  pose proof (UpdateProgramOrActivityRules_names current
                program_or_activity_key rule_configs) as Hnames.
  cbv zeta in Hnames.
  destruct (UpdateProgramOrActivityRules current program_or_activity_key
              rule_configs) as [new_rule_configs deferred] eqn:Hrun.
  destruct Hnames as (_ & Hnd' & _ & _ & _ & Hnone).
  split; [|by split].
  unfold UpdateProgramOrActivityRules in Hrun.
  destruct (rule_config_map_spec rule_configs) as [Hkeys Hdom].
  set (m0 := foldl _ ∅ rule_configs) in *.
  destruct (update_loop_exact rule_configs current m0 [] [] Hnd)
    as [m' Hloop]; [done|].
  pose proof Hloop as Hloop'.
  apply update_loop_spec in Hloop' as [Hm' _];
    [|intros n c Hn; by apply Hkeys].
  rewrite Hloop in Hrun. simpl in Hrun.
  injection Hrun as <- <-.
  set (values := (map_to_list m').*2).
  assert (forall c, c ∈ values <->
            m0 !! rule_name c = Some c /\ rule_name c ∉ rule_name <$> current)
    as Hvalues.
  { intros c. unfold values. rewrite list_elem_of_fmap. split.
    - intros ([n c'] & -> & Hin). apply elem_of_map_to_list in Hin.
      rewrite Hm' in Hin. destruct (decide _); [done|]. simpl.
      destruct (Hkeys n c' Hin) as [<- _]. done.
    - intros [Hc Hnot]. exists (rule_name c, c). split; [done|].
      apply elem_of_map_to_list. rewrite Hm'. by rewrite decide_False. }
  exists values. split; [done|]. split; [|split; [done|done]].
  rewrite fmap_app in Hnd'. apply NoDup_app in Hnd' as (_ & _ & Hvnd).
  by apply NoDup_fmap_1 in Hvnd.
Qed.

(* ------------------------------------------------------------------ *)
(* rule_engine._ReadyRegistrationsInWaitingUnsafe *)

Lemma RunSynchronous_free {A} fuel (lock : DbLock.DbLock unit)
    (run_func : MO A) (s : Locked) :
  DbLock.locks s !! DbLock._lock_key lock = None ->
  DbLock._try_count lock = 0 ->
  locked.RunSynchronous (S fuel) lock (locked.lift run_func) s
  = Some ((run_func (DbLock.rest s)).1,
          with_rest s (run_func (DbLock.rest s)).2).
Proof.
  intros Hfree Hcount.
  unfold locked.RunSynchronous, DbLock.RunSynchronous, DbLock.AcquireLock.
  erewrite acquire_loop_takes; [|by left|by apply TryLock_free].
  unfold locked.lift. cbn [DbLock.rest DbLock.put].
  destruct (run_func (DbLock.rest s)) as [r o].
  unfold DbLock.ReleaseLock.
  cbn [DbLock._acquired_lock DbLock.with_acquired_lock].
  unfold DbLock.delete_lock, with_rest. cbn.
  do 2 f_equal. f_equal.
  apply map_eq. intros i.
  destruct (decide (i = DbLock._lock_key lock)) as [->|Hne].
  - by rewrite lookup_delete_eq.
  - by rewrite lookup_delete_ne, lookup_insert_ne.
Qed.

Lemma found_waiting_elem tags ds k :
  k ∈ found_waiting tags ds <->
  exists reg, ds !! k = Some reg /\ waiting_for_tags tags reg = true.
Proof.
  unfold found_waiting. rewrite elem_of_list_to_set, list_elem_of_fmap.
  split.
  - intros [[k' reg] [-> Hin]]. apply run_query_elem in Hin. by exists reg.
  - intros [reg Hreg]. exists (k, reg). split; [done|].
    by apply run_query_elem.
Qed.

Lemma existsb_bool_decide {A} (P : A -> Prop) `{!forall x, Decision (P x)}
    (l : list A) :
  existsb (fun x => bool_decide (P x)) l = true <->
  exists x, x ∈ l /\ P x.
Proof.
  rewrite existsb_exists. split.
  - intros [x [Hin Hx]]. exists x. split.
    + by apply list_elem_of_In.
    + by apply bool_decide_eq_true in Hx.
  - intros [x [Hin Hx]]. exists x. split.
    + by apply list_elem_of_In.
    + by apply bool_decide_eq_true.
Qed.

Lemma waiting_for_tags_spec tags reg :
  waiting_for_tags tags reg = true <->
  is_waiting reg = true /\
  exists tag, tag ∈ reg_affecting_rule_tags reg /\ tag ∈ tags.
Proof.
  unfold waiting_for_tags, is_waiting.
  rewrite !andb_true_iff, existsb_bool_decide. tauto.
Qed.

Lemma found_waiting_app tags1 tags2 ds :
  found_waiting (tags1 ++ tags2) ds
  = found_waiting tags1 ds ∪ found_waiting tags2 ds.
Proof.
  apply set_eq. intros k.
  rewrite elem_of_union, !found_waiting_elem.
  setoid_rewrite waiting_for_tags_spec.
  setoid_rewrite elem_of_app.
  split.
  - intros [reg [Hk [Hw [tag [Hin [H1|H2]]]]]];
      [left|right]; exists reg; eauto.
  - intros [[reg [Hk [Hw [tag [Hin H]]]]]|[reg [Hk [Hw [tag [Hin H]]]]]];
      exists reg; eauto 8.
Qed.

Lemma found_waiting_nil ds : found_waiting [] ds = ∅.
Proof.
  apply set_eq. intros k. rewrite found_waiting_elem.
  setoid_rewrite waiting_for_tags_spec.
  split; [|by intros ?%elem_of_empty].
  intros [reg [_ [_ [tag [_ Hin]]]]]. by apply elem_of_nil in Hin.
Qed.

Lemma found_waiting_empty tags ds :
  (run_query (waiting_for_tags tags) ds).*1 = [] ->
  found_waiting tags ds = ∅.
Proof. unfold found_waiting. by intros ->. Qed.

Lemma query_registrations_spec fuel :
  forall tags registrations_entity performed_processing (s : Locked),
  (length tags <= fuel)%nat ->
  (forall l, registrations_entity = Some l ->
             offline_registrations_to_ready (DbLock.rest s) = l) ->
  exists registrations_entity' ledger,
    query_registrations fuel tags registrations_entity performed_processing s
    = Some (Returned (registrations_entity',
                      performed_processing || negb (bool_decide (tags = []))),
            with_rest s (after_step1 tags ledger (DbLock.rest s))) /\
    (forall l, registrations_entity' = Some l -> ledger = l) /\
    (tags = [] -> ledger = offline_registrations_to_ready (DbLock.rest s)) /\
    list_to_set ledger
    =@{gset nat}
      list_to_set (offline_registrations_to_ready (DbLock.rest s)) ∪
      found_waiting tags (datastore (world (DbLock.rest s))).
Proof.
  induction fuel as [|fuel IH]; intros tags re perf s Hlen Hinv.
  - destruct tags as [|t tags]; [|simpl in Hlen; lia].
    exists re, (offline_registrations_to_ready (DbLock.rest s)).
    split_and!.
    + simpl. rewrite orb_false_r. do 2 f_equal.
      destruct s as [l u [w a b c d]]. done.
    + intros l Hl. by apply Hinv.
    + done.
    + rewrite found_waiting_nil. by rewrite (right_id_L _ _).
  - destruct tags as [|t tags].
    { exists re, (offline_registrations_to_ready (DbLock.rest s)).
      split_and!.
      + simpl. rewrite orb_false_r. do 2 f_equal.
        destruct s as [l u [w a b c d]]. done.
      + intros l Hl. by apply Hinv.
      + done.
      + rewrite found_waiting_nil. by rewrite (right_id_L _ _). }
    set (all_tags := t :: tags) in *.
    assert (exists b bucket, take query_batch all_tags = b :: bucket)
      as [b [bucket Hbucket]] by (by eexists _, _).
    assert (all_tags = (b :: bucket) ++ drop query_batch all_tags) as Hsplit
      by (by rewrite <- Hbucket, take_drop).
    assert (length (drop query_batch all_tags) <= fuel)%nat as Hlen'.
    { rewrite length_drop. unfold all_tags, query_batch in *.
      simpl in Hlen. simpl. lia. }
    cbn [query_registrations]. rewrite Hbucket.
    rewrite (bool_decide_false (all_tags = [])) by done.
    cbn [negb]. rewrite orb_true_r.
    destruct ((run_query (waiting_for_tags (b :: bucket))
                 (datastore (world (DbLock.rest s)))).*1)
      as [|n new] eqn:Hnew.
    + destruct (IH (drop query_batch all_tags) re true
                  (with_rest s (put_reprocess_tags
                                  (drop query_batch all_tags) (DbLock.rest s))))
        as (re' & ledger & Hrun & Hre' & Hnil & Hset); [done|done|].
      exists re', ledger. split_and!.
      * rewrite Hrun. cbn [orb]. do 2 f_equal.
        unfold with_rest at 1 2. cbn [DbLock.locks DbLock.utcnow DbLock.rest].
        unfold with_rest at 1. f_equal.
        unfold after_step1. cbn [DbLock.rest with_rest].
        rewrite (bool_decide_false (all_tags = [])) by done.
        case_bool_decide as Hd; [by rewrite Hd|done].
      * done.
      * done.
      * rewrite Hset. cbn [DbLock.rest with_rest].
        change (datastore (world (put_reprocess_tags _ (DbLock.rest s))))
          with (datastore (world (DbLock.rest s))).
        change (offline_registrations_to_ready
                  (put_reprocess_tags _ (DbLock.rest s)))
          with (offline_registrations_to_ready (DbLock.rest s)).
        rewrite Hsplit at 2. rewrite found_waiting_app.
        rewrite (found_waiting_empty (b :: bucket)) by done.
        apply set_eq. intros x. rewrite !elem_of_union, ?elem_of_empty. tauto.
    + set (merged := elements
             (list_to_set (n :: new) ∪
              list_to_set
                (default (offline_registrations_to_ready (DbLock.rest s)) re)
              : gset nat)).
      destruct (IH (drop query_batch all_tags) (Some merged) true
                  (with_rest s (put_reprocess_tags
                                  (drop query_batch all_tags)
                                  (with_registrations_to_ready
                                     (DbLock.rest s) merged))))
        as (re' & ledger & Hrun & Hre' & Hnil & Hset);
        [done|by intros l [= <-]|].
      exists re', ledger. split_and!.
      * rewrite Hrun. cbn [orb]. do 2 f_equal.
        unfold with_rest at 1 2. cbn [DbLock.locks DbLock.utcnow DbLock.rest].
        unfold with_rest at 1. f_equal.
        unfold after_step1. cbn [DbLock.rest with_rest].
        rewrite (bool_decide_false (all_tags = [])) by done.
        case_bool_decide as Hd; [by rewrite Hd|done].
      * done.
      * done.
      * rewrite Hset. cbn [DbLock.rest with_rest].
        change (datastore (world (put_reprocess_tags _ _)))
          with (datastore (world (DbLock.rest s))).
        change (offline_registrations_to_ready (put_reprocess_tags _ _))
          with merged.
        rewrite Hsplit at 2. rewrite found_waiting_app.
        unfold merged. rewrite list_to_set_elements_L.
        assert (default (offline_registrations_to_ready (DbLock.rest s)) re
                = offline_registrations_to_ready (DbLock.rest s)) as ->.
        { destruct re as [l|]; [|done]. simpl. symmetry. by apply Hinv. }
        unfold found_waiting at 2. rewrite Hnew.
        apply set_eq. intros x. rewrite !elem_of_union, ?elem_of_empty. tauto.
Qed.

Lemma query_registrations_mono fuel :
  forall tags registrations_entity performed_processing (s : Locked) r,
  query_registrations fuel tags registrations_entity performed_processing s
  = Some r ->
  forall fuel', (fuel <= fuel')%nat ->
  query_registrations fuel' tags registrations_entity performed_processing s
  = Some r.
Proof.
  induction fuel as [|fuel IH]; intros tags re perf s r Hrun fuel' Hle.
  - destruct fuel'; cbn [query_registrations] in *;
      destruct (take query_batch tags); done.
  - destruct fuel' as [|fuel']; [lia|].
    cbn [query_registrations] in *.
    destruct (take query_batch tags) as [|b bucket]; [done|].
    destruct ((run_query (waiting_for_tags (b :: bucket))
                 (datastore (world (DbLock.rest s)))).*1);
      (eapply IH; [exact Hrun|lia]).
Qed.

Lemma is_waiting_ready reg : is_waiting (set_confirmed READY reg) = false.
Proof.
  unfold is_waiting. cbn [reg_confirmed set_confirmed].
  rewrite (bool_decide_false (READY = PROCESSED)) by done.
  by destruct (bool_decide _).
Qed.

Lemma make_ready_app l1 l2 k reg :
  make_ready l2 k (make_ready l1 k reg) = make_ready (l1 ++ l2) k reg.
Proof.
  unfold make_ready.
  destruct (is_waiting reg) eqn:Hw; cbn [andb].
  - destruct (bool_decide_reflect (k ∈ l1)) as [H1|H1].
    + rewrite is_waiting_ready. cbn [andb].
      rewrite bool_decide_true; [done|]. apply elem_of_app. by left.
    + rewrite Hw. cbn [andb].
      rewrite (bool_decide_ext (k ∈ l1 ++ l2) (k ∈ l2)); [done|].
      rewrite elem_of_app. tauto.
  - by rewrite Hw.
Qed.

Lemma make_ready_nil k reg : make_ready [] k reg = reg.
Proof.
  unfold make_ready. rewrite bool_decide_false by apply not_elem_of_nil.
  by rewrite andb_false_r.
Qed.

Lemma make_ready_lock l k reg :
  reg_user (make_ready l k reg) = reg_user reg /\
  reg_activity (make_ready l k reg) = reg_activity reg.
Proof. unfold make_ready. by destruct (_ && _). Qed.

Lemma registration_locks_free_make_ready (s s' : Locked) l :
  registration_locks_free s ->
  DbLock.locks s' = DbLock.locks s ->
  (forall k, datastore (world (DbLock.rest s')) !! k
             = make_ready l k <$> datastore (world (DbLock.rest s)) !! k) ->
  registration_locks_free s'.
Proof.
  intros Hfree Hlocks Hds k reg Hk. rewrite Hds in Hk.
  destruct (datastore (world (DbLock.rest s)) !! k) as [reg0|] eqn:Hk0;
    [|done].
  injection Hk as <-. rewrite Hlocks.
  destruct (make_ready_lock l k reg0) as [-> ->]. by eapply Hfree.
Qed.

Lemma MakeWaitingReady_spec key waiting w :
  datastore w !! key = Some waiting ->
  exists w1,
    MakeWaitingReady key waiting w = (Ok (), w1) /\
    cache w1 = cache w /\
    PREDICTION_MODE w1 = PREDICTION_MODE w /\
    offline_reprocess_tags w1 = offline_reprocess_tags w /\
    forall k, datastore w1 !! k = make_ready [key] k <$> datastore w !! k.
Proof.
  intros Hkey. unfold MakeWaitingReady.
  change (bool_decide (reg_status waiting = WAITLISTED) &&
          bool_decide (reg_confirmed waiting = PROCESSED) &&
          bool_decide (reg_active waiting = ACTIVE))
    with (is_waiting waiting).
  destruct (is_waiting waiting) eqn:Hw.
  - eexists. split; [reflexivity|]. cbn [cache PREDICTION_MODE
      offline_reprocess_tags datastore]. split_and!; try done.
    intros k. destruct (decide (k = key)) as [->|Hne].
    + rewrite lookup_insert_eq, Hkey. cbn. f_equal.
      unfold make_ready. rewrite Hw.
      rewrite bool_decide_true; [done|]. by apply list_elem_of_singleton.
    + rewrite lookup_insert_ne by done.
      destruct (datastore w !! k) as [reg|]; [|done]. cbn. f_equal.
      unfold make_ready. rewrite bool_decide_false.
      * by rewrite andb_false_r.
      * by intros ?%list_elem_of_singleton.
  - exists w. split; [done|]. split_and!; try done.
    intros k. destruct (datastore w !! k) as [reg|] eqn:Hk; [|done].
    cbn. f_equal. unfold make_ready.
    destruct (decide (k = key)) as [->|Hne].
    + rewrite Hkey in Hk. injection Hk as <-. by rewrite Hw.
    + rewrite bool_decide_false.
      * by rewrite andb_false_r.
      * by intros ?%list_elem_of_singleton.
Qed.

Lemma ready_bucket_spec fuel bucket :
  forall s : Locked,
  registration_locks_free s ->
  exists w',
    ready_bucket (S fuel) bucket s
    = Some (Returned (), with_rest s (with_world (DbLock.rest s) w')) /\
    cache w' = cache (world (DbLock.rest s)) /\
    PREDICTION_MODE w' = PREDICTION_MODE (world (DbLock.rest s)) /\
    offline_reprocess_tags w' = offline_reprocess_tags (world (DbLock.rest s)) /\
    forall k, datastore w' !! k
              = make_ready bucket k <$> datastore (world (DbLock.rest s)) !! k.
Proof.
  induction bucket as [|key bucket IH]; intros s Hfree.
  - exists (world (DbLock.rest s)). split_and!; try done.
    + cbn. unfold locked.ret. do 2 f_equal.
      by destruct s as [l u [w a b c d]].
    + intros k. destruct (datastore _ !! k); [|done].
      cbn. by rewrite make_ready_nil.
  - cbn [ready_bucket].
    destruct (datastore (world (DbLock.rest s)) !! key) as [waiting|] eqn:Hkey.
    + destruct (MakeWaitingReady_spec key waiting _ Hkey)
        as (w1 & Hrun1 & Hc1 & Hp1 & Ht1 & Hds1).
      unfold locked.bind.
      rewrite RunSynchronous_free; [|by eapply Hfree|done].
      unfold offline.lift. rewrite Hrun1. cbn [fst snd of_result].
      set (s1 := with_rest s (with_world (DbLock.rest s) w1)).
      destruct (IH s1) as (w' & Hrun & Hc & Hp & Ht & Hds).
      { by eapply (registration_locks_free_make_ready s s1 [key]). }
      exists w'. rewrite Hrun. split_and!.
      * done.
      * by rewrite Hc.
      * by rewrite Hp.
      * by rewrite Ht.
      * intros k. rewrite Hds. cbn [s1 DbLock.rest with_rest world with_world].
        rewrite Hds1.
        destruct (datastore (world (DbLock.rest s)) !! k) as [reg|]; [|done].
        cbn. f_equal. apply (make_ready_app [key] bucket).
    + destruct (IH s Hfree) as (w' & Hrun & Hc & Hp & Ht & Hds).
      exists w'. split_and!; try done.
      intros k. rewrite Hds.
      destruct (datastore (world (DbLock.rest s)) !! k) as [reg|] eqn:Hk;
        [|done].
      cbn. f_equal. unfold make_ready.
      rewrite (bool_decide_ext (k ∈ key :: bucket) (k ∈ bucket)); [done|].
      rewrite elem_of_cons. split; [|by right].
      intros [->|H]; [|done]. by rewrite Hkey in Hk.
Qed.

Lemma ready_registrations_spec fuel :
  forall registrations performed_processing (s : Locked),
  (length registrations < fuel)%nat ->
  registration_locks_free s ->
  exists w',
    ready_registrations fuel registrations performed_processing s
    = Some (Returned (performed_processing ||
                      negb (bool_decide (registrations = []))),
            with_rest s
              (with_registrations_to_ready
                 (with_world (DbLock.rest s) w')
                 (if bool_decide (registrations = [])
                  then offline_registrations_to_ready (DbLock.rest s)
                  else []))) /\
    cache w' = cache (world (DbLock.rest s)) /\
    PREDICTION_MODE w' = PREDICTION_MODE (world (DbLock.rest s)) /\
    offline_reprocess_tags w' = offline_reprocess_tags (world (DbLock.rest s)) /\
    forall k, datastore w' !! k
              = make_ready registrations k
                  <$> datastore (world (DbLock.rest s)) !! k.
Proof.
  induction fuel as [|fuel IH]; intros registrations perf s Hlen Hfree;
    [lia|].
  destruct registrations as [|r registrations].
  - exists (world (DbLock.rest s)). split_and!; try done.
    + cbn. rewrite orb_false_r. do 2 f_equal.
      by destruct s as [l u [w a b c d]].
    + intros k. destruct (datastore _ !! k); [|done].
      cbn. by rewrite make_ready_nil.
  - set (all := r :: registrations) in *.
    assert (exists b bucket, take write_batch all = b :: bucket)
      as [b [bucket Hbucket]] by (by eexists _, _).
    assert (all = (b :: bucket) ++ drop write_batch all) as Hsplit
      by (by rewrite <- Hbucket, take_drop).
    assert (length (drop write_batch all) < fuel)%nat as Hlen'.
    { rewrite length_drop. unfold all, write_batch in *.
      simpl in Hlen. simpl. lia. }
    cbn [ready_registrations]. rewrite Hbucket.
    destruct fuel as [|fuel]; [lia|].
    rewrite (bool_decide_false (all = [])) by done.
    cbn [negb]. rewrite orb_true_r.
    destruct (ready_bucket_spec fuel (b :: bucket) s Hfree)
      as (w1 & Hrun1 & Hc1 & Hp1 & Ht1 & Hds1).
    unfold locked.bind at 1. rewrite Hrun1.
    unfold locked.bind at 1. unfold locked.lift at 1.
    set (s2 := with_rest _ (with_registrations_to_ready _ _)).
    destruct (IH (drop write_batch all) true s2 Hlen')
      as (w' & Hrun & Hc & Hp & Ht & Hds).
    { by eapply (registration_locks_free_make_ready s s2 (b :: bucket)). }
    exists w'. rewrite Hrun. split_and!.
    + cbn [orb]. do 2 f_equal. unfold s2.
      cbn [DbLock.rest with_rest offline_registrations_to_ready
           with_registrations_to_ready with_world].
      unfold with_rest. cbn [DbLock.locks DbLock.utcnow]. f_equal.
      unfold with_registrations_to_ready, with_world. cbn. f_equal.
      change (drop 9 registrations) with (drop write_batch all).
      by destruct (drop write_batch all).
    + by rewrite Hc.
    + by rewrite Hp.
    + by rewrite Ht.
    + intros k. rewrite Hds. unfold s2.
      cbn [DbLock.rest with_rest world with_world with_registrations_to_ready].
      rewrite Hds1.
      destruct (datastore (world (DbLock.rest s)) !! k) as [reg|]; [|done].
      cbn. f_equal.
      transitivity (make_ready ((b :: bucket) ++ drop write_batch all) k reg);
        [apply make_ready_app|by rewrite <- Hsplit].
Qed.

(** Extra X25. The waitlisted registrations to reprocess (rule_engine.py,
    [_ReadyRegistrationsInWaitingUnsafe]). The lock of every stored
    registration is free. Then there is an amount of fuel from which the
    function returns; it returns [False] exactly when no tag was saved
    and no registration was listed; the locks, the clock and the
    entities of the check point are those of before; no tag and no
    listed registration are left; the cache and the prediction flag are
    unchanged; and the registration stored under a key is made [READY]
    when it is waitlisted, processed and active and its key was listed
    or one of its affecting rule tags was saved, and is the same as
    before otherwise. *)
Theorem waiting_registrations_are_made_ready (s : Locked) :
  registration_locks_free s ->
  let o := DbLock.rest s in
  let w := world o in
  let tags := offline_reprocess_tags w in
  let ledger := offline_registrations_to_ready o in
  let reprocessed (k : nat) (reg : UserRegistration) : bool :=
    is_waiting reg &&
    (bool_decide (k ∈ ledger) ||
     existsb (fun tag => bool_decide (tag ∈ tags))
             (reg_affecting_rule_tags reg)) in
  exists enough : nat, forall fuel : nat, (enough <= fuel)%nat ->
  exists w' : World,
    _ReadyRegistrationsInWaitingUnsafe fuel s
    = Some (Returned (negb (bool_decide (tags = ∅ /\ ledger = []))),
            with_rest s
              (with_registrations_to_ready (with_world o w') [])) /\
    offline_reprocess_tags w' = ∅ /\
    cache w' = cache w /\
    PREDICTION_MODE w' = PREDICTION_MODE w /\
    forall k : nat,
      datastore w' !! k
      = (fun reg => if reprocessed k reg then set_confirmed READY reg
                    else reg) <$> datastore w !! k.
Proof.
  intros Hfree o w tags ledger reprocessed.
  set (tagl := elements tags).
  destruct (query_registrations_spec (length tagl) tagl None false s)
    as (re & L & Hrun1 & Hre & Hnil & Hset); [done|done|].
  exists (S (length tagl + length L))%nat. intros fuel Hfuel.
  fold o in Hrun1, Hnil, Hset. fold w in Hset. fold ledger in Hnil, Hset.
  set (s1 := with_rest s (after_step1 tagl L o)) in *.
  assert (datastore (world (DbLock.rest s1)) = datastore w) as Hds1.
  { unfold s1, after_step1. cbn. by case_bool_decide. }
  assert (tagl = [] <-> tags = ∅) as Htags.
  { unfold tagl. split.
    - intros H. apply leibniz_equiv. by apply elements_empty_inv.
    - intros ->. apply elements_empty. }
  destruct (ready_registrations_spec fuel L
              (false || negb (bool_decide (tagl = []))) s1)
    as (w' & Hrun2 & Hc & Hp & Ht & Hds).
  { lia. }
  { intros k reg Hk. apply (Hfree k reg). by rewrite Hds1 in Hk. }
  exists w'. split_and!.
  - unfold _ReadyRegistrationsInWaitingUnsafe, locked.bind.
    fold o w tags tagl.
    rewrite (query_registrations_mono _ _ _ _ _ _ Hrun1 fuel) by lia.
    cbn [fst snd]. fold s1.
    assert (default (offline_registrations_to_ready (DbLock.rest s1)) re = L)
      as ->.
    { destruct re as [l|]; cbn; [symmetry; by apply Hre|done]. }
    rewrite Hrun2. do 2 f_equal.
    + f_equal. cbn [orb].
      destruct (decide (tagl = [])) as [Hnone|Hsome].
      * rewrite (bool_decide_true (tagl = [])) by done. cbn [negb orb].
        rewrite (Hnil Hnone). f_equal. apply bool_decide_ext.
        apply Htags in Hnone. tauto.
      * rewrite (bool_decide_false (tagl = [])) by done. cbn [negb orb].
        rewrite bool_decide_false; [done|]. rewrite <- Htags. tauto.
    + unfold s1, with_rest. cbn [DbLock.locks DbLock.utcnow DbLock.rest].
      f_equal. unfold after_step1, with_registrations_to_ready, with_world.
      cbn [world offline_run_in_progress offline_namespace
           offline_registrations_to_ready uuid4_calls].
      assert ((if bool_decide (L = []) then L else []) = []) as ->
        by (by destruct L).
      by case_bool_decide.
  - rewrite Ht. unfold s1, after_step1. cbn [DbLock.rest with_rest].
    case_bool_decide as Hd.
    + by apply Htags.
    + done.
  - rewrite Hc. unfold s1, after_step1. cbn. by case_bool_decide.
  - rewrite Hp. unfold s1, after_step1. cbn. by case_bool_decide.
  - intros k. rewrite Hds, Hds1.
    destruct (datastore w !! k) as [reg|] eqn:Hk; [|done].
    cbn [fmap option_fmap option_map]. f_equal.
    unfold make_ready, reprocessed.
    destruct (is_waiting reg) eqn:Hw; [|done]. cbn [andb].
    assert (bool_decide (k ∈ L)
            = bool_decide (k ∈ ledger) ||
              existsb (fun tag => bool_decide (tag ∈ tags))
                      (reg_affecting_rule_tags reg)) as ->; [|done].
    apply eq_true_iff_eq.
    rewrite orb_true_iff, !bool_decide_eq_true, existsb_bool_decide.
    rewrite <- (elem_of_list_to_set (C := gset nat)), Hset, elem_of_union.
    rewrite elem_of_list_to_set, found_waiting_elem.
    setoid_rewrite waiting_for_tags_spec.
    unfold tagl. setoid_rewrite elem_of_elements.
    split.
    + intros [Hin|[reg' [Hk' [_ Htag]]]]; [by left|right].
      rewrite Hk in Hk'. by injection Hk' as <-.
    + intros [Hin|Htag]; [by left|right]. by exists reg.
Qed.

(* ------------------------------------------------------------------ *)
(* rule_engine._ProcessRuleUpdate *)

Lemma MaxNumberRegisteredByActivity_rule_tags self initial target ds
    prediction m rr m' :
  Evaluate MaxNumberRegisteredByActivity.class self initial target ds
    prediction m = (Ok rr, m') ->
  rr_rule_tags rr
  = Some [self_key self +:+ MaxNumberRegisteredBy._KEY_PREFIX].
Proof.
  cbn [Evaluate MaxNumberRegisteredByActivity.class].
  unfold MaxNumberRegisteredByActivity.with_max_people.
  destruct (get_parameter _ _) as [[max_people|]|]; try done.
  unfold MaxNumberRegisteredBy._Evaluate.
  cbn [MaxNumberRegisteredBy._NormalizeKey].
  repeat (case_match; try done); by intros [= <- _].
Qed.

Lemma SaveRuleTagsToReprocess_spec tags w :
  SaveRuleTagsToReprocess tags w
  = (Ok (), with_reprocess_tags w (offline_reprocess_tags w ∪ tags)).
Proof.
  unfold SaveRuleTagsToReprocess, with_reprocess_tags.
  case_bool_decide as Hd; [|done].
  rewrite Hd, (right_id_L ∅ (∪)). by destruct w.
Qed.

Lemma _ProcessRuleUpdate_Returned rule_configs tags s :
  reprocess_rule_tags rule_configs = Returned tags ->
  _ProcessRuleUpdate rule_configs s
  = (Returned (),
     with_world s
       (with_reprocess_tags (world s)
          (offline_reprocess_tags (world s) ∪ list_to_set tags))).
Proof.
  intros Htags. unfold _ProcessRuleUpdate, offline.bind, offline.lift.
  by rewrite Htags, SaveRuleTagsToReprocess_spec.
Qed.

Lemma reprocess_rule_tags_elem rule_configs :
  forall tags, reprocess_rule_tags rule_configs = Returned tags ->
  forall c method l,
    c ∈ rule_configs ->
    TagsToReprocessOnChange (rule_name c) = Some method ->
    method c = Returned l ->
    forall tag, tag ∈ l -> tag ∈ tags.
Proof.
  induction rule_configs as [|c0 rest IH]; intros tags Htags c method l Hc Hm Hl
    tag Htag.
  - by apply elem_of_nil in Hc.
  - cbn [reprocess_rule_tags] in Htags.
    destruct (TagsToReprocessOnChange (rule_name c0)) as [method0|] eqn:Hm0;
      [|done].
    destruct (method0 c0) as [l0|] eqn:Hl0; [|done].
    destruct (reprocess_rule_tags rest) as [tags'|] eqn:Hrest; [|done].
    injection Htags as <-. apply elem_of_app.
    apply elem_of_cons in Hc as [->|Hc].
    + left. rewrite Hm0 in Hm. injection Hm as <-.
      rewrite Hl0 in Hl. by injection Hl as <-.
    + right. by eapply IH.
Qed.

(** Extra X26. A changed rule saves the tag it stamps (rule_engine.py,
    [_ProcessRuleUpdate]; rules_impl.py, [MaxNumberRegisteredBy]). No
    [TagsToReprocessOnChange] of the given configurations raises, and
    [tags] are the tags they return. Then [_ProcessRuleUpdate] returns
    in the world where these tags are added to the tags to reprocess
    and nothing else has changed; and whenever the rule made from a
    given [MaxNumberRegisteredByActivity] configuration evaluates a
    registration, the one rule tag of its result is among the saved
    tags. *)
Theorem rule_update_saves_the_tag_that_Evaluate_stamps
    (rule_configs : list RuleConfig) (tags : list string) (s : OfflineWorld) :
  reprocess_rule_tags rule_configs = Returned tags ->
  let saved := offline_reprocess_tags (world s) ∪ list_to_set tags in
  _ProcessRuleUpdate rule_configs s
  = (Returned (), with_world s (with_reprocess_tags (world s) saved)) /\
  forall c, c ∈ rule_configs ->
    rule_name c = "MaxNumberRegisteredByActivity" ->
    forall eval_context offline namespace initial target ds prediction m rr m',
      Evaluate MaxNumberRegisteredByActivity.class
        (RuleBase__init__ (key c) eval_context offline namespace
           (parameters c))
        initial target ds prediction m = (Ok rr, m') ->
      exists tag, rr_rule_tags rr = Some [tag] /\ tag ∈ saved.
Proof.
  intros Htags saved. split; [by apply _ProcessRuleUpdate_Returned|].
  intros c Hc Hname ctx offline ns initial target ds prediction m rr m' Hrun.
  apply MaxNumberRegisteredByActivity_rule_tags in Hrun.
  eexists. split; [exact Hrun|].
  apply elem_of_union. right. apply elem_of_list_to_set.
  eapply (reprocess_rule_tags_elem rule_configs tags Htags c); [done|..].
  - unfold TagsToReprocessOnChange. by rewrite Hname.
  - reflexivity.
  - cbn [self_key RuleBase__init__]. apply list_elem_of_singleton. done.
Qed.

Lemma reprocess_rule_tags_Raised l1 c l2 tags e method :
  reprocess_rule_tags l1 = Returned tags ->
  TagsToReprocessOnChange (rule_name c) = Some method ->
  method c = Raised e ->
  reprocess_rule_tags (l1 ++ c :: l2) = Raised e.
Proof.
  revert tags. induction l1 as [|c0 l1 IH]; intros tags Htags Hm He.
  - cbn [app reprocess_rule_tags]. by rewrite Hm, He.
  - cbn [app reprocess_rule_tags] in *.
    destruct (TagsToReprocessOnChange (rule_name c0)) as [method0|]; [|done].
    destruct (method0 c0) as [l0|]; [|done].
    destruct (reprocess_rule_tags l1) as [tags'|] eqn:Hrest; [|done].
    by rewrite (IH tags').
Qed.

(** Extra X27. Changing an access point capacity rule (rule_engine.py,
    [UpdateProgramOrActivityRules], [_ProcessRuleUpdate]; rules.py,
    [RuleRegisterResource.TagsToReprocessOnChange]). The current rule is
    a [MaxNumberRegisteredBy], [MaxNumberRegisteredByAccessPoint] or
    [MaxNumberRegisteredByAccessPointTag] rule and the new configuration
    of the same name has other parameters. Then the update of this one
    rule sets the new configuration and defers [_ProcessRuleUpdate] with
    the current one; and the deferred task, whatever other rules its
    list holds after rules that return their tags, raises
    [NotImplementedError] and leaves the world, and so the tags to
    reprocess, as they were. *)
Theorem access_point_rule_change_defers_a_task_that_raises
    (current_rule_config new_rule_config : RuleConfig)
    (program_or_activity_key : string) :
  rule_name current_rule_config ∈ ["MaxNumberRegisteredBy";
                                   "MaxNumberRegisteredByAccessPoint";
                                   "MaxNumberRegisteredByAccessPointTag"] ->
  rule_name new_rule_config = rule_name current_rule_config ->
  parameters_dict current_rule_config <> parameters_dict new_rule_config ->
  UpdateProgramOrActivityRules [current_rule_config] program_or_activity_key
    [new_rule_config]
  = ([new_rule_config],
     Some (Defer_ProcessRuleUpdate [current_rule_config]
             program_or_activity_key)) /\
  forall (before after : list RuleConfig) tags (s : OfflineWorld),
    reprocess_rule_tags before = Returned tags ->
    run_deferred
      (Defer_ProcessRuleUpdate (before ++ current_rule_config :: after)
         program_or_activity_key) s
    = (Raised NotImplementedError, s).
Proof.
  intros Hname Hsame Hchanged. split.
  - unfold UpdateProgramOrActivityRules. cbn [foldl update_loop].
    rewrite Hsame, lookup_insert_eq.
    destruct (decide (parameters_dict current_rule_config <>
                      parameters_dict new_rule_config)) as [_|Hn]; [|done].
    cbn [update_loop app].
    rewrite delete_insert_eq, delete_empty, map_to_list_empty.
    cbn [fmap list_fmap app].
    rewrite (bool_decide_false ([] <> [])) by (by intros H).
    by rewrite bool_decide_true.
  - intros before after tags s Htags. cbn [run_deferred].
    unfold _ProcessRuleUpdate, offline.bind.
    erewrite reprocess_rule_tags_Raised; [done|exact Htags|..].
    + unfold TagsToReprocessOnChange.
      rewrite bool_decide_false.
      * rewrite (bool_decide_true (rule_name current_rule_config ∈ _)) by done.
        reflexivity.
      * intros Heq. rewrite Heq in Hname.
        apply (bool_decide_pack _) in Hname. by vm_compute in Hname.
    + reflexivity.
Qed.

(* ------------------------------------------------------------------ *)
(* rule_engine._FetchAndProcessOffline, rule_engine.ProcessOfflineUnsafe *)

Lemma register_order_spec a b :
  register_order a b = true <->
  reg_queue_time a < reg_queue_time b \/
  (reg_queue_time a = reg_queue_time b /\ String.le (reg_user a) (reg_user b)).
Proof.
  unfold register_order.
  rewrite orb_true_iff, andb_true_iff, !bool_decide_eq_true. tauto.
Qed.

Lemma register_order_total a b :
  register_order a b = true \/ register_order b a = true.
Proof.
  rewrite !register_order_spec.
  destruct (Z.lt_trichotomy (reg_queue_time a) (reg_queue_time b))
    as [H|[H|H]]; [by left; left| |by right; left].
  destruct (total String.le (reg_user a) (reg_user b)); [left|right]; right;
    done.
Qed.

Lemma register_order_trans a b c :
  register_order a b = true -> register_order b c = true ->
  register_order a c = true.
Proof.
  rewrite !register_order_spec.
  intros [H1|[H1 U1]] [H2|[H2 U2]]; [left; lia..|].
  right. split; [lia|]. by etrans.
Qed.

Lemma register_order_refl a : register_order a a = true.
Proof. by destruct (register_order_total a a). Qed.

Lemma first_in_order_spec (l : list (nat * UserRegistration)) :
  match first_in_order register_order l with
  | None => l = []
  | Some kr =>
      kr ∈ l /\ forall kr', kr' ∈ l -> register_order kr.2 kr'.2 = true
  end.
Proof.
  induction l as [|kr l IH]; [done|]. cbn [first_in_order].
  destruct (first_in_order register_order l) as [kr0|].
  - destruct IH as [Hin Hmin].
    destruct (register_order kr.2 kr0.2) eqn:Hle.
    + split; [by left|]. intros kr' Hin'.
      apply elem_of_cons in Hin' as [Heq|Hin'].
      * rewrite Heq. apply register_order_refl.
      * eapply register_order_trans; [exact Hle|by apply Hmin].
    + split; [by right|]. intros kr' Hin'.
      apply elem_of_cons in Hin' as [Heq|Hin'].
      * rewrite Heq.
        destruct (register_order_total kr0.2 kr.2) as [H|H]; [done|].
        by rewrite H in Hle.
      * by apply Hmin.
  - subst l. split; [by left|]. intros kr' Hin'.
    apply elem_of_cons in Hin' as [Heq|Hin'].
    + rewrite Heq. apply register_order_refl.
    + by apply elem_of_nil in Hin'.
Qed.

Lemma run_query_nil q ds :
  run_query q ds = [] <-> forall k reg, ds !! k = Some reg -> q reg = false.
Proof.
  split.
  - intros Hnil k reg Hk. destruct (q reg) eqn:Hq; [|done].
    assert ((k, reg) ∈ run_query q ds) as Hin by (by apply run_query_elem).
    rewrite Hnil in Hin. by apply elem_of_nil in Hin.
  - intros Hnone. destruct (run_query q ds) as [|[k reg] l] eqn:Hq; [done|].
    assert ((k, reg) ∈ run_query q ds) as Hin by (rewrite Hq; by left).
    apply run_query_elem in Hin as [Hk Hreg].
    by rewrite (Hnone k reg Hk) in Hreg.
Qed.

Lemma string_length_app (a b : string) :
  String.length (a +:+ b) = (String.length a + String.length b)%nat.
Proof.
  induction a as [|c a IH]; [done|].
  change (String c a +:+ b) with (String c (a +:+ b)).
  cbn [String.length]. by rewrite IH.
Qed.

Lemma registration_lock_is_not_the_activity_lock user activity :
  DbLock._lock_key (RegistrationLock user activity)
  <> DbLock._lock_key (Activity_GetLock activity).
Proof.
  cbn. intros Heq. apply (f_equal String.length) in Heq.
  rewrite !string_length_app in Heq. cbn in Heq. lia.
Qed.

Lemma delete_lock_put key lock (s : Locked) :
  DbLock.locks s !! key = None ->
  DbLock.delete_lock unit OfflineWorld key
    (DbLock.put unit OfflineWorld key lock s) = s.
Proof.
  intros Hfree. destruct s as [l u o]. unfold DbLock.delete_lock, DbLock.put.
  cbn in *. f_equal. apply map_eq. intros i.
  destruct (decide (i = key)) as [->|Hne].
  - by rewrite lookup_delete_eq.
  - by rewrite lookup_delete_ne, lookup_insert_ne.
Qed.

Lemma RunSynchronous_free_eq {A} fuel (lock : DbLock.DbLock unit)
    (run_func : ML A) (s : Locked) :
  DbLock.locks s !! DbLock._lock_key lock = None ->
  DbLock._try_count lock = 0 ->
  locked.RunSynchronous (S fuel) lock run_func s
  = match run_func
            (DbLock.put unit OfflineWorld (DbLock._lock_key lock)
               {| DbLock.expire_time :=
                    DbLock.utcnow s + DbLock._expire_timedelta lock;
                  DbLock.lock_data := () |} s) with
    | None => None
    | Some (r, s2) =>
        Some (r, DbLock.delete_lock unit OfflineWorld (DbLock._lock_key lock) s2)
    end.
Proof.
  intros Hfree Hcount.
  unfold locked.RunSynchronous, DbLock.RunSynchronous, DbLock.AcquireLock.
  erewrite acquire_loop_takes; [|by left|by apply TryLock_free].
  cbn [default]. destruct (run_func _) as [[r s2]|]; [|done].
  unfold DbLock.ReleaseLock.
  by cbn [DbLock._acquired_lock DbLock.with_acquired_lock].
Qed.

(** Extra X28. Fetching the next registration to process
    (rule_engine.py, [_FetchAndProcessOffline]). When no stored
    registration has the status and is [READY], the function returns
    [False] in the same state. Otherwise the record fetched is stored,
    has the status and is [READY], and no such registration comes
    before it in the register order; and when the lock of its activity
    and its registration lock are free, the function to run is called
    on it in the state that holds both lock entities (lease from now),
    and [_FetchAndProcessOffline] returns [True], or raises what the
    function raised, in the state the function left with both lock
    entities deleted. *)
Theorem fetch_runs_the_first_ready_registration_under_both_locks
    (fuel : nat) (run_function : nat -> UserRegistration -> ML unit)
    (status : Status) (s : Locked) :
  let ds := datastore (world (DbLock.rest s)) in
  match first_in_order register_order
          (run_query (ready_with_status status) ds) with
  | None =>
      (forall k reg, ds !! k = Some reg ->
                     ready_with_status status reg = false) /\
      _FetchAndProcessOffline fuel run_function status s
      = Some (Returned false, s)
  | Some (key, record) =>
      ds !! key = Some record /\
      ready_with_status status record = true /\
      (forall k reg, ds !! k = Some reg ->
         ready_with_status status reg = true ->
         register_order record reg = true) /\
      let activity_lock := reg_activity record in
      let registration_lock :=
        reg_user record +:+ ":" +:+ reg_activity record in
      let lease :=
        {| DbLock.expire_time :=
             DbLock.utcnow s + DbLock.__MAX_LOCK_MILLISECONDS;
           DbLock.lock_data := () |} in
      DbLock.locks s !! activity_lock = None ->
      DbLock.locks s !! registration_lock = None ->
      forall r s',
        run_function key record
          (DbLock.put unit OfflineWorld registration_lock lease
             (DbLock.put unit OfflineWorld activity_lock lease s))
        = Some (r, s') ->
        _FetchAndProcessOffline (S fuel) run_function status s
        = Some (match r with
                | Returned _ => Returned true
                | Raised e => Raised e
                end,
                DbLock.delete_lock unit OfflineWorld activity_lock
                  (DbLock.delete_lock unit OfflineWorld registration_lock s'))
  end.
Proof.
  intros ds.
  pose proof (first_in_order_spec (run_query (ready_with_status status) ds))
    as Hfirst.
  unfold _FetchAndProcessOffline. fold ds.
  destruct (first_in_order register_order
              (run_query (ready_with_status status) ds))
    as [[key record]|].
  - destruct Hfirst as [Hin Hmin].
    apply run_query_elem in Hin as [Hkey Hready].
    split_and!; [done|done|..].
    { intros k reg Hk Hreg. apply (Hmin (k, reg)). by apply run_query_elem. }
    intros Hfree_a Hfree_r r s' Hrun.
    unfold locked.bind at 1.
    rewrite RunSynchronous_free_eq; [|done|done].
    unfold locked.bind at 1.
    rewrite RunSynchronous_free_eq; [|..|done].
    2:{ cbn [DbLock.locks DbLock.put].
        rewrite lookup_insert_ne; [done|].
        intros Heq. symmetry in Heq.
        by apply registration_lock_is_not_the_activity_lock in Heq. }
    cbn [DbLock.rest DbLock.put DbLock.utcnow]. fold ds.
    rewrite Hkey, Hready.
    match goal with
    | |- context [run_function key record ?st] =>
        replace (run_function key record st) with (Some (r, s'))
          by (symmetry; exact Hrun)
    end.
    by destruct r.
  - split; [|done]. by apply run_query_nil.
Qed.

Lemma fetch_Returned_false fuel run_function status (s s' : Locked) :
  _FetchAndProcessOffline fuel run_function status s
  = Some (Returned false, s') <->
  (forall k reg, datastore (world (DbLock.rest s)) !! k = Some reg ->
                 ready_with_status status reg = false) /\
  s' = s.
Proof.
  pose proof (first_in_order_spec
                (run_query (ready_with_status status)
                   (datastore (world (DbLock.rest s))))) as Hfirst.
  unfold _FetchAndProcessOffline.
  destruct (first_in_order register_order _) as [[key record]|].
  - destruct Hfirst as [Hin _].
    apply run_query_elem in Hin as [Hkey Hready].
    split.
    + unfold locked.bind at 1.
      destruct (locked.RunSynchronous _ _ _ _) as [[[[]|e] s0]|]; done.
    + intros [Hnone _]. by rewrite (Hnone key record Hkey) in Hready.
  - pose proof (proj1 (run_query_nil _ _) Hfirst) as Hnone. split.
    + by intros [= <-].
    + by intros [_ ->].
Qed.

Lemma query_registrations_true fuel :
  forall tags registrations_entity (s : Locked) r s',
  query_registrations fuel tags registrations_entity true s
  = Some (Returned r, s') ->
  r.2 = true.
Proof.
  induction fuel as [|fuel IH]; intros tags re s r s' Hrun;
    cbn [query_registrations] in Hrun;
    destruct (take query_batch tags) as [|b bucket].
  - by injection Hrun as <- _.
  - done.
  - by injection Hrun as <- _.
  - destruct ((run_query _ _).*1); by apply IH in Hrun.
Qed.

Lemma query_registrations_false fuel tags registrations_entity (s : Locked)
    r s' :
  query_registrations fuel tags registrations_entity false s
  = Some (Returned r, s') ->
  r.2 = false ->
  tags = [] /\ r = (registrations_entity, false) /\ s' = s.
Proof.
  destruct tags as [|t tags].
  - destruct fuel; cbn; by intros [= <- <-].
  - destruct fuel as [|fuel]; [done|].
    intros Hrun Hr. exfalso.
    cbn [query_registrations] in Hrun.
    change (take query_batch (t :: tags)) with (t :: take 19 tags) in Hrun.
    cbv beta iota zeta in Hrun.
    match type of Hrun with
    | context [(run_query ?q ?d).*1] => destruct ((run_query q d).*1)
    end; apply query_registrations_true in Hrun; congruence.
Qed.

Lemma ready_registrations_true fuel :
  forall registrations (s : Locked) b s',
  ready_registrations fuel registrations true s = Some (Returned b, s') ->
  b = true.
Proof.
  induction fuel as [|fuel IH]; intros registrations s b s' Hrun;
    cbn [ready_registrations] in Hrun;
    destruct (take write_batch registrations) as [|k bucket].
  - by injection Hrun as <- _.
  - done.
  - by injection Hrun as <- _.
  - unfold locked.bind at 1 in Hrun.
    destruct (ready_bucket fuel (k :: bucket) s) as [[[[]|e] s1]|];
      [|done..].
    unfold locked.bind at 1 in Hrun. unfold locked.lift at 1 in Hrun.
    by apply IH in Hrun.
Qed.

Lemma ready_registrations_false fuel registrations (s : Locked) s' :
  ready_registrations fuel registrations false s = Some (Returned false, s') ->
  registrations = [] /\ s' = s.
Proof.
  destruct registrations as [|k registrations].
  - destruct fuel; cbn; by intros [= <-].
  - destruct fuel as [|fuel]; [done|]. cbn [ready_registrations].
    change (take write_batch (k :: registrations))
      with (k :: take 9 registrations).
    unfold locked.bind at 1.
    destruct (ready_bucket fuel _ s) as [[[[]|e] s1]|]; [|done..].
    unfold locked.bind at 1. unfold locked.lift at 1.
    intros Hrun. by apply ready_registrations_true in Hrun.
Qed.

Lemma _ReadyRegistrationsInWaitingUnsafe_false fuel (s s' : Locked) :
  _ReadyRegistrationsInWaitingUnsafe fuel s = Some (Returned false, s') <->
  offline_reprocess_tags (world (DbLock.rest s)) = ∅ /\
  offline_registrations_to_ready (DbLock.rest s) = [] /\
  s' = s.
Proof.
  unfold _ReadyRegistrationsInWaitingUnsafe, locked.bind. split.
  - destruct (query_registrations fuel _ None false s)
      as [[[[re perf]|e] s1]|] eqn:Hq; [|done..].
    cbn [fst snd]. intros Hrun.
    destruct perf.
    { by apply ready_registrations_true in Hrun. }
    apply query_registrations_false in Hq as (Htags & [= ->] & ->); [|done].
    cbn [default] in Hrun.
    apply ready_registrations_false in Hrun as [Hl ->].
    split_and!; [|done..].
    apply leibniz_equiv. by apply elements_empty_inv.
  - intros (Htags & Hl & ->). rewrite Htags, elements_empty.
    destruct fuel; cbn; by rewrite Hl.
Qed.

Lemma bind_if_Returned_false (c k : ML bool) (s s' : Locked) :
  (let^ more := c in if more : bool then locked.ret true else k) s
  = Some (Returned false, s') <->
  exists s0, c s = Some (Returned false, s0) /\
             k s0 = Some (Returned false, s').
Proof.
  unfold locked.bind. split.
  - destruct (c s) as [[[[]|e] s0]|]; try done. intros Hk. by exists s0.
  - intros (s0 & -> & Hk). done.
Qed.

Section ProcessOfflineProperties.

Variable PerformQueryWork : ML bool.
Variable _UnregisterOfflineUnsafe : nat -> UserRegistration -> ML unit.
Variable _RegisterOfflineUnsafe : nat -> UserRegistration -> ML unit.
Variable _REPROCESS_RULE_TAGS_KEY : string.

Lemma _ReadyRegistrationsInWaiting_false fuel (s s' : Locked) :
  DbLock.locks s !! _REPROCESS_RULE_TAGS_KEY = None ->
  _ReadyRegistrationsInWaiting _REPROCESS_RULE_TAGS_KEY (S fuel) s
  = Some (Returned false, s') <->
  offline_reprocess_tags (world (DbLock.rest s)) = ∅ /\
  offline_registrations_to_ready (DbLock.rest s) = [] /\
  s' = s.
Proof.
  intros Hfree. unfold _ReadyRegistrationsInWaiting.
  rewrite RunSynchronous_free_eq; [|done|done].
  cbn [DbLock._lock_key DbLock.__init__].
  set (s1 := DbLock.put _ _ _ _ s).
  split.
  - destruct (_ReadyRegistrationsInWaitingUnsafe (S fuel) s1)
      as [[r s2]|] eqn:Hrun; [|done].
    intros [= -> <-].
    apply _ReadyRegistrationsInWaitingUnsafe_false in Hrun
      as (Htags & Hl & ->).
    split_and!; [done|done|]. by apply delete_lock_put.
  - intros (Htags & Hl & ->).
    assert (_ReadyRegistrationsInWaitingUnsafe (S fuel) s1
            = Some (Returned false, s1)) as ->
      by (by apply _ReadyRegistrationsInWaitingUnsafe_false).
    unfold s1. by rewrite delete_lock_put.
Qed.

(** Extra X29. The offline process says it is done when it is
    (rule_engine.py, [ProcessOfflineUnsafe]). The query work returns
    [False] and leaves a state where the lock of the tags to reprocess
    is free. If nothing is left to process in that state,
    [ProcessOfflineUnsafe] returns [False] in that state; and if
    [ProcessOfflineUnsafe] returns [False], nothing was left to process
    and the state is that one. *)
Theorem offline_process_stops_when_nothing_is_left
    (fuel : nat) (s s1 : Locked) :
  PerformQueryWork s = Some (Returned false, s1) ->
  DbLock.locks s1 !! _REPROCESS_RULE_TAGS_KEY = None ->
  (nothing_to_process s1 ->
   ProcessOfflineUnsafe PerformQueryWork _UnregisterOfflineUnsafe
     _RegisterOfflineUnsafe _REPROCESS_RULE_TAGS_KEY (S fuel) s
   = Some (Returned false, s1)) /\
  (forall s',
     ProcessOfflineUnsafe PerformQueryWork _UnregisterOfflineUnsafe
       _RegisterOfflineUnsafe _REPROCESS_RULE_TAGS_KEY (S fuel) s
     = Some (Returned false, s') ->
     nothing_to_process s1 /\ s' = s1).
Proof.
  intros Hwork Hfree. unfold ProcessOfflineUnsafe.
  split; [|intros s']; rewrite bind_if_Returned_false; swap 1 2.
  - intros (s0 & Hs0 & Hrun). rewrite Hwork in Hs0. injection Hs0 as <-.
    apply bind_if_Returned_false in Hrun as (sa & Ha & Hrun).
    apply fetch_Returned_false in Ha as [Hun ->].
    apply bind_if_Returned_false in Hrun as (sb & Hb & Hrun).
    apply fetch_Returned_false in Hb as [Hen ->].
    apply bind_if_Returned_false in Hrun as (sc & Hc & Hrun).
    apply _ReadyRegistrationsInWaiting_false in Hc as (Htags & Hl & ->);
      [|done].
    apply fetch_Returned_false in Hrun as [Hwa ->].
    split; [|done]. split_and!; [|done..].
    intros k reg Hk Hready.
    specialize (Hun k reg Hk). specialize (Hen k reg Hk).
    specialize (Hwa k reg Hk). unfold ready_with_status in *.
    rewrite (bool_decide_true (reg_confirmed reg = READY)) in * by done.
    rewrite andb_true_r in *.
    apply bool_decide_eq_false in Hun, Hen, Hwa.
    by destruct (reg_status reg).
  - intros (Hnone & Htags & Hl).
    assert (forall status k reg,
              datastore (world (DbLock.rest s1)) !! k = Some reg ->
              ready_with_status status reg = false) as Hno.
    { intros status k reg Hk. unfold ready_with_status.
      rewrite (bool_decide_false (reg_confirmed reg = READY))
        by (by eapply Hnone).
      apply andb_false_r. }
    exists s1. split; [done|].
    apply bind_if_Returned_false. exists s1.
    split; [apply fetch_Returned_false; split; [apply Hno|done]|].
    apply bind_if_Returned_false. exists s1.
    split; [apply fetch_Returned_false; split; [apply Hno|done]|].
    apply bind_if_Returned_false. exists s1.
    split; [by apply _ReadyRegistrationsInWaiting_false|].
    apply fetch_Returned_false. split; [apply Hno|done].
Qed.

End ProcessOfflineProperties.

(* ------------------------------------------------------------------ *)
(* models.UserRegistration.isValid *)

Lemma schedule_ap_map_spec (schedules : list ActivitySchedule) :
  let m : gmap string (list string) :=
    foldl (fun m schedule =>
             <[schedule_key schedule :=
                 access_points schedule ++ access_points_secondary schedule]> m)
          ∅ schedules in
  NoDup (schedule_key <$> schedules) ->
  forall k ap_keys,
    m !! k = Some ap_keys <->
    exists schedule,
      schedule ∈ schedules /\ schedule_key schedule = k /\
      ap_keys = access_points schedule ++ access_points_secondary schedule.
Proof.
  induction schedules as [|x l IH] using rev_ind; intros m Hnodup k ap_keys.
  - subst m. cbn. rewrite lookup_empty. split; [done|].
    intros (schedule & Hin & _). by apply elem_of_nil in Hin.
  - subst m. rewrite foldl_app. cbn [foldl].
    rewrite fmap_app in Hnodup. apply NoDup_app in Hnodup as (Hl & Hx & _).
    destruct (decide (k = schedule_key x)) as [->|Hne].
    + rewrite lookup_insert_eq. split.
      * intros [= <-]. exists x. split; [|done].
        apply elem_of_app. right. by left.
      * intros (schedule & Hin & Hkey & ->).
        apply elem_of_app in Hin as [Hin|Hin%list_elem_of_singleton];
          [|by subst].
        exfalso. apply (Hx (schedule_key x)); [|by left].
        apply list_elem_of_fmap. by exists schedule.
    + rewrite lookup_insert_ne by done. rewrite (IH Hl k ap_keys). split.
      * intros (schedule & Hin & Hkey & ->). exists schedule.
        split; [|done]. apply elem_of_app. by left.
      * intros (schedule & Hin & Hkey & ->). exists schedule.
        split; [|done].
        apply elem_of_app in Hin as [Hin|Hin%list_elem_of_singleton];
          [done|]. by subst.
Qed.

Lemma isValid_loop_spec (schedules : list ActivitySchedule)
    (m : gmap string (list string)) :
  (forall k ap_keys,
     m !! k = Some ap_keys <->
     exists schedule,
       schedule ∈ schedules /\ schedule_key schedule = k /\
       ap_keys = access_points schedule ++ access_points_secondary schedule) ->
  forall pairs,
    (isValid_loop m pairs = Returned true <-> Forall (offered schedules) pairs) /\
    forall before pair after,
      pairs = before ++ pair :: after ->
      Forall (offered schedules) before ->
      ~ offered schedules pair ->
      isValid_loop m pairs
      = if decide (pair.1 ∈ schedule_key <$> schedules) then Returned false
        else Raised (Other TypeError).
Proof.
  intros Hm.
  assert (forall sk ap,
            offered schedules (sk, ap) <->
            exists ap_keys, m !! sk = Some ap_keys /\ ap ∈ ap_keys) as Hoff.
  { intros sk ap. split.
    - intros (schedule & Hin & Hkey & Hap). eexists. split.
      + apply Hm. by exists schedule.
      + by apply elem_of_app.
    - intros (ap_keys & Hk & Hap).
      apply Hm in Hk as (schedule & Hin & Hkey & ->).
      exists schedule. split_and!; [done..|]. by apply elem_of_app. }
  assert (forall sk, is_Some (m !! sk) <-> sk ∈ schedule_key <$> schedules)
    as Hknown.
  { intros sk. rewrite list_elem_of_fmap. split.
    - intros [ap_keys (schedule & Hin & Hkey & _)%Hm]. by exists schedule.
    - intros (schedule & -> & Hin). eexists. apply Hm. by exists schedule. }
  induction pairs as [|[sk ap] pairs [IH1 IH2]].
  - split; [done|]. intros before pair after Heq. by destruct before.
  - cbn [isValid_loop]. split.
    + rewrite Forall_cons, Hoff.
      destruct (m !! sk) as [ap_keys|] eqn:Hsk.
      * case_bool_decide as Hap.
        -- split; [done|]. intros [(l & [= <-] & Hin) _]. done.
        -- rewrite IH1. split; [|tauto].
           intros Hall. split; [by exists ap_keys|done].
      * split; [done|]. intros [(l & Hl & _) _]. done.
    + intros before pair after Heq Hbefore Hpair.
      destruct before as [|b before].
      * injection Heq as <- ->. cbn [fst].
        destruct (m !! sk) as [ap_keys|] eqn:Hsk.
        -- rewrite decide_True by (apply Hknown; by rewrite Hsk).
           rewrite bool_decide_true; [done|].
           intros Hap. apply Hpair, Hoff. by exists ap_keys.
        -- rewrite decide_False; [done|].
           intros Hin%Hknown. rewrite Hsk in Hin. by destruct Hin.
      * injection Heq as <- ->.
        apply Forall_cons in Hbefore as [Hb Hbefore].
        apply Hoff in Hb as (ap_keys & -> & Hap).
        rewrite bool_decide_false by (by intros H).
        by eapply IH2.
Qed.

(** Extra X30. [UserRegistration.isValid] (models.py). The given
    schedules have distinct keys. Then [isValid] returns [True] exactly
    when every pair of a schedule and an access point of the
    registration is offered by the schedules; and at the first pair
    that is not offered it returns [False] when the schedule of the
    pair is among the given ones, and raises [TypeError] when it is
    not. *)
Theorem isValid_is_decided_by_the_first_pair_not_offered
    (self : UserRegistration) (schedules : list ActivitySchedule) :
  NoDup (schedule_key <$> schedules) ->
  let pairs := zip (reg_schedule_list self) (reg_access_point_list self) in
  (isValid self schedules = Returned true <->
   Forall (offered schedules) pairs) /\
  forall before pair after,
    pairs = before ++ pair :: after ->
    Forall (offered schedules) before ->
    ~ offered schedules pair ->
    isValid self schedules
    = if decide (pair.1 ∈ schedule_key <$> schedules) then Returned false
      else Raised (Other TypeError).
Proof.
  intros Hnodup pairs. unfold isValid. fold pairs.
  apply isValid_loop_spec. by apply schedule_ap_map_spec.
Qed.

(* ------------------------------------------------------------------ *)
(* The properties above at concrete inputs *)

Lemma fst_eta {A W} (p : A * W) (a : A) : p.1 = a -> p = (a, p.2).
Proof. destruct p. by intros <-. Qed.

Lemma _Incr_new_key_witness :
  RuleRegisterResource._Incr "online_r1" true false [] "s1" 1
    {| memcache.cells := ∅;
       memcache.inits := {[ "online_r1" := ["_"] ]};
       memcache.available := true |}
  = (Ok (Some 1),
     {| memcache.cells := <[("online_r1", "s1") := 1]> ∅;
        memcache.inits := <["online_r1" := ["_"; "s1"]]> {[ "online_r1" := ["_"] ]};
        memcache.available := true |}).
Proof.
  refine (_Incr_new_key "online_r1" true false [] "s1" 1%nat
            {| memcache.cells := ∅;
               memcache.inits := {[ "online_r1" := ["_"] ]};
               memcache.available := true |} ["_"] _ _ _ _ _).
  - reflexivity.
  - reflexivity.
  - vm_compute; reflexivity.
  - vm_compute; reflexivity.
  - apply (bool_decide_unpack _). vm_compute. exact I.
Defined.

Lemma _Incr_listed_key_not_rebuilt_witness :
  exists m',
    RuleRegisterResource._Incr "offline_r9" false false [] "s1" 1
      {| memcache.cells := ∅;
         memcache.inits := {[ "offline_r9" := ["s1"] ]};
         memcache.available := true |}
    = (Raise AppengineError, m') /\
    memcache.available m' = true /\
    memcache.cells m' !! ("offline_r9", "s1") = None /\
    memcache.inits m' !! "offline_r9" = Some ["s1"].
Proof.
  apply (_Incr_listed_key_not_rebuilt "offline_r9" false false [] "s1" 1%nat).
  - reflexivity.
  - intros H. discriminate H.
  - apply not_elem_of_nil.
  - reflexivity.
  - vm_compute; reflexivity.
  - vm_compute; reflexivity.
  - apply list_elem_of_here.
Defined.

Lemma _Incr_rebuilds_witness :
  exists m',
    RuleRegisterResource._Incr "online_r1" true false [("_", 3)] "_"
      _NUM_RETRIES empty_cache = (Ok (Some 3), m') /\
    memcache.get "_" "online_r1" m' = Some 3 /\
    memcache.get_init "online_r1" m' = Some ["_"].
Proof.
  apply (_Incr_rebuilds "online_r1" true false [("_", 3)] "_" 3 empty_cache).
  - reflexivity.
  - intros _. repeat constructor.
  - apply (bool_decide_unpack _). vm_compute. exact I.
  - apply list_elem_of_here.
  - reflexivity.
  - vm_compute; reflexivity.
  - vm_compute; reflexivity.
Defined.


Lemma prediction_reads_the_counter_witness :
  let self := RuleBase__init__ "r1" (request "b" 6 [one_slot] false) false ""
                [("max_people", PInt 1)] in
  let m := {| memcache.cells := {[ ("online_r1", "_") := 1 ]};
              memcache.inits := {[ "online_r1" := ["_"] ]};
              memcache.available := true |} in
  MaxNumberRegisteredBy._Evaluate 1 self true [] None (Some ENROLLED) None m
  = (Ok {| rr_status := Some WAITLISTED;
           rr_rule_tags := Some ["r1_"];
           rr_resource_remaining := Some (Some (-1)) |}, m) /\
  forall eval_state final_state,
    snd (MaxNumberRegisteredBy._ProcessOutcome self true [] eval_state
           final_state None m) = m.
Proof.
  intros self m.
  refine (prediction_reads_the_counter 1 self [] None None m 1 _).
  vm_compute; reflexivity.
Defined.

Lemma online_reservation_is_released_witness :
  let self := RuleBase__init__ "r1" (request "b" 6 [one_slot] false) false ""
                [("max_people", PInt 1)] in
  let m := {| memcache.cells := {[ ("online_r1", "_") := 1 ]};
              memcache.inits := {[ "online_r1" := ["_"] ]};
              memcache.available := true |} in
  exists rr m1,
    MaxNumberRegisteredBy._Evaluate 1 self false [] None (Some ENROLLED) None m
      = (Ok rr, m1) /\
    memcache.get "_" "online_r1" m1 = Some 2 /\
    MaxNumberRegisteredBy._ProcessOutcome self false [] (rr_status rr) None
      None m1 = (Ok (), m) /\
    forall final_state, final_state <> None ->
      MaxNumberRegisteredBy._ProcessOutcome self false [] (rr_status rr)
        final_state None m1 = (Ok (), m1).
Proof.
  intros self m.
  refine (online_reservation_is_released 1 self [] None None m 1 _ _ _ _).
  - reflexivity.
  - reflexivity.
  - vm_compute; reflexivity.
  - lia.
Defined.

Lemma offline_counter_counts_the_enrolled_witness :
  let self := RuleBase__init__ "r1" (request "b" 6 [one_slot] false) true "n"
                [("max_people", PInt 1)] in
  let m := {| memcache.cells := {[ ("offline_nr1", "_") := 1 ]};
              memcache.inits := {[ "offline_nr1" := ["_"] ]};
              memcache.available := true |} in
  exists rr m1,
    MaxNumberRegisteredBy._Evaluate 1 self false [] None (Some ENROLLED) None m
      = (Ok rr, m1) /\
    MaxNumberRegisteredBy._ProcessOutcome self false [] (rr_status rr)
      (Some WAITLISTED) None m1 = (Ok (), m).
Proof.
  intros self m.
  refine (offline_counter_counts_the_enrolled 1 self [] None (Some WAITLISTED)
            None m 1 _ _ _ _).
  - reflexivity.
  - reflexivity.
  - vm_compute; reflexivity.
  - lia.
Defined.

Lemma initial_state_verdict_is_a_veto_witness :
  let ctx := request "a" 1001 [lock_past; one_slot] false in
  let res := value_or no_result
               (_RulesEvaluate GetRule ctx None (Some ENROLLED) true "" ∅ false
                  empty_cache).1 in
  @nil (option Status) = [] /\ final_status res = None.
Proof.
  intros ctx res.
  refine (initial_state_verdict_is_a_veto GetRule ctx None (Some ENROLLED)
            true "" ∅ false empty_cache res [] [] _ _ _).
  - reflexivity.
  - apply (ok_eta no_result). vm_compute; reflexivity.
  - vm_compute; reflexivity.
Defined.

Lemma past_activity_is_locked_online_witness :
  let ctx := request "a" 1001 [one_slot; lock_past] false in
  let m := {| memcache.cells := {[ ("online_r1", "_") := 0 ]};
              memcache.inits := {[ "online_r1" := ["_"] ]};
              memcache.available := true |} in
  let res := value_or no_result
               (_RulesEvaluate GetRule ctx None (Some ENROLLED) true "" ∅ false
                  m).1 in
  final_status res = None /\ last (verdicts res) = Some None.
Proof.
  intros ctx m res.
  refine (past_activity_is_locked_online GetRule ctx None (Some ENROLLED)
            true "" ∅ false lock_past 1000 m res _ _ _ _ _ _ _).
  - reflexivity.
  - reflexivity.
  - apply (bool_decide_unpack _). vm_compute. exact I.
  - reflexivity.
  - reflexivity.
  - reflexivity.
  - apply (ok_eta no_result). vm_compute; reflexivity.
Defined.

Lemma evaluation_returns_when_rules_answer_legally_witness :
  let ctx := request "a" 5 [lock_past] false in
  exists res m',
    _RulesEvaluate GetRule ctx None (Some ENROLLED) true "" ∅ false empty_cache
    = (Ok res, m') /\
    final_status res ∈ VALID_TRANSITIONS None.
Proof.
  intros ctx.
  refine (evaluation_returns_when_rules_answer_legally GetRule ctx None
            (Some ENROLLED) true "" ∅ false empty_cache _ _).
  - reflexivity.
  - change (_RuleGenerator ctx) with [lock_past].
    constructor; [|constructor].
    eexists. split; [reflexivity|].
    constructor; [|constructor].
    apply LockPastActivity_answers_legally; [reflexivity|].
    intros _. by eexists.
Defined.

Lemma prediction_keeps_the_cache_witness :
  cache_extends (cache empty_world)
    (cache (PredictRegistrationOutcome GetRule
              (request "a" 5 [one_slot] false) empty_world).2).
Proof.
  exact (prediction_keeps_the_cache GetRule (request "a" 5 [one_slot] false)
           installation_predicts_safely empty_world).
Defined.

Lemma registering_again_changes_nothing_witness :
  let ctx := request "a" 5 [one_slot] false in
  let w1 := (_RegisterOnlineUnsafe GetRule ctx true empty_world).2 in
  _RegisterOnlineUnsafe GetRule (request "a" 9 [one_slot] false) false w1
  = (Ok (Some ENROLLED, ["registered user re-register attempt"]), w1).
Proof.
  intros ctx w1.
  refine (registering_again_changes_nothing GetRule ctx
            (request "a" 9 [one_slot] false) true false empty_world w1
            ENROLLED [] AlwaysAtMostOneActive_empty_world _ _ _ _).
  - apply fst_eta. vm_compute; reflexivity.
  - reflexivity.
  - reflexivity.
  - reflexivity.
Defined.

Lemma refused_unregistration_writes_nothing_witness :
  let ctx := request "a" 2000 [lock_past] false in
  let run := _UnregisterOnlineUnsafe GetRule ctx [] enrolled_world in
  run.1 = Ok (Some ENROLLED, ["Registrations locked for past activities."]) /\
  datastore run.2 = datastore enrolled_world /\
  effects run.2 = effects enrolled_world.
Proof.
  intros ctx run.
  assert (run.1
          = Ok (Some ENROLLED, ["Registrations locked for past activities."]))
    as Hrun by (vm_compute; reflexivity).
  split; [exact Hrun|].
  pose proof (refused_unregistration_writes_nothing GetRule ctx []
                enrolled_world run.2 (Some ENROLLED)
                ["Registrations locked for past activities."]
                (proj1 AlwaysAtMostOneActive_enrolled_world)
                (fst_eta run _ Hrun)) as H.
  change (datastore enrolled_world) with
    ({[ 0%nat := active_enrolled "a" ]} : Datastore) in H at 1.
  rewrite run_query_singleton in H by reflexivity.
  rewrite decide_False in H by discriminate.
  exact H.
Defined.

Lemma ArraySplit_partitions_witness :
  exists buckets,
    ArraySplit ["a"; "b"; "c"; "d"; "e"] 2 = Returned buckets /\
    concat buckets = ["a"; "b"; "c"; "d"; "e"] /\
    Forall (fun b => 0 < Z.of_nat (length b) <= 2) buckets /\
    (forall i b, buckets !! i = Some b -> (i + 1 < length buckets)%nat ->
       Z.of_nat (length b) = 2) /\
    Z.of_nat (length buckets) = (5 + 2 - 1) `div` 2.
Proof.
  refine (ArraySplit_partitions ["a"; "b"; "c"; "d"; "e"] 2 _).
  reflexivity.
Defined.

Lemma lock_excludes_within_the_lease_witness :
  let self := DbLock.__init__ string "a:activity" 3 100 None in
  let held := {| DbLock.expire_time := 31000; DbLock.lock_data := "" |} in
  let s := {| DbLock.locks := {[ "a:activity" := held ]};
              DbLock.utcnow := 10; DbLock.rest := () |} in
  let waited := DbLock.sleep string unit (3 * 100) s in
  DbLock.AcquireLock string "" unit 3 self None s
  = Some (Raised LockAcquireFailure,
          DbLock.with_acquired_lock string self None, waited) /\
  DbLock.RunSynchronous string "" unit 3 self
    (fun s => Some (Returned (), s)) s
  = Some (Raised LockAcquireFailure,
          DbLock.with_acquired_lock string self None, waited) /\
  DbLock.locks waited !! "a:activity" = Some held.
Proof.
  intros self held s waited.
  refine (lock_excludes_within_the_lease string "" unit self held s 3 None
            unit (fun s => Some (Returned (), s)) _ _ _ _ _).
  - vm_compute; reflexivity.
  - reflexivity.
  - discriminate.
  - discriminate.
  - vm_compute. lia.
Defined.

Lemma waiting_lock_takes_over_after_the_lease_witness :
  let self := DbLock.__init__ string "a:activity" 0 100 None in
  let held := {| DbLock.expire_time := 250; DbLock.lock_data := "left" |} in
  let s := {| DbLock.locks := {[ "a:activity" := held ]};
              DbLock.utcnow := 10; DbLock.rest := () |} in
  exists j : nat,
    let woke := DbLock.sleep string unit (Z.of_nat j * 100) s in
    let lock := {| DbLock.expire_time := DbLock.utcnow woke + 31000;
                   DbLock.lock_data := "left" |} in
    250 < DbLock.utcnow woke /\
    (forall i : nat, (i < j)%nat -> 10 + Z.of_nat i * 100 <= 250) /\
    forall fuel, (j < fuel)%nat ->
      DbLock.AcquireLock string "" unit fuel self None s
      = Some (Returned "left",
              DbLock.with_acquired_lock string self (Some lock),
              DbLock.put string unit "a:activity" lock woke).
Proof.
  intros self held s.
  refine (waiting_lock_takes_over_after_the_lease string "" unit self held s
            None _ _ _).
  - reflexivity.
  - reflexivity.
  - vm_compute; reflexivity.
Defined.

Lemma release_hands_over_the_data_witness :
  let held := {| DbLock.expire_time := 31010; DbLock.lock_data := "" |} in
  let self := DbLock.with_acquired_lock string
                (DbLock.__init__ string "a:activity" 0 100 None) (Some held) in
  let other := DbLock.__init__ string "a:activity" 1 100 None in
  let s := {| DbLock.locks := {[ "a:activity" := held ]};
              DbLock.utcnow := 20; DbLock.rest := () |} in
  let s1 := (DbLock.ReleaseLock string unit self (Some "namespace") s).2 in
  exists other' s2,
    DbLock.AcquireLock string "" unit 1 other None s1
    = Some (Returned "namespace", other', s2) /\
    DbLock._acquired_lock other' = DbLock.locks s2 !! "a:activity" /\
    is_Some (DbLock._acquired_lock other').
Proof.
  intros held self other s.
  refine (release_hands_over_the_data string "" unit self other held s
            (Some "namespace") None 0 _ _ _ _).
  - reflexivity.
  - reflexivity.
  - discriminate.
  - reflexivity.
Defined.

Lemma RunSynchronous_runs_and_releases_witness :
  let self := DbLock.__init__ string "a:activity" 0 100 None in
  let s := {| DbLock.locks := ∅; DbLock.utcnow := 20; DbLock.rest := 7 |} in
  let lock := {| DbLock.expire_time := 20 + 31000; DbLock.lock_data := "" |} in
  let run_func (s : DbLock.State string Z)
    : option (outcome Z * DbLock.State string Z) :=
    Some (Raised (Other KeyError), s) in
  let s' := DbLock.delete_lock string Z "a:activity"
              (DbLock.put string Z "a:activity" lock s) in
  DbLock.RunSynchronous string "" Z 1 self run_func s
  = Some (Raised (Other KeyError),
          DbLock.with_acquired_lock string self (Some lock), s') /\
  DbLock.locks s' !! "a:activity" = None.
Proof.
  intros self s lock run_func s'.
  refine (RunSynchronous_runs_and_releases string "" Z Z self run_func s 0
            (Raised (Other KeyError))
            (DbLock.put string Z "a:activity" lock s) _ _ _).
  - vm_compute; reflexivity.
  - discriminate.
  - reflexivity.
Defined.

Lemma overrun_holder_releases_the_lock_of_another_witness :
  let lock := DbLock.__init__ string "a:activity" 0 100 None in
  let s := {| DbLock.locks := ∅; DbLock.utcnow := 20; DbLock.rest := () |} in
  exists first' s1 second' s2 lease third' s3,
    DbLock.AcquireLock string "" unit 1 lock None s
      = Some (Returned "", first', s1) /\
    DbLock.AcquireLock string "" unit 1 lock None
      (DbLock.sleep string unit 31001 s1)
      = Some (Returned "", second', s2) /\
    DbLock._acquired_lock second' = Some lease /\
    DbLock.AcquireLock string "" unit 1 lock None
      (DbLock.ReleaseLock string unit first' None s2).2
      = Some (Returned "", third', s3) /\
    DbLock.utcnow s3 <= DbLock.expire_time lease.
Proof.
  intros lock s.
  refine (overrun_holder_releases_the_lock_of_another string "" unit
            lock lock lock s 31001 None 0 _ _ _ _ _ _ _ _).
  - vm_compute; reflexivity.
  - reflexivity.
  - reflexivity.
  - discriminate.
  - discriminate.
  - discriminate.
  - reflexivity.
  - discriminate.
Defined.

Lemma uuid4_example_inj i : forall j, uuid4_example i = uuid4_example j -> i = j.
Proof.
  induction i as [|i IH]; intros [|j] H; try done.
  injection H as H. f_equal. by apply IH.
Qed.

Lemma check_point_keeps_or_renews_the_namespace_witness :
  let s := {| world := empty_world;
              offline_run_in_progress := false;
              offline_namespace := None;
              offline_registrations_to_ready := [];
              uuid4_calls := 0 |} in
  let run_function (namespace : string) : MO unit :=
    fun s => (Raised IndexError, s) in
  exists namespace s0,
    _CheckPointed.namespace_of_the_run uuid4_example s
    = (Returned namespace, s0) /\
    let (r, s1) := _CheckPointed.__call__ uuid4_example run_function s in
    (r, s1).1 = (run_function namespace s0).1 /\
    namespace_was_drawn uuid4_example s1 /\
    match r with
    | Returned _ =>
        offline_run_in_progress s1 = false /\
        (_CheckPointed.namespace_of_the_run uuid4_example s1).1
        = Returned namespace
    | Raised _ =>
        offline_run_in_progress s1 = true /\
        exists renewed,
          (_CheckPointed.namespace_of_the_run uuid4_example s1).1
          = Returned renewed /\
          renewed <> namespace
    end.
Proof.
  intros s run_function.
  refine (check_point_keeps_or_renews_the_namespace uuid4_example
            uuid4_example_inj run_function s _ _).
  - intros namespace s'. repeat split.
  - intros namespace H. discriminate H.
Defined.

Lemma UpdateProgramOrActivityRules_spec_witness :
  let two_slots :=
    {| rule_name := "MaxNumberRegisteredByActivity";
       parameters := [("max_people", PInt 2)];
       description := None;
       key := "r4" |} in
  UpdateProgramOrActivityRules [one_slot; lock_past] "activity" [two_slots]
  = ([two_slots],
     Some (Defer_ProcessRuleUpdate [one_slot; lock_past] "activity")).
Proof.
  intros two_slots.
  assert (NoDup (rule_name <$> [one_slot; lock_past])) as Hnd
    by (apply (bool_decide_unpack _); vm_compute; exact I).
  pose proof (UpdateProgramOrActivityRules_spec [one_slot; lock_past]
                "activity" [two_slots] Hnd) as H.
  revert H. cbv zeta.
  destruct (UpdateProgramOrActivityRules [one_slot; lock_past] "activity"
              [two_slots]) as [new_rule_configs deferred].
  intros [(added & Hnew & _ & Hadded & Hdeferred) _].
  assert (added = []) as ->.
  { destruct added as [|c rest]; [done|]. exfalso.
    destruct (proj1 (Hadded c) ltac:(constructor)) as [Hgiven Hnot].
    unfold given_config in Hgiven. simpl in Hgiven.
    apply lookup_insert_Some in Hgiven as [[Hname _]|[_ Hgiven]];
      [|by rewrite lookup_empty in Hgiven].
    apply Hnot. rewrite <- Hname. constructor. }
  rewrite Hnew, Hdeferred. vm_compute. reflexivity.
Defined.

Lemma waiting_registrations_are_made_ready_witness :
  let s : Locked :=
    {| DbLock.locks := ∅;
       DbLock.utcnow := 20;
       DbLock.rest :=
         {| world :=
              {| datastore := {[ 1%nat := waiting_registration "a" "t";
                                 2%nat := waiting_registration "b" "u" ]};
                 cache := empty_cache;
                 PREDICTION_MODE := false;
                 offline_reprocess_tags := {[ "t" ]};
                 effects := [] |};
            offline_run_in_progress := true;
            offline_namespace := None;
            offline_registrations_to_ready := [];
            uuid4_calls := 0 |} |} in
  let o := DbLock.rest s in
  let w := world o in
  let tags := offline_reprocess_tags w in
  let ledger := offline_registrations_to_ready o in
  let reprocessed (k : nat) (reg : UserRegistration) : bool :=
    is_waiting reg &&
    (bool_decide (k ∈ ledger) ||
     existsb (fun tag => bool_decide (tag ∈ tags))
             (reg_affecting_rule_tags reg)) in
  exists enough : nat, forall fuel : nat, (enough <= fuel)%nat ->
  exists w' : World,
    _ReadyRegistrationsInWaitingUnsafe fuel s
    = Some (Returned (negb (bool_decide (tags = ∅ /\ ledger = []))),
            with_rest s
              (with_registrations_to_ready (with_world o w') [])) /\
    offline_reprocess_tags w' = ∅ /\
    cache w' = cache w /\
    PREDICTION_MODE w' = PREDICTION_MODE w /\
    forall k : nat,
      datastore w' !! k
      = (fun reg => if reprocessed k reg then set_confirmed READY reg
                    else reg) <$> datastore w !! k.
Proof.
  intros s.
  refine (waiting_registrations_are_made_ready s _).
  intros k reg _. apply lookup_empty.
Defined.

Lemma rule_update_saves_the_tag_that_Evaluate_stamps_witness :
  let s := {| world := empty_world;
              offline_run_in_progress := false;
              offline_namespace := None;
              offline_registrations_to_ready := [];
              uuid4_calls := 0 |} in
  let saved := offline_reprocess_tags (world s) ∪ list_to_set ["r1_"] in
  _ProcessRuleUpdate [one_slot] s
  = (Returned (), with_world s (with_reprocess_tags (world s) saved)) /\
  forall c, c ∈ [one_slot] ->
    rule_name c = "MaxNumberRegisteredByActivity" ->
    forall eval_context offline namespace initial target ds prediction m rr m',
      Evaluate MaxNumberRegisteredByActivity.class
        (RuleBase__init__ (key c) eval_context offline namespace
           (parameters c))
        initial target ds prediction m = (Ok rr, m') ->
      exists tag, rr_rule_tags rr = Some [tag] /\ tag ∈ saved.
Proof.
  intros s.
  refine (rule_update_saves_the_tag_that_Evaluate_stamps [one_slot] ["r1_"]
            s _).
  reflexivity.
Defined.

Lemma access_point_rule_change_defers_a_task_that_raises_witness :
  let current_rule_config :=
    {| rule_name := "MaxNumberRegisteredByAccessPoint";
       parameters := [("max_people", PInt 1)];
       description := None;
       key := "r5" |} in
  let new_rule_config :=
    {| rule_name := "MaxNumberRegisteredByAccessPoint";
       parameters := [("max_people", PInt 2)];
       description := None;
       key := "r6" |} in
  UpdateProgramOrActivityRules [current_rule_config] "activity"
    [new_rule_config]
  = ([new_rule_config],
     Some (Defer_ProcessRuleUpdate [current_rule_config] "activity")) /\
  forall (before after : list RuleConfig) tags (s : OfflineWorld),
    reprocess_rule_tags before = Returned tags ->
    run_deferred
      (Defer_ProcessRuleUpdate (before ++ current_rule_config :: after)
         "activity") s
    = (Raised NotImplementedError, s).
Proof.
  intros current_rule_config new_rule_config.
  refine (access_point_rule_change_defers_a_task_that_raises
            current_rule_config new_rule_config "activity" _ _ _).
  - apply (bool_decide_unpack _). vm_compute. exact I.
  - reflexivity.
  - intros H. apply (f_equal (fun m => m !! "max_people")) in H.
    vm_compute in H. discriminate H.
Defined.

Lemma offline_process_stops_when_nothing_is_left_witness :
  let s : Locked :=
    {| DbLock.locks := ∅;
       DbLock.utcnow := 20;
       DbLock.rest :=
         {| world := empty_world;
            offline_run_in_progress := false;
            offline_namespace := None;
            offline_registrations_to_ready := [];
            uuid4_calls := 0 |} |} in
  let idle : nat -> UserRegistration -> ML unit :=
    fun _ _ => locked.ret () in
  (nothing_to_process s ->
   ProcessOfflineUnsafe (locked.ret false) idle idle "offline_reprocess_tags"
     1 s
   = Some (Returned false, s)) /\
  (forall s',
     ProcessOfflineUnsafe (locked.ret false) idle idle
       "offline_reprocess_tags" 1 s
     = Some (Returned false, s') ->
     nothing_to_process s /\ s' = s).
Proof.
  intros s idle.
  refine (offline_process_stops_when_nothing_is_left (locked.ret false) idle
            idle "offline_reprocess_tags" 0 s s _ _).
  - reflexivity.
  - apply lookup_empty.
Defined.

Lemma isValid_is_decided_by_the_first_pair_not_offered_witness :
  let self :=
    {| reg_user := "a";
       reg_activity := "activity";
       reg_program := "program";
       reg_queue_time := 5;
       reg_creator := "a";
       reg_schedule_list := ["s1"; "s2"];
       reg_access_point_list := ["room"; "vc"];
       reg_status := ENROLLED;
       reg_confirmed := READY;
       reg_active := ACTIVE;
       reg_online_unregistered := false;
       reg_affecting_rule_tags := [];
       reg_rule_tags := [];
       reg_affecting_rule_configs := [];
       reg_last_notified := None;
       reg_notify_email := true;
       reg_post_process_tasks := [];
       reg_force_status := false;
       reg_parent := None |} in
  let schedules :=
    [ {| schedule_key := "s1";
         access_points := ["room"];
         access_points_secondary := ["vc"] |} ] in
  let pairs := zip (reg_schedule_list self) (reg_access_point_list self) in
  (isValid self schedules = Returned true <->
   Forall (offered schedules) pairs) /\
  forall before pair after,
    pairs = before ++ pair :: after ->
    Forall (offered schedules) before ->
    ~ offered schedules pair ->
    isValid self schedules
    = if decide (pair.1 ∈ schedule_key <$> schedules) then Returned false
      else Raised (Other TypeError).
Proof.
  intros self schedules.
  refine (isValid_is_decided_by_the_first_pair_not_offered self schedules _).
  apply NoDup_singleton.
Defined.
